(* ===== verification/_CoqProject ===== *)
-Q . S2P
Prelude.v
PyFloat.v
Text.v
Levenshtein.v
Scoring.v
DateTime.v
Calendar.v
IsoTime.v
Leitner.v
TutorState.v
Quiz.v
Tutor.v
Json.v
Persistence.v
Memory.v
Converter.v
Booking.v
BasicTutor.v
SrsDaily.v
Config.v
Diagnostic.v
QuizProgress.v
HttpTools.v
ConsoleSink.v
LlmCheck.v
