(* ===== verification/Prelude.v ===== *)
(** * A verification library for voice_livekit_agent

    ** The program

    The repository holds six voice agents built on the LiveKit agent
    framework and three scripts.  An agent is an instruction string plus
    "tools" (methods decorated with [@function_tool]) that the language
    model calls during a voice session; an [entrypoint] reads the
    environment and either runs an LLM smoke test or starts the session.
    - [french_voice_tutor_plus.py], the algorithmic core: text utilities
      ([_strip_accents], [_tokenize], [_levenshtein], [_wer],
      [_accent_mismatches]), the Leitner scheduler ([BOX_DELAYS_DAYS],
      [_next_due]) and the tutor [FrenchTutorPlus], whose tools share one
      state (level, mode, topic, vocabulary, quiz queue and current
      question, pronunciation target) and save it with [_save_progress];
    - [french_voice_tutor.py]: the basic tutor the extended one grew from;
    - [universal_agent.py]: a conversation memory persisted as JSON, pure
      tools (calculator, unit converter, explanations), web tools
      (weather, news, web search, dictionary) and code execution;
    - [simple_universal_agent.py]: a smaller calculator and converter;
    - [livekit_basic_agent.py]: an Airbnb search and booking assistant;
    - [livekit_mcp_agent.py]: an agent wired to an external MCP server;
    - [scripts/srs_daily.py]: lists the tutor's due words, writes a CSV
      and posts a notification; [scripts/diagnostic.py]: checks the setup;
    - [scripts/smoke_test.py]: sends one chat request to the LLM server.
    The parts interact through the tutor's shared state (the quiz tools
    chain one another; [answer_quiz] grades with the text utilities and
    reschedules with [_next_due]), through files (the progress file the
    tutor writes and [srs_daily.py] reads; the memory file), through
    the environment every entrypoint and the diagnostic read, and
    through the LLM server (smoke tests and warm-ups) and the transcript
    chain ([ConsoleTextSink] in front of the session's output).

    ** The development, file by file (dependency order)
    - [Prelude] (this file): Python strings as lists of code points
      ([pystr]), slices [l .[: k]] and [l .[ k :]], [str.join],
      [startswith] and [in], [str(int)], dicts as insertion-ordered
      association lists ([pydict_get], [pydict_set]), UTF-8 literals
      ([u8]), shared tactics.
    - [PyFloat]: binary64 floats through the Standard Library's
      [SpecFloat]: int division, [+ - * /], comparisons, [int()].
    - [Text]: [_WORD_RE] and [re.finditer], [_tokenize], [str.strip],
      [_strip_accents] over the class [UnicodeData] (NFD, category Mn,
      [lower], [upper]) with the instance [latin1_ucd].
    - [Levenshtein]: [_levenshtein] as written, one row updated in place,
      and the textbook recursion it computes.
    - [Scoring]: [_wer], [_accent_mismatches] and [check_pronunciation]'s
      tier, score and tips.
    - [DateTime], [Calendar], [IsoTime]: naive [datetime] in
      microseconds with [timedelta] overflow, CPython's [_ymd2ord] and
      [_ord2ymd], [isoformat]/[fromisoformat] as the class [PyDateTime]
      and its instance [cpython_datetime].
    - [Leitner]: [_next_due] and the box moves.
    - [TutorState]: the tutor's state record, the monad [M] of a tool
      (state, exceptions, and the writes of [_save_progress] and
      [_export_snapshot] as effects), [_due_indices], the export rows.
    - [Quiz]: [start_quiz], [next_question], [answer_quiz], [grade].
    - [Tutor]: the other tools, [run_tool], the step relation [step]
      (one call in an environment giving the clock, [random.shuffle] and
      [random.choice]) and the invariant of reachable states.
    - [Json]: JSON values and the Python operations the tools apply to
      them, each with the exception it raises.
    - [Persistence]: the document [_save_progress] writes,
      [_load_progress] and [FrenchTutorPlus()] on the file's content, a
      failing write (file kept or cut short), and the agent's life as a
      step relation [sys_step] of tool calls and restarts.
    - [Memory]: [ConversationMemory] and the memory tools; the JSON
      document [_save] dumps ([saved_json], a [Json] value with the keys
      conversations, user_preferences, facts_learned, last_updated) and
      what [_load] reads back from a document ([read_document]).
    - [Converter]: [unit_converter], [calculate], [explain_concept] of the
      universal agent, [convert_units] and [calculate] of the simple one,
      [calculate] of the MCP agent; [unit_category] is the grouping of
      units the docstrings and the table's comments give.
    - [Booking]: the Airbnb catalogue, [search_airbnbs], [book_airbnb] and
      their step relation.
    - [BasicTutor]: [FrenchTutor] and its refinement by [FrenchTutorPlus].
    - [SrsDaily]: [compute_due], the CSV rows, the report and [notify].
    - [Config]: [_flag], [_env], [_require_env] and every agent's
      [entrypoint] as the outcome it reaches from the environment.
    - [Diagnostic]: [check_env_file], [check_api_keys] and [main] of the
      diagnostic script.
    - [QuizProgress]: a session of tool calls ([run_calls]) and the
      progress of a quiz.
    - [HttpTools]: the universal agent's flags, [get_weather],
      [search_news], [web_search], [get_definition],
      [execute_python_code], and the MCP agent's [get_definition].
    - [ConsoleSink]: [ConsoleTextSink] as an instance of the class
      [TextOutput] (the framework's [io.TextOutput]) over the output it
      passes calls on to, and the framework's calls as a list of events.
    - [LlmCheck]: [_basic_llm_check] and [_warmup_ollama] of every agent
      and [scripts/smoke_test.py], from the request they send to what
      they print or raise; [body_form] records whether the payload is
      sent as [json=payload] (extended tutor, universal and simple
      agents) or as [data=json.dumps(payload)] (basic tutor, Airbnb
      agent, smoke test script).

    ** What the theorems show
    - Algorithms: the in-place edit distance equals the textbook one and
      is bounded by the lengths; the binary64 tests of [answer_quiz] and
      [check_pronunciation] agree with exact rationals; the score is the
      exact floor or one less; the tokenizer drops the right quotation
      mark (so a tip can never fire).
    - Scheduling: [_next_due] reads back, through CPython's codec, as now
      plus the delay of the clamped box; what [answer_quiz] writes; the
      queue [start_quiz] builds; the error paths (no question, overflow
      after a partial write, [TypeError] on an aware date).
    - State machines: every state reachable by any sequence of tool
      calls keeps valid distinct quiz indices, boxes in [1,5] and valid
      settings; histories only grow; bookings stay consistent; the
      memory's saved documents stay bounded.
    - Persistence: every save of every tool writes the state the call
      ends in; a restart after a save restores level, mode, topic and
      vocabulary; along any run of calls, failing or truncated writes and
      restarts, the invariant holds and a restart always loads a valid
      state (a hand-edited file is not checked by the code).
    - Progress: the pending questions are a variant of every call but
      [start_quiz], and answering them all always ends the quiz.
    - Refinement and equivalence: the extended tutor refines the basic
      one on their common tools; on two units of the same category the
      simple converter is refined by the universal one; [srs_daily.compute_due] agrees with the tutor's
      [_due_indices] on readable dates.
    - Round trips: tutor save/load, memory save/load through the JSON
      document (a loader with a larger [max_turns] included), [notify]'s AppleScript literal,
      [_next_due]'s timestamp.
    - Configuration and tools: which entrypoints raise on a missing key,
      that the environment check and the key report behave as stated,
      the JSON shape [get_weather] accepts and the answers the LLM checks
      accept, the size of a dictionary reply.

    ** Bounds and fuel
    - Floats: the float/rational agreements are checked by [vm_compute]
      for every ratio with at most 256 tokens ([MAX_TOKENS]); a spoken
      sentence is far shorter, and [SpecFloat] has no rounding lemmas
      that would carry the proofs past a bound.
    - Calendar: one 400-year Gregorian cycle is checked day by day and
      periodicity gives every date of [datetime]'s range.
    - [str(int)]: [digits_fuel] gets [log2 n + 1] steps, at least the
      number of decimal digits, so it never runs out.
    - Quiz progress: the clock readings must leave 15 days (the longest
      Leitner delay) before [datetime.max], so [_next_due] cannot
      overflow; the number of answers equals the pending questions.
    No other definition uses fuel: every loop of the code is a
    structural recursion over a list.

    ** Not modelled
    - The LiveKit framework: [AgentSession], the STT/TTS/VAD/LLM plugins,
      the MCP session's event handlers; an entrypoint is modelled up to
      the session settings it builds, its tools as the code leaves them
      (untouched, flagged [livekit_tool = False], or stripped of their
      metadata by [_disable_tool]); what the framework then offers the
      model is not modelled.
    - I/O as parameters: the HTTP requests ([safe_request],
      [requests.get]) are the parameter [fetch], [eval] and [exec] are
      parameters, the clock and [random] come from the environment of a
      step, [str()] of floats, exceptions and JSON values is a parameter;
      the LLM checks' [requests.post] is the parameter [post].
    - File formats: the text of a JSON file is not modelled; the
      tutor's progress file and the memory file are the [Json] values
      [json.dump] is given, read back by typed decoders ([item_of_json],
      [turn_of_json], ...) that stand for [json.load] followed by the
      code's key accesses; the CSV and JSON exports are recorded as
      rows, a [saved_at] stamp is any string, and paths are not
      modelled.
    - Clock: [_export_snapshot] calls [datetime.now()] itself; the model
      takes that reading equal to the one of the tool call that
      triggers it through [_maybe_auto_export].
    - [get_current_datetime] and its siblings only format the clock; the
      MCP agent's [prewarm], [on_enter], [on_exit] and session event
      handlers only load the VAD, ask the framework for a greeting or
      log; the agents' instructions are prompt text.
*)

From stdpp Require Export base list sets.
From Stdlib Require Export ZArith NArith Lia.
From Stdlib Require String Ascii.
Export String.StringSyntax.

(** ** Python strings

    A Python [str] is a sequence of code points. *)
Abbreviation pystr := (list N).

Declare Scope py_scope.
Delimit Scope py_scope with py.

(** Python's slice [l[:k]]: a negative [k] counts from the end. *)
Definition py_take {A} (k : Z) (l : list A) : list A :=
  if (0 <=? k)%Z then take (Z.to_nat k) l
  else take (Z.to_nat (Z.of_nat (length l) + k)) l.

Notation "l .[: k ]" := (py_take k l) (at level 1, k at level 200) : py_scope.

(** Python's slice [l[k:]]: a negative [k] counts from the end, so
    [l[-n:]] keeps the last [n] items, and [l[-0:]] is all of [l]. *)
Definition py_drop {A} (k : Z) (l : list A) : list A :=
  if (0 <=? k)%Z then drop (Z.to_nat k) l
  else drop (Z.to_nat (Z.of_nat (length l) + k)) l.

Notation "l .[ k :]" := (py_drop k l) (at level 1, k at level 200) : py_scope.

(** ["sep".join(parts)], and the newline character. *)
Fixpoint str_join (sep : pystr) (parts : list pystr) : pystr :=
  match parts with
  | [] => []
  | [p] => p
  | p :: ps => p ++ sep ++ str_join sep ps
  end.

Definition nl : pystr := [10%N].

(** [s.startswith(p)] and [p in s] on strings. *)
Fixpoint is_prefix (p s : pystr) : bool :=
  match p, s with
  | [], _ => true
  | c :: p', d :: s' => (c =? d)%N && is_prefix p' s'
  | _ :: _, [] => false
  end.

Fixpoint is_substring (p s : pystr) : bool :=
  is_prefix p s || match s with [] => false | _ :: s' => is_substring p s' end.


(** ** [str(n)] and [int(s)] for Python ints *)

Definition digit_of (d : Z) : N := Z.to_N (48 + d)%Z.

(** The decimal digits of [n >= 0]; [fuel] bounds the number of digits. *)
Fixpoint digits_fuel (fuel : nat) (n : Z) : pystr :=
  match fuel with
  | O => []
  | S f => if (n <? 10)%Z then [digit_of n] else digits_fuel f (n / 10)%Z ++ [digit_of (n mod 10)%Z]
  end.

(** [str(n)]: a number has no more decimal digits than bits. *)
Definition py_str_int (n : Z) : pystr :=
  (if (n <? 0)%Z then [45%N] else []) ++ digits_fuel (S (Z.to_nat (Z.log2 (Z.abs n)))) (Z.abs n).

(** [int(s)] on a string of decimal digits. *)
Definition dec_value (l : pystr) : Z :=
  fold_left (fun acc c => acc * 10 + (Z.of_N c - 48))%Z l 0%Z.

(** ** Python dictionaries

    A [dict] keeps its keys in insertion order; assigning to an existing
    key changes the value in place. *)
Abbreviation pydict K V := (list (K * V)).

Fixpoint pydict_get {K V} `{EqDecision K} (k : K) (d : pydict K V) : option V :=
  match d with
  | [] => None
  | (k', v) :: d' => if decide (k' = k) then Some v else pydict_get k d'
  end.

Fixpoint pydict_set {K V} `{EqDecision K} (k : K) (v : V) (d : pydict K V) : pydict K V :=
  match d with
  | [] => [(k, v)]
  | (k', v') :: d' => if decide (k' = k) then (k', v) :: d' else (k', v') :: pydict_set k v d'
  end.

(** Decoding the UTF-8 bytes of a Rocq string literal into code points,
    used only to write the program's accented literals. *)
Fixpoint utf8_decode (bs : list N) : pystr :=
  match bs with
  | [] => []
  | b :: r =>
      if (b <? 128)%N then b :: utf8_decode r
      else if (b <? 224)%N then
        match r with
        | b1 :: r1 => ((b - 192) * 64 + (b1 - 128))%N :: utf8_decode r1
        | [] => []
        end
      else if (b <? 240)%N then
        match r with
        | b1 :: b2 :: r2 =>
            ((b - 224) * 4096 + (b1 - 128) * 64 + (b2 - 128))%N :: utf8_decode r2
        | _ => []
        end
      else
        match r with
        | b1 :: b2 :: b3 :: r3 =>
            ((b - 240) * 262144 + (b1 - 128) * 4096 + (b2 - 128) * 64 + (b3 - 128))%N
              :: utf8_decode r3
        | _ => []
        end
  end.

Definition u8 (s : String.string) : pystr :=
  utf8_decode (map Ascii.N_of_ascii (String.list_ascii_of_string s)).

Arguments u8 _%_string_scope.

Open Scope py_scope.

(** A bounded universal statement over [k .. k+n-1], decided by evaluation. *)
Fixpoint all_range (n : nat) (k : Z) (f : Z -> bool) : bool :=
  match n with
  | O => true
  | S n' => f k && all_range n' (k + 1)%Z f
  end.

(** ** Tactics shared by the development *)

Ltac invc H := inversion H; subst; clear H.

(** Split every [if] of the goal, naming the equation of the test. *)
Ltac split_ifs :=
  repeat match goal with
  | |- context [if ?c then _ else _] =>
      lazymatch c with
      | context [if _ then _ else _] => fail
      | _ => let E := fresh "E" in destruct c eqn:E
      end
  end.

(** Turn the boolean comparisons of the code into propositions. *)
Ltac bool_to_prop :=
  repeat match goal with
  | H : (_ <=? _)%Z = true |- _ => apply Z.leb_le in H
  | H : (_ <=? _)%Z = false |- _ => apply Z.leb_gt in H
  | H : (_ <? _)%Z = true |- _ => apply Z.ltb_lt in H
  | H : (_ <? _)%Z = false |- _ => apply Z.ltb_ge in H
  | H : (_ =? _)%Z = true |- _ => apply Z.eqb_eq in H
  | H : (_ =? _)%Z = false |- _ => apply Z.eqb_neq in H
  | H : (_ <=? _)%N = true |- _ => apply N.leb_le in H
  | H : (_ <=? _)%N = false |- _ => apply N.leb_gt in H
  | H : (_ <? _)%N = true |- _ => apply N.ltb_lt in H
  | H : (_ <? _)%N = false |- _ => apply N.ltb_ge in H
  | H : (_ =? _)%N = true |- _ => apply N.eqb_eq in H
  | H : (_ =? _)%N = false |- _ => apply N.eqb_neq in H
  | H : (_ <=? _)%nat = true |- _ => apply Nat.leb_le in H
  | H : (_ <=? _)%nat = false |- _ => apply Nat.leb_gt in H
  | H : (_ <? _)%nat = true |- _ => apply Nat.ltb_lt in H
  | H : (_ <? _)%nat = false |- _ => apply Nat.ltb_ge in H
  | H : (_ =? _)%nat = true |- _ => apply Nat.eqb_eq in H
  | H : (_ =? _)%nat = false |- _ => apply Nat.eqb_neq in H
  | H : (_ && _) = true |- _ => apply andb_prop in H; destruct H
  | H : (_ || _) = false |- _ => apply orb_false_elim in H; destruct H
  end.

(** Decide every comparison of constants with a variable that the
    hypotheses bound: each [a <=? b] and [a =? b] of the goal is rewritten
    to [true] or [false] by [lia]. *)
Ltac eval_cmp :=
  repeat match goal with
  | |- context [(?a <=? ?b)%N] =>
      first [ rewrite (proj2 (N.leb_le a b)) by lia
            | rewrite (proj2 (N.leb_gt a b)) by lia ]
  | |- context [(?a <? ?b)%N] =>
      first [ rewrite (proj2 (N.ltb_lt a b)) by lia
            | rewrite (proj2 (N.ltb_ge a b)) by lia ]
  | |- context [(?a =? ?b)%N] =>
      first [ rewrite (proj2 (N.eqb_neq a b)) by lia
            | rewrite (proj2 (N.eqb_eq a b)) by lia ]
  end.

(** Decide what [eval_cmp] can, then case on the comparisons left. *)
Ltac no_if t := lazymatch t with context [if _ then _ else _] => fail | _ => idtac end.

Ltac cmp_cases :=
  eval_cmp; simpl;
  repeat (match goal with
          | |- context [(?a <=? ?b)%N] => no_if a; no_if b; destruct (N.leb_spec a b)
          | |- context [(?a =? ?b)%N] => no_if a; no_if b; destruct (N.eqb_spec a b)
          end; eval_cmp; simpl);
  try reflexivity; try lia.

(** Split a hypothesis [b1 || b2 || ... = true] into its cases. *)
Ltac split_orb H :=
  repeat match type of H with
  | (_ || _) = true => apply orb_prop in H; destruct H as [H | H]
  end.

Create HintDb pyhints.
Create Rewrite HintDb pyrw.

(** ** Lemmas on slicing *)

Lemma py_take_nonneg {A} (k : Z) (l : list A) :
  (0 <= k)%Z -> l .[: k] = take (Z.to_nat k) l.
Proof. intros Hk. unfold py_take. by rewrite (proj2 (Z.leb_le 0 k) Hk). Qed.

Lemma py_take_length {A} (k : Z) (l : list A) :
  (0 <= k)%Z -> length (l .[: k]) = Nat.min (Z.to_nat k) (length l).
Proof. intros Hk. rewrite py_take_nonneg by done. apply length_take. Qed.

Lemma py_take_prefix {A} (k : Z) (l : list A) : l .[: k] `prefix_of` l.
Proof. unfold py_take. destruct (0 <=? k)%Z; apply prefix_take. Qed.

Lemma py_take_incl {A} (k : Z) (l : list A) x : x ∈ l .[: k] -> x ∈ l.
Proof. intros Hx. eapply elem_of_prefix; [exact Hx | apply py_take_prefix]. Qed.

Lemma py_take_sublist {A} (k : Z) (l : list A) : l .[: k] `sublist_of` l.
Proof. unfold py_take. destruct (0 <=? k)%Z; apply sublist_take. Qed.

#[export] Hint Resolve py_take_prefix py_take_incl py_take_sublist : pyhints.

Lemma py_drop_neg {A} (k : Z) (l : list A) :
  (k < 0)%Z -> l .[ k :] = drop (Z.to_nat (Z.of_nat (length l) + k)) l.
Proof. intros Hk. unfold py_drop. by rewrite (proj2 (Z.leb_gt 0 k) Hk). Qed.

Lemma py_drop_0 {A} (l : list A) : l .[ 0 :] = l.
Proof. apply drop_0. Qed.

Lemma py_drop_last_length {A} (n : Z) (l : list A) :
  (0 < n)%Z -> length (l .[- n :]) = Nat.min (Z.to_nat n) (length l).
Proof. intros Hn. rewrite py_drop_neg, length_drop by lia. lia. Qed.

Lemma py_drop_last_idem {A} (n : Z) (l : list A) :
  (0 <= n)%Z -> (l .[- n :]) .[- n :] = l .[- n :].
Proof.
  intros Hn. destruct (Z.eqb_spec n 0) as [-> | Hne]; [by rewrite !py_drop_0 |].
  rewrite !py_drop_neg, length_drop, drop_drop by lia. f_equal. lia.
Qed.

Lemma py_drop_suffix {A} (k : Z) (l : list A) : l .[ k :] `suffix_of` l.
Proof. unfold py_drop. destruct (0 <=? k)%Z; apply suffix_drop. Qed.

Lemma py_drop_app_last {A} (n : Z) (l : list A) x :
  (0 < n)%Z -> last ((l ++ [x]) .[- n :]) = Some x.
Proof.
  intros Hn. rewrite py_drop_neg, length_app by lia; simpl.
  rewrite drop_app_le by lia. rewrite last_app. by destruct (drop _ l).
Qed.

#[export] Hint Resolve py_drop_suffix : pyhints.

(** ** Lemmas on [str(n)] *)

Lemma dec_value_snoc l c : dec_value (l ++ [c]) = (dec_value l * 10 + (Z.of_N c - 48))%Z.
Proof. unfold dec_value. by rewrite fold_left_app. Qed.

Lemma digits_fuel_value f n : (0 <= n < 10 ^ Z.of_nat f)%Z -> dec_value (digits_fuel f n) = n.
Proof.
  revert n. induction f as [|f IH]; intros n Hn; [cbn in Hn |- *; lia |].
  rewrite Nat2Z.inj_succ, Z.pow_succ_r in Hn by lia. simpl.
  destruct (Z.ltb_spec n 10).
  - unfold dec_value, digit_of; simpl. rewrite Z2N.id by lia. lia.
  - rewrite dec_value_snoc, IH.
    + unfold digit_of. rewrite Z2N.id by (pose proof (Z.mod_pos_bound n 10); lia).
      pose proof (Z.div_mod n 10). lia.
    + split; [apply Z.div_pos; lia | apply Z.div_lt_upper_bound; lia].
Qed.

Lemma py_str_int_value n : (0 <= n)%Z -> dec_value (py_str_int n) = n.
Proof.
  intros Hn. unfold py_str_int. rewrite (proj2 (Z.ltb_ge n 0)) by lia. rewrite app_nil_l.
  rewrite Z.abs_eq by lia. apply digits_fuel_value. split; [lia |].
  rewrite Nat2Z.inj_succ, Z2Nat.id by apply Z.log2_nonneg.
  destruct (Z.eq_dec n 0) as [-> | Hne]; [simpl; lia |].
  apply Z.lt_le_trans with (2 ^ Z.succ (Z.log2 n))%Z; [apply Z.log2_spec; lia |].
  apply Z.pow_le_mono_l. pose proof (Z.log2_nonneg n). lia.
Qed.

Lemma py_str_int_inj a b : (0 <= a)%Z -> (0 <= b)%Z -> py_str_int a = py_str_int b -> a = b.
Proof. intros Ha Hb Hab. by rewrite <-(py_str_int_value a), <-(py_str_int_value b), Hab. Qed.

(** ** Lemmas on dictionaries *)

Local Set Warnings "-clear-no-such-hyp".

Section PyDict.
Context {K V : Type} `{EqDecision K}.
Implicit Types (k : K) (v : V) (d : pydict K V).

Lemma pydict_get_set_eq k v d : pydict_get k (pydict_set k v d) = Some v.
Proof. induction d as [|[k' v'] d IH]; simpl; repeat (case_decide; simpl); congruence. Qed.

Lemma pydict_get_set_ne k k2 v d : k <> k2 -> pydict_get k2 (pydict_set k v d) = pydict_get k2 d.
Proof. intros Hne. induction d as [|[k' v'] d IH]; simpl; repeat (case_decide; simpl); congruence. Qed.

(** Keys keep their order; a new key goes last. *)
Lemma pydict_set_keys k v d :
  (pydict_set k v d).*1 = if decide (k ∈ d.*1) then d.*1 else d.*1 ++ [k].
Proof.
  induction d as [|[k' v'] d IH]; simpl; [done |].
  repeat case_decide; simplify_eq/=; rewrite ?IH; try done; set_solver.
Qed.

Lemma pydict_set_length k v d : k ∈ d.*1 -> length (pydict_set k v d) = length d.
Proof. intros Hk. rewrite <-!(length_fmap fst), pydict_set_keys. by case_decide. Qed.
Lemma pydict_set_NoDup k v d : NoDup d.*1 -> NoDup (pydict_set k v d).*1.
Proof.
  intros Hd. rewrite pydict_set_keys. case_decide; [done |].
  apply NoDup_app. split_and!; [done | set_solver | apply NoDup_singleton].
Qed.
Lemma pydict_get_elem k v d : pydict_get k d = Some v -> (k, v) ∈ d.
Proof.
  induction d as [|[k' v'] d IH]; simpl; [done |].
  case_decide; [intros [= <-]; subst; left | intros; right; auto].
Qed.

End PyDict.

#[export] Hint Rewrite @pydict_get_set_eq : pyrw.

(** ** Bounded checks by evaluation *)

Lemma all_range_spec n k f j : all_range n k f = true -> (k <= j < k + Z.of_nat n)%Z -> f j = true.
Proof.
  revert k. induction n as [|n IH]; intros k H Hj; simpl in *; [lia |].
  apply andb_true_iff in H as [H1 H2].
  destruct (Z.eq_dec j k) as [-> | Hne]; [done |]. apply (IH (k + 1)%Z); [done | lia].
Qed.
