(* ===== verification/PyFloat.v ===== *)
(** * Python floats as IEEE-754 binary64

    The tutor compares word error rates, which are Python floats, with
    float literals ([0.34], [0.2], [0.35], [0.5]) and computes the
    pronunciation score [int(max(0, 100 * (1 - w)))].  This file gives
    the binary64 semantics of these operations through the Standard
    Library's [SpecFloat] (a Gallina transcription of Flocq's IEEE-754
    binary formats; it computes, and it uses no axiom):
    - [int_truediv a b] is Python's [a / b] on ints: CPython rounds the
      exact quotient once, to nearest even, for ints of any size;
    - a decimal literal such as [0.34] is the double nearest to [34/100],
      i.e. [int_truediv 34 100];
    - [py_sub], [py_mul], [py_le], [py_lt] are the float operators;
    - [py_int] is [int()] on a float (truncation toward zero).
*)

From S2P Require Import Prelude.
From Stdlib Require Import SpecFloat Lia.

Abbreviation pyfloat := spec_float.

Definition prec : Z := 53.
Definition emax : Z := 1024.

(** [float(z)] for a Python int [z]. *)
Definition float_of_int (z : Z) : pyfloat := binary_normalize prec emax z 0 false.

(** [a / b] for Python ints [a >= 0] and [b >= 1]: the exact quotient,
    rounded once.  [SFdiv_core_binary] computes the quotient with enough
    bits and the rounding location; [binary_round_aux] rounds it. *)
Definition int_truediv (a : N) (b : positive) : pyfloat :=
  match a with
  | N0 => S754_zero false
  | Npos p =>
      let '(mz, ez, lz) := SFdiv_core_binary prec emax (Zpos p) 0 (Zpos b) 0 in
      binary_round_aux prec emax false mz ez lz
  end.

Definition py_add (x y : pyfloat) : pyfloat := SFadd prec emax x y.
Definition py_sub (x y : pyfloat) : pyfloat := SFsub prec emax x y.
Definition py_div (x y : pyfloat) : pyfloat := SFdiv prec emax x y.
Definition py_mul (x y : pyfloat) : pyfloat := SFmul prec emax x y.
Definition py_le (x y : pyfloat) : bool := SFleb x y.
Definition py_lt (x y : pyfloat) : bool := SFltb x y.

(** [int(x)]: truncation toward zero; [None] for the [ValueError] and
    [OverflowError] that Python raises on a NaN or an infinity. *)
Definition py_int (x : pyfloat) : option Z :=
  match x with
  | S754_zero _ => Some 0%Z
  | S754_finite s m e =>
      let v := if (0 <=? e)%Z then Z.shiftl (Zpos m) e else Z.shiftr (Zpos m) (- e) in
      Some (if s then Z.opp v else v)
  | _ => None
  end.

(** The float literals of the code. *)
Definition lit_0_2 : pyfloat := int_truediv 2 10.
Definition lit_0_34 : pyfloat := int_truediv 34 100.
Definition lit_0_35 : pyfloat := int_truediv 35 100.
Definition lit_0_5 : pyfloat := int_truediv 5 10.
Definition lit_1 : pyfloat := float_of_int 1.
Definition lit_100 : pyfloat := float_of_int 100.

(** ** Formatting: [format(x, ".nf")] *)

(** [num / den] rounded to nearest, ties to even. *)
Definition round_half_even (num den : Z) : Z :=
  let q := (num / den)%Z in
  let r := (num mod den)%Z in
  if (den <? 2 * r)%Z || ((2 * r =? den)%Z && Z.odd q) then (q + 1)%Z else q.

(** [|m * 2^e| * 10^n] rounded to an integer, ties to even. *)
Definition scaled_fixed (n : nat) (m : positive) (e : Z) : Z :=
  if (0 <=? e)%Z then (Z.pos m * 2 ^ e * 10 ^ Z.of_nat n)%Z
  else round_half_even (Z.pos m * 10 ^ Z.of_nat n)%Z (2 ^ (- e))%Z.

(** The digits of [q / 10^n] with [n] decimals and at least one digit
    before the point. *)
Definition fixed_digits (n : nat) (q : Z) : pystr :=
  let s := py_str_int q in
  let s' := repeat 48%N (S n - length s) ++ s in
  match n with
  | O => s'
  | _ => take (length s' - n) s' ++ [46%N] ++ drop (length s' - n) s'
  end.

Definition sign_str (s : bool) : pystr := if s then [45%N] else [].

(** [format(x, ".nf")]: CPython rounds the exact binary value correctly,
    ties to even, and keeps the sign of a negative value that rounds to
    zero. *)
Definition format_fixed (n : nat) (x : pyfloat) : pystr :=
  match x with
  | S754_zero s => sign_str s ++ fixed_digits n 0
  | S754_finite s m e => sign_str s ++ fixed_digits n (scaled_fixed n m e)
  | S754_infinity s => sign_str s ++ u8 "inf"
  | S754_nan => u8 "nan"
  end.

