(* ===== verification/Text.v ===== *)
(** * Text utilities of the tutor: [_WORD_RE], [_tokenize], [_strip_accents]

    Source: src/voice_livekit_agent/french_voice_tutor_plus.py, lines
    111-122.  Strings are lists of code points ([pystr]).
    - [is_word_char] is the character class of [_WORD_RE]
      ([A-Za-zÀ-ÖØ-öø-ÿ'-]), [finditer] the list of its maximal runs, which
      is what [re.finditer] returns for a pattern [[class]+];
    - [_tokenize] lower-cases every match; on the characters of the class
      Python's [str.lower] is [lower_word_char], code point by code point;
    - [py_isspace] and [py_strip] are [str.isspace] and [str.strip()];
    - [_strip_accents] uses the [unicodedata] module through the class
      [UnicodeData] (NFD, the category test [== "Mn"], [str.lower],
      [str.upper]);
      [latin1_ucd] is an instance exact on Latin-1 text and the combining
      diacritical marks, used to evaluate concrete examples.
*)

From S2P Require Import Prelude.
From Stdlib Require Import Lia.

(** ** The character class of [_WORD_RE] *)

Definition in_range (lo hi c : N) : bool := (lo <=? c)%N && (c <=? hi)%N.

Definition is_word_char (c : N) : bool :=
  in_range 65 90 c || in_range 97 122 c        (* A-Z a-z *)
  || in_range 192 214 c                         (* À-Ö *)
  || in_range 216 246 c                         (* Ø-ö *)
  || in_range 248 255 c                         (* ø-ÿ *)
  || (c =? 39)%N || (c =? 45)%N.                (* ' - *)

(** [str.lower] on a character of the class: A-Z and À-Þ (but not the
    multiplication sign, which is outside the class) move down by 32. *)
Definition lower_word_char (c : N) : N :=
  if in_range 65 90 c || (in_range 192 222 c && negb (c =? 215)%N) then (c + 32)%N else c.

(** The Latin-1 upper-case mapping: a-z and à-þ (not the division sign)
    move up by 32; ÿ and ß have no one-character upper case in Latin-1. *)
Definition latin1_upper_char (c : N) : N :=
  if in_range 97 122 c || (in_range 224 254 c && negb (c =? 247)%N) then (c - 32)%N else c.

(** ** [re.finditer]: the maximal runs of word characters, left to right *)

Definition flush (cur : pystr) : list pystr :=
  match cur with [] => [] | _ => [cur] end.

Fixpoint finditer_from (s : pystr) (cur : pystr) : list pystr :=
  match s with
  | [] => flush cur
  | c :: s' =>
      if is_word_char c then finditer_from s' (cur ++ [c])
      else flush cur ++ finditer_from s' []
  end.

Definition finditer (s : pystr) : list pystr := finditer_from s [].

(** [_tokenize(text)]: [[m.group(0).lower() for m in _WORD_RE.finditer(text)]]. *)
Definition _tokenize (text : pystr) : list pystr :=
  map (map lower_word_char) (finditer text).

(** ** [str.isspace] and [str.strip()] *)

Definition py_isspace (c : N) : bool :=
  in_range 9 13 c || in_range 28 32 c || (c =? 133)%N || (c =? 160)%N
  || (c =? 5760)%N || in_range 8192 8202 c || (c =? 8232)%N || (c =? 8233)%N
  || (c =? 8239)%N || (c =? 8287)%N || (c =? 12288)%N.

Fixpoint lstrip (s : pystr) : pystr :=
  match s with
  | c :: s' => if py_isspace c then lstrip s' else s
  | [] => []
  end.

Definition py_strip (s : pystr) : pystr := reverse (lstrip (reverse (lstrip s))).

(** ** The Unicode database, as the code uses it *)

Class UnicodeData := {
  ucd_nfd : pystr -> pystr;      (** [unicodedata.normalize("NFD", s)] *)
  ucd_is_mn : N -> bool;         (** [unicodedata.category(ch) == "Mn"] *)
  ucd_lower : pystr -> pystr;    (** [s.lower()] *)
  ucd_upper : pystr -> pystr     (** [s.upper()] *)
}.

Section WithUCD.
Context `{UnicodeData}.

(** [_strip_accents(text)]: NFD, then drop the nonspacing marks. *)
Definition _strip_accents (text : pystr) : pystr :=
  filter (fun ch => negb (ucd_is_mn ch)) (ucd_nfd text).

End WithUCD.

(** ** A Latin-1 instance of the database

    The canonical decompositions of U+00C0..U+00FF, the combining
    diacritical marks U+0300..U+036F as category Mn, and the Latin-1
    case mappings.  Code points above U+00FF are left unchanged, which is
    exact for the phrases of the phrase bank; [ß.upper()] (["SS"] in
    Python) and [ÿ.upper()] (U+0178) are left unchanged too. *)

Definition latin1_nfd_char (c : N) : pystr :=
  let base := [(192, 65, 768); (193, 65, 769); (194, 65, 770); (195, 65, 771);
               (196, 65, 776); (197, 65, 778); (199, 67, 807); (200, 69, 768);
               (201, 69, 769); (202, 69, 770); (203, 69, 776); (204, 73, 768);
               (205, 73, 769); (206, 73, 770); (207, 73, 776); (209, 78, 771);
               (210, 79, 768); (211, 79, 769); (212, 79, 770); (213, 79, 771);
               (214, 79, 776); (217, 85, 768); (218, 85, 769); (219, 85, 770);
               (220, 85, 776); (221, 89, 769)]%N in
  let lower := map (fun '(x, b, m) => (x + 32, b + 32, m)%N) base ++ [(255, 121, 776)%N] in
  match find (fun '(x, _, _) => (x =? c)%N) (base ++ lower) with
  | Some (_, b, m) => [b; m]
  | None => [c]
  end.

#[export] Instance latin1_ucd : UnicodeData := {
  ucd_nfd s := concat (map latin1_nfd_char s);
  ucd_is_mn c := in_range 768 879 c;
  ucd_lower s := map lower_word_char s;   (* the Latin-1 lower-case mapping *)
  ucd_upper s := map latin1_upper_char s
}.

(** ** Properties of the character class *)

Lemma space_not_word c : py_isspace c = true -> is_word_char c = false.
Proof.
  unfold py_isspace, is_word_char, in_range. intros H. split_orb H;
    bool_to_prop; try subst c; eval_cmp; reflexivity.
Qed.

Lemma lower_word_char_word c :
  is_word_char c = true -> is_word_char (lower_word_char c) = true.
Proof.
  unfold is_word_char, lower_word_char, in_range. intros H. split_orb H;
    bool_to_prop; try subst c; cmp_cases.
Qed.

Lemma lower_word_char_idem c :
  is_word_char c = true -> lower_word_char (lower_word_char c) = lower_word_char c.
Proof.
  unfold is_word_char, lower_word_char, in_range. intros H. split_orb H;
    bool_to_prop; try subst c; cmp_cases.
Qed.

(** A token: a non-empty run of word characters. *)
Definition word_run (t : pystr) : Prop := t <> [] /\ Forall (fun c => is_word_char c = true) t.

(** A lower-case token, as [_tokenize] produces them. *)
Definition lower_run (t : pystr) : Prop :=
  word_run t /\ Forall (fun c => lower_word_char c = c) t.

(** ** [finditer] *)

Lemma flush_runs cur :
  Forall (fun c => is_word_char c = true) cur -> Forall word_run (flush cur).
Proof. destruct cur; simpl; constructor; [split; [done | done] | constructor]. Qed.

Lemma finditer_from_runs s cur :
  Forall (fun c => is_word_char c = true) cur -> Forall word_run (finditer_from s cur).
Proof.
  revert cur. induction s as [|c s IH]; intros cur Hcur; simpl.
  - by apply flush_runs.
  - destruct (is_word_char c) eqn:Hc.
    + apply IH. apply Forall_app. split; [done | by constructor].
    + apply Forall_app. split; [by apply flush_runs | by apply IH].
Qed.

(** A non-word character separates the runs on its left from those on its right. *)
Lemma finditer_from_sep s1 c s2 cur :
  is_word_char c = false ->
  finditer_from (s1 ++ c :: s2) cur = finditer_from s1 cur ++ finditer s2.
Proof.
  revert cur. induction s1 as [|d s1 IH]; intros cur Hc; simpl.
  - by rewrite Hc.
  - destruct (is_word_char d); rewrite IH by done; [done | by rewrite app_assoc].
Qed.

Lemma finditer_sep s1 c s2 :
  is_word_char c = false -> finditer (s1 ++ c :: s2) = finditer s1 ++ finditer s2.
Proof. apply finditer_from_sep. Qed.

(** A run of word characters is read as one match. *)
Lemma finditer_from_run w cur :
  Forall (fun c => is_word_char c = true) w -> finditer_from w cur = flush (cur ++ w).
Proof.
  revert cur. induction w as [|c w IH]; intros cur Hw; simpl.
  - by rewrite app_nil_r.
  - apply Forall_cons in Hw as [Hc Hw]. rewrite Hc, IH by done. by rewrite <- app_assoc.
Qed.

Lemma finditer_run w : word_run w -> finditer w = [w].
Proof.
  intros [Hne Hw]. unfold finditer. rewrite finditer_from_run by done.
  simpl. destruct w; [done | reflexivity].
Qed.

(** A string of separators has no match. *)
Lemma finditer_no_word s :
  Forall (fun c => is_word_char c = false) s -> finditer s = [].
Proof.
  induction s as [|c s IH]; intros Hs; [done |].
  apply Forall_cons in Hs as [Hc Hs].
  change (c :: s) with ([] ++ c :: s). rewrite finditer_sep by done. by apply IH.
Qed.

(** ** [_tokenize] *)

(** [" ".join(tokens)] *)
Fixpoint join_space (ts : list pystr) : pystr :=
  match ts with
  | [] => []
  | [t] => t
  | t :: ts' => t ++ 32%N :: join_space ts'
  end.

Lemma lower_run_map t : word_run t -> lower_run (map lower_word_char t).
Proof.
  intros [Hne Hw]. split; [split|].
  - by destruct t.
  - apply Forall_map. eapply Forall_impl; [exact Hw | apply lower_word_char_word].
  - apply Forall_map. eapply Forall_impl; [exact Hw | apply lower_word_char_idem].
Qed.

Lemma lower_run_fix t : lower_run t -> map lower_word_char t = t.
Proof.
  intros [_ Hl]. induction Hl as [|c t Hc _ IH]; [done | simpl; by rewrite Hc, IH].
Qed.

(** Every token of [_tokenize] is a non-empty run of word characters
    that lower-casing leaves unchanged. *)
Lemma _tokenize_lower_runs text : Forall lower_run (_tokenize text).
Proof.
  unfold _tokenize. apply Forall_map.
  eapply Forall_impl; [apply finditer_from_runs; constructor | apply lower_run_map].
Qed.

Lemma finditer_join ts : Forall word_run ts -> finditer (join_space ts) = ts.
Proof.
  induction ts as [|t ts IH]; intros Hts; [done |].
  apply Forall_cons in Hts as [Ht Hts]. destruct ts as [|t' ts'].
  - by apply finditer_run.
  - change (join_space (t :: t' :: ts')) with (t ++ 32%N :: join_space (t' :: ts')).
    rewrite finditer_sep by reflexivity. rewrite finditer_run, IH by done.
    reflexivity.
Qed.

Lemma _tokenize_join ts : Forall lower_run ts -> _tokenize (join_space ts) = ts.
Proof.
  intros Hts. unfold _tokenize. rewrite finditer_join.
  - induction Hts as [|t ts Ht _ IH]; [done |]. simpl. by rewrite lower_run_fix, IH.
  - eapply Forall_impl; [exact Hts | by intros t []].
Qed.

(** Tokenizing is idempotent through [" ".join]: the tokens of the
    joined tokens are the tokens. *)
Theorem tokenize_join_roundtrip text :
  _tokenize (join_space (_tokenize text)) = _tokenize text.
Proof. apply _tokenize_join, _tokenize_lower_runs. Qed.

(** ** [str.strip] does not change the tokens *)

Lemma finditer_lstrip s : finditer (lstrip s) = finditer s.
Proof.
  induction s as [|c s IH]; [done |]. simpl.
  destruct (py_isspace c) eqn:Hc; [| done].
  rewrite IH. change (c :: s) with ([] ++ c :: s).
  by rewrite finditer_sep by (by apply space_not_word).
Qed.

(** [lstrip] removes a prefix of spaces. *)
Lemma lstrip_spec s : exists ws, s = ws ++ lstrip s /\ Forall (fun c => py_isspace c = true) ws.
Proof.
  induction s as [|c s IH]; [by exists [] |]. simpl.
  destruct (py_isspace c) eqn:Hc.
  - destruct IH as [ws [Hs Hws]]. exists (c :: ws). split; [simpl; congruence | by constructor].
  - by exists [].
Qed.

Lemma finditer_trailing s ws :
  Forall (fun c => py_isspace c = true) ws -> finditer (s ++ ws) = finditer s.
Proof.
  intros Hws. destruct ws as [|w ws]; [by rewrite app_nil_r |].
  apply Forall_cons in Hws as [Hw Hws].
  rewrite finditer_sep by (by apply space_not_word).
  rewrite (finditer_no_word ws), app_nil_r; [done |].
  eapply Forall_impl; [exact Hws | apply space_not_word].
Qed.

Lemma finditer_strip s : finditer (py_strip s) = finditer s.
Proof.
  unfold py_strip. rewrite <- (finditer_lstrip s). set (x := lstrip s).
  destruct (lstrip_spec (reverse x)) as [ws [Hs Hws]].
  set (l := lstrip (reverse x)) in *.
  rewrite <- (reverse_involutive x), Hs, reverse_app, finditer_trailing; [done |].
  by apply Forall_reverse.
Qed.

Lemma _tokenize_strip s : _tokenize (py_strip s) = _tokenize s.
Proof. unfold _tokenize. by rewrite finditer_strip. Qed.

(** Tokens never hold U+2019, which is not a word character. *)
Lemma _tokenize_no_right_quote text t : t ∈ _tokenize text -> 8217%N ∉ t.
Proof.
  intros Ht Hq. pose proof (_tokenize_lower_runs text) as Hall.
  rewrite Forall_forall in Hall. destruct (Hall t Ht) as [[_ Hw] _].
  rewrite Forall_forall in Hw. specialize (Hw _ Hq). discriminate Hw.
Qed.

#[export] Hint Resolve _tokenize_lower_runs : pyhints.
#[export] Hint Rewrite _tokenize_strip : pyrw.

(** ** The properties of the tokenizer *)

(** [str.strip()] never changes the tokens: [_tokenize(s.strip())] is
    [_tokenize(s)] for every string, since whitespace is outside the class
    of [_WORD_RE]. *)
Theorem tokenize_strip_invariant s : _tokenize (py_strip s) = _tokenize s.
Proof. apply _tokenize_strip. Qed.

(** no token of [_tokenize] contains the typographic apostrophe U+2019
    that the phrase bank writes in "j’ai", "C’est", "s’il": the class of
    [_WORD_RE] only has the ASCII apostrophe, so the text is split there. *)
Theorem tokenize_splits_at_right_quote text t :
  t ∈ _tokenize text -> 8217%N ∉ t.
Proof. apply _tokenize_no_right_quote. Qed.

Lemma tokenize_splits_at_right_quote_witness :
  [106%N] ∈ _tokenize (u8 "J’ai") /\ 8217%N ∉ [106%N].
Proof.
  assert (H : [106%N] ∈ _tokenize (u8 "J’ai"))
    by (apply (bool_decide_unpack _); vm_compute; exact I).
  split; [exact H | exact (tokenize_splits_at_right_quote _ _ H)].
Defined.
