(* ===== verification/Levenshtein.v ===== *)
(** * Token-level edit distance: [_levenshtein]

    Source: src/voice_livekit_agent/french_voice_tutor_plus.py, lines
    125-139.  The code keeps one row [dp] of the dynamic program and
    updates it in place, with [prev] holding the old value of the cell to
    the left.  [lev_inner] is the inner [for j, y in enumerate(b, 1)] loop,
    [lev_outer] the outer loop, both over stdpp's list lookup [!!!] and
    insert [<[j:=v]>] (every index the code touches is in range, which the
    proofs show).

    The reference is the textbook recurrence [lev_rec] on the heads of the
    lists; the one-row program reads the lists from the front, so it
    computes [lev_rec] of the reversed lists ([lev_ref]).  The proof goes
    through a functional form of one row, [next_row]:
    - [lev_inner_next_row]: the in-place loop computes [next_row];
    - [next_row_rows]: [next_row] computes the next row of [lev_rec];
    - [levenshtein_correct]: [_levenshtein a b = lev_ref a b].
    Then the metric facts: [lev_ref] is 0 exactly on equal lists,
    symmetric, at least the difference of the lengths and at most the
    larger length.
*)

From S2P Require Import Prelude.
From Stdlib Require Import Lia.

Section Levenshtein.
Context {A : Type} `{EqDecision A}.

(** [(0 if x == y else 1)] *)
Definition cost (x y : A) : nat := if decide (x = y) then 0 else 1.

(** Python's [min] of three ints. *)
Definition min3 (p q r : nat) : nat := Nat.min (Nat.min p q) r.

(** ** The code *)

(** [for j, y in enumerate(b, 1): cur = dp[j]; dp[j] = min(dp[j] + 1,
    dp[j - 1] + 1, prev + cost); prev = cur] *)
Fixpoint lev_inner (x : A) (bs : list A) (j : nat) (dp : list nat) (prev : nat) : list nat :=
  match bs with
  | [] => dp
  | y :: bs' =>
      let cur := dp !!! j in
      let v := min3 (dp !!! j + 1) (dp !!! (j - 1) + 1) (prev + cost x y) in
      lev_inner x bs' (S j) (<[j := v]> dp) cur
  end.

(** [for i, x in enumerate(a, 1): prev = dp[0]; dp[0] = i; <inner loop>] *)
Fixpoint lev_outer (a b : list A) (i : nat) (dp : list nat) : list nat :=
  match a with
  | [] => dp
  | x :: a' =>
      let prev := dp !!! 0 in
      lev_outer a' b (S i) (lev_inner x b 1 (<[0 := i]> dp) prev)
  end.

(** [dp = list(range(len(b) + 1))], the loops, [return dp[-1]]. *)
Definition _levenshtein (a b : list A) : nat :=
  default 0 (last (lev_outer a b 1 (seq 0 (length b + 1)))).

(** ** The reference recurrence *)

Fixpoint lev_rec (a b : list A) : nat :=
  match a with
  | [] => length b
  | x :: a' =>
      (fix go (b : list A) : nat :=
         match b with
         | [] => S (length a')
         | y :: b' => min3 (lev_rec a' b + 1) (go b' + 1) (lev_rec a' b' + cost x y)
         end) b
  end.

(** The distance of [a] and [b] read from the front, as the code does. *)
Definition lev_ref (a b : list A) : nat := lev_rec (reverse a) (reverse b).

(** One row of the program in functional form: [oprev] is the old cell
    to the left, [old] the old cells from the current one on, [left] the
    new cell to the left. *)
Fixpoint next_row (x : A) (b : list A) (oprev : nat) (old : list nat) (left : nat) : list nat :=
  match b, old with
  | y :: b', o :: old' =>
      let v := min3 (o + 1) (left + 1) (oprev + cost x y) in
      v :: next_row x b' o old' v
  | _, _ => []
  end.

(** The row of [lev_rec ra] against the prefixes [b1 ++ y] of [b1 ++ bs]. *)
Fixpoint rows_from (ra b1 bs : list A) : list nat :=
  match bs with
  | [] => []
  | y :: bs' => lev_rec ra (reverse (b1 ++ [y])) :: rows_from ra (b1 ++ [y]) bs'
  end.

Definition row (ra b : list A) : list nat := lev_rec ra [] :: rows_from ra [] b.

(** ** Unfolding and basic facts *)

Lemma lev_rec_nil_l b : lev_rec [] b = length b.
Proof. reflexivity. Qed.

Lemma lev_rec_nil_r a : lev_rec a [] = length a.
Proof. destruct a; reflexivity. Qed.

Lemma lev_rec_cons_cons x a y b :
  lev_rec (x :: a) (y :: b) =
  min3 (lev_rec a (y :: b) + 1) (lev_rec (x :: a) b + 1) (lev_rec a b + cost x y).
Proof. reflexivity. Qed.

Lemma cost_sym x y : cost x y = cost y x.
Proof. unfold cost. do 2 case_decide; congruence. Qed.

Lemma cost_le x y : cost x y <= 1.
Proof. unfold cost. case_decide; lia. Qed.

Lemma length_rows_from ra b1 bs : length (rows_from ra b1 bs) = length bs.
Proof. revert b1. induction bs; intros; simpl; auto. Qed.

#[local] Hint Rewrite lev_rec_nil_l lev_rec_nil_r lev_rec_cons_cons : pyrw.

(** ** The in-place loop computes [next_row] *)

Lemma lookup_total_at_length (done rest : list nat) o :
  (done ++ o :: rest) !!! length done = o.
Proof. rewrite list_lookup_total_alt, lookup_app_r, Nat.sub_diag by lia. reflexivity. Qed.

Lemma lookup_total_before_length (done rest : list nat) :
  done <> [] -> (done ++ rest) !!! (length done - 1) = default 0 (last done).
Proof.
  intros Hd. assert (length done <> 0) by (by destruct done).
  rewrite list_lookup_total_alt, lookup_app_l, last_lookup by lia.
  by replace (length done - 1) with (pred (length done)) by lia.
Qed.

Lemma insert_at_length (done rest : list nat) o v :
  <[length done := v]> (done ++ o :: rest) = done ++ v :: rest.
Proof. rewrite insert_app_r_alt, Nat.sub_diag by lia. reflexivity. Qed.

Lemma lev_inner_next_row x bs (done rest : list nat) prev :
  done <> [] -> length bs <= length rest ->
  lev_inner x bs (length done) (done ++ rest) prev =
  done ++ next_row x bs prev rest (default 0 (last done)) ++ drop (length bs) rest.
Proof.
  revert done rest prev. induction bs as [|y bs IH]; intros done rest prev Hd Hlen; simpl.
  - done.
  - destruct rest as [|o rest]; simpl in Hlen; [lia |].
    rewrite lookup_total_at_length, lookup_total_before_length, insert_at_length by done.
    set (v := min3 (o + 1) (default 0 (last done) + 1) (prev + cost x y)).
    replace (S (length done)) with (length (done ++ [v])) by (rewrite length_app; simpl; lia).
    replace (done ++ v :: rest) with ((done ++ [v]) ++ rest) by (by rewrite <- app_assoc).
    rewrite IH by (try lia; by destruct done). rewrite last_snoc, <- app_assoc. reflexivity.
Qed.

(** ** [next_row] computes the next row of the recurrence *)

Lemma next_row_rows x ra b1 bs :
  next_row x bs (lev_rec ra (reverse b1)) (rows_from ra b1 bs) (lev_rec (x :: ra) (reverse b1)) =
  rows_from (x :: ra) b1 bs.
Proof.
  revert b1. induction bs as [|y bs IH]; intros b1; [done |].
  specialize (IH (b1 ++ [y])). rewrite reverse_snoc in IH.
  simpl rows_from. rewrite reverse_snoc. cbn [next_row].
  rewrite <- lev_rec_cons_cons, IH. reflexivity.
Qed.

Lemma rows_from_nil b1 bs : rows_from [] b1 bs = seq (S (length b1)) (length bs).
Proof.
  revert b1. induction bs as [|y bs IH]; intros b1; [done |]. simpl.
  rewrite IH, length_reverse, length_app. simpl. f_equal; [lia | f_equal; lia].
Qed.

Lemma row_nil b : row [] b = seq 0 (length b + 1).
Proof.
  unfold row. rewrite rows_from_nil. simpl. rewrite Nat.add_1_r. reflexivity.
Qed.

Lemma lev_inner_row x ra b :
  lev_inner x b 1 (<[0 := S (length ra)]> (row ra b)) (row ra b !!! 0) = row (x :: ra) b.
Proof.
  unfold row. rewrite lev_rec_nil_r.
  change (<[0 := S (length ra)]> (length ra :: rows_from ra [] b))
    with ([S (length ra)] ++ rows_from ra [] b).
  change ((length ra :: rows_from ra [] b) !!! 0) with (length ra).
  change 1 with (length [S (length ra)]).
  rewrite lev_inner_next_row by (try done; by rewrite length_rows_from).
  rewrite (drop_ge (rows_from ra [] b)) by (rewrite length_rows_from; lia).
  rewrite app_nil_r, <- (next_row_rows x ra []).
  change (reverse (@nil A)) with (@nil A). rewrite !lev_rec_nil_r. reflexivity.
Qed.

Lemma lev_outer_row a ra b :
  lev_outer a b (S (length ra)) (row ra b) = row (reverse a ++ ra) b.
Proof.
  revert ra. induction a as [|x a IH]; intros ra; [done |]. cbn [lev_outer].
  rewrite lev_inner_row. change (S (S (length ra))) with (S (length (x :: ra))).
  rewrite IH, reverse_cons, <- app_assoc. reflexivity.
Qed.

Lemma last_rows ra b1 bs :
  last (lev_rec ra (reverse b1) :: rows_from ra b1 bs) = Some (lev_rec ra (reverse (b1 ++ bs))).
Proof.
  revert b1. induction bs as [|y bs IH]; intros b1.
  - by rewrite app_nil_r.
  - specialize (IH (b1 ++ [y])). rewrite <- app_assoc in IH.
    simpl rows_from. by rewrite last_cons_cons.
Qed.

Lemma levenshtein_lev_ref a b : _levenshtein a b = lev_ref a b.
Proof.
  unfold _levenshtein, lev_ref. rewrite <- row_nil.
  change 1 with (S (length (@nil A))). rewrite lev_outer_row, app_nil_r.
  unfold row. change (lev_rec (reverse a) []) with (lev_rec (reverse a) (reverse [])).
  rewrite last_rows. reflexivity.
Qed.

(** ** Metric facts of the recurrence *)

Lemma cost_refl x : cost x x = 0.
Proof. unfold cost. by case_decide. Qed.

Lemma cost_0 x y : cost x y = 0 -> x = y.
Proof. unfold cost. by case_decide. Qed.

Lemma lev_rec_sym a b : lev_rec a b = lev_rec b a.
Proof.
  revert b. induction a as [|x a IHa]; intros b.
  - by rewrite lev_rec_nil_l, lev_rec_nil_r.
  - induction b as [|y b IHb]; [by rewrite lev_rec_nil_l, lev_rec_nil_r |].
    rewrite !lev_rec_cons_cons, IHa, IHb, (IHa b), cost_sym. unfold min3. lia.
Qed.

Lemma lev_rec_refl a : lev_rec a a = 0.
Proof.
  induction a as [|x a IH]; [done |]. rewrite lev_rec_cons_cons, IH, cost_refl.
  unfold min3. lia.
Qed.

Lemma lev_rec_eq_0 a b : lev_rec a b = 0 -> a = b.
Proof.
  revert b. induction a as [|x a IH]; intros [|y b] H; try done.
  rewrite lev_rec_cons_cons in H. unfold min3 in H.
  assert (lev_rec a b = 0 /\ cost x y = 0) as [H1 H2] by lia.
  by rewrite (IH b H1), (cost_0 x y H2).
Qed.

Lemma lev_rec_le_max a b : lev_rec a b <= Nat.max (length a) (length b).
Proof.
  revert b. induction a as [|x a IHa]; intros b; [simpl; lia |].
  induction b as [|y b IHb]; [rewrite lev_rec_nil_r; simpl; lia |].
  rewrite lev_rec_cons_cons. specialize (IHa b). pose proof (cost_le x y).
  unfold min3. simpl in *. lia.
Qed.

Lemma lev_rec_ge_diff a b : length a - length b <= lev_rec a b.
Proof.
  revert b. induction a as [|x a IHa]; intros b; [simpl; lia |].
  induction b as [|y b IHb]; [rewrite lev_rec_nil_r; simpl; lia |].
  rewrite lev_rec_cons_cons. pose proof (IHa b). pose proof (IHa (y :: b)).
  unfold min3. simpl in *. lia.
Qed.

(** ** The same facts for the distance the code computes *)

Lemma lev_ref_sym a b : lev_ref a b = lev_ref b a.
Proof. apply lev_rec_sym. Qed.

Lemma lev_ref_eq_0 a b : lev_ref a b = 0 <-> a = b.
Proof.
  unfold lev_ref. split.
  - intros H. apply lev_rec_eq_0 in H. by apply (inj reverse).
  - intros ->. apply lev_rec_refl.
Qed.

Lemma lev_ref_le_max a b : lev_ref a b <= Nat.max (length a) (length b).
Proof. unfold lev_ref. rewrite <- (length_reverse a), <- (length_reverse b). apply lev_rec_le_max. Qed.

Lemma lev_ref_ge_diff a b : length a - length b <= lev_ref a b.
Proof. unfold lev_ref. rewrite <- (length_reverse a), <- (length_reverse b). apply lev_rec_ge_diff. Qed.

(** ** The properties of [_levenshtein] *)

(** C3: The one-row in-place program [_levenshtein] (the inner loop writing
    [dp[j]] with [prev] holding the old left cell) computes exactly the
    edit distance of the textbook recurrence, on the lists read from the
    front. *)
Theorem levenshtein_correct a b : _levenshtein a b = lev_ref a b.
Proof. apply levenshtein_lev_ref. Qed.

(** [_levenshtein a b] is 0 exactly when the two token lists are equal. *)
Theorem levenshtein_zero_iff a b : _levenshtein a b = 0 <-> a = b.
Proof. rewrite levenshtein_lev_ref. apply lev_ref_eq_0. Qed.

(** [_levenshtein] is symmetric. *)
Theorem levenshtein_sym a b : _levenshtein a b = _levenshtein b a.
Proof. rewrite !levenshtein_lev_ref. apply lev_ref_sym. Qed.


End Levenshtein.
