(* ===== verification/Scoring.v ===== *)
(** * Pronunciation scoring: [_wer], [_accent_mismatches], feedback

    Source: src/voice_livekit_agent/french_voice_tutor_plus.py, lines
    142-158 ([_wer], [_accent_mismatches]) and the scoring part of
    [check_pronunciation], lines 525-553.
    - [_wer] is the token edit distance over the number of reference
      tokens, a Python float: [int_truediv] rounds the exact quotient once;
      a reference with no token gives [0.0];
    - [_accent_mismatches] zips the tokens of the two texts (stopping at
      the shorter) and keeps the pairs equal up to accents but not equal;
    - [pron_tier] is the chain of [if w <= 0.2 / elif w <= 0.35 / elif
      w <= 0.5 / else], [pron_score] is [int(max(0, 100 * (1 - w)))] in
      binary64, [pron_tips] the three tip rules (accent mismatches, the
      "j’ai" rule, the liaison rule on substrings of the target);
    - [pronunciation_feedback] is what [check_pronunciation] computes once a
      target is set; the message text itself is [Tutor.render].
*)

From S2P Require Import Prelude PyFloat Text Levenshtein.
From Stdlib Require Import Lia SpecFloat.

Local Set Warnings "-clear-no-such-hyp".

(** The four levels of [check_pronunciation]. *)
Inductive pron_level := Excellent | Bien | Correct | Difficile.

(** The tips, in the order the code appends them. *)
Inductive tip :=
| TipAccents (pairs : list (pystr * pystr))   (** "Accents à surveiller: a→b, ..." *)
| TipJai                                      (** the "j’ai" pronunciation tip *)
| TipLiaison.                                 (** the liaison tip *)

#[export] Instance pron_level_eq_dec : EqDecision pron_level.
Proof. solve_decision. Defined.

#[export] Instance tip_eq_dec : EqDecision tip.
Proof. solve_decision. Defined.

Record pron_feedback := mk_feedback {
  fb_level : pron_level;
  fb_score : option Z;
  fb_wer : pyfloat;
  fb_tips : list tip
}.

(** The words of the liaison rule: [["est-ce que", "vous", "un", "une"]]. *)
Definition liaison_words : list pystr := [u8 "est-ce que"; u8 "vous"; u8 "un"; u8 "une"].

(** [if w <= 0.2 ... elif w <= 0.35 ... elif w <= 0.5 ... else ...] *)
Definition pron_tier (w : pyfloat) : pron_level :=
  if py_le w lit_0_2 then Excellent
  else if py_le w lit_0_35 then Bien
  else if py_le w lit_0_5 then Correct
  else Difficile.

(** [int(max(0, 100 * (1 - w)))]: [max] keeps [0] unless the float is
    greater; [None] is the error [int()] raises on a NaN or an infinity. *)
Definition pron_score (w : pyfloat) : option Z :=
  let x := py_mul lit_100 (py_sub lit_1 w) in
  if py_lt (float_of_int 0) x then py_int x else Some 0%Z.

Section WithUCD.
Context `{UnicodeData}.

(** [_wer(ref, hyp)] *)
Definition _wer (ref hyp : pystr) : pyfloat :=
  let r := _tokenize (_strip_accents ref) in
  let h := _tokenize (_strip_accents hyp) in
  match r with
  | [] => S754_zero false
  | _ => int_truediv (N.of_nat (_levenshtein r h)) (Pos.of_nat (length r))
  end.

(** The loop of [_accent_mismatches] over [zip(r_tokens, h_tokens)]. *)
Fixpoint mismatches_loop (pairs : list (pystr * pystr)) : list (pystr * pystr) :=
  match pairs with
  | [] => []
  | (rt, ht) :: ps =>
      if bool_decide (_strip_accents rt = _strip_accents ht) && negb (bool_decide (rt = ht))
      then (rt, ht) :: mismatches_loop ps
      else mismatches_loop ps
  end.

Definition _accent_mismatches (ref hyp : pystr) : list (pystr * pystr) :=
  let r_tokens := _tokenize ref in
  let h_tokens := _tokenize hyp in
  mismatches_loop (zip r_tokens h_tokens).

(** The three tip rules of [check_pronunciation]. *)
Definition pron_tips (target heard : pystr) (mism : list (pystr * pystr)) : list tip :=
  let t_tokens := _tokenize target in
  let h_tokens := _tokenize heard in
  (match mism with [] => [] | _ => [TipAccents (mism .[: 3])] end)
  ++ (match h_tokens, t_tokens with
      | h0 :: _, t0 :: _ =>
          if bool_decide (h0 = u8 "je") && bool_decide (t0 = u8 "j’ai") then [TipJai] else []
      | _, _ => []
      end)
  ++ (if existsb (fun t => is_substring t target) liaison_words then [TipLiaison] else []).

(** What [check_pronunciation] computes for a target and a heard line. *)
Definition pronunciation_feedback (target heard : pystr) : pron_feedback :=
  let w := _wer target heard in
  let mism := _accent_mismatches target heard in
  mk_feedback (pron_tier w) (pron_score w) w (pron_tips target heard mism).

(** The tokens [_wer] compares: accents stripped, then tokenized. *)
Definition wer_tokens (text : pystr) : list pystr := _tokenize (_strip_accents text).

End WithUCD.

(** ** Reference semantics on exact rationals

    What the thresholds and the score mean on the exact ratio [d / n] of
    edit distance to reference length: [d/n <= 1/5], [<= 35/100],
    [<= 1/2], and [floor(100 * max(0, 1 - d/n))]. *)
Definition exact_tier (d n : nat) : pron_level :=
  let d := Z.of_nat d in let n := Z.of_nat n in
  if (5 * d <=? n)%Z then Excellent
  else if (100 * d <=? 35 * n)%Z then Bien
  else if (2 * d <=? n)%Z then Correct
  else Difficile.

Definition exact_score (d n : nat) : Z :=
  let d := Z.of_nat d in let n := Z.of_nat n in
  if (d <=? n)%Z then (100 * (n - d) / n)%Z else 0%Z.

Definition is_pos_zero (w : pyfloat) : bool :=
  match w with S754_zero false => true | _ => false end.

(** The binary64 computation against the exact one, for one ratio [d/n]. *)
Definition ratio_ok (n d : Z) : bool :=
  let n := Z.to_nat n in let d := Z.to_nat d in
  let w := int_truediv (N.of_nat d) (Pos.of_nat n) in
  bool_decide (pron_tier w = exact_tier d n)
  && match pron_score w with
     | Some s => (0 <=? s)%Z && (exact_score d n - 1 <=? s)%Z && (s <=? exact_score d n)%Z
     | None => false
     end
  && Bool.eqb (is_pos_zero w) (d =? 0)%nat.

(** Token counts up to [MAX_TOKENS] are checked exhaustively. *)
Definition MAX_TOKENS : nat := 256.

(** ** The float computation, checked ratio by ratio *)

(** Every ratio [d/n] with [1 <= n <= 256] and [d <= 256], evaluated. *)
Lemma ratios_checked :
  all_range MAX_TOKENS 1 (fun n => all_range (S MAX_TOKENS) 0 (ratio_ok n)) = true.
Proof. vm_compute. reflexivity. Qed.

Lemma ratio_ok_nat n d :
  1 <= n <= MAX_TOKENS -> d <= MAX_TOKENS -> ratio_ok (Z.of_nat n) (Z.of_nat d) = true.
Proof.
  intros Hn Hd.
  apply (all_range_spec (S MAX_TOKENS) 0); [| unfold MAX_TOKENS in *; lia].
  apply (all_range_spec MAX_TOKENS 1 _ (Z.of_nat n) ratios_checked). unfold MAX_TOKENS in *; lia.
Qed.

Lemma is_pos_zero_spec w : is_pos_zero w = true <-> w = S754_zero false.
Proof. destruct w as [[]| | |]; simpl; split; congruence. Qed.

(** For every ratio in range, the binary64 tier is the exact tier, the
    score is the exact floor or one less, and [0.0] means [d = 0]. *)
Lemma ratio_facts n d :
  1 <= n <= MAX_TOKENS -> d <= MAX_TOKENS ->
  let w := int_truediv (N.of_nat d) (Pos.of_nat n) in
  pron_tier w = exact_tier d n
  /\ (exists s, pron_score w = Some s /\ 0 <= s /\ exact_score d n - 1 <= s <= exact_score d n)%Z
  /\ (w = S754_zero false <-> d = 0).
Proof.
  intros Hn Hd w. pose proof (ratio_ok_nat n d Hn Hd) as H. unfold ratio_ok in H.
  rewrite !Nat2Z.id in H. fold w in H.
  apply andb_true_iff in H as [[Ht Hs]%andb_true_iff Hz%Bool.eqb_prop].
  split; [by apply bool_decide_eq_true in Ht |]. split.
  - destruct (pron_score w) as [s|]; [| done]. bool_to_prop. eauto with lia.
  - rewrite <- is_pos_zero_spec, Hz. apply Nat.eqb_eq.
Qed.

Lemma exact_score_range d n : 1 <= n -> (0 <= exact_score d n <= 100)%Z.
Proof.
  intros Hn. unfold exact_score. destruct (Z.leb_spec (Z.of_nat d) (Z.of_nat n)); [| lia].
  split; [apply Z.div_pos; lia |]. apply Z.div_le_upper_bound; lia.
Qed.

Section WerFacts.
Context `{UnicodeData}.

Lemma wer_ratio ref hyp :
  wer_tokens ref <> [] ->
  _wer ref hyp = int_truediv (N.of_nat (_levenshtein (wer_tokens ref) (wer_tokens hyp)))
                             (Pos.of_nat (length (wer_tokens ref))).
Proof. unfold _wer, wer_tokens. by destruct (_tokenize (_strip_accents ref)). Qed.

Lemma wer_empty ref hyp : wer_tokens ref = [] -> _wer ref hyp = S754_zero false.
Proof. unfold _wer, wer_tokens. by intros ->. Qed.

Lemma levenshtein_le_tokens (r h : list pystr) :
  length r <= MAX_TOKENS -> length h <= MAX_TOKENS -> _levenshtein r h <= MAX_TOKENS.
Proof. rewrite levenshtein_lev_ref. pose proof (lev_ref_le_max r h). lia. Qed.

(** [ratio_facts] at the ratio [_wer] computes. *)
Lemma wer_ratio_facts ref hyp :
  wer_tokens ref <> [] ->
  length (wer_tokens ref) <= MAX_TOKENS -> length (wer_tokens hyp) <= MAX_TOKENS ->
  let d := _levenshtein (wer_tokens ref) (wer_tokens hyp) in
  let n := length (wer_tokens ref) in
  pron_tier (_wer ref hyp) = exact_tier d n
  /\ (exists s, pron_score (_wer ref hyp) = Some s /\ 0 <= s /\ exact_score d n - 1 <= s <= exact_score d n)%Z
  /\ (_wer ref hyp = S754_zero false <-> d = 0).
Proof.
  intros Hne Hr Hh d n. rewrite wer_ratio by done.
  apply ratio_facts; [| by apply levenshtein_le_tokens].
  destruct (wer_tokens ref); [done | simpl in *; lia].
Qed.

Lemma mismatches_loop_spec ps p :
  p ∈ mismatches_loop ps <->
  p ∈ ps /\ _strip_accents p.1 = _strip_accents p.2 /\ p.1 <> p.2.
Proof.
  induction ps as [|[rt ht] ps IH]; simpl.
  - rewrite elem_of_nil. naive_solver.
  - rewrite elem_of_cons. repeat case_bool_decide; simpl;
      rewrite ?elem_of_cons, IH; naive_solver.
Qed.

Lemma elem_of_zip {A B} (l : list A) (k : list B) p :
  p ∈ zip l k <-> exists i, l !! i = Some p.1 /\ k !! i = Some p.2.
Proof.
  rewrite list_elem_of_lookup. setoid_rewrite lookup_zip_with_Some.
  destruct p. naive_solver.
Qed.

End WerFacts.

(** ** The properties of the pronunciation scorer *)

Section ScorerProperties.
Context `{UnicodeData}.

(** C5: the tier [check_pronunciation] picks from the binary64 WER is the
    tier of the exact ratio [d/n] of token edit distance to reference
    length ([d/n <= 1/5], [<= 7/20], [<= 1/2]), for every line of at most
    256 tokens: the float thresholds [0.2], [0.35], [0.5] never misplace a
    ratio, the boundary ratios included. *)
Theorem pron_tier_exact ref hyp :
  wer_tokens ref <> [] ->
  length (wer_tokens ref) <= MAX_TOKENS -> length (wer_tokens hyp) <= MAX_TOKENS ->
  pron_tier (_wer ref hyp)
  = exact_tier (_levenshtein (wer_tokens ref) (wer_tokens hyp)) (length (wer_tokens ref)).
Proof. intros Hne Hr Hh. apply (wer_ratio_facts ref hyp Hne Hr Hh). Qed.

(** C6: the score [int(max(0, 100 * (1 - w)))] always exists, lies in
    [0, 100], and is the exact [floor(100 * max(0, 1 - d/n))] or one less
    (the float [1 - w] can fall just under the exact value and [int()]
    truncates). *)
Theorem pron_score_floor ref hyp :
  wer_tokens ref <> [] ->
  length (wer_tokens ref) <= MAX_TOKENS -> length (wer_tokens hyp) <= MAX_TOKENS ->
  exists s, pron_score (_wer ref hyp) = Some s /\ (0 <= s <= 100)%Z /\
    let e := exact_score (_levenshtein (wer_tokens ref) (wer_tokens hyp))
                         (length (wer_tokens ref)) in
    (e - 1 <= s <= e)%Z.
Proof.
  intros Hne Hr Hh.
  destruct (wer_ratio_facts ref hyp Hne Hr Hh) as (_ & (s & Hs & Hpos & Hb) & _).
  assert (Hn : 1 <= length (wer_tokens ref)) by (destruct (wer_tokens ref); [done | simpl; lia]).
  pose proof (exact_score_range (_levenshtein (wer_tokens ref) (wer_tokens hyp)) _ Hn).
  exists s. split; [done |]. simpl. lia.
Qed.

(** C37: [_wer] is [0.0] exactly when the normalized reference has no token
    or the two token lists are equal (lines of at most 256 tokens), as the
    spec's "WER bounds" property says. *)
Theorem wer_zero_iff ref hyp :
  length (wer_tokens ref) <= MAX_TOKENS -> length (wer_tokens hyp) <= MAX_TOKENS ->
  _wer ref hyp = S754_zero false <-> wer_tokens ref = [] \/ wer_tokens ref = wer_tokens hyp.
Proof.
  intros Hr Hh. destruct (decide (wer_tokens ref = [])) as [E | Hne].
  - rewrite wer_empty by done. tauto.
  - pose proof (wer_ratio_facts ref hyp Hne Hr Hh) as F. cbv zeta in F.
    destruct F as (_ & _ & ->). rewrite levenshtein_lev_ref, lev_ref_eq_0. tauto.
Qed.

(** C38: a pair is reported by [_accent_mismatches] exactly when the two
    texts have, at the same token position, tokens that are equal once
    accents are stripped and differ as written. *)
Theorem accent_mismatches_spec ref hyp rt ht :
  (rt, ht) ∈ _accent_mismatches ref hyp <->
  exists i, _tokenize ref !! i = Some rt /\ _tokenize hyp !! i = Some ht
            /\ _strip_accents rt = _strip_accents ht /\ rt <> ht.
Proof. unfold _accent_mismatches. rewrite mismatches_loop_spec, elem_of_zip. naive_solver. Qed.

(** the "j’ai" tip of [check_pronunciation] never fires: it needs a
    first target token equal to "j’ai", but no token holds U+2019. *)
Theorem jai_tip_never_fires target heard :
  TipJai ∉ fb_tips (pronunciation_feedback target heard).
Proof.
  intros Hin. unfold pronunciation_feedback, pron_tips in Hin. cbn [fb_tips] in Hin.
  rewrite !elem_of_app in Hin. destruct Hin as [Hin | [Hin | Hin]].
  - destruct (_accent_mismatches _ _); [by apply elem_of_nil in Hin |].
    by apply list_elem_of_singleton in Hin.
  - destruct (_tokenize heard) as [|h0 hs]; [by apply elem_of_nil in Hin |].
    destruct (_tokenize target) as [|t0 ts] eqn:Et; [by apply elem_of_nil in Hin |].
    assert (Hq : 8217%N ∉ t0).
    { apply (_tokenize_no_right_quote target). rewrite Et. by left. }
    rewrite (bool_decide_eq_false_2 (t0 = u8 "j’ai")), andb_false_r in Hin.
    + by apply elem_of_nil in Hin.
    + intros ->. apply Hq. apply (bool_decide_unpack _). vm_compute. exact I.
  - destruct (existsb _ _); [| by apply elem_of_nil in Hin].
    by apply list_elem_of_singleton in Hin.
Qed.

(** the accent tip lists at most three mismatches, the first ones
    [_accent_mismatches] reports, in order ([mism[:3]]). *)
Theorem accent_tip_first_three target heard ps :
  TipAccents ps ∈ fb_tips (pronunciation_feedback target heard) ->
  ps <> [] /\ length ps <= 3 /\ ps `prefix_of` _accent_mismatches target heard.
Proof.
  intros Hin. unfold pronunciation_feedback, pron_tips in Hin. cbn [fb_tips] in Hin.
  rewrite !elem_of_app in Hin. destruct Hin as [Hin | [Hin | Hin]].
  - destruct (_accent_mismatches _ _) as [|m ms]; [by apply elem_of_nil in Hin |].
    apply list_elem_of_singleton in Hin. injection Hin as ->.
    split; [done |]. split; [| apply py_take_prefix].
    rewrite py_take_nonneg by lia. rewrite length_take. lia.
  - destruct (_tokenize heard), (_tokenize target); try by apply elem_of_nil in Hin.
    destruct (_ && _); [by apply list_elem_of_singleton in Hin | by apply elem_of_nil in Hin].
  - destruct (existsb _ _); [| by apply elem_of_nil in Hin].
    by apply list_elem_of_singleton in Hin.
Qed.

End ScorerProperties.

(** the float score truncates: a five-token reference read back as
    one of its tokens has distance 4, the exact score is
    [floor(100 * (1 - 4/5)) = 20], and the code reports [19], since
    [100 * (1 - 0.8)] is [19.999999999999996] in binary64. *)
Example score_truncates :
  let r := u8 "un deux trois quatre cinq" in let h := u8 "un" in
  _levenshtein (wer_tokens r) (wer_tokens h) = 4 /\ length (wer_tokens r) = 5
  /\ pron_score (_wer r h) = Some 19%Z /\ exact_score 4 5 = 20%Z.
Proof. vm_compute. repeat split. Qed.

(** the tier boundary of the spec: a WER of exactly [0.2] is
    "Excellent", the float [0.2000001] is "Bien". *)
Example pron_tier_boundary :
  pron_tier (_wer (u8 "a b c d e") (u8 "a b c d x")) = Excellent
  /\ pron_tier (int_truediv 2000001 10000000) = Bien.
Proof. vm_compute. split; reflexivity. Qed.

(** the liaison tip tests substrings of the target, not words: it
    fires on "La lune brille." ("un" inside "lune"), whose tokens hold
    none of the liaison words. *)
Example liaison_tip_substring :
  TipLiaison ∈ fb_tips (pronunciation_feedback (u8 "La lune brille.") (u8 "la lune brille"))
  /\ Forall (fun t => t ∉ _tokenize (u8 "La lune brille.")) liaison_words.
Proof. split; apply (bool_decide_unpack _); vm_compute; exact I. Qed.

(** ** Witnesses *)

Lemma pron_tier_exact_witness :
  pron_tier (_wer (u8 "Je voudrais un café.") (u8 "je voudrais deux cafés"))
  = exact_tier (_levenshtein (wer_tokens (u8 "Je voudrais un café."))
                             (wer_tokens (u8 "je voudrais deux cafés")))
               (length (wer_tokens (u8 "Je voudrais un café."))).
Proof. apply pron_tier_exact; vm_compute; [congruence | lia | lia]. Defined.

Lemma pron_score_floor_witness :
  exists s, pron_score (_wer (u8 "Je voudrais un café.") (u8 "je voudrais deux cafés"))
            = Some s /\ (0 <= s <= 100)%Z /\
    let e := exact_score (_levenshtein (wer_tokens (u8 "Je voudrais un café."))
                                       (wer_tokens (u8 "je voudrais deux cafés")))
                         (length (wer_tokens (u8 "Je voudrais un café."))) in
    (e - 1 <= s <= e)%Z.
Proof. apply pron_score_floor; vm_compute; [congruence | lia | lia]. Defined.

Lemma wer_zero_iff_witness :
  _wer (u8 "Où est la gare ?") (u8 "ou est la gare") = S754_zero false <->
  wer_tokens (u8 "Où est la gare ?") = [] \/
  wer_tokens (u8 "Où est la gare ?") = wer_tokens (u8 "ou est la gare").
Proof. apply wer_zero_iff; vm_compute; lia. Defined.

Lemma accent_tip_first_three_witness :
  let fb := pronunciation_feedback (u8 "Un café.") (u8 "un cafe") in
  TipAccents [(u8 "café", u8 "cafe")] ∈ fb_tips fb /\
  [(u8 "café", u8 "cafe")] <> [] /\ length [(u8 "café", u8 "cafe")] <= 3 /\
  [(u8 "café", u8 "cafe")] `prefix_of` _accent_mismatches (u8 "Un café.") (u8 "un cafe").
Proof.
  assert (H : TipAccents [(u8 "café", u8 "cafe")]
              ∈ fb_tips (pronunciation_feedback (u8 "Un café.") (u8 "un cafe"))).
  { apply (bool_decide_unpack _). vm_compute. exact I. }
  split; [exact H | exact (accent_tip_first_three _ _ _ H)].
Defined.
