(* ===== verification/DateTime.v ===== *)
(** * Python's [datetime], as the scheduler uses it

    The tutor stores due dates as strings written by
    [datetime.isoformat(timespec="seconds")] and reads them back with
    [datetime.fromisoformat]; it adds [timedelta(days=n)] to
    [datetime.now()] and compares naive datetimes with [<=].

    A naive [datetime] is the number of microseconds since
    0001-01-01T00:00:00 ([datetime.min]); its range ends at
    9999-12-31T23:59:59.999999 ([datetime.max]).  Adding a [timedelta]
    that leaves the range raises [OverflowError] ([dt_add_days] returns
    [None]).  The string codec is the class [PyDateTime]: a parse either
    gives a naive datetime, an aware one (the string had a UTC offset), or
    fails with [ValueError]; its law is that parsing what [isoformat] wrote
    gives the datetime back, truncated to the second.  [IsoTime] gives the
    instance that transcribes CPython's calendar code.
*)

From S2P Require Import Prelude.
From Stdlib Require Import Lia.

Local Open Scope Z_scope.

Abbreviation datetime := Z.

Definition us_per_second : Z := 1000000.
Definition us_per_day : Z := 86400 * us_per_second.

(** [date(9999, 12, 31).toordinal()] days, the last microsecond of the last one. *)
Definition MAX_ORDINAL : Z := 3652059.
Definition datetime_max : datetime := MAX_ORDINAL * us_per_day - 1.

Definition dt_valid (t : datetime) : Prop := 0 <= t <= datetime_max.
Definition dt_validb (t : datetime) : bool := (0 <=? t) && (t <=? datetime_max).

(** [t + timedelta(days=d)], or [OverflowError]. *)
Definition dt_add_days (t : datetime) (d : Z) : option datetime :=
  let t' := t + d * us_per_day in
  if dt_validb t' then Some t' else None.

(** [datetime(1970, 1, 1)]: ordinal 719163. *)
Definition epoch : datetime := 719162 * us_per_day.

(** Truncation to the second, what [isoformat(timespec="seconds")] keeps. *)
Definition trunc_seconds (t : datetime) : datetime := t - t mod us_per_second.

(** The result of [datetime.fromisoformat(s)]. *)
Inductive iso_parsed :=
| ParsedNaive (t : datetime)
| ParsedAware (t : datetime) (offset_seconds : Z)
| ParseError.

Class PyDateTime := {
  isoformat_seconds : datetime -> pystr;
  fromisoformat : pystr -> iso_parsed;
  fromisoformat_isoformat :
    forall t, dt_valid t -> fromisoformat (isoformat_seconds t) = ParsedNaive (trunc_seconds t)
}.

(** ** Arithmetic facts *)

Lemma dt_validb_spec t : dt_validb t = true <-> dt_valid t.
Proof. unfold dt_validb, dt_valid. rewrite andb_true_iff, Z.leb_le, Z.leb_le. done. Qed.

Lemma dt_add_days_Some t d :
  dt_valid (t + d * us_per_day) -> dt_add_days t d = Some (t + d * us_per_day).
Proof. intros H. unfold dt_add_days. by rewrite (proj2 (dt_validb_spec _) H). Qed.

Lemma dt_add_days_None t d :
  ~ dt_valid (t + d * us_per_day) -> dt_add_days t d = None.
Proof.
  intros H. unfold dt_add_days. destruct (dt_validb _) eqn:E; [| done].
  exfalso. by apply H, dt_validb_spec.
Qed.

Lemma trunc_seconds_le t : trunc_seconds t <= t.
Proof. unfold trunc_seconds, us_per_second. pose proof (Z.mod_pos_bound t 1000000). lia. Qed.

Lemma trunc_seconds_gt t : t - us_per_second < trunc_seconds t.
Proof. unfold trunc_seconds, us_per_second. pose proof (Z.mod_pos_bound t 1000000). lia. Qed.

Lemma trunc_seconds_valid t : dt_valid t -> dt_valid (trunc_seconds t).
Proof.
  unfold dt_valid, trunc_seconds, us_per_second. intros H.
  pose proof (Z.mod_pos_bound t 1000000). assert (0 <= t mod 1000000 <= t).
  { split; [lia | apply Z.mod_le; lia]. }
  lia.
Qed.
