(* ===== verification/Calendar.v ===== *)
(** * The proleptic Gregorian calendar of Python's [datetime]

    [_is_leap], [_days_before_year], [_days_in_month],
    [_days_before_month], [_ymd2ord] and [_ord2ymd] transcribe CPython's
    [Lib/_pydatetime.py] (the C module [_datetime] computes the same);
    dates are [(year, month, day)] and ordinals count days from
    0001-01-01 = 1.  The main fact, [ord2ymd_ymd2ord], says that every
    ordinal of [datetime]'s range is a valid date which [_ymd2ord] maps
    back: it is proved for one 400-year cycle by evaluation
    ([cycle_checked]) and extended by periodicity ([ord2ymd_cycle],
    [ymd2ord_cycle]).
*)

From S2P Require Import Prelude DateTime.
From Stdlib Require Import Lia.

Local Open Scope Z_scope.

(** ** The calendar of [_pydatetime] *)

Definition _DAYS_IN_MONTH : list Z := [-1; 31; 28; 31; 30; 31; 30; 31; 31; 30; 31; 30; 31].
Definition _DAYS_BEFORE_MONTH : list Z := [-1; 0; 31; 59; 90; 120; 151; 181; 212; 243; 273; 304; 334].

Definition zidx (l : list Z) (i : Z) : Z := nth (Z.to_nat i) l 0.

Definition _is_leap (year : Z) : bool :=
  (year mod 4 =? 0) && (negb (year mod 100 =? 0) || (year mod 400 =? 0)).

Definition _days_before_year (year : Z) : Z :=
  let y := year - 1 in y * 365 + y / 4 - y / 100 + y / 400.

Definition _days_in_month (year month : Z) : Z :=
  if (month =? 2) && _is_leap year then 29 else zidx _DAYS_IN_MONTH month.

Definition _days_before_month (year month : Z) : Z :=
  zidx _DAYS_BEFORE_MONTH month + (if (month >? 2) && _is_leap year then 1 else 0).

Definition _ymd2ord (year month day : Z) : Z :=
  _days_before_year year + _days_before_month year month + day.

Definition _DI400Y : Z := 146097.
Definition _DI100Y : Z := 36524.
Definition _DI4Y : Z := 1461.

Definition _ord2ymd (n0 : Z) : Z * Z * Z :=
  let n := n0 - 1 in
  let n400 := n / _DI400Y in let n := n mod _DI400Y in
  let year := n400 * 400 + 1 in
  let n100 := n / _DI100Y in let n := n mod _DI100Y in
  let n4 := n / _DI4Y in let n := n mod _DI4Y in
  let n1 := n / 365 in let n := n mod 365 in
  let year := year + n100 * 100 + n4 * 4 + n1 in
  if (n1 =? 4) || (n100 =? 4) then (year - 1, 12, 31)
  else
    let leapyear := (n1 =? 3) && (negb (n4 =? 24) || (n100 =? 3)) in
    let month := Z.shiftr (n + 50) 5 in
    let preceding := zidx _DAYS_BEFORE_MONTH month + (if (month >? 2) && leapyear then 1 else 0) in
    let '(month, preceding) :=
      if preceding >? n then
        let month := month - 1 in
        (month, preceding - (zidx _DAYS_IN_MONTH month + (if (month =? 2) && leapyear then 1 else 0)))
      else (month, preceding) in
    (year, month, n - preceding + 1).

(** A date the [datetime] constructor accepts. *)
Definition valid_ymd (y m d : Z) : bool :=
  (1 <=? y) && (y <=? 9999) && (1 <=? m) && (m <=? 12) && (1 <=? d) && (d <=? _days_in_month y m).

(** ** The calendar is periodic with period 400 years = 146097 days *)

Lemma is_leap_cycle y c : _is_leap (y + 400 * c) = _is_leap y.
Proof.
  unfold _is_leap.
  replace (y + 400 * c) with (y + (100 * c) * 4) by lia. rewrite Z_mod_plus_full.
  replace (y + 100 * c * 4) with (y + (4 * c) * 100) by lia. rewrite Z_mod_plus_full.
  replace (y + 4 * c * 100) with (y + c * 400) by lia. rewrite Z_mod_plus_full.
  reflexivity.
Qed.

Lemma days_in_month_cycle y c m : _days_in_month (y + 400 * c) m = _days_in_month y m.
Proof. unfold _days_in_month. by rewrite is_leap_cycle. Qed.

Lemma ymd2ord_cycle y c m d : _ymd2ord (y + 400 * c) m d = _ymd2ord y m d + _DI400Y * c.
Proof.
  unfold _ymd2ord, _days_before_month, _days_before_year, _DI400Y. rewrite is_leap_cycle.
  assert (H4 : (y + 400 * c - 1) / 4 = (y - 1) / 4 + 100 * c).
  { replace (y + 400 * c - 1) with (y - 1 + (100 * c) * 4) by lia. apply Z.div_add. lia. }
  assert (H100 : (y + 400 * c - 1) / 100 = (y - 1) / 100 + 4 * c).
  { replace (y + 400 * c - 1) with (y - 1 + (4 * c) * 100) by lia. apply Z.div_add. lia. }
  assert (H400 : (y + 400 * c - 1) / 400 = (y - 1) / 400 + c).
  { replace (y + 400 * c - 1) with (y - 1 + c * 400) by lia. apply Z.div_add. lia. }
  rewrite H4, H100, H400. lia.
Qed.

Lemma ord2ymd_cycle k c :
  _ord2ymd (k + _DI400Y * c) =
  let '(y, m, d) := _ord2ymd k in (y + 400 * c, m, d).
Proof.
  unfold _ord2ymd, _DI400Y. replace (k + 146097 * c - 1) with (k - 1 + c * 146097) by lia.
  rewrite Z.div_add, Z_mod_plus_full by lia. cbv zeta.
  destruct (_ || _); [f_equal; f_equal; lia |].
  destruct (_ >? _); f_equal; f_equal; lia.
Qed.

(** One 400-year cycle, checked day by day: the date is valid, maps back
    to the ordinal, and the years 1..399 end at ordinal 145731. *)
Definition cycle_ok (k : Z) : bool :=
  let '(y, m, d) := _ord2ymd (k + 1) in
  valid_ymd y m d && (_ymd2ord y m d =? k + 1) && (y <=? 400)
  && ((y <=? 399) || (145731 <? k + 1)).

Lemma cycle_checked : all_range (Z.to_nat _DI400Y) 0 cycle_ok = true.
Proof. vm_compute. reflexivity. Qed.

(** Every ordinal of the range is a valid date that [_ymd2ord] maps back. *)
Lemma ord2ymd_ymd2ord n :
  1 <= n <= MAX_ORDINAL ->
  let '(y, m, d) := _ord2ymd n in valid_ymd y m d = true /\ _ymd2ord y m d = n.
Proof.
  intros Hn. unfold MAX_ORDINAL in Hn.
  set (c := (n - 1) / _DI400Y). set (k := (n - 1) mod _DI400Y).
  assert (Hk : 0 <= k < _DI400Y) by (apply Z.mod_pos_bound; unfold _DI400Y; lia).
  assert (Hnk : n = (k + 1) + _DI400Y * c).
  { pose proof (Z.div_mod (n - 1) _DI400Y) as Hd. unfold k, c. unfold _DI400Y in *. lia. }
  assert (Hc : 0 <= c < 25).
  { unfold c, _DI400Y. split; [apply Z.div_pos | apply Z.div_lt_upper_bound]; lia. }
  pose proof (all_range_spec _ _ _ k cycle_checked) as Hok.
  rewrite Z2Nat.id in Hok by (unfold _DI400Y; lia). specialize (Hok ltac:(lia)).
  unfold cycle_ok in Hok. rewrite Hnk, ord2ymd_cycle.
  destruct (_ord2ymd (k + 1)) as [[y m] d]. unfold valid_ymd in *.
  rewrite days_in_month_cycle, ymd2ord_cycle. bool_to_prop.
  split; [| lia].
  repeat match goal with H : (_ || _) = true |- _ => apply orb_prop in H; destruct H as [H | H] end;
    bool_to_prop; repeat (apply andb_true_iff; split); apply Z.leb_le; unfold _DI400Y in *; lia.
Qed.

Lemma days_in_month_le_31 y m : 1 <= m <= 12 -> _days_in_month y m <= 31.
Proof.
  intros Hm. unfold _days_in_month.
  assert (m = 1 \/ m = 2 \/ m = 3 \/ m = 4 \/ m = 5 \/ m = 6 \/ m = 7 \/ m = 8 \/ m = 9
          \/ m = 10 \/ m = 11 \/ m = 12) as Hcases by lia.
  repeat destruct Hcases as [-> | Hcases]; try subst m; destruct (_is_leap y);
    unfold zidx; simpl; lia.
Qed.
