(* ===== verification/IsoTime.v ===== *)
(** * The ISO-8601 codec of Python's [datetime]: an instance of [PyDateTime]

    The calendar is in [Calendar].  [iso_seconds] is
    [isoformat(timespec="seconds")], the format
    ["%04d-%02d-%02dT%02d:%02d:%02d"]; [iso_parse] is
    [datetime.fromisoformat] on the grammar every CPython since 3.7
    accepts: [YYYY-MM-DD], optionally followed by one separator character
    and [HH[:MM[:SS[.fff|.ffffff]]]] and an offset [+HH:MM] or [-HH:MM];
    anything else is a [ValueError] (newer versions accept more forms,
    which the tutor never writes).

    The round trip [iso_parse (iso_seconds t) = ParsedNaive (trunc_seconds t)]
    rests on [Calendar.ord2ymd_ymd2ord] and on the round trip of the
    fixed-width decimal fields.
*)

From S2P Require Import Prelude DateTime Calendar.
From Stdlib Require Import Lia.

Local Open Scope Z_scope.

(** ** Fixed-width decimal fields *)

Definition digit_char (v : Z) : N := Z.to_N (48 + v).

Fixpoint pad_digits (w : nat) (n : Z) : pystr :=
  match w with
  | O => []
  | S w' => pad_digits w' (n / 10) ++ [digit_char (n mod 10)]
  end.

Definition is_digit (c : N) : bool := (48 <=? c)%N && (c <=? 57)%N.

Definition digits_value (l : pystr) : Z :=
  fold_left (fun acc c => acc * 10 + (Z.of_N c - 48)) l 0.

(** Exactly [w] ASCII digits at the front of [s]. *)
Definition parse_digits (w : nat) (s : pystr) : option (Z * pystr) :=
  let p := take w s in
  if (length p =? w)%nat && forallb is_digit p then Some (digits_value p, drop w s) else None.

Definition expect (c : N) (s : pystr) : option pystr :=
  match s with
  | c' :: s' => if (c' =? c)%N then Some s' else None
  | [] => None
  end.

(** ** [isoformat(timespec="seconds")] *)

Definition iso_fields (y mo d hh mi ss : Z) : pystr :=
  pad_digits 4 y ++ [45%N] ++ pad_digits 2 mo ++ [45%N] ++ pad_digits 2 d ++ [84%N]
  ++ pad_digits 2 hh ++ [58%N] ++ pad_digits 2 mi ++ [58%N] ++ pad_digits 2 ss.

Definition iso_seconds (t : datetime) : pystr :=
  let '(y, mo, d) := _ord2ymd (t / us_per_day + 1) in
  let secs := (t mod us_per_day) / us_per_second in
  iso_fields y mo d (secs / 3600) ((secs / 60) mod 60) (secs mod 60).

(** ** [datetime.fromisoformat] *)

Definition parse_date (s : pystr) : option (Z * Z * Z * pystr) :=
  '(y, s) ← parse_digits 4 s; s ← expect 45 s;
  '(mo, s) ← parse_digits 2 s; s ← expect 45 s;
  '(d, s) ← parse_digits 2 s; Some (y, mo, d, s).

(** [.fff] or [.ffffff], to the end of the string, in microseconds. *)
Definition parse_fraction (s : pystr) : option Z :=
  match length s with
  | 3%nat => '(f, _) ← parse_digits 3 s; Some (f * 1000)
  | 6%nat => '(f, _) ← parse_digits 6 s; Some f
  | _ => None
  end.

(** [HH[:MM[:SS[.ffffff]]]] to the end of the string. *)
Definition parse_hms (s : pystr) : option (Z * Z * Z * Z) :=
  '(h, s) ← parse_digits 2 s;
  match s with
  | [] => Some (h, 0, 0, 0)
  | 58%N :: s =>
      '(mi, s) ← parse_digits 2 s;
      match s with
      | [] => Some (h, mi, 0, 0)
      | 58%N :: s =>
          '(sec, s) ← parse_digits 2 s;
          match s with
          | [] => Some (h, mi, sec, 0)
          | 46%N :: s => us ← parse_fraction s; Some (h, mi, sec, us)
          | _ => None
          end
      | _ => None
      end
  | _ => None
  end.

(** The clock runs up to the first [+] or [-]. *)
Fixpoint split_offset (s : pystr) : pystr * pystr :=
  match s with
  | [] => ([], [])
  | c :: s' =>
      if (c =? 43)%N || (c =? 45)%N then ([], s)
      else let '(a, b) := split_offset s' in (c :: a, b)
  end.

(** The time part: the clock, then an optional UTC offset in seconds. *)
Definition parse_time (s : pystr) : option (Z * Z * Z * Z * option Z) :=
  let '(clock, tz) := split_offset s in
  '(h, mi, sec, us) ← parse_hms clock;
  match tz with
  | [] => Some (h, mi, sec, us, None)
  | sign :: off =>
      '(oh, om, os, ous) ← parse_hms off;
      let o := oh * 3600 + om * 60 + os in
      Some (h, mi, sec, us, Some (if (sign =? 45)%N then - o else o))
  end.

Definition valid_clock (h mi sec us : Z) : bool :=
  (0 <=? h) && (h <? 24) && (0 <=? mi) && (mi <? 60) && (0 <=? sec) && (sec <? 60)
  && (0 <=? us) && (us <? 1000000).

Definition mk_datetime (y mo d h mi sec us : Z) : datetime :=
  (_ymd2ord y mo d - 1) * us_per_day + ((h * 60 + mi) * 60 + sec) * us_per_second + us.

Definition iso_parse (s : pystr) : iso_parsed :=
  match parse_date s with
  | None => ParseError
  | Some (y, mo, d, rest) =>
      let time :=
        match rest with
        | [] => Some (0, 0, 0, 0, None)
        | _ :: tstr => parse_time tstr
        end in
      match time with
      | Some (h, mi, sec, us, tz) =>
          if valid_ymd y mo d && valid_clock h mi sec us then
            match tz with
            | None => ParsedNaive (mk_datetime y mo d h mi sec us)
            | Some o => ParsedAware (mk_datetime y mo d h mi sec us) o
            end
          else ParseError
      | None => ParseError
      end
  end.

(** ** Fixed-width decimal fields round-trip *)

Lemma length_pad_digits w n : length (pad_digits w n) = w.
Proof. revert n. induction w as [|w IH]; intros n; [done |]. simpl. rewrite length_app, IH. simpl. lia. Qed.

Lemma digit_char_is_digit v : 0 <= v < 10 -> is_digit (digit_char v) = true.
Proof.
  intros Hv. unfold is_digit, digit_char. apply andb_true_iff.
  split; apply N.leb_le; apply N2Z.inj_le; rewrite Z2N.id by lia; simpl; lia.
Qed.

Lemma pad_digits_digits w n : 0 <= n -> Forall (fun c => is_digit c = true) (pad_digits w n).
Proof.
  revert n. induction w as [|w IH]; intros n Hn; simpl; [constructor |].
  apply Forall_app. split; [apply IH; apply Z.div_pos; lia |].
  constructor; [| constructor]. apply digit_char_is_digit, Z.mod_pos_bound. lia.
Qed.

Lemma digits_value_snoc l c :
  digits_value (l ++ [c]) = digits_value l * 10 + (Z.of_N c - 48).
Proof. unfold digits_value. by rewrite fold_left_app. Qed.

Lemma pad_digits_value w n : 0 <= n < 10 ^ Z.of_nat w -> digits_value (pad_digits w n) = n.
Proof.
  revert n. induction w as [|w IH]; intros n Hn.
  - simpl in Hn. assert (n = 0) by lia. by subst.
  - simpl. rewrite digits_value_snoc, IH.
    + unfold digit_char. pose proof (Z.mod_pos_bound n 10). rewrite Z2N.id by lia.
      pose proof (Z.div_mod n 10). lia.
    + rewrite Nat2Z.inj_succ, Z.pow_succ_r in Hn by lia.
      split; [apply Z.div_pos; lia | apply Z.div_lt_upper_bound; lia].
Qed.

Lemma forallb_digits l : Forall (fun c => is_digit c = true) l -> forallb is_digit l = true.
Proof. intros H. apply forallb_forall. intros x Hx. rewrite Forall_forall in H. apply H. by apply list_elem_of_In. Qed.

Lemma parse_digits_pad w n rest :
  0 <= n < 10 ^ Z.of_nat w -> parse_digits w (pad_digits w n ++ rest) = Some (n, rest).
Proof.
  intros Hn. unfold parse_digits.
  rewrite take_app_length' by (symmetry; apply length_pad_digits).
  rewrite drop_app_length' by (symmetry; apply length_pad_digits).
  rewrite length_pad_digits, Nat.eqb_refl, forallb_digits by (apply pad_digits_digits; lia).
  simpl. by rewrite pad_digits_value.
Qed.


(** ** The round trip of the codec *)

Lemma split_offset_no_sign s :
  Forall (fun c => c <> 43%N /\ c <> 45%N) s -> split_offset s = (s, []).
Proof.
  induction s as [|c s IH]; intros Hs; [done |]. apply Forall_cons in Hs as [[H43 H45] Hs].
  simpl. rewrite (proj2 (N.eqb_neq c 43) H43), (proj2 (N.eqb_neq c 45) H45), IH by done.
  reflexivity.
Qed.

Lemma pad_digits_no_sign w n :
  0 <= n -> Forall (fun c => c <> 43%N /\ c <> 45%N) (pad_digits w n).
Proof.
  intros Hn. eapply Forall_impl; [by apply pad_digits_digits |].
  intros c Hc. unfold is_digit in Hc. bool_to_prop. lia.
Qed.

Definition clock_fields (hh mi ss : Z) : pystr :=
  pad_digits 2 hh ++ [58%N] ++ pad_digits 2 mi ++ [58%N] ++ pad_digits 2 ss.

Lemma parse_time_clock hh mi ss :
  0 <= hh < 100 -> 0 <= mi < 100 -> 0 <= ss < 100 ->
  parse_time (clock_fields hh mi ss) = Some (hh, mi, ss, 0, None).
Proof.
  intros Hh Hm Hs. unfold parse_time, clock_fields.
  rewrite split_offset_no_sign.
  - unfold parse_hms. rewrite parse_digits_pad by (simpl; lia). cbn [app mbind option_bind].
    rewrite parse_digits_pad by (simpl; lia). cbn [app mbind option_bind].
    rewrite <- (app_nil_r (pad_digits 2 ss)), parse_digits_pad by (simpl; lia).
    reflexivity.
  - rewrite !Forall_app. repeat split;
      first [apply pad_digits_no_sign; lia | repeat constructor; lia].
Qed.

Lemma parse_date_fields y mo d rest :
  0 <= y < 10000 -> 0 <= mo < 100 -> 0 <= d < 100 ->
  parse_date (pad_digits 4 y ++ [45%N] ++ pad_digits 2 mo ++ [45%N] ++ pad_digits 2 d ++ rest)
  = Some (y, mo, d, rest).
Proof.
  intros Hy Hm Hd. unfold parse_date.
  rewrite parse_digits_pad by (simpl; lia). cbn [app expect mbind option_bind N.eqb Pos.eqb].
  rewrite parse_digits_pad by (simpl; lia). cbn [app expect mbind option_bind N.eqb Pos.eqb].
  rewrite parse_digits_pad by (simpl; lia). reflexivity.
Qed.

Lemma secs_decomp s : 0 <= s -> (s / 3600 * 60 + (s / 60) mod 60) * 60 + s mod 60 = s.
Proof.
  intros Hs. replace (s / 3600) with (s / 60 / 60) by (rewrite Z.div_div by lia; reflexivity).
  pose proof (Z.div_mod (s / 60) 60). pose proof (Z.div_mod s 60). lia.
Qed.

Lemma trunc_split t :
  t / us_per_day * us_per_day + t mod us_per_day / us_per_second * us_per_second
  = trunc_seconds t.
Proof.
  unfold trunc_seconds, us_per_day, us_per_second.
  set (r := t mod (86400 * 1000000)).
  assert (Ht : t = r + t / (86400 * 1000000) * 86400 * 1000000).
  { pose proof (Z.div_mod t (86400 * 1000000)). unfold r. lia. }
  assert (Hm : t mod 1000000 = r mod 1000000).
  { rewrite Ht at 1. apply Z_mod_plus_full. }
  rewrite Hm. pose proof (Z.div_mod r 1000000). lia.
Qed.

Lemma iso_fields_split y mo d hh mi ss :
  iso_fields y mo d hh mi ss =
  pad_digits 4 y ++ [45%N] ++ pad_digits 2 mo ++ [45%N] ++ pad_digits 2 d
  ++ 84%N :: clock_fields hh mi ss.
Proof. reflexivity. Qed.

Lemma valid_clock_true h mi sec us :
  0 <= h < 24 -> 0 <= mi < 60 -> 0 <= sec < 60 -> 0 <= us < 1000000 ->
  valid_clock h mi sec us = true.
Proof.
  intros. unfold valid_clock.
  repeat (apply andb_true_iff; split); first [apply Z.leb_le | apply Z.ltb_lt]; lia.
Qed.

(** Parsing what [isoformat(timespec="seconds")] wrote gives the
    datetime back, truncated to the second. *)
Lemma iso_roundtrip t : dt_valid t -> iso_parse (iso_seconds t) = ParsedNaive (trunc_seconds t).
Proof.
  intros Ht. unfold dt_valid, datetime_max in Ht.
  assert (Hq : 0 <= t / us_per_day < MAX_ORDINAL).
  { unfold us_per_day, us_per_second, MAX_ORDINAL in *.
    split; [apply Z.div_pos | apply Z.div_lt_upper_bound]; lia. }
  assert (Hr : 0 <= t mod us_per_day < us_per_day).
  { apply Z.mod_pos_bound. unfold us_per_day, us_per_second. lia. }
  pose proof (ord2ymd_ymd2ord (t / us_per_day + 1) ltac:(lia)) as Hc.
  unfold iso_seconds.
  destruct (_ord2ymd (t / us_per_day + 1)) as [[y mo] d]. destruct Hc as [Hv Hord].
  set (secs := t mod us_per_day / us_per_second).
  assert (Hs : 0 <= secs < 86400).
  { unfold secs, us_per_day, us_per_second in *.
    split; [apply Z.div_pos | apply Z.div_lt_upper_bound]; lia. }
  pose proof Hv as Hv'. unfold valid_ymd in Hv'. bool_to_prop.
  pose proof (days_in_month_le_31 y mo ltac:(lia)).
  pose proof (Z.mod_pos_bound (secs / 60) 60 ltac:(lia)).
  pose proof (Z.mod_pos_bound secs 60 ltac:(lia)).
  assert (0 <= secs / 3600 < 24) by (split; [apply Z.div_pos | apply Z.div_lt_upper_bound]; lia).
  rewrite iso_fields_split. unfold iso_parse.
  rewrite parse_date_fields by lia. cbn iota beta.
  rewrite parse_time_clock by lia. rewrite Hv, valid_clock_true by lia. simpl andb.
  f_equal. unfold mk_datetime. rewrite Hord, secs_decomp by lia.
  rewrite <- trunc_split. fold secs. lia.
Qed.

(** CPython's codec, as an instance of the [datetime] interface. *)
#[export] Instance cpython_datetime : PyDateTime := {
  isoformat_seconds := iso_seconds;
  fromisoformat := iso_parse;
  fromisoformat_isoformat := iso_roundtrip
}.
