(* ===== verification/Leitner.v ===== *)
(** * The Leitner scheduler: [BOX_DELAYS_DAYS], [_next_due], box moves

    Source: src/voice_livekit_agent/french_voice_tutor_plus.py, lines
    164-170 ([BOX_DELAYS_DAYS], [_next_due]) and the box updates of
    [answer_quiz], lines 489-497.
    - [BOX_DELAYS_DAYS] is the dict as an association list and
      [int_dict_get] its [.get(k, default)];
    - [_next_due box now] clamps the box to [1,5], adds the delay in days
      with [timedelta] (which can raise [OverflowError], [None] here) and
      renders the result with [isoformat(timespec="seconds")];
    - [promote_box] is [min(5, box + 1)], the box after a correct answer;
      a wrong answer sets the box to 1.
    The theorems are stated against the [PyDateTime] interface, so they
    hold for any codec that reads back what it writes.
*)

From S2P Require Import Prelude DateTime IsoTime.
From Stdlib Require Import Lia.

Local Open Scope Z_scope.

(** [BOX_DELAYS_DAYS = {1: 1, 2: 2, 3: 4, 4: 7, 5: 15}] *)
Definition BOX_DELAYS_DAYS : list (Z * Z) := [(1, 1); (2, 2); (3, 4); (4, 7); (5, 15)].

(** [d.get(k, default)] on a dict with int keys. *)
Definition int_dict_get (d : list (Z * Z)) (k default : Z) : Z :=
  match find (fun kv => kv.1 =? k) d with
  | Some kv => kv.2
  | None => default
  end.

(** [max(1, min(5, box))] *)
Definition clamp_box (box : Z) : Z := Z.max 1 (Z.min 5 box).

(** The delay [_next_due] adds, in days. *)
Definition box_delay (box : Z) : Z := int_dict_get BOX_DELAYS_DAYS (clamp_box box) 1.

(** [min(5, it.get("box", 1) + 1)] *)
Definition promote_box (box : Z) : Z := Z.min 5 (box + 1).

Section Scheduler.
Context `{PyDateTime}.

(** [_next_due(box, now)]; [None] is the [OverflowError] of
    [now + timedelta(days=days)] past [datetime.max]. *)
Definition _next_due (box : Z) (now : datetime) : option pystr :=
  let days := int_dict_get BOX_DELAYS_DAYS (Z.max 1 (Z.min 5 box)) 1 in
  option_map isoformat_seconds (dt_add_days now days).

(** ** The delay table *)

Lemma clamp_box_range box : 1 <= clamp_box box <= 5.
Proof. unfold clamp_box. lia. Qed.

Lemma clamp_box_id box : 1 <= box <= 5 -> clamp_box box = box.
Proof. unfold clamp_box. lia. Qed.

Lemma box_delay_table box :
  box_delay box =
  match clamp_box box with 1 => 1 | 2 => 2 | 3 => 4 | 4 => 7 | _ => 15 end.
Proof.
  unfold box_delay. pose proof (clamp_box_range box).
  destruct (clamp_box box) as [|p|p]; try lia.
  do 3 (try destruct p as [p|p|]); try lia; reflexivity.
Qed.

Lemma box_delay_pos box : 1 <= box_delay box <= 15.
Proof. rewrite box_delay_table. pose proof (clamp_box_range box).
  destruct (clamp_box box) as [|p|p]; try lia. do 3 (try destruct p as [p|p|]); lia.
Qed.

(** Longer delays for higher boxes. *)
Lemma box_delay_mono b1 b2 : b1 <= b2 -> box_delay b1 <= box_delay b2.
Proof.
  intros Hle. rewrite !box_delay_table.
  assert (Hc : clamp_box b1 <= clamp_box b2) by (unfold clamp_box; lia).
  pose proof (clamp_box_range b1). pose proof (clamp_box_range b2).
  destruct (clamp_box b1) as [|p|p], (clamp_box b2) as [|q|q]; try lia;
    do 3 (try destruct p as [p|p|]); do 3 (try destruct q as [q|q|]); lia.
Qed.

Lemma next_due_box_delay box now :
  _next_due box now = option_map isoformat_seconds (dt_add_days now (box_delay box)).
Proof. reflexivity. Qed.

(** ** Reading a due date back *)

Lemma next_due_parse box now s :
  _next_due box now = Some s ->
  fromisoformat s = ParsedNaive (trunc_seconds (now + box_delay box * us_per_day)).
Proof.
  rewrite next_due_box_delay. unfold dt_add_days.
  destruct (dt_validb _) eqn:Hv; simpl; intros Hs; [| discriminate].
  injection Hs as <-. apply fromisoformat_isoformat, dt_validb_spec, Hv.
Qed.

Lemma next_due_some box now :
  dt_valid (now + box_delay box * us_per_day) -> exists s, _next_due box now = Some s.
Proof.
  intros Hv. rewrite next_due_box_delay, dt_add_days_Some by done. simpl. eauto.
Qed.

Lemma next_due_none box now :
  ~ dt_valid (now + box_delay box * us_per_day) -> _next_due box now = None.
Proof. intros Hv. rewrite next_due_box_delay, dt_add_days_None by done. reflexivity. Qed.

End Scheduler.

(** ** Box moves *)

Lemma promote_box_range box : 1 <= box <= 5 -> 1 <= promote_box box <= 5.
Proof. unfold promote_box. lia. Qed.

Lemma promote_box_spec box : box <= 5 -> promote_box box = if box =? 5 then 5 else box + 1.
Proof. unfold promote_box. intros Hb. destruct (Z.eqb_spec box 5); lia. Qed.

#[export] Hint Resolve clamp_box_range promote_box_range box_delay_pos : pyhints.

(** ** The properties of the scheduler *)

Section SchedulerProperties.
Context `{PyDateTime}.

(** the spec's due-date determinism: [_next_due] clamps the box to
    [1,5] before the lookup, so box 0 is scheduled like box 1 and box 9
    like box 5, and the delays are 1, 2, 4, 7 and 15 days. *)
Theorem next_due_clamps box now :
  _next_due box now = _next_due (clamp_box box) now
  /\ map box_delay [1; 2; 3; 4; 5] = [1; 2; 4; 7; 15].
Proof.
  split; [| reflexivity]. rewrite !next_due_box_delay. unfold box_delay.
  by rewrite (clamp_box_id (clamp_box box)) by apply clamp_box_range.
Qed.

End SchedulerProperties.

(** the box moves of [answer_quiz] on boxes in [1,5]: an accepted
    answer raises the box by one, up to 5 where it stays, and the result
    stays in [1,5]. *)
Theorem box_monotonicity box :
  1 <= box <= 5 ->
  (box < 5 -> promote_box box = box + 1) /\ (box = 5 -> promote_box box = 5)
  /\ 1 <= promote_box box <= 5.
Proof. intros Hb. unfold promote_box. lia. Qed.

(** [min(5, box + 1)] does not clamp from below: a box loaded from the
    progress file outside [1,5], say -3, is promoted to -2. *)
Example promote_unclamped_low : promote_box (-3) = -2.
Proof. reflexivity. Qed.

(** C36: what [_next_due] writes, CPython's [datetime.fromisoformat] reads
    back as [now] plus the delay of the clamped box, to the second. *)
Theorem next_due_readback box now s :
  _next_due box now = Some s ->
  iso_parse s = ParsedNaive (trunc_seconds (now + box_delay box * us_per_day)).
Proof. apply (next_due_parse (H := cpython_datetime)). Qed.

Lemma box_monotonicity_witness :
  (3 < 5 -> promote_box 3 = 3 + 1) /\ (3 = 5 -> promote_box 3 = 5) /\ 1 <= promote_box 3 <= 5.
Proof. apply box_monotonicity. lia. Defined.

Lemma next_due_readback_witness :
  iso_parse (iso_seconds (epoch + 2 * us_per_day))
  = ParsedNaive (trunc_seconds (epoch + box_delay 2 * us_per_day)).
Proof. apply (next_due_readback 2 epoch). vm_compute. reflexivity. Defined.
