(* ===== verification/TutorState.v ===== *)
(** * The state of [FrenchTutorPlus], its effects, and its helpers

    Source: src/voice_livekit_agent/french_voice_tutor_plus.py.
    - the phrase bank [PHRASES], [LEVELS], [MODES], [ROLEPLAY_TOPICS]
      (lines 86-105);
    - a vocabulary record, the dict [{word, translation, example, box,
      next_due, history}] that [add_vocab] builds (lines 353-360), as
      [vocab_item]; the attributes of the agent that the tools read and
      write (lines 189-202) as [tutor];
    - the tools run in the monad [M]: a state and error monad over
      [tutor] that also collects the writes the code attempts
      ([_save_progress], [_export_snapshot]) as [effect]s.  Both writes
      swallow every exception, so a write changes nothing of the state
      whether it succeeds or not; an exception the tools do not catch is
      [Err], carrying the state as far as it was mutated;
    - [_due_indices] (lines 421-431), the export rows of
      [_export_snapshot] (lines 252-270), and Python's stable [list.sort]
      with a key, as an insertion sort.
*)

From S2P Require Import Prelude Text DateTime IsoTime.
From Stdlib Require Import Lia.

Local Set Warnings "-clear-no-such-hyp".

(** ** The phrase bank *)

Definition PHRASES : list (pystr * list (pystr * pystr)) := [
  (u8 "cafe", [
     (u8 "Bonjour, je voudrais un café s’il vous plaît.", u8 "Hello, I’d like a coffee please.");
     (u8 "C’est à emporter ou sur place ?", u8 "Is that takeaway or for here?");
     (u8 "Vous prenez la carte ?", u8 "Do you take card?")]);
  (u8 "travel", [
     (u8 "Où est la gare la plus proche ?", u8 "Where is the nearest train station?");
     (u8 "À quelle heure part le prochain train pour Lyon ?", u8 "What time is the next train to Lyon?");
     (u8 "Je cherche un billet aller-retour.", u8 "I’m looking for a return ticket.")]);
  (u8 "hotel", [
     (u8 "J’ai une réservation au nom de Sam.", u8 "I have a reservation under the name Sam.");
     (u8 "À partir de quelle heure est le check-in ?", u8 "From what time is check-in?");
     (u8 "Est-ce que le petit déjeuner est inclus ?", u8 "Is breakfast included?")])].

Definition LEVELS : list pystr := [u8 "A1"; u8 "A2"; u8 "B1"; u8 "B2"; u8 "C1"].
Definition MODES : list pystr := [u8 "chat"; u8 "roleplay"; u8 "quiz"; u8 "explain"; u8 "pronounce"].
Definition ROLEPLAY_TOPICS : list pystr := map fst PHRASES.

(** [PHRASES.get(tp)]: [tp in PHRASES] and [PHRASES[tp]]. *)
Definition phrases_of (tp : pystr) : option (list (pystr * pystr)) :=
  snd <$> find (fun kv => bool_decide (kv.1 = tp)) PHRASES.

(** ** Vocabulary records and the tutor *)

(** An entry [{"t": ..., "ok": ..., "input": ...}] of [history]. *)
Record hist_entry := mk_hist { h_t : pystr; h_ok : bool; h_input : pystr }.

Record vocab_item := mk_item {
  word : pystr;
  translation : pystr;
  example : pystr;
  box : Z;
  next_due : pystr;
  history : list hist_entry
}.

Record tutor := mk_tutor {
  level : pystr;
  mode : pystr;
  topic : pystr;
  vocab : list vocab_item;
  quiz_queue : list nat;          (** [self._quiz_queue] *)
  quiz_current : option nat;      (** [self._quiz_current] *)
  quiz_direction : pystr;         (** [self._quiz_direction] *)
  pron_target : option pystr      (** [self._pron_target] *)
}.

Definition set_level_attr (l : pystr) (s : tutor) : tutor :=
  mk_tutor l (mode s) (topic s) (vocab s) (quiz_queue s) (quiz_current s) (quiz_direction s) (pron_target s).
Definition set_mode_attr (m : pystr) (s : tutor) : tutor :=
  mk_tutor (level s) m (topic s) (vocab s) (quiz_queue s) (quiz_current s) (quiz_direction s) (pron_target s).
Definition set_topic_attr (t : pystr) (s : tutor) : tutor :=
  mk_tutor (level s) (mode s) t (vocab s) (quiz_queue s) (quiz_current s) (quiz_direction s) (pron_target s).
Definition set_vocab (v : list vocab_item) (s : tutor) : tutor :=
  mk_tutor (level s) (mode s) (topic s) v (quiz_queue s) (quiz_current s) (quiz_direction s) (pron_target s).
Definition set_queue (q : list nat) (s : tutor) : tutor :=
  mk_tutor (level s) (mode s) (topic s) (vocab s) q (quiz_current s) (quiz_direction s) (pron_target s).
Definition set_current (c : option nat) (s : tutor) : tutor :=
  mk_tutor (level s) (mode s) (topic s) (vocab s) (quiz_queue s) c (quiz_direction s) (pron_target s).
Definition set_direction (d : pystr) (s : tutor) : tutor :=
  mk_tutor (level s) (mode s) (topic s) (vocab s) (quiz_queue s) (quiz_current s) d (pron_target s).
Definition set_pron_target (p : option pystr) (s : tutor) : tutor :=
  mk_tutor (level s) (mode s) (topic s) (vocab s) (quiz_queue s) (quiz_current s) (quiz_direction s) p.

Definition set_box (b : Z) (it : vocab_item) : vocab_item :=
  mk_item (word it) (translation it) (example it) b (next_due it) (history it).
Definition set_next_due (nd : pystr) (it : vocab_item) : vocab_item :=
  mk_item (word it) (translation it) (example it) (box it) nd (history it).
(** [it["history"].append(e)] *)
Definition append_history (e : hist_entry) (it : vocab_item) : vocab_item :=
  mk_item (word it) (translation it) (example it) (box it) (next_due it) (history it ++ [e]).

(** The agent after [__init__] with no progress file: level A1, mode
    chat, topic cafe, no vocabulary, direction en2fr. *)
Definition initial_tutor : tutor :=
  mk_tutor (u8 "A1") (u8 "chat") (u8 "cafe") [] [] None (u8 "en2fr") None.

(** ** Effects, exceptions and the tool monad *)

(** A row of the export: [overdue_days] is [None] for the empty string
    the code writes when the date cannot be read or compared. *)
Record export_row := mk_row {
  r_word : pystr; r_translation : pystr; r_example : pystr;
  r_box : Z; r_next_due : pystr; r_overdue_days : option Z
}.

Inductive effect :=
| ESave (level mode topic : pystr) (vocab : list vocab_item)     (** [_save_progress] *)
| EExport (reason : pystr) (level mode topic : pystr) (rows : list export_row).

(** The exceptions that escape a tool. *)
Inductive exn := OverflowError | TypeError | IndexError.

Inductive result (A : Type) :=
| Ok (a : A) (s : tutor) (effs : list effect)
| Err (e : exn) (s : tutor) (effs : list effect).
Arguments Ok {A}. Arguments Err {A}.

Definition M (A : Type) : Type := tutor -> result A.

#[export] Instance M_ret : MRet M := fun A a s => Ok a s [].
#[export] Instance M_bind : MBind M := fun A B k m s =>
  match m s with
  | Ok a s1 e1 =>
      match k a s1 with
      | Ok b s2 e2 => Ok b s2 (e1 ++ e2)
      | Err x s2 e2 => Err x s2 (e1 ++ e2)
      end
  | Err x s1 e1 => Err x s1 e1
  end.

Definition gets {A} (f : tutor -> A) : M A := fun s => Ok (f s) s [].
Definition modify (f : tutor -> tutor) : M unit := fun s => Ok tt (f s) [].
Definition emit (e : effect) : M unit := fun s => Ok tt s [e].
Definition throw {A} (x : exn) : M A := fun s => Err x s [].
Definition lift {A} (r : exn + A) : M A :=
  match r with inl x => throw x | inr a => mret a end.
(** A value that is [None] when the code raises [x]. *)
Definition lift_opt {A} (x : exn) (r : option A) : M A :=
  match r with None => throw x | Some a => mret a end.

(** ** [_due_indices] and the export rows *)

(** Python's ordering of strings: code point by code point. *)
Fixpoint str_leb (a b : pystr) : bool :=
  match a, b with
  | [], _ => true
  | _ :: _, [] => false
  | x :: a', y :: b' => (x <? y)%N || ((x =? y)%N && str_leb a' b')
  end.

(** [list.sort(key=...)], stable: each element goes after the ones
    already placed whose key is not greater. *)
Fixpoint insert_stable {A} (le : A -> A -> bool) (x : A) (l : list A) : list A :=
  match l with
  | [] => [x]
  | y :: l' => if le y x then y :: insert_stable le x l' else x :: l
  end.

Definition sort_stable {A} (le : A -> A -> bool) (l : list A) : list A :=
  fold_left (fun acc x => insert_stable le x acc) l [].

Section WithDateTime.
Context `{PyDateTime}.

(** The loop of [_due_indices], from index [i]: an unreadable date is
    [datetime(1970, 1, 1)]; an aware one makes [due <= now] raise. *)
Fixpoint due_loop (i : nat) (items : list vocab_item) (now : datetime) : exn + list nat :=
  match items with
  | [] => inr []
  | it :: rest =>
      match fromisoformat (next_due it) with
      | ParsedAware _ _ => inl TypeError
      | p =>
          let due := match p with ParsedNaive t => t | _ => epoch end in
          match due_loop (S i) rest now with
          | inl x => inl x
          | inr idxs => inr (if (due <=? now)%Z then i :: idxs else idxs)
          end
      end
  end.

Definition _due_indices (vocab : list vocab_item) (now : datetime) : exn + list nat :=
  due_loop 0 vocab now.

(** [overdue_days] of [_export_snapshot]: [(now - due).days if now > due
    else 0], or [""] when the parse or the comparison raises. *)
Definition overdue_days (nd : pystr) (now : datetime) : option Z :=
  match fromisoformat nd with
  | ParsedNaive due => Some (if (due <? now)%Z then (now - due) / us_per_day else 0)%Z
  | _ => None
  end.

Definition export_rows (vocab : list vocab_item) (now : datetime) : list export_row :=
  map (fun it => mk_row (word it) (translation it) (example it) (box it) (next_due it)
                        (overdue_days (next_due it) now)) vocab.

Section Persistence.
Variable auto_export : bool.

(** [_save_progress()] *)
Definition _save_progress : M unit :=
  s ← gets id; emit (ESave (level s) (mode s) (topic s) (vocab s)).

(** [_maybe_auto_export(reason)] *)
Definition _maybe_auto_export (reason : pystr) (now : datetime) : M unit :=
  if auto_export then
    s ← gets id; emit (EExport reason (level s) (mode s) (topic s) (export_rows (vocab s) now))
  else mret tt.

End Persistence.
End WithDateTime.

(** When [_due_indices] counts a date as due: an unreadable string is
    [datetime(1970, 1, 1)]. *)
Definition due_time `{PyDateTime} (nd : pystr) : datetime :=
  match fromisoformat nd with ParsedNaive t => t | _ => epoch end.

Definition is_aware `{PyDateTime} (nd : pystr) : Prop :=
  exists t o, fromisoformat nd = ParsedAware t o.

(** ** The invariant of the quiz state

    [_quiz_current] and [_quiz_queue] index [vocab], and no index is
    there twice: a quiz never asks a word twice.  Every box is in [1,5]. *)
Definition quiz_indices (s : tutor) : list nat :=
  match quiz_current s with Some i => i :: quiz_queue s | None => quiz_queue s end.

Definition quiz_wf (s : tutor) : Prop :=
  NoDup (quiz_indices s) /\ Forall (fun j => (j < length (vocab s))%nat) (quiz_indices s).

Definition boxes_ok (s : tutor) : Prop := Forall (fun it => (1 <= box it <= 5)%Z) (vocab s).

(** The state a tool leaves, whether it returns or raises. *)
Definition res_state {A} (r : result A) : tutor :=
  match r with Ok _ s _ => s | Err _ s _ => s end.

(** A tool keeps the relation [R] between the state before and after,
    whether it returns or raises. *)
Definition preserves {A} (R : relation tutor) (m : M A) : Prop :=
  forall s, R s (res_state (m s)).

(** The relations the tools keep. *)
Definition keeps (P : tutor -> Prop) : relation tutor := fun s s' => P s -> P s'.

Definition same_settings : relation tutor := fun s s' =>
  level s' = level s /\ mode s' = mode s /\ topic s' = topic s /\ pron_target s' = pron_target s.

(** An item keeps its word, translation and example, and its history
    only grows at the end. *)
Definition item_grows (it it' : vocab_item) : Prop :=
  word it' = word it /\ translation it' = translation it /\ example it' = example it
  /\ history it `prefix_of` history it'.

(** No item is removed or moved, and every item only grows. *)
Definition vocab_grows : relation tutor := fun s s' =>
  forall i it, vocab s !! i = Some it -> exists it', vocab s' !! i = Some it' /\ item_grows it it'.

(** Unfold the monad's plumbing, and nothing else (the string literals
    of the code stay folded). *)
Ltac mrun :=
  cbv beta iota zeta delta [mbind M_bind mret M_ret gets modify emit throw lift_opt lift id
                            _save_progress].

(** ** The attribute setters *)

Lemma vocab_set_vocab v s : vocab (set_vocab v s) = v.
Proof. reflexivity. Qed.

Lemma set_vocab_set_vocab v v' s : set_vocab v (set_vocab v' s) = set_vocab v s.
Proof. reflexivity. Qed.

Create Rewrite HintDb tutorrw.
#[export] Hint Rewrite vocab_set_vocab set_vocab_set_vocab : tutorrw.

(** Changing the item at a valid index through [alter] is an insert. *)
Lemma alter_at {A} (f : A -> A) (l : list A) i x :
  l !! i = Some x -> alter f i l = <[i := f x]> l.
Proof.
  intros Hx. rewrite list_insert_alter. apply list_alter_ext; [| done].
  intros y Hy. rewrite Hx in Hy. by injection Hy as ->.
Qed.

(** ** [_due_indices] *)

Section DueIndices.
Context `{PyDateTime}.

Lemma due_loop_cons i it rest now idxs :
  due_loop i (it :: rest) now = inr idxs ->
  exists idxs', due_loop (S i) rest now = inr idxs' /\
    idxs = if (due_time (next_due it) <=? now)%Z then i :: idxs' else idxs'.
Proof.
  simpl. unfold due_time.
  destruct (fromisoformat (next_due it)); [| discriminate |];
    destruct (due_loop (S i) rest now); intros E; try discriminate;
    injection E as <-; eauto.
Qed.

Lemma due_loop_inr i items now idxs :
  due_loop i items now = inr idxs ->
  NoDup idxs /\
  forall j, j ∈ idxs <->
            (i <= j)%nat /\ exists it, items !! (j - i)%nat = Some it /\ (due_time (next_due it) <= now)%Z.
Proof.
  revert i idxs. induction items as [|it rest IH]; intros i idxs E.
  - injection E as <-. split; [constructor |]. intros j. rewrite elem_of_nil.
    split; [done |]. intros (_ & it & Hit & _). by rewrite lookup_nil in Hit.
  - apply due_loop_cons in E as (idxs' & E' & ->).
    destruct (IH (S i) idxs' E') as [Hnd Hm].
    assert (Hi : i ∉ idxs') by (rewrite Hm; intros [? _]; lia).
    split; [case_match; [by constructor | done] |].
    intros j. destruct (Nat.eq_dec j i) as [-> | Hne].
    + rewrite Nat.sub_diag. simpl. split.
      * intros Hin. split; [lia |]. exists it. split; [done |].
        case_match; bool_to_prop; [lia | done].
      * intros [_ (it0 & [= <-] & Hd)]. case_match; bool_to_prop; [by left | lia].
    + destruct (decide (i < j)%nat) as [Hlt | Hge].
      * assert (Hji : forall it', (it :: rest) !! (j - i)%nat = Some it' <->
                                   rest !! (j - S i)%nat = Some it')
          by (intros it'; by replace (j - i)%nat with (S (j - S i)) by lia).
        setoid_rewrite Hji.
        transitivity (j ∈ idxs'); [case_match; rewrite ?elem_of_cons; naive_solver |].
        rewrite Hm. naive_solver lia.
      * split; [| intros [? _]; lia].
        intros Hin. exfalso. case_match; rewrite ?elem_of_cons, Hm in Hin; naive_solver lia.
Qed.

End DueIndices.

(** ** The stable sort *)

Lemma insert_stable_perm {A} (le : A -> A -> bool) x l : insert_stable le x l ≡ₚ x :: l.
Proof.
  induction l as [|y l IH]; simpl; [done |].
  case_match; [| done]. rewrite IH. apply Permutation_swap.
Qed.

Lemma sort_stable_aux {A} (le : A -> A -> bool) l acc :
  fold_left (fun acc x => insert_stable le x acc) l acc ≡ₚ l ++ acc.
Proof.
  revert acc. induction l as [|x l IH]; intros acc; simpl; [done |].
  rewrite IH, insert_stable_perm. symmetry. apply Permutation_middle.
Qed.

Lemma sort_stable_perm {A} (le : A -> A -> bool) l : sort_stable le l ≡ₚ l.
Proof. unfold sort_stable. by rewrite sort_stable_aux, app_nil_r. Qed.

(** ** Relations a computation keeps *)

Section Preserves.
Context (R : relation tutor) `{!PreOrder R}.

Lemma preserves_ret {A} (a : A) : preserves R (mret a).
Proof. intros s. simpl. reflexivity. Qed.

Lemma preserves_gets {A} (f : tutor -> A) : preserves R (gets f).
Proof. intros s. simpl. reflexivity. Qed.

Lemma preserves_emit e : preserves R (emit e).
Proof. intros s. simpl. reflexivity. Qed.

Lemma preserves_throw {A} x : preserves R (@throw A x).
Proof. intros s. simpl. reflexivity. Qed.

Lemma preserves_lift {A} (r : exn + A) : preserves R (lift r).
Proof. intros s. destruct r; simpl; reflexivity. Qed.

Lemma preserves_lift_opt {A} x (r : option A) : preserves R (lift_opt x r).
Proof. intros s. destruct r; simpl; reflexivity. Qed.

Lemma preserves_modify f : (forall s, R s (f s)) -> preserves R (modify f).
Proof. intros Hf s. apply Hf. Qed.

Lemma preserves_bind {A B} (m : M A) (k : A -> M B) :
  preserves R m -> (forall a, preserves R (k a)) -> preserves R (m ≫= k).
Proof.
  intros Hm Hk s. specialize (Hm s). unfold mbind, M_bind.
  destruct (m s) as [a s1 e1 | x s1 e1]; simpl in *; [| done].
  specialize (Hk a s1). destruct (k a s1); simpl in *; by etransitivity.
Qed.

Lemma preserves_save : preserves R _save_progress.
Proof. apply preserves_bind; [apply preserves_gets | intros; apply preserves_emit]. Qed.

End Preserves.

Lemma preserves_export `{PyDateTime} R `{!PreOrder R} ae reason now :
  preserves R (_maybe_auto_export ae reason now).
Proof.
  unfold _maybe_auto_export. destruct ae.
  - apply (preserves_bind R); [apply (preserves_gets R) | intros; apply (preserves_emit R)].
  - apply (preserves_ret R).
Qed.

(** Split a [preserves] goal along the structure of the computation;
    what is left are the [modify] steps. *)
Ltac solve_po := try match goal with |- PreOrder _ => typeclasses eauto end.

Ltac preserve_step :=
  match goal with
  | |- preserves _ (mbind _ _) => apply preserves_bind; solve_po; [| intros ?]
  | |- preserves _ (mret _) => apply preserves_ret; solve_po
  | |- preserves _ (gets _) => apply preserves_gets; solve_po
  | |- preserves _ (emit _) => apply preserves_emit; solve_po
  | |- preserves _ (throw _) => apply preserves_throw; solve_po
  | |- preserves _ (lift _) => apply preserves_lift; solve_po
  | |- preserves _ (lift_opt _ _) => apply preserves_lift_opt; solve_po
  | |- preserves _ _save_progress => apply preserves_save; solve_po
  | |- preserves _ (_maybe_auto_export _ _ _) => apply preserves_export; solve_po
  | |- preserves _ (modify _) => apply preserves_modify; solve_po; intros ?; cbv beta
  | |- preserves _ (match _ with _ => _ end) => case_match
  | |- preserves _ (if _ then _ else _) => case_match
  end.

Ltac preserve := repeat preserve_step.

#[export] Instance keeps_preorder P : PreOrder (keeps P).
Proof. split; [intros s H; exact H | intros s1 s2 s3 H12 H23 H; auto]. Qed.

#[export] Instance same_settings_preorder : PreOrder same_settings.
Proof. split; [done | intros s1 s2 s3 (?&?&?&?) (?&?&?&?); repeat split; congruence]. Qed.

#[export] Instance vocab_grows_preorder : PreOrder vocab_grows.
Proof.
  split.
  - intros s i it Hit. exists it. repeat split; done.
  - intros s1 s2 s3 H12 H23 i it Hit.
    destruct (H12 i it Hit) as (it2 & Hit2 & (?&?&?&?)).
    destruct (H23 i it2 Hit2) as (it3 & Hit3 & (?&?&?&?)).
    exists it3. repeat split; try congruence. by etransitivity.
Qed.

Lemma vocab_grows_alter f i s :
  (forall it, item_grows it (f it)) -> vocab_grows s (set_vocab (alter f i (vocab s)) s).
Proof.
  intros Hf j it Hit. rewrite vocab_set_vocab, list_lookup_alter, Hit.
  case_decide; [subst; rewrite Hit; simpl; eauto | exists it; repeat split; done].
Qed.

Lemma vocab_grows_app l s : vocab_grows s (set_vocab (vocab s ++ l) s).
Proof.
  intros j it Hit. rewrite vocab_set_vocab. exists it. split; [by apply lookup_app_l_Some |].
  repeat split; done.
Qed.

Lemma vocab_grows_same s s' : vocab s' = vocab s -> vocab_grows s s'.
Proof. intros Hv j it Hit. rewrite Hv. exists it. repeat split; done. Qed.

Lemma res_state_map {A B} (m : M A) (f : A -> B) s :
  res_state ((r ← m; mret (f r)) s) = res_state (m s).
Proof. unfold mbind, M_bind. simpl. by destruct (m s). Qed.

Section DueErrors.
Context `{PyDateTime}.

Lemma due_loop_cons_inl i it rest now x :
  due_loop i (it :: rest) now = inl x <->
  (is_aware (next_due it) /\ x = TypeError)
  \/ (~ is_aware (next_due it) /\ due_loop (S i) rest now = inl x).
Proof.
  simpl. unfold is_aware.
  destruct (fromisoformat (next_due it)); destruct (due_loop (S i) rest now);
    split; intros; try naive_solver; destruct_or!; destruct_and!; try naive_solver.
Qed.

Lemma is_aware_dec nd : {is_aware nd} + {~ is_aware nd}.
Proof.
  unfold is_aware. destruct (fromisoformat nd) as [t|t o|];
    [right; intros (? & ? & ?); discriminate | left; eauto | right; intros (? & ? & ?); discriminate].
Qed.

Lemma due_loop_inl i items now x :
  due_loop i items now = inl x <-> x = TypeError /\ exists it, it ∈ items /\ is_aware (next_due it).
Proof.
  revert i. induction items as [|it rest IH]; intros i.
  - simpl. split; [done |]. intros (_ & it & Hin & _). by apply elem_of_nil in Hin.
  - rewrite due_loop_cons_inl, IH. split.
    + intros [[Ha ->] | [_ [-> (it' & Hin & Ha)]]]; (split; [done |]).
      * exists it. split; [left | done].
      * exists it'. split; [by right | done].
    + intros [-> (it' & Hin & Ha)]. apply elem_of_cons in Hin as [-> | Hin]; [by left |].
      destruct (is_aware_dec (next_due it)); [by left | right; split; [done | eauto]].
Qed.

End DueErrors.

(** ** The properties of [_due_indices] *)

Section DueProperties.
Context `{PyDateTime}.

(** C15: [_due_indices] returns, in increasing order without repetition,
    exactly the indices whose [next_due] reads as a naive datetime at or
    before [now], an unreadable string counting as 1970-01-01. *)
Theorem due_indices_spec v now idxs :
  _due_indices v now = inr idxs ->
  NoDup idxs /\ forall j, j ∈ idxs <-> exists it, v !! j = Some it /\ (due_time (next_due it) <= now)%Z.
Proof.
  intros Hd. destruct (due_loop_inr 0 v now idxs Hd) as [Hnd Hm]. split; [done |].
  intros j. rewrite Hm, Nat.sub_0_r. naive_solver lia.
Qed.

(** C16: [_due_indices] raises [TypeError] exactly when some [next_due]
    carries a UTC offset: the aware datetime cannot be compared with the
    naive [datetime.now()] (the spec wants a malformed date to count as
    due). *)
Theorem due_indices_aware v now x :
  _due_indices v now = inl x <-> x = TypeError /\ exists it, it ∈ v /\ is_aware (next_due it).
Proof. apply due_loop_inl. Qed.

End DueProperties.

(** A record of the examples: "chat" / "cat" in box 1 with a given due
    date, read at 2024-10-03T00:00:00. *)
Definition sample_item (nd : pystr) : vocab_item := mk_item (u8 "chat") (u8 "cat") [] 1 nd [].
Definition now_sample : datetime := (epoch + 20000 * us_per_day)%Z.

Lemma due_indices_spec_witness :
  NoDup [0] /\ forall j, j ∈ [0] <->
    exists it, [sample_item (u8 "pas une date")] !! j = Some it
               /\ (due_time (next_due it) <= now_sample)%Z.
Proof. apply due_indices_spec. vm_compute. reflexivity. Defined.

(** a due date written with a UTC offset makes [_due_indices], hence
    [due_words] and [start_quiz], raise [TypeError]. *)
Example aware_due_date_raises :
  _due_indices [sample_item (u8 "2024-10-03T00:00:00+00:00")] now_sample = inl TypeError.
Proof. vm_compute. reflexivity. Qed.
