(* ===== verification/Quiz.v ===== *)
(** * The spaced-repetition quiz: [start_quiz], [next_question], [answer_quiz]

    Source: src/voice_livekit_agent/french_voice_tutor_plus.py, lines
    433-505.  Each tool is a computation of the monad [M] of [TutorState],
    in the order the code mutates the agent:
    - [start_quiz] stores the direction, takes the due indices (or, when
      none is due, every index sorted by box), shuffles them with the
      environment's [shuffle] (for [random.shuffle]), keeps the first
      [max(1, min(count, len(due)))] and serves the first question;
    - [next_question] pops the head of the queue into [_quiz_current];
    - [answer_quiz] grades the answer ([grade]: token edit distance over
      the gold length, compared with [0.34] in binary64), moves the box,
      appends to the history, sets [next_due] with [_next_due], saves,
      exports and chains [next_question].
    The reply is the data of the message the code formats.
*)

From S2P Require Import Prelude PyFloat Text Levenshtein DateTime IsoTime Leitner TutorState.
From Stdlib Require Import Lia.

Inductive reply :=
| RNoVocab                        (** "Tu n’as pas encore de vocabulaire..." *)
| RQuizDone                       (** "Quiz terminé, bravo ! ..." *)
| RPromptFr (translation : pystr) (** "Traduction en français: “...”." *)
| RPromptEn (word : pystr)        (** "Traduction en anglais: “...”." *)
| RNoQuestion                     (** "Pas de question en cours..." *)
| RVerdict (ok : bool) (show_gold : pystr) (next : reply).  (** "✅ Bien joué" / "❌ Presque" *)

Section Quiz.
Context `{UnicodeData} `{PyDateTime}.
Variable auto_export : bool.

(** [self._quiz_direction = direction.lower().strip() if direction else "en2fr"] *)
Definition quiz_direction_of (direction : pystr) : pystr :=
  match direction with [] => u8 "en2fr" | _ => py_strip (ucd_lower direction) end.

(** The fallback of [start_quiz]: every index, sorted by box. *)
Definition by_box_indices (vocab : list vocab_item) : list nat :=
  (sort_stable (fun a b => (box a.2 <=? box b.2)%Z) (zip (seq 0 (length vocab)) vocab)).*1.

(** [self._quiz_queue = due[: max(1, min(count, len(due)))]] *)
Definition quiz_take (count : Z) (due : list nat) : list nat :=
  due .[: Z.max 1 (Z.min count (Z.of_nat (length due)))].

(** [next_question()] *)
Definition next_question : M reply :=
  s ← gets id;
  match quiz_queue s with
  | [] => modify (set_current None);; mret RQuizDone
  | i :: q =>
      modify (fun s => set_current (Some i) (set_queue q s));;
      it ← lift_opt IndexError (vocab s !! i);
      mret (if bool_decide (quiz_direction s = u8 "en2fr")
            then RPromptFr (translation it) else RPromptEn (word it))
  end.

(** [start_quiz(count, direction)], with the clock reading [now] and the
    shuffle [shuffle] of the environment. *)
Definition start_quiz (now : datetime) (shuffle : list nat -> list nat)
    (count : Z) (direction : pystr) : M reply :=
  s ← gets id;
  match vocab s with
  | [] => mret RNoVocab
  | _ =>
      modify (set_direction (quiz_direction_of direction));;
      due ← lift (_due_indices (vocab s) now);
      let due := match due with [] => by_box_indices (vocab s) | _ => due end in
      let due := shuffle due in
      modify (fun s => set_current None (set_queue (quiz_take count due) s));;
      next_question
  end.

(** The grading of [answer_quiz]: [gold] is the stored word or
    translation, [ans] the user's answer. *)
Definition grade (gold_text user_answer : pystr) : bool :=
  let ans := py_strip (ucd_lower (_strip_accents user_answer)) in
  let gold := ucd_lower (_strip_accents gold_text) in
  let dist := _levenshtein (_tokenize gold) (_tokenize ans) in
  let max_len := Nat.max 1 (length (_tokenize gold)) in
  py_le (int_truediv (N.of_nat dist) (Pos.of_nat max_len)) lit_0_34.

(** The threshold [dist / max_len <= 0.34] against the exact
    [100 * dist <= 34 * max_len], for one pair. *)
Definition threshold_ok (n d : Z) : bool :=
  Bool.eqb (py_le (int_truediv (Z.to_N d) (Z.to_pos n)) lit_0_34) (100 * d <=? 34 * n)%Z.

(** [answer_quiz(user_answer)] *)
Definition answer_quiz (now : datetime) (user_answer : pystr) : M reply :=
  s ← gets id;
  match quiz_current s with
  | None => mret RNoQuestion
  | Some i =>
      it ← lift_opt IndexError (vocab s !! i);
      let show_gold :=
        if bool_decide (quiz_direction s = u8 "en2fr") then word it else translation it in
      let ok := grade show_gold user_answer in
      let b := if ok then promote_box (box it) else 1%Z in
      modify (fun s => set_vocab (alter (fun it => append_history
                (mk_hist (isoformat_seconds now) ok user_answer) (set_box b it)) i (vocab s)) s);;
      nd ← lift_opt OverflowError (_next_due b now);
      modify (fun s => set_vocab (alter (set_next_due nd) i (vocab s)) s);;
      _save_progress;;
      _maybe_auto_export auto_export (u8 "answer_quiz") now;;
      nxt ← next_question;
      mret (RVerdict ok show_gold nxt)
  end.

End Quiz.


(** ** Concrete states for the examples

    The vocabulary of the spec's scenario: "chat" / "cat" in box 1, due a
    day after [now0] (2024-10-04T00:00:00); [s_quiz] has it as the current
    question. *)
Definition now0 : datetime := (epoch + 20000 * us_per_day)%Z.
Definition cat_item : vocab_item :=
  mk_item (u8 "chat") (u8 "cat") [] 1 (iso_seconds (now0 + us_per_day)%Z) [].
Definition s_cat : tutor := set_vocab [cat_item] initial_tutor.
Definition s_quiz : tutor := set_current (Some 0) s_cat.

(** ** Running the tools *)

Section QuizRuns.
Context `{UnicodeData} `{PyDateTime}.
Variable auto_export : bool.

(** The export [_maybe_auto_export] attempts, as a list of effects. *)
Definition export_effects (reason : pystr) (now : datetime) (s : tutor) : list effect :=
  if auto_export
  then [EExport reason (level s) (mode s) (topic s) (export_rows (vocab s) now)] else [].

(** The item [answer_quiz] leaves at the current index. *)
Definition answered_item (it : vocab_item) (b : Z) (nd : pystr) (e : hist_entry) : vocab_item :=
  mk_item (word it) (translation it) (example it) b nd (history it ++ [e]).

(** The prompt [next_question] serves for an item. *)
Definition prompt_of (dir : pystr) (it : vocab_item) : reply :=
  if bool_decide (dir = u8 "en2fr") then RPromptFr (translation it) else RPromptEn (word it).

Lemma maybe_auto_export_run reason now s :
  _maybe_auto_export auto_export reason now s = Ok tt s (export_effects reason now s).
Proof. unfold _maybe_auto_export, export_effects. destruct auto_export; reflexivity. Qed.

Lemma next_question_nil s :
  quiz_queue s = [] -> next_question s = Ok RQuizDone (set_current None s) [].
Proof. intros Hq. unfold next_question. mrun. by rewrite Hq. Qed.

Lemma next_question_cons s i q it :
  quiz_queue s = i :: q -> vocab s !! i = Some it ->
  next_question s = Ok (prompt_of (quiz_direction s) it) (set_current (Some i) (set_queue q s)) [].
Proof. intros Hq Hi. unfold next_question. mrun. rewrite Hq. simpl. rewrite Hi. reflexivity. Qed.

Lemma answer_quiz_none now a s :
  quiz_current s = None -> answer_quiz auto_export now a s = Ok RNoQuestion s [].
Proof. intros Hc. unfold answer_quiz. mrun. by rewrite Hc. Qed.

Lemma quiz_wf_mono s s' :
  length (vocab s) <= length (vocab s') -> quiz_indices s' `sublist_of` quiz_indices s ->
  quiz_wf s -> quiz_wf s'.
Proof.
  intros Hl Hsub [Hnd Hb]. split; [by eapply sublist_NoDup |].
  rewrite Forall_forall in *. intros j Hj. specialize (Hb j (elem_of_sublist _ _ _ Hj Hsub)). lia.
Qed.

Lemma next_question_vocab s : vocab (res_state (next_question s)) = vocab s.
Proof.
  unfold next_question. mrun. destruct (quiz_queue s); [done |]. by destruct (vocab s !! _).
Qed.

Lemma next_question_wf s : quiz_wf s -> quiz_wf (res_state (next_question s)).
Proof.
  intros Hwf. destruct (quiz_queue s) as [|i q] eqn:Hq.
  - rewrite next_question_nil by done. unfold quiz_wf, quiz_indices. simpl. rewrite Hq.
    split; constructor.
  - assert (Hi : i < length (vocab s)).
    { destruct Hwf as [_ Hb]. rewrite Forall_forall in Hb. apply Hb.
      unfold quiz_indices. rewrite Hq. destruct (quiz_current s); set_solver. }
    destruct (lookup_lt_is_Some_2 _ _ Hi) as [it Hit].
    rewrite (next_question_cons s i q it Hq Hit). apply (quiz_wf_mono s); [done | | done].
    unfold quiz_indices. simpl. rewrite Hq. destruct (quiz_current s); [by apply sublist_cons | done].
Qed.

Section Answer.
Context (now : datetime) (a : pystr) (s : tutor) (i : nat) (it : vocab_item).
Hypothesis Hcur : quiz_current s = Some i.
Hypothesis Hit : vocab s !! i = Some it.

Let show_gold := if bool_decide (quiz_direction s = u8 "en2fr") then word it else translation it.
Let ok := grade show_gold a.
Let b := if ok then promote_box (box it) else 1%Z.
Let e := mk_hist (isoformat_seconds now) ok a.

(** A graded answer: the item gets its new box, history entry and due
    date, the state is saved and exported, and [next_question] runs. *)
Lemma answer_quiz_run nd :
  _next_due b now = Some nd ->
  let s1 := set_vocab (<[i := answered_item it b nd e]> (vocab s)) s in
  answer_quiz auto_export now a s =
  match next_question s1 with
  | Ok r s2 es => Ok (RVerdict ok show_gold r) s2
                    (ESave (level s1) (mode s1) (topic s1) (vocab s1)
                     :: export_effects (u8 "answer_quiz") now s1 ++ es)
  | Err x s2 es => Err x s2 (ESave (level s1) (mode s1) (topic s1) (vocab s1)
                     :: export_effects (u8 "answer_quiz") now s1 ++ es)
  end.
Proof.
  intros Hnd s1. unfold answer_quiz. mrun. rewrite Hcur. simpl vocab. rewrite Hit. mrun.
  fold show_gold ok b e. rewrite Hnd. mrun.
  autorewrite with tutorrw. rewrite list_alter_alter_eq, (alter_at _ _ _ _ Hit).
  change ((set_next_due nd ∘ _) it) with (answered_item it b nd e). fold s1.
  rewrite maybe_auto_export_run. mrun.
  destruct (next_question s1); cbn [app]; rewrite ?app_nil_r; reflexivity.
Qed.

(** [_next_due] raises: the box and the history are already written, the
    due date is not, and nothing is saved. *)
Lemma answer_quiz_overflow :
  _next_due b now = None ->
  answer_quiz auto_export now a s =
  Err OverflowError (set_vocab (<[i := append_history e (set_box b it)]> (vocab s)) s) [].
Proof.
  intros Hnd. unfold answer_quiz. mrun. rewrite Hcur. simpl vocab. rewrite Hit. mrun.
  fold show_gold ok b e. rewrite Hnd. mrun.
  by rewrite (alter_at _ _ _ _ Hit).
Qed.

Lemma answer_quiz_wf_at : quiz_wf s -> quiz_wf (res_state (answer_quiz auto_export now a s)).
Proof.
  intros Hwf. destruct (_next_due b now) as [nd|] eqn:Hnd.
  - rewrite (answer_quiz_run nd Hnd). set (s1 := set_vocab _ s).
    assert (Hwf1 : quiz_wf s1).
    { apply (quiz_wf_mono s); [| done | done]. unfold s1. by rewrite vocab_set_vocab, length_insert. }
    pose proof (next_question_wf s1 Hwf1). by destruct (next_question s1).
  - rewrite answer_quiz_overflow by done. cbn [res_state]. apply (quiz_wf_mono s); [| done | done].
    by rewrite vocab_set_vocab, length_insert.
Qed.

Lemma answer_quiz_boxes_at : boxes_ok s -> boxes_ok (res_state (answer_quiz auto_export now a s)).
Proof.
  intros Hb. assert (Hbox : (1 <= b <= 5)%Z).
  { unfold b. destruct ok; [| lia]. apply promote_box_range.
    by apply (Forall_lookup_1 _ _ _ _ Hb Hit). }
  destruct (_next_due b now) as [nd|] eqn:Hnd.
  - rewrite (answer_quiz_run nd Hnd). set (s1 := set_vocab _ s).
    assert (Hb1 : boxes_ok s1) by (apply Forall_insert; done).
    pose proof (next_question_vocab s1) as Hv.
    destruct (next_question s1); cbn [res_state] in *; unfold boxes_ok; by rewrite Hv.
  - rewrite answer_quiz_overflow by done. apply Forall_insert; done.
Qed.

End Answer.
End QuizRuns.

Section QuizPreservation.
Context `{UnicodeData} `{PyDateTime}.
Variable auto_export : bool.

Lemma answer_quiz_wf now a s : quiz_wf s -> quiz_wf (res_state (answer_quiz auto_export now a s)).
Proof.
  intros Hwf. destruct (quiz_current s) as [i|] eqn:Hc; [| by rewrite answer_quiz_none].
  assert (Hi : i < length (vocab s)).
  { destruct Hwf as [_ Hb]. unfold quiz_indices in Hb. rewrite Hc in Hb. by inversion Hb. }
  destruct (lookup_lt_is_Some_2 _ _ Hi) as [it Hit]. eapply answer_quiz_wf_at; eauto.
Qed.

Lemma answer_quiz_boxes now a s :
  quiz_wf s -> boxes_ok s -> boxes_ok (res_state (answer_quiz auto_export now a s)).
Proof.
  intros Hwf Hb. destruct (quiz_current s) as [i|] eqn:Hc; [| by rewrite answer_quiz_none].
  assert (Hi : i < length (vocab s)).
  { destruct Hwf as [_ Hw]. unfold quiz_indices in Hw. rewrite Hc in Hw. by inversion Hw. }
  destruct (lookup_lt_is_Some_2 _ _ Hi) as [it Hit]. eapply answer_quiz_boxes_at; eauto.
Qed.

(** The candidates of [start_quiz]: the due indices, or all of them. *)
Lemma by_box_indices_perm v : by_box_indices v ≡ₚ seq 0 (length v).
Proof. unfold by_box_indices. rewrite sort_stable_perm, fst_zip; [done |]. rewrite length_seq. lia. Qed.

Lemma start_candidates_ok v now due :
  _due_indices v now = inr due ->
  let L := match due with [] => by_box_indices v | _ => due end in
  NoDup L /\ forall j, j ∈ L -> j < length v.
Proof.
  intros Hd L. destruct (due_loop_inr 0 v now due Hd) as [Hnd Hm]. unfold L.
  destruct due as [|j0 due'].
  - split; [rewrite by_box_indices_perm; apply NoDup_seq |].
    intros j. rewrite by_box_indices_perm, elem_of_seq. lia.
  - split; [done |]. intros j Hj. apply Hm in Hj as (_ & it & Hit & _).
    rewrite Nat.sub_0_r in Hit. by apply lookup_lt_Some in Hit.
Qed.

Lemma start_quiz_run now sh count dir s due :
  vocab s <> [] -> _due_indices (vocab s) now = inr due ->
  start_quiz now sh count dir s =
  next_question (set_current None (set_queue
    (quiz_take count (sh (match due with [] => by_box_indices (vocab s) | _ => due end)))
    (set_direction (quiz_direction_of dir) s))).
Proof.
  intros Hne Hd. unfold start_quiz. mrun. destruct (vocab s) as [|v vs] eqn:Hv; [done |].
  rewrite Hd. destruct (next_question _); reflexivity.
Qed.

Lemma start_quiz_error now sh count dir s x :
  vocab s <> [] -> _due_indices (vocab s) now = inl x ->
  start_quiz now sh count dir s = Err x (set_direction (quiz_direction_of dir) s) [].
Proof.
  intros Hne Hd. unfold start_quiz. mrun. destruct (vocab s) as [|v vs] eqn:Hv; [done |].
  by rewrite Hd.
Qed.

End QuizPreservation.

Section QuizPreservation2.
Context `{UnicodeData} `{PyDateTime}.

Lemma start_quiz_wf now sh count dir s :
  (forall l, sh l ≡ₚ l) -> quiz_wf s -> quiz_wf (res_state (start_quiz now sh count dir s)).
Proof.
  intros Hsh Hwf. destruct (decide (vocab s = [])) as [Hv | Hne].
  { unfold start_quiz. mrun. by rewrite Hv. }
  destruct (_due_indices (vocab s) now) as [x | due] eqn:Hd.
  { rewrite (start_quiz_error _ _ _ _ _ x) by done. cbn [res_state]. by apply (quiz_wf_mono s). }
  rewrite (start_quiz_run _ _ _ _ _ due) by done. apply next_question_wf.
  destruct (start_candidates_ok _ _ _ Hd) as [Hnd Hb].
  unfold quiz_wf, quiz_indices, quiz_take. cbn [quiz_current quiz_queue set_current set_queue
    set_direction vocab]. split.
  - eapply sublist_NoDup; [| apply py_take_sublist]. by rewrite Hsh.
  - apply Forall_forall. intros j Hj. apply Hb. rewrite <- (Hsh _).
    eapply elem_of_sublist; [exact Hj | apply py_take_sublist].
Qed.

Lemma start_quiz_vocab now sh count dir s :
  vocab (res_state (start_quiz now sh count dir s)) = vocab s.
Proof.
  destruct (decide (vocab s = [])) as [Hv | Hne].
  { unfold start_quiz. mrun. by rewrite Hv. }
  destruct (_due_indices (vocab s) now) as [x | due] eqn:Hd.
  - by rewrite (start_quiz_error _ _ _ _ _ x).
  - rewrite (start_quiz_run _ _ _ _ _ due) by done. by rewrite next_question_vocab.
Qed.

Lemma next_question_ok s :
  quiz_wf s -> exists r s', next_question s = Ok r s' [] /\ vocab s' = vocab s.
Proof.
  intros Hwf. destruct (quiz_queue s) as [|i q] eqn:Hq.
  - rewrite next_question_nil by done. eauto.
  - assert (Hi : i < length (vocab s)).
    { destruct Hwf as [_ Hb]. rewrite Forall_forall in Hb. apply Hb.
      unfold quiz_indices. rewrite Hq. destruct (quiz_current s); set_solver. }
    destruct (lookup_lt_is_Some_2 _ _ Hi) as [it Hit].
    rewrite (next_question_cons s i q it Hq Hit). eauto.
Qed.

End QuizPreservation2.

(** ** The threshold of [answer_quiz], checked pair by pair *)

Lemma thresholds_checked :
  all_range 256 1 (fun n => all_range 257 0 (threshold_ok n)) = true.
Proof. vm_compute. reflexivity. Qed.

Lemma threshold_nat (n d : nat) :
  1 <= n <= 256 -> d <= 256 ->
  py_le (int_truediv (N.of_nat d) (Pos.of_nat n)) lit_0_34 = bool_decide (100 * d <= 34 * n).
Proof.
  intros Hn Hd.
  assert (H : threshold_ok (Z.of_nat n) (Z.of_nat d) = true).
  { apply (all_range_spec 257 0); [| lia].
    apply (all_range_spec 256 1 _ (Z.of_nat n) thresholds_checked). lia. }
  unfold threshold_ok in H. apply Bool.eqb_prop in H.
  replace (Z.to_N (Z.of_nat d)) with (N.of_nat d) in H by lia.
  replace (Z.to_pos (Z.of_nat n)) with (Pos.of_nat n) in H
    by (destruct n as [|n']; [lia | simpl; by rewrite Pos.of_nat_succ]).
  rewrite H. apply eq_bool_prop_intro. rewrite Is_true_true, Z.leb_le, bool_decide_spec. lia.
Qed.

(** ** The properties of the quiz *)

Section QuizProperties.
Context `{UnicodeData} `{PyDateTime}.
Variable auto_export : bool.

(** C4: the float test [dist / max_len <= 0.34] of [answer_quiz] accepts
    exactly when [100 * dist <= 34 * max(1, len(gold tokens))], for
    answers and gold strings of at most 256 tokens. *)
Theorem grade_threshold gold ans :
  let g := _tokenize (ucd_lower (_strip_accents gold)) in
  let h := _tokenize (py_strip (ucd_lower (_strip_accents ans))) in
  length g <= 256 -> length h <= 256 ->
  grade gold ans = bool_decide (100 * _levenshtein g h <= 34 * Nat.max 1 (length g)).
Proof.
  intros g h Hg Hh. unfold grade. fold g h. apply threshold_nat; [lia |].
  rewrite levenshtein_lev_ref. pose proof (lev_ref_le_max g h). lia.
Qed.

End QuizProperties.

Lemma quiz_take_length count (l : list nat) :
  l <> [] -> length (quiz_take count l) = Z.to_nat (Z.max 1 (Z.min count (Z.of_nat (length l)))).
Proof.
  intros Hne. unfold quiz_take. rewrite py_take_length by lia.
  assert (1 <= length l) by (destruct l; [done | simpl; lia]). lia.
Qed.

Section QuizProperties2.
Context `{UnicodeData} `{PyDateTime}.
Variable auto_export : bool.

(** C2: grading an answer to the current question moves the box to
    [min(5, box + 1)] when the answer is accepted and to [1] otherwise,
    appends one history entry, stores a due date that reads back as
    [now + BOX_DELAYS_DAYS[box]] days (to the second), leaves the other
    fields and items alone, and saves the new vocabulary first. *)
Theorem answer_quiz_schedules now a s i it :
  quiz_wf s -> quiz_current s = Some i -> vocab s !! i = Some it ->
  let gold := if bool_decide (quiz_direction s = u8 "en2fr") then word it else translation it in
  let ok := grade gold a in
  let b := if ok then Z.min 5 (box it + 1) else 1%Z in
  dt_valid (now + box_delay b * us_per_day) ->
  exists r s' es it',
    answer_quiz auto_export now a s = Ok (RVerdict ok gold r) s' es
    /\ vocab s' = <[i := it']> (vocab s)
    /\ box it' = b
    /\ history it' = history it ++ [mk_hist (isoformat_seconds now) ok a]
    /\ fromisoformat (next_due it') = ParsedNaive (trunc_seconds (now + box_delay b * us_per_day))
    /\ word it' = word it /\ translation it' = translation it /\ example it' = example it
    /\ head es = Some (ESave (level s) (mode s) (topic s) (vocab s')).
Proof.
  intros Hwf Hc Hit gold ok b Hv.
  destruct (next_due_some b now Hv) as [nd Hnd].
  rewrite (answer_quiz_run auto_export now a s i it Hc Hit nd Hnd).
  set (s1 := set_vocab _ s).
  assert (Hwf1 : quiz_wf s1).
  { apply (quiz_wf_mono s); [| done | done]. unfold s1. by rewrite vocab_set_vocab, length_insert. }
  destruct (next_question_ok s1 Hwf1) as (r & s2 & -> & Hv2).
  eexists r, s2, _, _. split; [reflexivity |]. rewrite Hv2.
  repeat split; try reflexivity. exact (next_due_parse b now nd Hnd).
Qed.

(** C8: the spec's queue exhaustion: grading the last question of a quiz
    chains "Quiz terminé", leaves no current question, and a further
    [answer_quiz] answers "Pas de question en cours" without changing
    the state or writing anything. *)
Theorem quiz_exhaustion now a a' s i it :
  quiz_current s = Some i -> quiz_queue s = [] -> vocab s !! i = Some it ->
  let gold := if bool_decide (quiz_direction s = u8 "en2fr") then word it else translation it in
  let b := if grade gold a then Z.min 5 (box it + 1) else 1%Z in
  dt_valid (now + box_delay b * us_per_day) ->
  exists s' es,
    answer_quiz auto_export now a s = Ok (RVerdict (grade gold a) gold RQuizDone) s' es
    /\ quiz_current s' = None
    /\ answer_quiz auto_export now a' s' = Ok RNoQuestion s' [].
Proof.
  intros Hc Hq Hit gold b Hv.
  destruct (next_due_some b now Hv) as [nd Hnd].
  rewrite (answer_quiz_run auto_export now a s i it Hc Hit nd Hnd).
  rewrite next_question_nil by done.
  eexists _, _. split; [reflexivity |]. split; [reflexivity |].
  by apply answer_quiz_none.
Qed.

(** [answer_quiz] with no current question replies "Pas de question
    en cours" and changes nothing: same state, no save, no export. *)
Theorem answer_without_question now a s :
  quiz_current s = None -> answer_quiz auto_export now a s = Ok RNoQuestion s [].
Proof. apply answer_quiz_none. Qed.

(** C17: when [_next_due] raises [OverflowError] (the new due date is past
    [datetime.max]), [answer_quiz] has already written the new box and
    the history entry into the item, keeps the old [next_due], and saves
    nothing: the in-memory record is half updated. *)
Theorem answer_overflow_partial now a s i it :
  quiz_current s = Some i -> vocab s !! i = Some it ->
  let gold := if bool_decide (quiz_direction s = u8 "en2fr") then word it else translation it in
  let ok := grade gold a in
  let b := if ok then Z.min 5 (box it + 1) else 1%Z in
  ~ dt_valid (now + box_delay b * us_per_day) ->
  answer_quiz auto_export now a s =
  Err OverflowError
    (set_vocab (<[i := mk_item (word it) (translation it) (example it) b (next_due it)
                        (history it ++ [mk_hist (isoformat_seconds now) ok a])]> (vocab s)) s) [].
Proof.
  intros Hc Hit gold ok b Hv.
  exact (answer_quiz_overflow auto_export now a s i it Hc Hit (next_due_none b now Hv)).
Qed.

(** [start_quiz] on a non-empty vocabulary whose dates all read as
    naive serves the first of [max(1, min(count, len(L)))] distinct
    indices of [L], the due ones when some are due and every index
    otherwise, and leaves the vocabulary untouched. *)
Lemma start_quiz_serves_all now sh count dir s due :
  (forall l, sh l ≡ₚ l) -> vocab s <> [] -> _due_indices (vocab s) now = inr due ->
  let L := match due with [] => seq 0 (length (vocab s)) | _ => due end in
  exists i q it s',
    start_quiz now sh count dir s = Ok (prompt_of (quiz_direction_of dir) it) s' []
    /\ quiz_current s' = Some i /\ quiz_queue s' = q /\ vocab s !! i = Some it
    /\ vocab s' = vocab s /\ quiz_direction s' = quiz_direction_of dir
    /\ NoDup (i :: q) /\ (forall j, j ∈ i :: q -> j ∈ L)
    /\ S (length q) = Z.to_nat (Z.max 1 (Z.min count (Z.of_nat (length L)))).
Proof.
  intros Hsh Hne Hd L.
  set (C := match due with [] => by_box_indices (vocab s) | _ => due end).
  assert (HCL : C ≡ₚ L) by (unfold C, L; destruct due; [apply by_box_indices_perm | done]).
  destruct (start_candidates_ok _ _ _ Hd) as [Hnd Hb]. fold C in Hnd, Hb.
  assert (HL : L <> []).
  { unfold L. destruct due; [| done]. destruct (vocab s); [done |]. discriminate. }
  assert (HC : C <> []) by (intros E; apply HL; rewrite E in HCL; by apply Permutation_nil in HCL).
  rewrite (start_quiz_run _ _ _ _ _ due Hne Hd). fold C.
  assert (HlC : length (sh C) = length C) by (apply Permutation_length, Hsh).
  assert (HshC : sh C <> []) by (intros E; rewrite E in HlC; destruct C; [done | discriminate]).
  pose proof (quiz_take_length count (sh C) HshC) as Hlen. rewrite HlC in Hlen.
  destruct (quiz_take count (sh C)) as [|i q] eqn:Ht; [simpl in Hlen; lia |].
  assert (Hsub : i :: q `sublist_of` sh C) by (rewrite <- Ht; apply py_take_sublist).
  assert (Hin : forall j, j ∈ i :: q -> j ∈ C)
    by (intros j Hj; rewrite <- (Hsh C); eapply elem_of_sublist; [exact Hj | exact Hsub]).
  assert (Hi : i < length (vocab s)) by (apply Hb, Hin; left).
  destruct (lookup_lt_is_Some_2 _ _ Hi) as [it Hit].
  rewrite (next_question_cons _ i q it) by done.
  exists i, q, it. eexists. split; [reflexivity |]. repeat split; try done.
  - apply (sublist_NoDup _ (sh C)); [rewrite (Hsh C); exact Hnd | exact Hsub].
  - intros j Hj. rewrite <- HCL. by apply Hin.
  - simpl in Hlen. by rewrite Hlen, (Permutation_length HCL).
Qed.

(** C7: when some words are due, [start_quiz] (with dates that read as
    naive) serves the first of [max(1, min(count, len(due)))] distinct
    due indices, prompts for that item in the chosen direction, and
    leaves the vocabulary untouched. *)
Theorem start_quiz_serves now sh count dir s due :
  (forall l, sh l ≡ₚ l) -> vocab s <> [] -> _due_indices (vocab s) now = inr due -> due <> [] ->
  exists i q it s',
    start_quiz now sh count dir s = Ok (prompt_of (quiz_direction_of dir) it) s' []
    /\ quiz_current s' = Some i /\ quiz_queue s' = q /\ vocab s !! i = Some it
    /\ vocab s' = vocab s /\ quiz_direction s' = quiz_direction_of dir
    /\ NoDup (i :: q) /\ (forall j, j ∈ i :: q -> j ∈ due)
    /\ S (length q) = Z.to_nat (Z.max 1 (Z.min count (Z.of_nat (length due)))).
Proof.
  intros Hsh Hne Hd Hdue. pose proof (start_quiz_serves_all now sh count dir s due Hsh Hne Hd) as Hall.
  destruct due as [|j0 due']; [done | exact Hall].
Qed.

End QuizProperties2.

(** ** Witnesses and examples *)

Ltac decide_prop := apply (bool_decide_unpack _); vm_compute; exact I.
Ltac solve_wf := unfold quiz_wf; split; decide_prop.
Ltac solve_valid := apply dt_validb_spec; vm_compute; reflexivity.

Lemma grade_threshold_witness :
  grade (u8 "le café") (u8 "Le cafe ") =
  bool_decide (100 * _levenshtein (_tokenize (ucd_lower (_strip_accents (u8 "le café"))))
                                  (_tokenize (py_strip (ucd_lower (_strip_accents (u8 "Le cafe ")))))
               <= 34 * Nat.max 1 (length (_tokenize (ucd_lower (_strip_accents (u8 "le café")))))).
Proof. apply grade_threshold; vm_compute; lia. Defined.

Lemma answer_quiz_schedules_witness :
  let gold := if bool_decide (quiz_direction s_quiz = u8 "en2fr") then word cat_item
              else translation cat_item in
  let ok := grade gold (u8 "chat") in
  let b := if ok then Z.min 5 (box cat_item + 1) else 1%Z in
  exists r s' es it',
    answer_quiz true now0 (u8 "chat") s_quiz = Ok (RVerdict ok gold r) s' es
    /\ vocab s' = <[0 := it']> (vocab s_quiz)
    /\ box it' = b
    /\ history it' = history cat_item ++ [mk_hist (isoformat_seconds now0) ok (u8 "chat")]
    /\ fromisoformat (next_due it') = ParsedNaive (trunc_seconds (now0 + box_delay b * us_per_day))
    /\ word it' = word cat_item /\ translation it' = translation cat_item
    /\ example it' = example cat_item
    /\ head es = Some (ESave (level s_quiz) (mode s_quiz) (topic s_quiz) (vocab s')).
Proof.
  apply (answer_quiz_schedules true now0 (u8 "chat") s_quiz 0 cat_item);
    [solve_wf | reflexivity | reflexivity | solve_valid].
Defined.

Lemma quiz_exhaustion_witness :
  let gold := if bool_decide (quiz_direction s_quiz = u8 "en2fr") then word cat_item
              else translation cat_item in
  exists s' es,
    answer_quiz false now0 (u8 "chat") s_quiz = Ok (RVerdict (grade gold (u8 "chat")) gold RQuizDone) s' es
    /\ quiz_current s' = None
    /\ answer_quiz false now0 (u8 "chien") s' = Ok RNoQuestion s' [].
Proof.
  apply (quiz_exhaustion false now0 (u8 "chat") (u8 "chien") s_quiz 0 cat_item);
    [reflexivity | reflexivity | reflexivity | solve_valid].
Defined.

Lemma answer_without_question_witness :
  answer_quiz true now0 (u8 "chat") s_cat = Ok RNoQuestion s_cat [].
Proof. apply answer_without_question. reflexivity. Defined.

(** The last second of [datetime.max]'s day: one more day overflows. *)
Definition now_max : datetime := (datetime_max - 1000)%Z.

Lemma answer_overflow_partial_witness :
  let gold := if bool_decide (quiz_direction s_quiz = u8 "en2fr") then word cat_item
              else translation cat_item in
  let ok := grade gold (u8 "chien") in
  let b := if ok then Z.min 5 (box cat_item + 1) else 1%Z in
  answer_quiz true now_max (u8 "chien") s_quiz =
  Err OverflowError
    (set_vocab (<[0 := mk_item (word cat_item) (translation cat_item) (example cat_item) b
                        (next_due cat_item)
                        (history cat_item ++ [mk_hist (isoformat_seconds now_max) ok (u8 "chien")])]>
                  (vocab s_quiz)) s_quiz) [].
Proof.
  apply (answer_overflow_partial true now_max (u8 "chien") s_quiz 0 cat_item);
    [reflexivity | reflexivity |].
  rewrite <- dt_validb_spec. vm_compute. discriminate.
Defined.

Lemma start_quiz_serves_witness :
  exists i q it s',
    start_quiz (now0 + 2 * us_per_day)%Z id 1 (u8 "en2fr") s_cat = Ok (prompt_of (quiz_direction_of (u8 "en2fr")) it) s' []
    /\ quiz_current s' = Some i /\ quiz_queue s' = q /\ vocab s_cat !! i = Some it
    /\ vocab s' = vocab s_cat /\ quiz_direction s' = quiz_direction_of (u8 "en2fr")
    /\ NoDup (i :: q) /\ (forall j, j ∈ i :: q -> j ∈ [0])
    /\ S (length q) = Z.to_nat (Z.max 1 (Z.min 1 (Z.of_nat (length [0])))).
Proof.
  exact (start_quiz_serves (now0 + 2 * us_per_day)%Z id 1 (u8 "en2fr") s_cat [0] (fun l => reflexivity l)
           ltac:(discriminate) ltac:(vm_compute; reflexivity) ltac:(discriminate)).
Defined.

(** the spec's end-to-end scenario: with "chat" / "cat" in box 1 and
    nothing due, [start_quiz(count=1, direction="en2fr")] asks for "cat";
    the answer "chat" is accepted ("Bien joué") and the quiz ends ("Quiz
    terminé"); the box becomes 2 and the due date is two days later. *)
Example quiz_scenario_chat :
  match (r1 ← start_quiz now0 id 1 (u8 "en2fr");
         r2 ← answer_quiz true now0 (u8 "chat"); mret (r1, r2)) s_cat with
  | Ok (r1, r2) s' _ =>
      r1 = RPromptFr (u8 "cat") /\ r2 = RVerdict true (u8 "chat") RQuizDone
      /\ map box (vocab s') = [2%Z]
      /\ map (fun it => fromisoformat (next_due it)) (vocab s')
         = [ParsedNaive (now0 + 2 * us_per_day)%Z]
  | Err _ _ _ => False
  end.
Proof. vm_compute. repeat split. Qed.
