(* ===== verification/Tutor.v ===== *)
(** * The tools of [FrenchTutorPlus] and the tutor as a transition system

    Source: src/voice_livekit_agent/french_voice_tutor_plus.py, lines
    305-553: [set_level], [set_mode], [phrase_pack], [add_vocab],
    [list_vocab], [due_words], [give_sentence], [check_pronunciation], and
    the quiz tools of [Quiz].  [run_tool] dispatches a call; [step] is one
    call in an environment that gives the clock reading, the shuffle of
    [random.shuffle] (a permutation) and the indices [random.choice]
    draws (in range).  The theorems show what every reachable state
    satisfies, by induction over the steps.
*)

From S2P Require Import Prelude PyFloat Text Levenshtein Scoring DateTime IsoTime Leitner TutorState Quiz.
From Stdlib Require Import Lia.
From stdpp Require Import relations.

Local Set Warnings "-clear-no-such-hyp".

(** A line of [list_vocab] or of [due_words]. *)
Record vocab_line := mk_line {
  l_word : pystr; l_translation : pystr; l_box : Z;
  l_extra : option pystr      (** [next_due] for [list_vocab], the example for [due_words] *)
}.

Inductive tool_reply :=
| RQuiz (r : reply)
| RLevelUnknown (level : pystr)              (** "Niveau inconnu: ..." *)
| RLevelSet (lvl : pystr)                    (** "Niveau réglé sur ..." *)
| RModeUnknown (mode : pystr)                (** "Mode inconnu: ..." *)
| RRoleplay (topic : pystr)                  (** "Mode roleplay activé, thème: ..." *)
| RPronounceMode | RQuizMode
| RModeSet (mode : pystr)                    (** "Mode réglé sur ..." *)
| RTopicUnknown (topic : pystr)              (** "Sujet inconnu: ..." *)
| RPhrasePack (tp : pystr) (items : list (pystr * pystr))
| RAdded (word translation : pystr)          (** "Ajouté: ... → ..." *)
| RVocabEmpty
| RVocabList (lines : list vocab_line)
| RNothingDue                                (** "Aucune révision urgente aujourd’hui..." *)
| RDueWords (lines : list vocab_line)
| RSentence (fr tp : pystr)                  (** "Répète après moi: ..." *)
| RNoTarget                                  (** "Pas de phrase cible encore..." *)
| RFeedback (fb : pron_feedback).

Inductive tool_call :=
| CallSetLevel (level : pystr)
| CallSetMode (mode : pystr) (topic : option pystr)
| CallPhrasePack (topic : pystr)
| CallAddVocab (word translation : pystr) (example : option pystr)
| CallListVocab
| CallDueWords (top_k : Z) (include_examples : bool)
| CallStartQuiz (count : Z) (direction : pystr)
| CallNextQuestion
| CallAnswerQuiz (user_answer : pystr)
| CallGiveSentence (topic : option pystr)
| CallCheckPronunciation (heard : pystr).

(** What a call draws from the world. *)
Record env := mk_env {
  env_now : datetime;                        (** [datetime.now()] *)
  env_shuffle : list nat -> list nat;        (** [random.shuffle] *)
  env_pick_topic : nat;                      (** [random.choice(ROLEPLAY_TOPICS)] *)
  env_pick_phrase : nat                      (** [random.choice(PHRASES[tp])] *)
}.

Definition env_ok (e : env) : Prop :=
  (forall l, env_shuffle e l ≡ₚ l) /\ env_pick_topic e < length ROLEPLAY_TOPICS
  /\ forall tp items, phrases_of tp = Some items -> env_pick_phrase e < length items.

(** [x or default] on an optional string. *)
Definition str_or (x : option pystr) (default : pystr) : pystr :=
  match x with Some (_ :: _ as t) => t | _ => default end.

Section Tools.
Context `{UnicodeData} `{PyDateTime}.
Variable auto_export : bool.

(** [set_level(level)] *)
Definition set_level (now : datetime) (lvl_in : pystr) : M tool_reply :=
  let lvl := py_strip (ucd_upper lvl_in) in
  if bool_decide (lvl ∈ LEVELS) then
    modify (set_level_attr lvl);;
    _save_progress;;
    _maybe_auto_export auto_export (u8 "set_level") now;;
    mret (RLevelSet lvl)
  else mret (RLevelUnknown lvl_in).

(** [set_mode(mode, topic)] *)
Definition set_mode (now : datetime) (mode_in : pystr) (topic_in : option pystr) : M tool_reply :=
  let md := py_strip (ucd_lower mode_in) in
  if bool_decide (md ∈ MODES) then
    modify (set_mode_attr md);;
    (if bool_decide (md = u8 "roleplay") then
       match topic_in with
       | Some (_ :: _ as t) =>
           let tp := py_strip (ucd_lower t) in
           if bool_decide (tp ∈ ROLEPLAY_TOPICS) then modify (set_topic_attr tp) else mret tt
       | _ => mret tt
       end
     else mret tt);;
    _save_progress;;
    _maybe_auto_export auto_export (u8 "set_mode") now;;
    s ← gets id;
    mret (if bool_decide (mode s = u8 "roleplay") then RRoleplay (topic s)
          else if bool_decide (mode s = u8 "pronounce") then RPronounceMode
          else if bool_decide (mode s = u8 "quiz") then RQuizMode
          else RModeSet (mode s))
  else mret (RModeUnknown mode_in).

(** [phrase_pack(topic)] *)
Definition phrase_pack (topic_in : pystr) : M tool_reply :=
  let tp := py_strip (ucd_lower topic_in) in
  mret (match phrases_of tp with
        | None => RTopicUnknown topic_in
        | Some items => RPhrasePack tp items
        end).

(** [add_vocab(word, translation, example)]: [_next_due(1)] is evaluated
    while the dict is built, before the append. *)
Definition add_vocab (now : datetime) (w t : pystr) (ex : option pystr) : M tool_reply :=
  nd ← lift_opt OverflowError (_next_due 1 now);
  let item := mk_item (py_strip w) (py_strip t) (py_strip (default [] ex)) 1 nd [] in
  modify (fun s => set_vocab (vocab s ++ [item]) s);;
  _save_progress;;
  _maybe_auto_export auto_export (u8 "add_vocab") now;;
  mret (RAdded (word item) (translation item)).

(** [list_vocab()] *)
Definition list_vocab : M tool_reply :=
  s ← gets id;
  mret (match vocab s with
        | [] => RVocabEmpty
        | v => RVocabList (map (fun it => mk_line (word it) (translation it) (box it)
                                                  (Some (next_due it))) v)
        end).

(** The key [(box, next_due)] of [due_words]' sort, as [<=] on tuples. *)
Definition due_key_le (v : list vocab_item) (i j : nat) : bool :=
  match v !! i, v !! j with
  | Some a, Some b => (box a <? box b)%Z || ((box a =? box b)%Z && str_leb (next_due a) (next_due b))
  | _, _ => true
  end.

(** [due_words(top_k, include_examples)] *)
Definition due_words (now : datetime) (top_k : Z) (include_examples : bool) : M tool_reply :=
  s ← gets id;
  due_idxs ← lift (_due_indices (vocab s) now);
  match due_idxs with
  | [] => mret RNothingDue
  | _ =>
      let sorted := sort_stable (due_key_le (vocab s)) due_idxs in
      let lines := omap (fun idx =>
        it ← vocab s !! idx;
        Some (mk_line (word it) (translation it) (box it)
                (if include_examples && negb (bool_decide (example it = [])) then Some (example it)
                 else None))) (sorted .[: Z.max 1 top_k]) in
      mret (RDueWords lines)
  end.

(** [give_sentence(topic)], with the two draws of [random.choice]. *)
Definition give_sentence (pick_topic pick_phrase : nat) (topic_in : option pystr) : M tool_reply :=
  s ← gets id;
  let tp := ucd_lower (str_or topic_in (topic s)) in
  tp ← match phrases_of tp with
       | Some _ => mret tp
       | None => lift_opt IndexError (ROLEPLAY_TOPICS !! pick_topic)
       end;
  items ← lift_opt IndexError (phrases_of tp);
  '(fr, en) ← lift_opt IndexError (items !! pick_phrase);
  modify (set_pron_target (Some fr));;
  mret (RSentence fr tp).

(** [check_pronunciation(heard)] *)
Definition check_pronunciation (heard : pystr) : M tool_reply :=
  s ← gets id;
  mret (match pron_target s with
        | Some (_ :: _ as target) => RFeedback (pronunciation_feedback target heard)
        | _ => RNoTarget
        end).

(** One tool call. *)
Definition run_tool (e : env) (c : tool_call) : M tool_reply :=
  let now := env_now e in
  match c with
  | CallSetLevel l => set_level now l
  | CallSetMode m t => set_mode now m t
  | CallPhrasePack t => phrase_pack t
  | CallAddVocab w t ex => add_vocab now w t ex
  | CallListVocab => list_vocab
  | CallDueWords k ex => due_words now k ex
  | CallStartQuiz n d => r ← start_quiz now (env_shuffle e) n d; mret (RQuiz r)
  | CallNextQuestion => r ← next_question; mret (RQuiz r)
  | CallAnswerQuiz a => r ← answer_quiz auto_export now a; mret (RQuiz r)
  | CallGiveSentence t => give_sentence (env_pick_topic e) (env_pick_phrase e) t
  | CallCheckPronunciation h => check_pronunciation h
  end.

(** The tutor as a transition system: a step is one call in a
    well-formed environment; a call that raises still leaves its state. *)
Inductive step : tutor -> tutor -> Prop :=
| step_call e c s : env_ok e -> step s (res_state (run_tool e c s)).

End Tools.

(** ** The invariant of the tutor *)

Definition settings_ok (s : tutor) : Prop :=
  level s ∈ LEVELS /\ mode s ∈ MODES /\ topic s ∈ ROLEPLAY_TOPICS.

(** The pronunciation target is a sentence of the phrase bank. *)
Definition pron_ok (s : tutor) : Prop :=
  forall p, pron_target s = Some p ->
  exists tp items en, phrases_of tp = Some items /\ (p, en) ∈ items.

Definition tutor_inv (s : tutor) : Prop :=
  quiz_wf s /\ boxes_ok s /\ settings_ok s /\ pron_ok s.

(** A state the agent can start from: no quiz and no target, as
    [__init__] leaves them, with settings and boxes in range. *)
Definition init_ok (s : tutor) : Prop :=
  quiz_queue s = [] /\ quiz_current s = None /\ pron_target s = None
  /\ boxes_ok s /\ settings_ok s.

(** ** What each tool keeps *)

Ltac frame := unfold same_settings; repeat split.

Section Frames.
Context `{UnicodeData} `{PyDateTime}.
Variable auto_export : bool.

Lemma next_question_settings : preserves same_settings next_question.
Proof. unfold next_question. preserve; frame. Qed.

Lemma start_quiz_settings now sh n d : preserves same_settings (start_quiz now sh n d).
Proof. unfold start_quiz. preserve; try apply next_question_settings; frame. Qed.

Lemma answer_quiz_settings now a : preserves same_settings (answer_quiz auto_export now a).
Proof. unfold answer_quiz. preserve; try apply next_question_settings; frame. Qed.

Lemma next_question_grows : preserves vocab_grows next_question.
Proof. unfold next_question. preserve; by apply vocab_grows_same. Qed.

Lemma start_quiz_grows now sh n d : preserves vocab_grows (start_quiz now sh n d).
Proof.
  unfold start_quiz. preserve; first [apply next_question_grows | by apply vocab_grows_same].
Qed.

Lemma answer_quiz_grows now a : preserves vocab_grows (answer_quiz auto_export now a).
Proof.
  unfold answer_quiz. preserve; try apply next_question_grows; try (by apply vocab_grows_same);
    apply vocab_grows_alter; intros it; repeat split; simpl; try done; by apply prefix_app_r.
Qed.

End Frames.

(** ** The invariant, tool by tool *)

Section Invariant.
Context `{UnicodeData} `{PyDateTime}.
Variable auto_export : bool.

Ltac bool_hyps :=
  repeat match goal with H : bool_decide _ = true |- _ => apply bool_decide_eq_true in H end.

(** The tools other than the quiz and [give_sentence] keep the invariant. *)
Lemma settings_tools_inv e c :
  match c with
  | CallStartQuiz _ _ | CallNextQuestion | CallAnswerQuiz _ | CallGiveSentence _ => True
  | _ => preserves (keeps tutor_inv) (run_tool auto_export e c)
  end.
Proof.
  destruct c; try exact I; unfold run_tool;
    unfold set_level, set_mode, phrase_pack, add_vocab, list_vocab, due_words,
      check_pronunciation;
    preserve; intros (Hq & Hb & (Hl & Hm & Ht) & Hp); bool_hyps;
    (split; [| split; [| split; [split; [| split] |]]]); try assumption.
  (* [add_vocab]: the vocabulary grows by one item in box 1 *)
  - apply (quiz_wf_mono s); [rewrite vocab_set_vocab, length_app; lia | done | done].
  - unfold boxes_ok. rewrite vocab_set_vocab. apply Forall_app.
    split; [exact Hb | constructor; [simpl; lia | constructor]].
Qed.

Lemma give_sentence_cases k1 k2 t s :
  (exists tp items fr en, phrases_of tp = Some items /\ items !! k2 = Some (fr, en) /\
     give_sentence k1 k2 t s = Ok (RSentence fr tp) (set_pron_target (Some fr) s) [])
  \/ give_sentence k1 k2 t s = Err IndexError s [].
Proof.
  unfold give_sentence. mrun. set (tp0 := ucd_lower (str_or t (topic s))).
  destruct (phrases_of tp0) as [items|] eqn:E0; mrun.
  - rewrite E0. mrun. destruct (items !! k2) as [[fr en]|] eqn:Ek; mrun; [left | by right].
    exists tp0, items, fr, en. done.
  - destruct (ROLEPLAY_TOPICS !! k1) as [tp1|]; mrun; [| by right].
    destruct (phrases_of tp1) as [items|] eqn:E1; mrun; [| by right].
    destruct (items !! k2) as [[fr en]|] eqn:Ek; mrun; [left | by right].
    exists tp1, items, fr, en. done.
Qed.

Lemma give_sentence_inv k1 k2 t : preserves (keeps tutor_inv) (give_sentence k1 k2 t).
Proof.
  intros s Hinv. destruct (give_sentence_cases k1 k2 t s) as [(tp & items & fr & en & Ei & Ek & ->) | ->];
    [| exact Hinv].
  destruct Hinv as (Hq & Hb & Hs & Hp).
  split; [exact Hq | split; [exact Hb | split; [exact Hs |]]].
  unfold pron_ok. cbn [pron_target set_pron_target res_state]. intros p [= <-].
  exists tp, items, en. split; [done | by eapply list_elem_of_lookup_2].
Qed.

Lemma same_settings_ok s s' :
  same_settings s s' -> settings_ok s -> pron_ok s -> settings_ok s' /\ pron_ok s'.
Proof.
  intros (Hl & Hm & Ht & Hp) Hs Hpo. unfold settings_ok, pron_ok in *.
  rewrite Hl, Hm, Ht, Hp. done.
Qed.

Lemma quiz_tools_inv e c s :
  env_ok e -> tutor_inv s ->
  match c with
  | CallStartQuiz _ _ | CallNextQuestion | CallAnswerQuiz _ =>
      tutor_inv (res_state (run_tool auto_export e c s))
  | _ => True
  end.
Proof.
  intros (Hsh & _) (Hq & Hb & Hs & Hp). destruct c; try exact I; unfold run_tool;
    rewrite res_state_map.
  - pose proof (start_quiz_settings (env_now e) (env_shuffle e) count direction s) as Hss.
    split; [by apply (start_quiz_wf (env_now e) (env_shuffle e) count direction s) |].
    split; [| by apply (same_settings_ok s)].
    unfold boxes_ok. by rewrite start_quiz_vocab.
  - pose proof (next_question_settings s) as Hss.
    split; [by apply next_question_wf |]. split; [| by apply (same_settings_ok s)].
    unfold boxes_ok. by rewrite next_question_vocab.
  - pose proof (answer_quiz_settings auto_export (env_now e) user_answer s) as Hss.
    split; [by apply answer_quiz_wf |]. split; [by apply answer_quiz_boxes | by apply (same_settings_ok s)].
Qed.

(** One step keeps the invariant. *)
Lemma step_inv s s' : step auto_export s s' -> tutor_inv s -> tutor_inv s'.
Proof.
  intros [e c s0 He] Hinv.
  pose proof (settings_tools_inv e c) as Hset. pose proof (quiz_tools_inv e c s0 He Hinv) as Hquiz.
  destruct c; try (by apply Hset); try exact Hquiz.
  apply give_sentence_inv, Hinv.
Qed.

(** Every tool keeps each item's word, translation and example and only
    appends to its history. *)
Lemma run_tool_grows e c : preserves vocab_grows (run_tool auto_export e c).
Proof.
  destruct c; unfold run_tool;
    unfold set_level, set_mode, phrase_pack, add_vocab, list_vocab, due_words,
      check_pronunciation, give_sentence;
    preserve;
    first [ apply start_quiz_grows | apply next_question_grows | apply answer_quiz_grows
          | by apply vocab_grows_same | apply vocab_grows_app ].
Qed.

End Invariant.

Lemma init_inv s : init_ok s -> tutor_inv s.
Proof.
  intros (Hq & Hc & Hp & Hb & Hs). unfold tutor_inv, quiz_wf, quiz_indices, pron_ok.
  rewrite Hc, Hq, Hp. split; [split; constructor |]. split; [done |]. split; [done |].
  intros p [=].
Qed.

Lemma rtc_step_inv `{UnicodeData} `{PyDateTime} ae s s' : rtc (step ae) s s' -> tutor_inv s -> tutor_inv s'.
Proof. induction 1; eauto using step_inv. Qed.

(** ** The properties of the tutor *)

Section TutorProperties.
Context `{UnicodeData} `{PyDateTime}.
Variable auto_export : bool.

(** C1: in every state reachable from a fresh agent, whatever tools are
    called in whatever order (errors included), the quiz indices are
    valid and distinct (no word is asked twice in a quiz, and
    [self.vocab[self._quiz_current]] never raises), every box is in
    [1,5], level, mode and topic are among [LEVELS], [MODES] and
    [ROLEPLAY_TOPICS], and the pronunciation target is a sentence of the
    phrase bank. *)
Theorem reachable_invariant s0 s :
  init_ok s0 -> rtc (step auto_export) s0 s -> tutor_inv s.
Proof. intros Hi Hr. exact (rtc_step_inv auto_export s0 s Hr (init_inv s0 Hi)). Qed.

(** C11: along any run, no vocabulary item is removed or moved, its word,
    translation and example never change, and its history is only
    appended to (the spec's append-only history). *)
Theorem history_append_only s s' : rtc (step auto_export) s s' -> vocab_grows s s'.
Proof.
  induction 1 as [| x y z Hxy _ IH]; [reflexivity |].
  etransitivity; [| exact IH]. destruct Hxy as [e c x He]. apply run_tool_grows.
Qed.

(** C18: [add_vocab] appends one item with the stripped fields, box 1, an
    empty history and a due date that reads back as [now] plus one day,
    then saves. *)
Theorem add_vocab_spec now w t ex s :
  dt_valid (now + us_per_day) ->
  exists nd es,
    add_vocab auto_export now w t ex s =
      Ok (RAdded (py_strip w) (py_strip t))
         (set_vocab (vocab s ++ [mk_item (py_strip w) (py_strip t) (py_strip (default [] ex)) 1 nd []]) s) es
    /\ fromisoformat nd = ParsedNaive (trunc_seconds (now + us_per_day))
    /\ head es = Some (ESave (level s) (mode s) (topic s)
                   (vocab s ++ [mk_item (py_strip w) (py_strip t) (py_strip (default [] ex)) 1 nd []])).
Proof.
  intros Hv. assert (Hv1 : dt_valid (now + box_delay 1 * us_per_day)) by (rewrite Z.mul_1_l; done).
  destruct (next_due_some 1 now Hv1) as [nd Hnd].
  pose proof (next_due_parse 1 now nd Hnd) as Hp. rewrite Z.mul_1_l in Hp.
  unfold add_vocab. mrun. rewrite Hnd. mrun. rewrite maybe_auto_export_run.
  eexists nd, _. split; [reflexivity |]. split; [exact Hp | reflexivity].
Qed.

End TutorProperties.

(** ** Witnesses and examples *)

Lemma phrases_of_length tp items : phrases_of tp = Some items -> length items = 3.
Proof.
  unfold phrases_of. cbn [find PHRASES].
  repeat case_bool_decide; intros Hi; simplify_eq/=; done.
Qed.

(** The environment of the examples: the clock at [now0], no shuffle,
    the first topic and the first phrase. *)
Definition env0 : env := mk_env now0 id 0 0.

Lemma env0_ok : env_ok env0.
Proof.
  split; [intros l; reflexivity |]. split; [simpl; lia |].
  intros tp items Hi. rewrite (phrases_of_length tp items Hi). simpl. lia.
Qed.

Lemma initial_tutor_ok : init_ok initial_tutor.
Proof.
  unfold init_ok, settings_ok, boxes_ok. simpl. repeat split; try constructor; decide_prop.
Qed.

Definition call_add_chat : tool_call := CallAddVocab (u8 " chat ") (u8 "cat") None.

Lemma reachable_invariant_witness :
  tutor_inv (res_state (run_tool true env0 call_add_chat initial_tutor)).
Proof.
  apply (reachable_invariant true initial_tutor); [exact initial_tutor_ok |].
  apply rtc_once. exact (step_call true env0 call_add_chat initial_tutor env0_ok).
Defined.

Lemma history_append_only_witness :
  vocab_grows s_quiz (res_state (run_tool true env0 (CallAnswerQuiz (u8 "chat")) s_quiz)).
Proof.
  apply (history_append_only true). apply rtc_once.
  exact (step_call true env0 (CallAnswerQuiz (u8 "chat")) s_quiz env0_ok).
Defined.

Lemma add_vocab_spec_witness :
  exists nd es,
    add_vocab true now0 (u8 " chat ") (u8 "cat") None initial_tutor =
      Ok (RAdded (py_strip (u8 " chat ")) (py_strip (u8 "cat")))
         (set_vocab (vocab initial_tutor ++ [mk_item (py_strip (u8 " chat ")) (py_strip (u8 "cat"))
                                               (py_strip (default [] None)) 1 nd []]) initial_tutor) es
    /\ fromisoformat nd = ParsedNaive (trunc_seconds (now0 + us_per_day))
    /\ head es = Some (ESave (level initial_tutor) (mode initial_tutor) (topic initial_tutor)
                   (vocab initial_tutor ++ [mk_item (py_strip (u8 " chat ")) (py_strip (u8 "cat"))
                                              (py_strip (default [] None)) 1 nd []])).
Proof. apply add_vocab_spec. apply dt_validb_spec. vm_compute. reflexivity. Defined.

