(* ===== verification/Json.v ===== *)
(** * JSON values as Python handles them

    What [response.json()] returns: [None], booleans, ints, floats
    (binary64), strings, lists and dicts (a dict from [json.loads] has
    distinct keys, kept in the order of the text).  The tools apply a few
    Python operations to these values, each of which may raise:
    subscription [v[k]], [v.get(k, d)], the slice [v[:n]], iteration
    [for x in v], and truth testing.  A computation that may raise is a
    value of [py A], with the exceptions of [pyexn]. *)

From S2P Require Import Prelude PyFloat.
From Stdlib Require Import SpecFloat.

Module Json.

Local Set Warnings "-register-all".

Inductive json :=
| JNull
| JBool (b : bool)
| JInt (z : Z)
| JFloat (x : pyfloat)
| JStr (s : pystr)
| JList (l : list json)
| JObj (kvs : list (pystr * json)).

(** The exceptions the tools' [try] blocks catch. *)
Inductive pyexn :=
| KeyError (k : json)
| IndexError
| TypeError
| AttributeError
| JSONDecodeError.

(** A Python computation that may raise. *)
Abbreviation py A := (sum pyexn A).

#[export] Instance py_ret : MRet (sum pyexn) := fun A a => inr a.
#[export] Instance py_bind : MBind (sum pyexn) := fun A B k m =>
  match m with inl e => inl e | inr a => k a end.

(** [bool(v)] *)
Definition truthy (v : json) : bool :=
  match v with
  | JNull => false
  | JBool b => b
  | JInt z => negb (z =? 0)%Z
  | JFloat (S754_zero _) => false
  | JFloat _ => true
  | JStr s => negb (bool_decide (s = []))
  | JList l => negb (bool_decide (l = []))
  | JObj kvs => negb (bool_decide (kvs = []))
  end.

(** [l[i]] on a list or a string: a negative index counts from the end. *)
Definition py_index {A} (l : list A) (i : Z) : option A :=
  if (0 <=? i)%Z then l !! Z.to_nat i
  else if (0 <=? Z.of_nat (length l) + i)%Z then l !! Z.to_nat (Z.of_nat (length l) + i) else None.

(** [v[k]] *)
Definition getitem (v k : json) : py json :=
  match v, k with
  | JObj kvs, JStr key => match pydict_get key kvs with Some x => inr x | None => inl (KeyError k) end
  | JObj _, (JNull | JBool _ | JInt _ | JFloat _) => inl (KeyError k)
  | JList l, JInt i => match py_index l i with Some x => inr x | None => inl IndexError end
  | JStr s, JInt i => match py_index s i with Some c => inr (JStr [c]) | None => inl IndexError end
  | _, _ => inl TypeError
  end.

(** [v.get(k, default)]: only a dict has [get]. *)
Definition dict_get (v : json) (k : pystr) (dflt : json) : py json :=
  match v with
  | JObj kvs => inr (default dflt (pydict_get k kvs))
  | _ => inl AttributeError
  end.

(** [v[:n]] on a list or a string; a dict or a scalar cannot be sliced. *)
Definition slice_upto (v : json) (n : Z) : py json :=
  match v with
  | JList l => inr (JList (l .[: n]))
  | JStr s => inr (JStr (s .[: n]))
  | _ => inl TypeError
  end.

(** [for x in v]: a list gives its items, a dict its keys, a string its
    characters; anything else is not iterable. *)
Definition py_iter (v : json) : py (list json) :=
  match v with
  | JList l => inr l
  | JObj kvs => inr ((fun kv => JStr kv.1) <$> kvs)
  | JStr s => inr ((fun c => JStr [c]) <$> s)
  | _ => inl TypeError
  end.

(** Reading back the values the code wrote: a string, an int, a bool,
    and [d[k]] read with a decoder. *)
Definition json_str (v : json) : option pystr := match v with JStr s => Some s | _ => None end.
Definition json_int (v : json) : option Z := match v with JInt z => Some z | _ => None end.
Definition json_bool (v : json) : option bool := match v with JBool b => Some b | _ => None end.

Definition field {A} (kvs : list (pystr * json)) (k : pystr) (f : json -> option A) : option A :=
  pydict_get k kvs ≫= f.

(** Decoding each of a list of encoded values gives them back. *)
Lemma mapM_fmap_roundtrip {A B} (enc : A -> B) (dec : B -> option A) (l : list A) :
  (forall x, dec (enc x) = Some x) -> mapM dec (enc <$> l) = Some l.
Proof.
  intros Hx. induction l as [|x l IH]; [done |].
  cbn [fmap list_fmap mapM]. rewrite Hx, IH. done.
Qed.

Section Str.
Variable json_repr : json -> pystr.

(** [str(v)] in an f-string: a string is itself; the text of any other
    value ([repr] of a number, a list or a dict) is [json_repr]. *)
Definition py_str (v : json) : pystr :=
  match v with JStr s => s | _ => json_repr v end.

End Str.
End Json.
