(* ===== verification/Persistence.v ===== *)
(** * The progress file of [FrenchTutorPlus] and restarts of the agent

    [_save_progress] (french_voice_tutor_plus.py, lines 232-244) writes
    the document [{"level", "mode", "topic", "vocab", "saved_at"}], each
    vocabulary item as the dict [add_vocab] builds and [answer_quiz]
    updates; [__init__] (lines 184-217) sets the defaults and calls
    [_load_progress] (lines 220-230), which copies ["level"], ["mode"],
    ["topic"] and ["vocab"] from the file without checking them.

    The tutor state of the model holds typed items, so a load is
    [LoadedTyped] when the file's values have the types the tools use,
    [LoadedUntyped] when Python would go on with values of other types
    (which this model does not follow), and [Unchanged] when the file is
    missing, is not JSON, or is not a dict (the [except] then leaves the
    defaults).  The JSON codec itself is taken as faithful: the file
    read is the document written.

    The agent's life is then a transition system over the running state
    and the content of the progress file: a tool call, or a restart that
    builds a new agent from the file. *)

From S2P Require Import Prelude PyFloat Text Levenshtein Scoring DateTime IsoTime Leitner TutorState Quiz Tutor Json.
From stdpp Require Import relations.

Local Set Warnings "-clear-no-such-hyp".

Module ProgressFile.
Import Json.

(** ** Writing: the document of [_save_progress] *)

Definition hist_json (e : hist_entry) : json :=
  JObj [(u8 "t", JStr (h_t e)); (u8 "ok", JBool (h_ok e)); (u8 "input", JStr (h_input e))].

(** The item dict, in the key order of [add_vocab]. *)
Definition item_json (it : vocab_item) : json :=
  JObj [(u8 "word", JStr (word it)); (u8 "translation", JStr (translation it));
        (u8 "example", JStr (example it)); (u8 "box", JInt (box it));
        (u8 "next_due", JStr (next_due it)); (u8 "history", JList (hist_json <$> history it))].

Definition progress_doc (level mode topic : pystr) (vocab : list vocab_item) (saved_at : pystr) : json :=
  JObj [(u8 "level", JStr level); (u8 "mode", JStr mode); (u8 "topic", JStr topic);
        (u8 "vocab", JList (item_json <$> vocab)); (u8 "saved_at", JStr saved_at)].

(** ** Reading: [_load_progress] *)

Definition hist_of_json (v : json) : option hist_entry :=
  match v with
  | JObj kvs =>
      t ← field kvs (u8 "t") json_str; ok ← field kvs (u8 "ok") json_bool;
      input ← field kvs (u8 "input") json_str; Some (mk_hist t ok input)
  | _ => None
  end.

Definition item_of_json (v : json) : option vocab_item :=
  match v with
  | JObj kvs =>
      w ← field kvs (u8 "word") json_str; t ← field kvs (u8 "translation") json_str;
      ex ← field kvs (u8 "example") json_str; b ← field kvs (u8 "box") json_int;
      nd ← field kvs (u8 "next_due") json_str;
      h ← field kvs (u8 "history") (fun v => match v with JList l => mapM hist_of_json l | _ => None end);
      Some (mk_item w t ex b nd h)
  | _ => None
  end.

Inductive load_outcome := LoadedTyped (s : tutor) | LoadedUntyped | Unchanged.

(** [_load_progress()] on the file's content: [None] when the file does
    not exist, [inl _] when [json.load] raises. *)
Definition _load_progress (file : option (py json)) (s : tutor) : load_outcome :=
  match file with
  | Some (inr (JObj kvs)) =>
      let lvl := default (JStr (level s)) (pydict_get (u8 "level") kvs) in
      let md := default (JStr (mode s)) (pydict_get (u8 "mode") kvs) in
      let tp := default (JStr (topic s)) (pydict_get (u8 "topic") kvs) in
      let vc := default (JList []) (pydict_get (u8 "vocab") kvs) in
      match json_str lvl, json_str md, json_str tp,
            (match vc with JList l => mapM item_of_json l | _ => None end) with
      | Some l, Some m, Some t, Some v => LoadedTyped (set_vocab v (set_topic_attr t (set_mode_attr m (set_level_attr l s))))
      | _, _, _, _ => LoadedUntyped
      end
  | _ => Unchanged
  end.

(** [FrenchTutorPlus()]: the defaults of [__init__], then the file. *)
Definition boot (file : option (py json)) : option tutor :=
  match _load_progress file initial_tutor with
  | LoadedTyped s => Some s
  | Unchanged => Some initial_tutor
  | LoadedUntyped => None
  end.

(** ** What a call saves *)

Fixpoint saves_of (es : list effect) : list effect :=
  match es with
  | [] => []
  | (ESave _ _ _ _ as ef) :: es => ef :: saves_of es
  | EExport _ _ _ _ _ :: es => saves_of es
  end.
Definition res_effects {A} (r : result A) : list effect :=
  match r with Ok _ _ es => es | Err _ _ es => es end.
Definition saves {A} (r : result A) : list effect := saves_of (res_effects r).
Definition snapshot (s : tutor) : effect := ESave (level s) (mode s) (topic s) (vocab s).

(** Every save of [r] writes the state [r] ends in. *)
Definition saves_final {A} (r : result A) : Prop :=
  Forall (fun ef => ef = snapshot (res_state r)) (saves r).

(** ** The agent across restarts *)

(** The fields of a saved document the tools rely on: a level, a mode
    and a topic of the lists, and every box in [1,5]. *)
Definition stored_ok (l m t : pystr) (v : list vocab_item) : Prop :=
  l ∈ LEVELS /\ m ∈ MODES /\ t ∈ ROLEPLAY_TOPICS /\ Forall (fun it => (1 <= box it <= 5)%Z) v.

Definition save_ok (ef : effect) : Prop :=
  match ef with ESave l m t v => stored_ok l m t v | EExport _ _ _ _ _ => True end.

(** The progress file holds nothing, text [json.load] rejects, or a
    document [_save_progress] wrote from fields the tools rely on. *)
Definition file_ok (f : option (py json)) : Prop :=
  match f with
  | Some (inr d) => exists l m t v sa, d = progress_doc l m t v sa /\ stored_ok l m t v
  | _ => True
  end.

(** The progress file after the writes of a call.  A write that raises
    is caught: the file is as it was (the [open] failed) or cut short
    (the [json.dump] failed part-way), which [json.load] rejects. *)
Inductive writes : option (py json) -> list effect -> option (py json) -> Prop :=
| writes_nil f : writes f [] f
| writes_export f r l m t rows es f' :
    writes f es f' -> writes f (EExport r l m t rows :: es) f'
| writes_save f l m t v saved_at es f' :
    writes (Some (inr (progress_doc l m t v saved_at))) es f' -> writes f (ESave l m t v :: es) f'
| writes_failed f f1 l m t v es f' :
    f1 = f \/ f1 = Some (inl JSONDecodeError) -> writes f1 es f' -> writes f (ESave l m t v :: es) f'.

(** The running agent and the content of its progress file. *)
Record agent_sys := mk_sys { running : tutor; progress : option (py json) }.

Section System.
Context `{UnicodeData} `{PyDateTime}.
Variable auto_export : bool.

(** A tool call writes its saves; a restart builds [FrenchTutorPlus()]
    from the file. *)
Inductive sys_step : agent_sys -> agent_sys -> Prop :=
| sys_call e c s f f' :
    env_ok e -> writes f (res_effects (run_tool auto_export e c s)) f' ->
    sys_step (mk_sys s f) (mk_sys (res_state (run_tool auto_export e c s)) f')
| sys_restart s f s' : boot f = Some s' -> sys_step (mk_sys s f) (mk_sys s' f).

End System.

(** ** Lemmas *)

Lemma hist_roundtrip e : hist_of_json (hist_json e) = Some e.
Proof. by destruct e. Qed.


Lemma item_roundtrip it : item_of_json (item_json it) = Some it.
Proof.
  destruct it as [w t ex b nd h].
  transitivity (h' ← mapM hist_of_json (hist_json <$> h); Some (mk_item w t ex b nd h')); [reflexivity |].
  by rewrite (mapM_fmap_roundtrip _ _ _ hist_roundtrip).
Qed.


Lemma load_progress_doc l m t v sa s :
  _load_progress (Some (inr (progress_doc l m t v sa))) s
  = LoadedTyped (set_vocab v (set_topic_attr t (set_mode_attr m (set_level_attr l s)))).
Proof.
  transitivity (match mapM item_of_json (item_json <$> v) with
                | Some v' => LoadedTyped (set_vocab v' (set_topic_attr t (set_mode_attr m (set_level_attr l s))))
                | None => LoadedUntyped end); [reflexivity |].
  by rewrite (mapM_fmap_roundtrip _ _ _ item_roundtrip).
Qed.

Lemma saves_of_app es es' : saves_of (es ++ es') = saves_of es ++ saves_of es'.
Proof. induction es as [|[] es IH]; simpl; by rewrite ?IH. Qed.

Lemma saves_map {A B} (m : M A) (f : A -> B) s :
  saves ((r ← m; mret (f r)) s) = saves (m s) /\ res_state ((r ← m; mret (f r)) s) = res_state (m s).
Proof. unfold saves, mbind, M_bind. simpl. destruct (m s); by rewrite ?app_nil_r. Qed.

Lemma saves_final_map {A B} (m : M A) (f : A -> B) s :
  saves_final (m s) -> saves_final ((r ← m; mret (f r)) s).
Proof. unfold saves_final. by destruct (saves_map m f s) as [-> ->]. Qed.

Section Saves.
Context `{UnicodeData} `{PyDateTime}.
Variable auto_export : bool.

Lemma export_effects_no_save reason now s : saves_of (export_effects auto_export reason now s) = [].
Proof. unfold export_effects. by destruct auto_export. Qed.

Lemma next_question_effects s : res_effects (next_question s) = [].
Proof. unfold next_question. mrun. destruct (quiz_queue s); [done |]. by destruct (vocab s !! _). Qed.

Lemma start_quiz_no_save now sh n d s : saves (start_quiz now sh n d s) = [].
Proof.
  destruct (decide (vocab s = [])) as [Hv | Hne].
  { unfold start_quiz. mrun. by rewrite Hv. }
  destruct (_due_indices (vocab s) now) as [x | due] eqn:Hd.
  - by rewrite (start_quiz_error _ _ _ _ _ x).
  - rewrite (start_quiz_run _ _ _ _ _ due) by done. unfold saves. by rewrite next_question_effects.
Qed.

Lemma answer_quiz_saves_final now a s : saves_final (answer_quiz auto_export now a s).
Proof.
  destruct (quiz_current s) as [i|] eqn:Hc; [| rewrite answer_quiz_none by done; constructor].
  destruct (vocab s !! i) as [it|] eqn:Hit.
  2: { unfold answer_quiz. mrun. rewrite Hc. cbn [vocab]. rewrite Hit. constructor. }
  set (b := if grade (if bool_decide (quiz_direction s = u8 "en2fr") then word it else translation it) a
            then promote_box (box it) else 1%Z).
  destruct (_next_due b now) as [nd|] eqn:Hnd; 
    [| rewrite (answer_quiz_overflow auto_export now a s i it Hc Hit) by done; constructor].
  rewrite (answer_quiz_run auto_export now a s i it Hc Hit nd Hnd). cbv zeta.
  set (s1 := set_vocab _ s).
  pose proof (next_question_effects s1) as He. pose proof (next_question_vocab s1) as Hv.
  pose proof (next_question_settings s1) as (Hl & Hm & Ht & _).
  destruct (next_question s1); cbn [res_effects res_state] in *; subst; unfold saves_final, saves;
    cbn [res_effects res_state]; rewrite app_nil_r; cbn [saves_of]; rewrite export_effects_no_save;
    apply Forall_singleton; unfold snapshot; congruence.
Qed.

(** Split the code's own conditions, not the results of the monad. *)
Ltac split_data :=
  repeat match goal with
  | |- context [match ?x with _ => _ end] =>
      lazymatch type of x with result _ => fail | _ => destruct x end
  end.

Ltac saves_tac :=
  unfold saves_final, saves; cbn [res_effects res_state];
  rewrite ?saves_of_app, ?export_effects_no_save; cbn [saves_of app]; repeat constructor.

(** Every save a tool call makes writes the state the call ends in. *)
Lemma run_tool_saves_final e c s : saves_final (run_tool auto_export e c s).
Proof.
  destruct c; unfold run_tool.
  - unfold set_level, _maybe_auto_export. destruct auto_export; mrun; split_data; mrun; saves_tac.
  - unfold set_mode, _maybe_auto_export. destruct auto_export; mrun; split_data; mrun; saves_tac.
  - unfold phrase_pack. saves_tac.
  - unfold add_vocab, _maybe_auto_export. destruct auto_export; mrun; split_data; mrun; saves_tac.
  - unfold list_vocab. mrun. saves_tac.
  - unfold due_words. mrun. split_data; mrun; saves_tac.
  - apply saves_final_map. unfold saves_final. rewrite start_quiz_no_save. constructor.
  - apply saves_final_map. unfold saves_final, saves. rewrite next_question_effects. constructor.
  - apply saves_final_map, answer_quiz_saves_final.
  - unfold give_sentence. mrun. split_data; mrun; saves_tac.
  - unfold check_pronunciation. mrun. saves_tac.
Qed.

End Saves.

Section SystemInvariant.
Context `{UnicodeData} `{PyDateTime}.
Variable auto_export : bool.

Lemma boot_file_ok f : file_ok f -> exists s', boot f = Some s' /\ init_ok s'.
Proof.
  destruct f as [[x | d] |]; simpl; [| | eauto using initial_tutor_ok].
  - eauto using initial_tutor_ok.
  - intros (l & m & t & v & sa & -> & Hl & Hm & Ht & Hv). unfold boot. rewrite load_progress_doc.
    eexists. split; [reflexivity |]. by repeat split.
Qed.

Lemma writes_file_ok f es f' :
  writes f es f' -> file_ok f -> Forall save_ok (saves_of es) -> file_ok f'.
Proof.
  induction 1 as [f | f r l m t rows es f' _ IH | f l m t v sa es f' _ IH | f f1 l m t v es f' Hf1 _ IH];
    simpl; intros Hf Hs; [done | by apply IH | |]; inversion_clear Hs as [| ? ? Hok Hs'].
  - apply IH; [| done]. simpl. eauto 10.
  - apply IH; [| done]. by destruct Hf1 as [-> | ->].
Qed.

(** A call in a well-formed environment only saves states the tools rely on. *)
Lemma call_saves_ok e c s :
  env_ok e -> tutor_inv s -> Forall save_ok (saves_of (res_effects (run_tool auto_export e c s))).
Proof.
  intros He Hs. pose proof (step_inv auto_export _ _ (step_call auto_export e c s He) Hs) as (_ & Hb & Hset & _).
  destruct Hset as (Hl & Hm & Ht).
  eapply Forall_impl; [apply run_tool_saves_final |]. intros ef ->. by repeat split.
Qed.

Lemma sys_step_inv x y :
  sys_step auto_export x y -> tutor_inv (running x) /\ file_ok (progress x) ->
  tutor_inv (running y) /\ file_ok (progress y).
Proof.
  destruct 1 as [e c s f f' He Hw | s f s' Hb]; simpl; intros [Hs Hf].
  - split; [exact (step_inv auto_export _ _ (step_call auto_export e c s He) Hs) |].
    eapply writes_file_ok; [exact Hw | exact Hf | by apply call_saves_ok].
  - destruct (boot_file_ok f Hf) as (s'' & Hb' & Hi). rewrite Hb in Hb'. simplify_eq.
    split; [by apply init_inv | done].
Qed.

Lemma rtc_sys_step_inv x y :
  rtc (sys_step auto_export) x y -> tutor_inv (running x) /\ file_ok (progress x) ->
  tutor_inv (running y) /\ file_ok (progress y).
Proof. induction 1; eauto using sys_step_inv. Qed.

End SystemInvariant.

Section ProgressProperties.
Context `{UnicodeData} `{PyDateTime}.
Variable auto_export : bool.

(** C13: every save a tool call makes, on every branch of every tool,
    errors included, writes the level, mode, topic and vocabulary of the
    state the call ends in: what the file holds after a call that saved
    is what the running agent holds. *)
Theorem call_saves_final_state e c s :
  Forall (fun ef => ef = ESave (level (res_state (run_tool auto_export e c s)))
                              (mode (res_state (run_tool auto_export e c s)))
                              (topic (res_state (run_tool auto_export e c s)))
                              (vocab (res_state (run_tool auto_export e c s))))
         (saves_of (res_effects (run_tool auto_export e c s))).
Proof. exact (run_tool_saves_final auto_export e c s). Qed.

(** C12: from a fresh agent with no progress file, along any run of tool
    calls (each save written, or failing and leaving the file as it was
    or cut short) and restarts that build [FrenchTutorPlus()] from the
    file, the running agent keeps the invariant of [reachable_invariant],
    and a restart at that point succeeds: it loads a state with no quiz,
    no pronunciation target, valid settings and boxes in [1,5]. *)
Theorem restart_invariant s f :
  rtc (sys_step auto_export) (mk_sys initial_tutor None) (mk_sys s f) ->
  tutor_inv s /\ exists s', boot f = Some s' /\ init_ok s'.
Proof.
  intros Hr. destruct (rtc_sys_step_inv auto_export _ _ Hr) as [Hs Hf].
  - split; [apply init_inv, initial_tutor_ok | done].
  - split; [done | by apply boot_file_ok].
Qed.

End ProgressProperties.

(** C14: a restart after a save gives back the saved level, mode, topic
    and vocabulary (every item with its box, due date and history), with
    the quiz and the pronunciation target of a fresh agent, whatever
    the time stamp [saved_at]. *)
Theorem save_load_roundtrip s saved_at :
  boot (Some (inr (progress_doc (level s) (mode s) (topic s) (vocab s) saved_at)))
  = Some (mk_tutor (level s) (mode s) (topic s) (vocab s) [] None (u8 "en2fr") None).
Proof. unfold boot. by rewrite load_progress_doc. Qed.

(** ** Witnesses and examples *)

Definition saved_at0 : pystr := u8 "2024-10-04T00:00:00".
Definition s_b1 : tutor := set_level_attr (u8 "B1") initial_tutor.
Definition f_b1 : option (py json) := Some (inr (progress_doc (u8 "B1") (u8 "chat") (u8 "cafe") [] saved_at0)).

(** [set_level("B1")], its save written, then a restart. *)
Lemma restart_invariant_witness :
  tutor_inv s_b1 /\ exists s', boot f_b1 = Some s' /\ init_ok s'.
Proof.
  apply (restart_invariant true).
  eapply rtc_l; [apply (sys_call true env0 (CallSetLevel (u8 "B1")) initial_tutor None f_b1 env0_ok) |].
  { apply (writes_save None (u8 "B1") (u8 "chat") (u8 "cafe") [] saved_at0). apply writes_export, writes_nil. }
  eapply rtc_l; [apply sys_restart; reflexivity | apply rtc_refl].
Defined.

(** [_load_progress] checks nothing: a hand-edited level is loaded as is. *)
Example load_unchecked_level :
  boot (Some (inr (progress_doc (u8 "Z9") (u8 "chat") (u8 "cafe") [] saved_at0)))
  = Some (set_level_attr (u8 "Z9") initial_tutor)
  /\ ~ settings_ok (set_level_attr (u8 "Z9") initial_tutor).
Proof. split; [reflexivity |]. intros [Hl _]. vm_compute in Hl. set_solver. Qed.

End ProgressFile.
