(* ===== verification/Memory.v ===== *)
(** * The conversation memory of the universal agent

    [ConversationMemory] of [universal_agent.py] (lines 127-201), and the
    agent's memory tools [remember_preference], [recall_preferences],
    [handle_user_message] and [handle_agent_response] (lines 520-695).

    Every write of [_save] is recorded as the document it serialises
    (a [saved] value): [_save] swallows every exception, so a failed
    write never changes the in-memory state.  [saved_json] is the JSON
    dict [json.dump] writes for it, with the code's key names.  What
    [_load] reads is a [loaded] value whose absent keys are [None]; a
    file that is missing, fails to parse or is not a dict is [None] as a
    whole, and [read_document] reads a JSON value back with the keys of
    [_load] (a value of another shape than the code writes is not
    followed: such a file is [None] too).  The two
    calls to [datetime.now().isoformat()] of an operation are two
    arguments, the turn's stamp and the save's stamp. *)

From S2P Require Import Prelude PyFloat Json.

Module ConversationMemory.

(** A conversation turn, [{'timestamp', 'user', 'agent', 'metadata'}]. *)
Record turn := mk_turn {
  timestamp : pystr;
  user : pystr;
  agent : pystr;
  metadata : pydict pystr pystr
}.

(** A learned fact, [{'fact', 'category', 'learned_at'}]. *)
Record fact_entry := mk_fact {
  fact : pystr;
  category : pystr;
  learned_at : pystr
}.

Record memory := mk_memory {
  memory_file : pystr;
  max_turns : Z;
  conversations : list turn;
  user_preferences : pydict pystr pystr;
  facts_learned : list fact_entry
}.

(** The document [json.dump] writes. *)
Record saved := mk_saved {
  saved_conversations : list turn;
  saved_user_preferences : pydict pystr pystr;
  saved_facts_learned : list fact_entry;
  last_updated : pystr
}.

(** The document [json.load] reads; [data.get(key, default)] is [None]
    for an absent key. *)
Record loaded := mk_loaded {
  loaded_conversations : option (list turn);
  loaded_user_preferences : option (pydict pystr pystr);
  loaded_facts_learned : option (list fact_entry)
}.

Definition set_conversations (c : list turn) (m : memory) : memory :=
  mk_memory (memory_file m) (max_turns m) c (user_preferences m) (facts_learned m).

Definition set_user_preferences (p : pydict pystr pystr) (m : memory) : memory :=
  mk_memory (memory_file m) (max_turns m) (conversations m) p (facts_learned m).

Definition set_facts_learned (f : list fact_entry) (m : memory) : memory :=
  mk_memory (memory_file m) (max_turns m) (conversations m) (user_preferences m) f.

(** [_load]: a readable file replaces the three fields, keeping only the
    last [max_turns] conversations. *)
Definition _load (file : option loaded) (m : memory) : memory :=
  match file with
  | None => m
  | Some data =>
      mk_memory (memory_file m) (max_turns m)
        ((default [] (loaded_conversations data)) .[- max_turns m :])
        (default [] (loaded_user_preferences data))
        (default [] (loaded_facts_learned data))
  end.

(** [ConversationMemory(memory_file, max_turns)]: empty, then [_load]. *)
Definition init_memory (file_name : pystr) (n : Z) (file : option loaded) : memory :=
  _load file (mk_memory file_name n [] [] []).

(** [_save]: the document written, with the last [max_turns] turns. *)
Definition _save (now : pystr) (m : memory) : saved :=
  mk_saved ((conversations m) .[- max_turns m :]) (user_preferences m) (facts_learned m) now.

(** The JSON dict [json.dump] writes. *)
Definition dict_json (d : pydict pystr pystr) : Json.json := Json.JObj ((fun kv => (kv.1, Json.JStr kv.2)) <$> d).

Definition turn_json (t : turn) : Json.json :=
  Json.JObj [(u8 "timestamp", Json.JStr (timestamp t)); (u8 "user", Json.JStr (user t));
             (u8 "agent", Json.JStr (agent t)); (u8 "metadata", dict_json (metadata t))].

Definition fact_json (f : fact_entry) : Json.json :=
  Json.JObj [(u8 "fact", Json.JStr (fact f)); (u8 "category", Json.JStr (category f));
             (u8 "learned_at", Json.JStr (learned_at f))].

Definition saved_json (s : saved) : Json.json :=
  Json.JObj [(u8 "conversations", Json.JList (turn_json <$> saved_conversations s));
             (u8 "user_preferences", dict_json (saved_user_preferences s));
             (u8 "facts_learned", Json.JList (fact_json <$> saved_facts_learned s));
             (u8 "last_updated", Json.JStr (last_updated s))].

(** Reading back what [_load] uses from a JSON value. *)
Definition dict_of_json (v : Json.json) : option (pydict pystr pystr) :=
  match v with
  | Json.JObj kvs => mapM (fun kv => s ← Json.json_str kv.2; Some (kv.1, s)) kvs
  | _ => None
  end.

Definition turn_of_json (v : Json.json) : option turn :=
  match v with
  | Json.JObj kvs =>
      ts ← Json.field kvs (u8 "timestamp") Json.json_str; u ← Json.field kvs (u8 "user") Json.json_str;
      a ← Json.field kvs (u8 "agent") Json.json_str; md ← Json.field kvs (u8 "metadata") dict_of_json;
      Some (mk_turn ts u a md)
  | _ => None
  end.

Definition fact_of_json (v : Json.json) : option fact_entry :=
  match v with
  | Json.JObj kvs =>
      f ← Json.field kvs (u8 "fact") Json.json_str; c ← Json.field kvs (u8 "category") Json.json_str;
      l ← Json.field kvs (u8 "learned_at") Json.json_str; Some (mk_fact f c l)
  | _ => None
  end.

Definition list_of_json {A} (dec : Json.json -> option A) (v : Json.json) : option (list A) :=
  match v with Json.JList l => mapM dec l | _ => None end.

(** [data.get(key)]: [Some None] for an absent key. *)
Definition get_key {A} (kvs : list (pystr * Json.json)) (k : pystr) (dec : Json.json -> option A)
    : option (option A) :=
  match pydict_get k kvs with None => Some None | Some v => Some <$> dec v end.

(** What [_load] reads from the value [json.load] returns: [data.get] on
    a value that is not a dict raises, which [_load] catches. *)
Definition read_document (v : Json.json) : option loaded :=
  match v with
  | Json.JObj kvs =>
      c ← get_key kvs (u8 "conversations") (list_of_json turn_of_json);
      p ← get_key kvs (u8 "user_preferences") dict_of_json;
      f ← get_key kvs (u8 "facts_learned") (list_of_json fact_of_json);
      Some (mk_loaded c p f)
  | _ => None
  end.

(** What [_load] reads from a file [_save] wrote: [json.load] gives back
    the value [json.dump] wrote. *)
Definition reload (s : saved) : option loaded := read_document (saved_json s).

(** An operation returns the new memory and the documents it wrote. *)
Definition add_turn (user_msg agent_msg : pystr) (md : pydict pystr pystr)
    (ts now : pystr) (m : memory) : memory * list saved :=
  let m' := set_conversations (conversations m ++ [mk_turn ts user_msg agent_msg md]) m in
  (m', [_save now m']).

Definition add_preference (key value : pystr) (now : pystr) (m : memory) : memory * list saved :=
  let m' := set_user_preferences (pydict_set key value (user_preferences m)) m in
  (m', [_save now m']).

Definition add_fact (f : pystr) (cat : pystr) (ts now : pystr) (m : memory) : memory * list saved :=
  let m' := set_facts_learned (facts_learned m ++ [mk_fact f cat ts]) m in
  (m', [_save now m']).

(** [get_context_summary]: the lines before ["\n".join].  The rendering
    of the preferences dict by the f-string is a parameter. *)
Section Summary.
Context (dict_str : pydict pystr pystr -> pystr).

Definition turn_lines (t : turn) : list pystr :=
  [u8 "User: " ++ (user t) .[: 100] ++ u8 "...";
   u8 "Agent: " ++ (agent t) .[: 100] ++ u8 "..."].

Definition get_context_summary (m : memory) : list pystr :=
  match conversations m with
  | [] => [u8 "No previous conversation history."]
  | _ =>
      u8 "Recent conversation context:" :: mjoin (turn_lines <$> (conversations m) .[- 3 :])
      ++ (if bool_decide (user_preferences m = []) then []
          else [nl ++ u8 "User preferences: " ++ dict_str (user_preferences m)])
  end.
End Summary.

End ConversationMemory.

(** ** The universal agent's memory tools

    [self.memory] is [None] when [ENABLE_MEMORY] is off.  A
    [ConversationMemory] object is always truthy, so [if not
    self.memory] only tests for [None]. *)
Module MemoryTools.
Import ConversationMemory.

(** [remember_preference]; [add_preference] cannot raise since [_save]
    catches everything, so the [except] branch is unreachable. *)
Definition remember_preference (mem : option memory) (key value now : pystr)
    : pystr * option memory * list saved :=
  match mem with
  | None => (u8 "Memory is disabled. Enable with ENABLE_MEMORY=true", None, [])
  | Some m =>
      let '(m', w) := add_preference key value now m in
      (u8 "I'll remember that: " ++ key ++ u8 " = " ++ value, Some m', w)
  end.

Definition pref_line (kv : pystr * pystr) : pystr :=
  u8 "• " ++ kv.1 ++ u8 ": " ++ kv.2.

Definition recall_preferences (mem : option memory) : pystr :=
  match mem with
  | None => u8 "Memory is disabled."
  | Some m =>
      match user_preferences m with
      | [] => u8 "I don't have any preferences stored yet."
      | prefs => str_join nl (u8 "Your preferences:" :: (pref_line <$> prefs))
      end
  end.

Definition handle_user_message (mem : option memory) (message ts now : pystr)
    : option memory * list saved :=
  match mem with
  | None => (None, [])
  | Some m => let '(m', w) := add_turn message [] [] ts now m in (Some m', w)
  end.

(** [last_turn['agent'] = response]: the dict in the list is mutated in
    place, so the memory sees the change. *)
Definition set_last_agent (response : pystr) (c : list turn) : list turn :=
  match last c with
  | None => c
  | Some t => removelast c ++ [mk_turn (timestamp t) (user t) response (metadata t)]
  end.

Definition handle_agent_response (mem : option memory) (response now : pystr)
    : option memory * list saved :=
  match mem with
  | Some m =>
      match conversations m with
      | [] => (mem, [])
      | _ => let m' := set_conversations (set_last_agent response (conversations m)) m in
             (Some m', [_save now m'])
      end
  | None => (mem, [])
  end.

End MemoryTools.

(** ** Sequences of memory operations

    A run of the agent calls the memory operations in any order: the
    turn, preference and fact writers, and the completion of the last
    turn by [handle_agent_response]. *)
Module MemoryRuns.
Import ConversationMemory MemoryTools.

Inductive mem_op :=
| OpTurn (user_msg agent_msg : pystr) (md : pydict pystr pystr) (ts now : pystr)
| OpPreference (key value now : pystr)
| OpFact (f cat ts now : pystr)
| OpAgentResponse (response now : pystr).

Definition run_op (o : mem_op) (m : memory) : memory * list saved :=
  match o with
  | OpTurn u a md ts now => add_turn u a md ts now m
  | OpPreference k v now => add_preference k v now m
  | OpFact f c ts now => add_fact f c ts now m
  | OpAgentResponse r now =>
      match handle_agent_response (Some m) r now with
      | (Some m', w) => (m', w)
      | (None, w) => (m, w)
      end
  end.

Fixpoint run_ops (ops : list mem_op) (m : memory) : memory * list saved :=
  match ops with
  | [] => (m, [])
  | o :: ops' =>
      let '(m1, w1) := run_op o m in
      let '(m2, w2) := run_ops ops' m1 in
      (m2, w1 ++ w2)
  end.

Definition is_turn (o : mem_op) : bool := if o is OpTurn _ _ _ _ _ then true else false.

(** What every written document satisfies for a bound [n]. *)
Definition saved_ok (n : Z) (s : saved) : Prop :=
  length (saved_conversations s) <= Z.to_nat n /\ NoDup (saved_user_preferences s).*1.

Definition mem_ok (n : Z) (m : memory) : Prop :=
  max_turns m = n /\ NoDup (user_preferences m).*1.

End MemoryRuns.

(** ** Theorems *)
Module MemoryFacts.
Import ConversationMemory MemoryTools MemoryRuns.

Lemma save_ok n now m : (0 < n)%Z -> mem_ok n m -> saved_ok n (_save now m).
Proof.
  intros Hn [Hmax Hnd]. split; simpl; [| done].
  rewrite Hmax, py_drop_last_length by lia. lia.
Qed.

Lemma set_last_agent_snoc r c t :
  set_last_agent r (c ++ [t]) = c ++ [mk_turn (timestamp t) (user t) r (metadata t)].
Proof. unfold set_last_agent. by rewrite last_snoc, removelast_last. Qed.

Lemma set_last_agent_length r c : length (set_last_agent r c) = length c.
Proof.
  destruct (last c) eqn:Hl.
  - apply last_Some in Hl as [c' ->]. rewrite set_last_agent_snoc, !length_app. done.
  - unfold set_last_agent. by rewrite Hl.
Qed.

Lemma run_op_ok n o m :
  (0 < n)%Z -> mem_ok n m -> mem_ok n (run_op o m).1 /\ Forall (saved_ok n) (run_op o m).2.
Proof.
  intros Hn [Hmax Hnd].
  destruct o as [u a md ts now | k v now | f c ts now | r now]; simpl.
  - split; [done | constructor; [by apply save_ok | constructor]].
  - assert (mem_ok n (set_user_preferences (pydict_set k v (user_preferences m)) m)) as Hok
      by (split; [done | by apply pydict_set_NoDup]).
    split; [done | constructor; [by apply save_ok | constructor]].
  - split; [done | constructor; [by apply save_ok | constructor]].
  - destruct (conversations m); simpl; [by split |].
    split; [done | constructor; [by apply save_ok | constructor]].
Qed.

Lemma run_op_length o m :
  length (conversations (run_op o m).1) = length (conversations m) + (if is_turn o then 1 else 0).
Proof.
  destruct o as [| | |r now]; simpl; rewrite ?length_app; simpl; try lia.
  unfold handle_agent_response. destruct (conversations m) as [|t c] eqn:Hc; simpl; [by rewrite Hc |].
  rewrite set_last_agent_length. simpl. lia.
Qed.

Lemma run_ops_cons o ops m :
  run_ops (o :: ops) m = ((run_ops ops (run_op o m).1).1, (run_op o m).2 ++ (run_ops ops (run_op o m).1).2).
Proof. simpl. by destruct (run_op o m), (run_ops ops _). Qed.

(** C19: Across any sequence of memory operations with [max_turns > 0],
    every document [_save] writes holds at most [max_turns] turns and a
    preferences dict without duplicate keys, and the memory keeps both
    properties. *)
Theorem memory_saves_bounded n ops m :
  (0 < n)%Z -> mem_ok n m ->
  mem_ok n (run_ops ops m).1 /\ Forall (saved_ok n) (run_ops ops m).2.
Proof.
  intros Hn. revert m. induction ops as [|o ops IH]; intros m Hm; [by split |].
  rewrite run_ops_cons. destruct (run_op_ok n o m Hn Hm) as [Hm1 Hw1].
  destruct (IH _ Hm1) as [Hm2 Hw2]. split; [done | by apply Forall_app].
Qed.

(** The in-memory history is never truncated: after a run it has
    grown by one turn per [add_turn], whatever [max_turns] is; only the
    saved copy is cut. *)
Theorem memory_grows_unbounded ops m :
  length (conversations (run_ops ops m).1) = length (conversations m) + length (filter is_turn ops).
Proof.
  revert m. induction ops as [|o ops IH]; intros m; [simpl; lia |].
  rewrite run_ops_cons; simpl. rewrite IH, run_op_length, filter_cons.
  destruct (is_turn o); simpl; lia.
Qed.

(** ** The memory document *)

Lemma dict_roundtrip d : dict_of_json (dict_json d) = Some d.
Proof. apply Json.mapM_fmap_roundtrip. by intros [k v]. Qed.

Lemma turn_roundtrip t : turn_of_json (turn_json t) = Some t.
Proof.
  destruct t as [ts u a md].
  transitivity (md' ← dict_of_json (dict_json md); Some (mk_turn ts u a md')); [reflexivity |].
  by rewrite dict_roundtrip.
Qed.

Lemma fact_roundtrip f : fact_of_json (fact_json f) = Some f.
Proof. by destruct f. Qed.

Lemma reload_save now m :
  reload (_save now m) = Some (mk_loaded (Some ((conversations m) .[- max_turns m :]))
                                        (Some (user_preferences m)) (Some (facts_learned m))).
Proof.
  unfold reload, _save. set (c := (conversations m) .[- max_turns m :]).
  transitivity (c' ← Some <$> mapM turn_of_json (turn_json <$> c);
                p ← Some <$> dict_of_json (dict_json (user_preferences m));
                f ← Some <$> mapM fact_of_json (fact_json <$> facts_learned m);
                Some (mk_loaded c' p f)); [reflexivity |].
  by rewrite (Json.mapM_fmap_roundtrip _ _ _ turn_roundtrip), dict_roundtrip,
    (Json.mapM_fmap_roundtrip _ _ _ fact_roundtrip).
Qed.

(** Cutting to the last [k], then to the last [n >= k], is cutting to the last [k]. *)
Lemma py_drop_last_mono {A} (k n : Z) (l : list A) :
  (0 < k <= n)%Z -> (l .[- k :]) .[- n :] = l .[- k :].
Proof.
  intros Hk. rewrite (py_drop_neg (- n)) by lia. rewrite py_drop_last_length by lia.
  replace (Z.to_nat (Z.of_nat (Nat.min (Z.to_nat k) (length l)) + - n)) with 0%nat by lia.
  apply drop_0.
Qed.

Lemma handle_agent_response_snoc m c t r now :
  conversations m = c ++ [t] ->
  handle_agent_response (Some m) r now =
    (Some (set_conversations (c ++ [mk_turn (timestamp t) (user t) r (metadata t)]) m),
     [_save now (set_conversations (c ++ [mk_turn (timestamp t) (user t) r (metadata t)]) m)]).
Proof. intros Hc. unfold handle_agent_response. rewrite Hc, set_last_agent_snoc. by destruct c. Qed.

Lemma pydict_set_nonempty {K V} `{EqDecision K} (k : K) (v : V) d : pydict_set k v d <> [].
Proof. destruct d as [|[??]?]; simpl; [done | by case_decide]. Qed.

(** C20: A fresh [ConversationMemory] on the file [_save] wrote, with a
    [max_turns] at least the saving one (both positive), holds exactly
    the saving memory's last [max_turns] turns, its preferences and its
    facts: the keys [_save] writes are the keys [_load] reads, and the
    cut is the one [_save] made. *)
Theorem load_after_save now m n :
  (0 < max_turns m <= n)%Z ->
  init_memory (memory_file m) n (reload (_save now m))
  = mk_memory (memory_file m) n ((conversations m) .[- max_turns m :]) (user_preferences m) (facts_learned m).
Proof. intros Hn. unfold init_memory. rewrite reload_save. simpl. by rewrite py_drop_last_mono by lia. Qed.

(** [handle_user_message] records a turn with an empty agent reply and
    saves; [handle_agent_response] then fills in that turn's reply in
    place and saves again.  With memory disabled both do nothing. *)
Theorem agent_response_completes_turn m msg resp ts now1 now2 :
  let t := mk_turn ts msg resp [] in
  (let '(mem1, w1) := handle_user_message (Some m) msg ts now1 in
   let '(mem2, w2) := handle_agent_response mem1 resp now2 in
   mem2 = Some (set_conversations (conversations m ++ [t]) m) /\
   w2 = [_save now2 (set_conversations (conversations m ++ [t]) m)] /\ length w1 = 1) /\
  handle_user_message None msg ts now1 = (None, []) /\
  handle_agent_response None resp now2 = (None, []).
Proof.
  split; [| done]. cbv beta iota zeta delta [handle_user_message add_turn].
  by rewrite (handle_agent_response_snoc _ (conversations m) (mk_turn ts msg [] [])).
Qed.

(** [remember_preference] stores the value under its key (a new key
    goes last, an old one keeps its place and other keys keep their
    values), saves once, and [recall_preferences] then lists every
    preference in key order; with memory disabled both reply that memory
    is disabled and nothing is written. *)
Theorem remember_then_recall m k v now :
  let d := pydict_set k v (user_preferences m) in
  remember_preference (Some m) k v now =
    (u8 "I'll remember that: " ++ k ++ u8 " = " ++ v, Some (set_user_preferences d m),
     [_save now (set_user_preferences d m)]) /\
  pydict_get k d = Some v /\
  (forall k2, k2 <> k -> pydict_get k2 d = pydict_get k2 (user_preferences m)) /\
  d.*1 = (if decide (k ∈ (user_preferences m).*1) then (user_preferences m).*1
          else (user_preferences m).*1 ++ [k]) /\
  recall_preferences (Some (set_user_preferences d m))
    = str_join nl (u8 "Your preferences:" :: (pref_line <$> d)) /\
  remember_preference None k v now = (u8 "Memory is disabled. Enable with ENABLE_MEMORY=true", None, []) /\
  recall_preferences None = u8 "Memory is disabled.".
Proof.
  simpl. split_and!; try done.
  - apply pydict_get_set_eq.
  - intros k2 Hk. by apply pydict_get_set_ne.
  - apply pydict_set_keys.
  - by destruct (pydict_set k v (user_preferences m)) eqn:E; [by apply pydict_set_nonempty in E |].
Qed.

(** ** The scenarios of [tests/test_universal_agent.py] *)

Definition test_memory : memory := init_memory (u8 "memory.json") 5 None.

Definition user_n (i : nat) : pystr := u8 "User " ++ [(48 + N.of_nat i)%N].

(** [test_memory_max_turns]: ten turns on a memory with [max_turns=5]. *)
Definition ten_turns : list mem_op :=
  (fun i => OpTurn (user_n i) (u8 "Agent") [] (u8 "t") (u8 "t")) <$> seq 0 10.

Lemma memory_saves_bounded_witness :
  (0 < 5)%Z /\ mem_ok 5 test_memory /\
  mem_ok 5 (run_ops ten_turns test_memory).1 /\ Forall (saved_ok 5) (run_ops ten_turns test_memory).2.
Proof.
  assert (mem_ok 5 test_memory) as H by (split; [done | constructor]).
  split_and!; [lia | exact H | apply (memory_saves_bounded 5 ten_turns test_memory); [lia | exact H] ..].
Defined.

(** The test expects five turns in memory after ten; the code keeps ten
    and only the saved document has five, ending with ["User 9"]. *)
Example test_memory_max_turns_diverges :
  length (conversations (run_ops ten_turns test_memory).1) = 10 /\
  (fun s => (length (saved_conversations s), user <$> last (saved_conversations s)))
    <$> last (run_ops ten_turns test_memory).2 = Some (5, Some (user_n 9)).
Proof. split; vm_compute; reflexivity. Qed.

(** [test_memory_persistence]: a turn and a preference, then a new
    memory on the same file. *)
Definition persisted : memory :=
  let '(m1, _) := add_turn (u8 "Test") (u8 "Response") [] (u8 "t") (u8 "t") test_memory in
  (add_preference (u8 "test_key") (u8 "test_value") (u8 "t") m1).1.

Lemma load_after_save_witness :
  (0 < max_turns persisted <= 10)%Z /\
  init_memory (memory_file persisted) 10 (reload (_save (u8 "t") persisted))
  = mk_memory (memory_file persisted) 10 ((conversations persisted) .[- max_turns persisted :])
      (user_preferences persisted) (facts_learned persisted).
Proof. split; [vm_compute; split; congruence | apply load_after_save; vm_compute; split; congruence]. Defined.

End MemoryFacts.
