(* ===== verification/Converter.v ===== *)
(** * The pure tools of the two universal agents

    [unit_converter], [calculate] and [explain_concept] of
    [universal_agent.py] (lines 276-365, 599-619), and [calculate] and
    [convert_units] of [simple_universal_agent.py] (lines 65-119).

    Values are binary64 floats (the tools' [value: float]); a Python int
    factor such as [1000] is converted to a float by the mixed
    multiplication, and a decimal literal is the double nearest to it.
    [str.lower] is the [UnicodeData] interface of [Text.v].  Two things
    are parameters of the sections: [repr] of a float (the [{value}] of
    the f-strings), and [eval] of the restricted namespace, whose result
    is the text of the result or the text of the exception. *)

From S2P Require Import Prelude PyFloat Text.
From Stdlib Require Import SpecFloat.

(** ** [UniversalAgent.unit_converter] *)
Module UnitConverter.

(** [conversions]: each unit's size in metres, kilograms or litres. *)
Definition conversions : pydict pystr pyfloat :=
  [(u8 "m", float_of_int 1); (u8 "km", float_of_int 1000);
   (u8 "mi", int_truediv 160934 100); (u8 "ft", int_truediv 3048 10000);
   (u8 "in", int_truediv 254 10000); (u8 "cm", int_truediv 1 100);
   (u8 "mm", int_truediv 1 1000);
   (u8 "kg", float_of_int 1); (u8 "g", int_truediv 1 1000);
   (u8 "lb", int_truediv 453592 1000000); (u8 "oz", int_truediv 283495 10000000);
   (u8 "L", float_of_int 1); (u8 "ml", int_truediv 1 1000);
   (u8 "gal", int_truediv 378541 100000); (u8 "cup", int_truediv 236588 1000000)].

Definition temp_units : list pystr := [u8 "c"; u8 "f"; u8 "k"].

Definition lit_273_15 : pyfloat := int_truediv 27315 100.
Definition lit_9 : pyfloat := float_of_int 9.
Definition lit_5 : pyfloat := float_of_int 5.
Definition lit_32 : pyfloat := float_of_int 32.

(** [value * 9/5 + 32] and [(value - 32) * 5/9]: left to right. *)
Definition c_to_f (value : pyfloat) : pyfloat := py_add (py_div (py_mul value lit_9) lit_5) lit_32.
Definition f_to_c (value : pyfloat) : pyfloat := py_div (py_mul (py_sub value lit_32) lit_5) lit_9.

(** The six branches of the temperature case; [None] is the [else]. *)
Definition temperature (from_u to_u : pystr) (value : pyfloat) : option pyfloat :=
  if bool_decide (from_u = u8 "c" /\ to_u = u8 "f") then Some (c_to_f value)
  else if bool_decide (from_u = u8 "f" /\ to_u = u8 "c") then Some (f_to_c value)
  else if bool_decide (from_u = u8 "c" /\ to_u = u8 "k") then Some (py_add value lit_273_15)
  else if bool_decide (from_u = u8 "k" /\ to_u = u8 "c") then Some (py_sub value lit_273_15)
  else if bool_decide (from_u = u8 "f" /\ to_u = u8 "k") then Some (py_add (f_to_c value) lit_273_15)
  else if bool_decide (from_u = u8 "k" /\ to_u = u8 "f") then
    Some (py_add (py_div (py_mul (py_sub value lit_273_15) lit_9) lit_5) lit_32)
  else None.

Section Universal.
Context `{UnicodeData} (float_repr : pyfloat -> pystr).

Definition cannot_convert (from_unit to_unit : pystr) : pystr :=
  u8 "Cannot convert " ++ from_unit ++ u8 " to " ++ to_unit.

(** [f"{value} {from_unit} = {result:.Nf} {to_unit}"] *)
Definition converted (value : pyfloat) (from_unit : pystr) (result : pyfloat) (digits : nat)
    (to_unit : pystr) : pystr :=
  float_repr value ++ u8 " " ++ from_unit ++ u8 " = " ++ format_fixed digits result
  ++ u8 " " ++ to_unit.

(** The [except] branch is unreachable: no operation on floats raises. *)
Definition unit_converter (value : pyfloat) (from_unit to_unit : pystr) : pystr :=
  let from_u := ucd_lower from_unit in
  let to_u := ucd_lower to_unit in
  if bool_decide (from_u ∈ temp_units) || bool_decide (to_u ∈ temp_units) then
    match temperature from_u to_u value with
    | Some result => converted value from_unit result 2 to_unit
    | None => cannot_convert from_unit to_unit
    end
  else
    match pydict_get from_u conversions, pydict_get to_u conversions with
    | Some f, Some t =>
        let base_value := py_mul value f in
        converted value from_unit (py_div base_value t) 4 to_unit
    | _, _ => cannot_convert from_unit to_unit
    end.

End Universal.
End UnitConverter.

(** ** [SimpleUniversalAgent.convert_units] *)
Module SimpleConverter.
Import UnitConverter.

Definition simple_conversions : pydict pystr pyfloat :=
  [(u8 "m", float_of_int 1); (u8 "km", float_of_int 1000);
   (u8 "mi", int_truediv 160934 100); (u8 "ft", int_truediv 3048 10000);
   (u8 "in", int_truediv 254 10000);
   (u8 "kg", float_of_int 1); (u8 "g", int_truediv 1 1000);
   (u8 "lb", int_truediv 453592 1000000); (u8 "oz", int_truediv 283495 10000000);
   (u8 "L", float_of_int 1); (u8 "ml", int_truediv 1 1000);
   (u8 "gal", int_truediv 378541 100000)].

(** The four temperature branches; any other pair falls through. *)
Definition simple_temperature (f t : pystr) (value : pyfloat) : option pyfloat :=
  if bool_decide (f = u8 "c" /\ t = u8 "f") then Some (c_to_f value)
  else if bool_decide (f = u8 "f" /\ t = u8 "c") then Some (f_to_c value)
  else if bool_decide (f = u8 "c" /\ t = u8 "k") then Some (py_add value lit_273_15)
  else if bool_decide (f = u8 "k" /\ t = u8 "c") then Some (py_sub value lit_273_15)
  else None.

Definition simple_cannot_convert : pystr := u8 "Cannot convert those units".

Section Simple.
Context `{UnicodeData}.

(** The dictionary lookup uses the units as given, not lower-cased. *)
Definition other_conversions (value : pyfloat) (from_unit to_unit : pystr) : pystr :=
  match pydict_get from_unit simple_conversions, pydict_get to_unit simple_conversions with
  | Some a, Some b => format_fixed 4 (py_div (py_mul value a) b)
  | _, _ => simple_cannot_convert
  end.

Definition convert_units (value : pyfloat) (from_unit to_unit : pystr) : pystr :=
  if bool_decide (ucd_lower from_unit ∈ temp_units) || bool_decide (ucd_lower to_unit ∈ temp_units) then
    match simple_temperature (ucd_lower from_unit) (ucd_lower to_unit) value with
    | Some r => format_fixed 2 r
    | None => other_conversions value from_unit to_unit
    end
  else other_conversions value from_unit to_unit.

End Simple.
End SimpleConverter.

(** The categories of the docstrings: length (m, km, mi, ft, in, and the
    table's cm, mm), weight (kg, lb, oz, g), temperature (C, F, K) and
    volume (L, gal, ml, cup), on lower-cased names. *)
Definition unit_category (u : pystr) : option nat :=
  if bool_decide (u ∈ [u8 "m"; u8 "km"; u8 "mi"; u8 "ft"; u8 "in"; u8 "cm"; u8 "mm"]) then Some 0%nat
  else if bool_decide (u ∈ [u8 "kg"; u8 "lb"; u8 "oz"; u8 "g"]) then Some 1%nat
  else if bool_decide (u ∈ UnitConverter.temp_units) then Some 2%nat
  else if bool_decide (u ∈ [u8 "l"; u8 "gal"; u8 "ml"; u8 "cup"]) then Some 3%nat
  else None.

(** ** [calculate] (both agents) and [explain_concept] *)
Module Calculator.

Definition unsafe_words : list pystr := [u8 "import"; u8 "exec"; u8 "eval"; u8 "__"].
Definition simple_unsafe_words : list pystr := [u8 "import"; u8 "exec"; u8 "__"].

(** [any(word in expression.lower() for word in words)] *)
Definition mentions_any `{UnicodeData} (words : list pystr) (expression : pystr) : bool :=
  existsb (fun w => is_substring w (ucd_lower expression)) words.

(** [f" ({description})" if description else ""] *)
Definition description_str (description : option pystr) : pystr :=
  match description with
  | Some (_ :: _ as d) => u8 " (" ++ d ++ u8 ")"
  | _ => []
  end.

Section Calc.
Context `{UnicodeData} (py_eval : pystr -> pystr + pystr).

Definition calculate (expression : pystr) (description : option pystr) : pystr :=
  if mentions_any unsafe_words expression then u8 "Error: Expression contains unsafe operations"
  else match py_eval expression with
       | inl e => u8 "Calculation error: " ++ e
       | inr result => u8 "Result" ++ description_str description ++ u8 ": " ++ result
       end.

(** [Assistant.calculate] of the MCP agent: the same guard and
    evaluation (with its own [safe_dict]), and no description. *)
Definition mcp_calculate (expression : pystr) : pystr :=
  if mentions_any unsafe_words expression then u8 "Error: Expression contains unsafe operations"
  else match py_eval expression with
       | inl e => u8 "Calculation error: " ++ e
       | inr result => u8 "Result: " ++ result
       end.

Definition simple_calculate (expression : pystr) : pystr :=
  if mentions_any simple_unsafe_words expression then u8 "Invalid expression"
  else match py_eval expression with
       | inl e => u8 "Error: " ++ e
       | inr result => result
       end.

End Calc.

Definition level_instructions : pydict pystr pystr :=
  [(u8 "simple", u8 "Explain like I'm 5 years old, using simple words and fun analogies.");
   (u8 "medium", u8 "Provide a clear, balanced explanation suitable for general audiences.");
   (u8 "detailed", u8 "Give an in-depth, comprehensive explanation with technical details.")].

(** [level_instructions.get(detail_level, level_instructions["medium"])];
    the reply names the requested level even when it is unknown. *)
Definition explain_concept (concept detail_level : pystr) : pystr :=
  let instruction := default (u8 "Provide a clear, balanced explanation suitable for general audiences.")
                       (pydict_get detail_level level_instructions) in
  u8 "[Agent will explain '" ++ concept ++ u8 "' at " ++ detail_level ++ u8 " level. Instruction: "
  ++ instruction ++ u8 "]".

End Calculator.

(** ** Theorems *)
Module ConverterFacts.
Import Calculator.

Ltac no_branch := let Hc := fresh in intros Hc; destruct Hc as [Hc1 Hc2]; vm_compute in Hc1, Hc2; congruence.

Lemma temperature_to_l x v : UnitConverter.temperature x (u8 "l") v = None.
Proof. unfold UnitConverter.temperature. by repeat (rewrite bool_decide_eq_false_2 by no_branch). Qed.

Lemma temperature_from_l x v : UnitConverter.temperature (u8 "l") x v = None.
Proof. unfold UnitConverter.temperature. by repeat (rewrite bool_decide_eq_false_2 by no_branch). Qed.

Lemma simple_temperature_universal f t v r :
  SimpleConverter.simple_temperature f t v = Some r -> UnitConverter.temperature f t v = Some r.
Proof. unfold SimpleConverter.simple_temperature, UnitConverter.temperature. by repeat case_bool_decide. Qed.

(** Every unit of the simple agent but ["L"] is a lower-case key of the
    universal agent's table with the same factor, and not a temperature. *)
Lemma simple_unit_universal u a :
  pydict_get u SimpleConverter.simple_conversions = Some a -> u <> u8 "L" ->
  @ucd_lower latin1_ucd u = u /\ pydict_get u UnitConverter.conversions = Some a /\
  bool_decide (@ucd_lower latin1_ucd u ∈ UnitConverter.temp_units) = false.
Proof.
  intros Hu HL. apply pydict_get_elem in Hu. unfold SimpleConverter.simple_conversions in Hu.
  repeat (apply elem_of_cons in Hu; destruct Hu as [Hu | Hu]; [injection Hu as -> ->; first [by destruct HL | vm_compute; split_and!; reflexivity] |]).
  by apply elem_of_nil in Hu.
Qed.

Lemma other_conversions_some `{UnicodeData} v from to :
  SimpleConverter.other_conversions v from to <> SimpleConverter.simple_cannot_convert ->
  exists a b, pydict_get from SimpleConverter.simple_conversions = Some a /\
    pydict_get to SimpleConverter.simple_conversions = Some b /\
    SimpleConverter.other_conversions v from to = format_fixed 4 (py_div (py_mul v a) b).
Proof.
  unfold SimpleConverter.other_conversions.
  destruct (pydict_get from _) as [a|], (pydict_get to _) as [b|]; [by eauto | done ..].
Qed.

Lemma unit_converter_temp_branch `{UnicodeData} repr v from to r :
  bool_decide (ucd_lower from ∈ UnitConverter.temp_units)
    || bool_decide (ucd_lower to ∈ UnitConverter.temp_units) = true ->
  UnitConverter.temperature (ucd_lower from) (ucd_lower to) v = Some r ->
  UnitConverter.unit_converter repr v from to = UnitConverter.converted repr v from r 2 to.
Proof. intros Ht Hr. unfold UnitConverter.unit_converter. by rewrite Ht, Hr. Qed.

(** C21: Refinement of the simple agent's converter by the universal
    agent's on the conversions both docstrings promise: for two units of
    the same category (units other than the litre ["L"]), whenever
    [convert_units] converts, [unit_converter] converts too, to the same
    float at the same precision, and only wraps it in
    ["{value} {from} = ... {to}"]. *)
Theorem convert_units_refined repr v from to :
  from <> u8 "L" -> to <> u8 "L" ->
  unit_category (@ucd_lower latin1_ucd from) = unit_category (@ucd_lower latin1_ucd to) ->
  @SimpleConverter.convert_units latin1_ucd v from to <> SimpleConverter.simple_cannot_convert ->
  @UnitConverter.unit_converter latin1_ucd repr v from to
  = repr v ++ u8 " " ++ from ++ u8 " = " ++ SimpleConverter.convert_units v from to ++ u8 " " ++ to.
Proof.
  intros HfL HtL _ Hconv. unfold SimpleConverter.convert_units in *.
  destruct (bool_decide _ || bool_decide _) eqn:Ht.
  - destruct (SimpleConverter.simple_temperature _ _ v) as [r|] eqn:Hr.
    + erewrite unit_converter_temp_branch; [done | exact Ht | by apply simple_temperature_universal].
    + apply other_conversions_some in Hconv as (a & b & Ha & Hb & _).
      destruct (simple_unit_universal _ _ Ha HfL) as (_ & _ & Htf).
      destruct (simple_unit_universal _ _ Hb HtL) as (_ & _ & Htt).
      by rewrite Htf, Htt in Ht.
  - apply other_conversions_some in Hconv as (a & b & Ha & Hb & ->).
    destruct (simple_unit_universal _ _ Ha HfL) as (Hlf & Haf & Htf).
    destruct (simple_unit_universal _ _ Hb HtL) as (Hlt & Hbt & Htt).
    unfold UnitConverter.unit_converter; cbv zeta. rewrite Htf, Htt; cbn [orb]. by rewrite Hlf, Hlt, Haf, Hbt.
Qed.

(** The universal converter never converts litres: ["L"] is a key
    of its table but the units are lower-cased first, so ["L"] in either
    position gives ["Cannot convert ..."]; and it converts across
    dimensions, 1 kg to 0.0010 km. *)
Theorem unit_converter_quirks repr v u :
  @UnitConverter.unit_converter latin1_ucd repr v (u8 "L") u = UnitConverter.cannot_convert (u8 "L") u /\
  @UnitConverter.unit_converter latin1_ucd repr v u (u8 "L") = UnitConverter.cannot_convert u (u8 "L") /\
  @UnitConverter.unit_converter latin1_ucd repr (float_of_int 1) (u8 "kg") (u8 "km")
    = repr (float_of_int 1) ++ u8 " kg = 0.0010 km".
Proof.
  unfold UnitConverter.unit_converter. split_and!; [| | reflexivity];
    change (@ucd_lower latin1_ucd (u8 "L")) with (u8 "l");
    rewrite ?temperature_from_l, ?temperature_to_l;
    by destruct (bool_decide _ || bool_decide _), (pydict_get (ucd_lower u) UnitConverter.conversions).
Qed.

(** C22: neither the universal agent's [calculate] nor the MCP agent's
    hands to [eval] an expression whose lower-case form contains
    [import], [exec], [eval] or [__]: both answer the fixed refusal,
    whatever the evaluator would do. *)
Theorem calculate_guard_blocks_eval `{UnicodeData} ev1 ev2 expression description :
  (exists w, w ∈ unsafe_words /\ is_substring w (ucd_lower expression) = true) ->
  calculate ev1 expression description = u8 "Error: Expression contains unsafe operations" /\
  calculate ev1 expression description = calculate ev2 expression description /\
  mcp_calculate ev1 expression = u8 "Error: Expression contains unsafe operations".
Proof.
  intros (w & Hw & Hsub). unfold calculate, mcp_calculate.
  assert (mentions_any unsafe_words expression = true) as ->; [| done].
  apply existsb_exists. exists w. split; [by apply list_elem_of_In | done].
Qed.

Definition sample_repr (x : pyfloat) : pystr := u8 "1".

Lemma convert_units_refined_witness :
  @UnitConverter.unit_converter latin1_ucd sample_repr (float_of_int 1) (u8 "km") (u8 "mi")
  = sample_repr (float_of_int 1) ++ u8 " km = " ++ SimpleConverter.convert_units (float_of_int 1) (u8 "km") (u8 "mi")
    ++ u8 " mi".
Proof. apply convert_units_refined; vm_compute; first [reflexivity | congruence]. Defined.

Lemma calculate_guard_blocks_eval_witness :
  let ev1 := fun _ : pystr => @inr pystr pystr (u8 "0") in
  let ev2 := fun _ : pystr => @inl pystr pystr (u8 "boom") in
  @calculate latin1_ucd ev1 (u8 "__IMPORT__('os')") None = u8 "Error: Expression contains unsafe operations" /\
  @calculate latin1_ucd ev1 (u8 "__IMPORT__('os')") None = @calculate latin1_ucd ev2 (u8 "__IMPORT__('os')") None /\
  @mcp_calculate latin1_ucd ev1 (u8 "__IMPORT__('os')") = u8 "Error: Expression contains unsafe operations".
Proof. apply calculate_guard_blocks_eval. exists (u8 "import"). split; [by left | reflexivity]. Defined.

End ConverterFacts.
