(* ===== verification/Booking.v ===== *)
(** * The Airbnb assistant of [livekit_basic_agent.py]

    [Assistant] (lines 77-225): the catalogue [self.airbnbs] (a dict from
    lower-case city names to lists of listings), the list
    [self.bookings], and the tools [search_airbnbs] and [book_airbnb].
    [get_current_date_and_time] only reads the clock and changes
    nothing.  A tool returns its reply and the new state. *)

From S2P Require Import Prelude Text.
From stdpp Require Import relations.

Module Airbnb.

(** A listing, [{"id", "name", "address", "price", "amenities"}]. *)
Record listing := mk_listing {
  id : pystr;
  name : pystr;
  address : pystr;
  price : Z;
  amenities : list pystr
}.

(** A booking, [{"confirmation_number", "airbnb_name", "address",
    "guest_name", "check_in", "check_out", "total_price"}]. *)
Record booking := mk_booking {
  confirmation_number : pystr;
  airbnb_name : pystr;
  booking_address : pystr;
  guest_name : pystr;
  check_in : pystr;
  check_out : pystr;
  total_price : Z
}.

Record assistant := mk_assistant {
  airbnbs : pydict pystr (list listing);
  bookings : list booking
}.

Definition airbnbs0 : pydict pystr (list listing) :=
  [(u8 "san francisco",
     [mk_listing (u8 "sf001") (u8 "Cozy Downtown Loft") (u8 "123 Market Street, San Francisco, CA") 150
        [u8 "WiFi"; u8 "Kitchen"; u8 "Workspace"];
      mk_listing (u8 "sf002") (u8 "Victorian House with Bay Views") (u8 "456 Castro Street, San Francisco, CA") 220
        [u8 "WiFi"; u8 "Parking"; u8 "Washer/Dryer"; u8 "Bay Views"];
      mk_listing (u8 "sf003") (u8 "Modern Studio near Golden Gate") (u8 "789 Presidio Avenue, San Francisco, CA") 180
        [u8 "WiFi"; u8 "Kitchen"; u8 "Pet Friendly"]]);
   (u8 "new york",
     [mk_listing (u8 "ny001") (u8 "Brooklyn Brownstone Apartment") (u8 "321 Bedford Avenue, Brooklyn, NY") 175
        [u8 "WiFi"; u8 "Kitchen"; u8 "Backyard Access"];
      mk_listing (u8 "ny002") (u8 "Manhattan Skyline Penthouse") (u8 "555 Fifth Avenue, Manhattan, NY") 350
        [u8 "WiFi"; u8 "Gym"; u8 "Doorman"; u8 "City Views"];
      mk_listing (u8 "ny003") (u8 "Artsy East Village Loft") (u8 "88 Avenue A, Manhattan, NY") 195
        [u8 "WiFi"; u8 "Washer/Dryer"; u8 "Exposed Brick"]]);
   (u8 "los angeles",
     [mk_listing (u8 "la001") (u8 "Venice Beach Bungalow") (u8 "234 Ocean Front Walk, Venice, CA") 200
        [u8 "WiFi"; u8 "Beach Access"; u8 "Patio"];
      mk_listing (u8 "la002") (u8 "Hollywood Hills Villa") (u8 "777 Mulholland Drive, Los Angeles, CA") 400
        [u8 "WiFi"; u8 "Pool"; u8 "City Views"; u8 "Hot Tub"]])].

(** [Assistant.__init__]: the catalogue and no booking. *)
Definition initial_assistant : assistant := mk_assistant airbnbs0 [].

(** The inner loop of [book_airbnb]: the first listing with the id. *)
Fixpoint find_in_city (airbnb_id : pystr) (ls : list listing) : option listing :=
  match ls with
  | [] => None
  | l :: ls' => if decide (id l = airbnb_id) then Some l else find_in_city airbnb_id ls'
  end.

(** The outer loop, over the cities in dict order; a found listing is a
    non-empty dict, so [if airbnb: break] stops. *)
Fixpoint find_listing (airbnb_id : pystr) (cities : pydict pystr (list listing)) : option listing :=
  match cities with
  | [] => None
  | (_, ls) :: cs =>
      match find_in_city airbnb_id ls with
      | Some l => Some l
      | None => find_listing airbnb_id cs
      end
  end.

Definition listing_text (l : listing) : pystr :=
  u8 "• " ++ name l ++ nl ++ u8 "  Address: " ++ address l ++ nl
  ++ u8 "  Price: $" ++ py_str_int (price l) ++ u8 " per night" ++ nl
  ++ u8 "  Amenities: " ++ str_join (u8 ", ") (amenities l) ++ nl
  ++ u8 "  ID: " ++ id l ++ nl.

Section Tools.
Context `{UnicodeData}.

Definition search_airbnbs (st : assistant) (city : pystr) : pystr :=
  let city_lower := ucd_lower city in
  match pydict_get city_lower (airbnbs st) with
  | None =>
      u8 "Sorry, I don't have any Airbnb listings for " ++ city
      ++ u8 " at the moment. Available cities are: San Francisco, New York, and Los Angeles."
  | Some listings =>
      str_join nl ((u8 "Found " ++ py_str_int (Z.of_nat (length listings)) ++ u8 " Airbnbs in " ++ city
                    ++ u8 ":" ++ nl) :: (listing_text <$> listings))
  end.

End Tools.

Definition confirmation_text (b : booking) : pystr :=
  u8 "✓ Booking confirmed!" ++ nl ++ nl
  ++ u8 "Confirmation Number: " ++ confirmation_number b ++ nl
  ++ u8 "Property: " ++ airbnb_name b ++ nl
  ++ u8 "Address: " ++ booking_address b ++ nl
  ++ u8 "Guest: " ++ guest_name b ++ nl
  ++ u8 "Check-in: " ++ check_in b ++ nl
  ++ u8 "Check-out: " ++ check_out b ++ nl
  ++ u8 "Nightly Rate: $" ++ py_str_int (total_price b) ++ nl ++ nl
  ++ u8 "You'll receive a confirmation email shortly. Have a great stay!".

Definition not_found_text (airbnb_id : pystr) : pystr :=
  u8 "Sorry, I couldn't find an Airbnb with ID " ++ airbnb_id
  ++ u8 ". Please search for available listings first.".

(** [f"BK{len(self.bookings) + 1001}"] *)
Definition confirmation_for (n : nat) : pystr := u8 "BK" ++ py_str_int (Z.of_nat n + 1001).

Definition book_airbnb (st : assistant) (airbnb_id guest_name check_in_date check_out_date : pystr)
    : pystr * assistant :=
  match find_listing airbnb_id (airbnbs st) with
  | None => (not_found_text airbnb_id, st)
  | Some a =>
      let b := mk_booking (confirmation_for (length (bookings st))) (name a) (address a)
                 guest_name check_in_date check_out_date (price a) in
      (confirmation_text b, mk_assistant (airbnbs st) (bookings st ++ [b]))
  end.

(** A tool call of the session: searches and clock reads change nothing. *)
Inductive step : assistant -> assistant -> Prop :=
| step_read s : step s s
| step_book s airbnb_id guest ci co : step s (book_airbnb s airbnb_id guest ci co).2.

End Airbnb.

(** ** Theorems *)
Module AirbnbFacts.
Import Airbnb.

(** All the listings of a catalogue, in dict order. *)
Definition all_listings (cities : pydict pystr (list listing)) : list listing := concat (cities.*2).

Definition booking_of (l : listing) (b : booking) : Prop :=
  airbnb_name b = name l /\ booking_address b = address l /\ total_price b = price l.

Definition assistant_inv (s : assistant) : Prop :=
  airbnbs s = airbnbs0 /\
  forall i b, bookings s !! i = Some b ->
    confirmation_number b = confirmation_for i /\ exists l, l ∈ all_listings airbnbs0 /\ booking_of l b.

Lemma find_in_city_head airbnb_id ls :
  find_in_city airbnb_id ls = head (filter (fun l => id l = airbnb_id) ls).
Proof. induction ls as [|l ls IH]; simpl; [done |]. rewrite filter_cons. by case_decide. Qed.

(** The two loops with their [break]s find the first listing with the id. *)
Lemma find_listing_head airbnb_id cities :
  find_listing airbnb_id cities = head (filter (fun l => id l = airbnb_id) (all_listings cities)).
Proof.
  unfold all_listings. induction cities as [|[c ls] cs IH]; simpl; [done |].
  rewrite find_in_city_head, filter_app, IH. by destruct (filter _ ls).
Qed.

Lemma filter_none {A} (P : A -> Prop) `{forall x, Decision (P x)} l :
  Forall (fun x => ~ P x) l -> filter P l = [].
Proof. induction 1; [done |]. rewrite filter_cons, decide_False; done. Qed.

Lemma filter_unique_key {A B} `{EqDecision B} (f : A -> B) (xs : list A) x :
  NoDup (f <$> xs) -> x ∈ xs -> filter (fun y => f y = f x) xs = [x].
Proof.
  induction xs as [|y xs IH]; intros Hnd Hx; [by apply elem_of_nil in Hx |].
  rewrite fmap_cons in Hnd. apply NoDup_cons in Hnd as [Hy Hnd]. rewrite filter_cons.
  apply elem_of_cons in Hx as [-> | Hx].
  - rewrite decide_True by done. f_equal. apply filter_none, Forall_forall.
    intros z Hz Heq. apply Hy, list_elem_of_fmap. eauto.
  - rewrite decide_False; [by apply IH |]. intros Heq. apply Hy. rewrite Heq.
    by apply list_elem_of_fmap_2.
Qed.

Lemma catalogue_ids_unique : NoDup (id <$> all_listings airbnbs0).
Proof. apply (bool_decide_unpack _). vm_compute. exact I. Qed.

Lemma confirmation_for_inj i j : confirmation_for i = confirmation_for j -> i = j.
Proof. intros Hij. apply app_inv_head, py_str_int_inj in Hij; lia. Qed.

Lemma book_airbnb_inv s airbnb_id g ci co :
  assistant_inv s -> assistant_inv (book_airbnb s airbnb_id g ci co).2.
Proof.
  intros [Hcat Hb]. unfold book_airbnb. destruct (find_listing _ _) as [l|] eqn:Hl; [| by split].
  split; [done |]. intros i b. simpl. intros Hi.
  apply lookup_app_Some in Hi as [Hi | [Hlen Hi]]; [by apply Hb |].
  apply list_lookup_singleton_Some in Hi as [Hi <-]. split; [simpl; f_equal; lia |].
  exists l. split; [| done]. rewrite find_listing_head, Hcat in Hl.
  destruct (filter _ _) as [|l' ls] eqn:Hf; simplify_eq/=.
  apply (list_elem_of_filter (fun l => id l = airbnb_id)). rewrite Hf. by left.
Qed.

Lemma rtc_booking_inv s : rtc step initial_assistant s -> assistant_inv s.
Proof.
  intros Hr. cut (forall x y, rtc step x y -> assistant_inv x -> assistant_inv y).
  { intros Hc. apply (Hc _ _ Hr). split; [done | by intros ??]. }
  induction 1 as [|x y z Hxy _ IH]; intros Hx; [done |]. apply IH.
  inversion Hxy; subst; [done |]. by apply book_airbnb_inv.
Qed.

(** C23: In every state reachable from [Assistant()] by searches and
    bookings, the catalogue is unchanged, the [i]-th booking has the
    confirmation number [BK(1001+i)] so that no two bookings share one,
    and each booking carries the name, address and nightly price of a
    catalogue listing. *)
Theorem bookings_consistent s :
  rtc step initial_assistant s ->
  airbnbs s = airbnbs0 /\
  (forall i b, bookings s !! i = Some b -> confirmation_number b = confirmation_for i) /\
  NoDup (confirmation_number <$> bookings s) /\
  Forall (fun b => exists l, l ∈ all_listings airbnbs0 /\ booking_of l b) (bookings s).
Proof.
  intros Hr. destruct (rtc_booking_inv s Hr) as [Hcat Hb]. split_and!; [done | by apply Hb | |].
  - apply NoDup_alt. intros i j c Hi Hj.
    apply list_lookup_fmap_Some in Hi as (bi & -> & Hi), Hj as (bj & Hc & Hj).
    apply confirmation_for_inj. rewrite <-(proj1 (Hb _ _ Hi)), <-(proj1 (Hb _ _ Hj)). done.
  - apply Forall_lookup. intros i b Hi. apply (Hb _ _ Hi).
Qed.

(** C24: With the catalogue of [Assistant()], [book_airbnb] refuses an
    unknown id and leaves the state unchanged; for a listed id it appends
    exactly one booking for that listing, numbered after the existing
    ones, whose total price is the nightly price, whatever the dates. *)
Theorem book_airbnb_spec st airbnb_id g ci co :
  airbnbs st = airbnbs0 ->
  (airbnb_id ∉ id <$> all_listings airbnbs0 ->
   book_airbnb st airbnb_id g ci co = (not_found_text airbnb_id, st)) /\
  (forall l, l ∈ all_listings airbnbs0 -> id l = airbnb_id ->
   let b := mk_booking (confirmation_for (length (bookings st))) (name l) (address l) g ci co (price l) in
   book_airbnb st airbnb_id g ci co = (confirmation_text b, mk_assistant airbnbs0 (bookings st ++ [b]))).
Proof.
  intros Hcat. unfold book_airbnb. rewrite find_listing_head, Hcat. split.
  - intros Hn. rewrite filter_none; [done |]. apply Forall_forall. intros l Hl <-.
    apply Hn, list_elem_of_fmap_2, Hl.
  - intros l Hl <-. by rewrite (filter_unique_key id _ l catalogue_ids_unique Hl).
Qed.

(** Two bookings of ["sf001"] for the same reversed dates are both
    confirmed at the nightly price. *)
Definition double_booked : assistant :=
  let s1 := (book_airbnb initial_assistant (u8 "sf001") (u8 "Ann") (u8 "2025-06-10") (u8 "2025-06-03")).2 in
  (book_airbnb s1 (u8 "sf001") (u8 "Bob") (u8 "2025-06-10") (u8 "2025-06-03")).2.

Lemma bookings_consistent_witness :
  rtc step initial_assistant double_booked /\
  total_price <$> bookings double_booked = [150; 150]%Z /\
  NoDup (confirmation_number <$> bookings double_booked).
Proof.
  assert (rtc step initial_assistant double_booked) as Hr.
  { eapply rtc_l; [apply step_book |]. eapply rtc_l; [apply step_book |]. apply rtc_refl. }
  split_and!; [exact Hr | reflexivity | apply (bookings_consistent _ Hr)].
Defined.

Definition sf001 : listing :=
  mk_listing (u8 "sf001") (u8 "Cozy Downtown Loft") (u8 "123 Market Street, San Francisco, CA") 150
    [u8 "WiFi"; u8 "Kitchen"; u8 "Workspace"].

Lemma book_airbnb_spec_witness :
  sf001 ∈ all_listings airbnbs0 /\ id sf001 = u8 "sf001" /\
  let b := mk_booking (confirmation_for (length (bookings initial_assistant))) (name sf001) (address sf001)
             (u8 "Ann") (u8 "2025-06-10") (u8 "2025-06-03") (price sf001) in
  book_airbnb initial_assistant (u8 "sf001") (u8 "Ann") (u8 "2025-06-10") (u8 "2025-06-03")
  = (confirmation_text b, mk_assistant airbnbs0 (bookings initial_assistant ++ [b])).
Proof.
  assert (sf001 ∈ all_listings airbnbs0) as Hin by (unfold all_listings; apply elem_of_app; left; by left).
  split_and!; [exact Hin | reflexivity |].
  exact (proj2 (book_airbnb_spec initial_assistant (u8 "sf001") (u8 "Ann") (u8 "2025-06-10") (u8 "2025-06-03")
           eq_refl) sf001 Hin eq_refl).
Defined.

End AirbnbFacts.
