(* ===== verification/BasicTutor.v ===== *)
(** * The basic French tutor and its refinement by the extended tutor

    [FrenchTutor] of [french_voice_tutor.py] (lines 64-194): level, mode,
    topic and a vocabulary of [{word, translation, example}], with the
    tools [set_level], [set_mode], [phrase_pack], [add_vocab] and
    [list_vocab], and the persistence [_load_progress]/[_save_progress].
    A tool returns its reply, the new state and the documents
    [_save_progress] wrote.

    [FrenchTutorPlus] ([Tutor.v]) grew out of this class.  The theorem
    [plus_refines_basic] states how: forgetting the Leitner fields, the
    quiz state and the exports, each of these five tools of the extended
    tutor does what the basic tutor does, outside the mode ["pronounce"]
    (which only the extended tutor knows), inputs that [str.strip]
    changes (which only the extended tutor strips), and the overflow of
    [_next_due]. *)

From S2P Require Import Prelude Text DateTime IsoTime Leitner TutorState Quiz Tutor.

Module BasicTutor.

(** A vocabulary item, [{"word", "translation", "example"}]. *)
Record basic_item := mk_basic_item {
  b_word : pystr;
  b_translation : pystr;
  b_example : pystr
}.

Record basic_tutor := mk_basic {
  b_level : pystr;
  b_mode : pystr;
  b_topic : pystr;
  b_vocab : list basic_item
}.

(** The document [_save_progress] writes, without its [saved_at] stamp. *)
Record basic_save := mk_basic_save {
  saved_level : pystr;
  saved_mode : pystr;
  saved_topic : pystr;
  saved_vocab : list basic_item
}.

(** The file [_load_progress] reads: [data.get(key, default)]. *)
Record basic_file := mk_basic_file {
  file_level : option pystr;
  file_mode : option pystr;
  file_topic : option pystr;
  file_vocab : option (list basic_item)
}.

(** The phrase bank is the same literal as the extended tutor's. *)
Definition BASIC_PHRASES : list (pystr * list (pystr * pystr)) := PHRASES.
Definition BASIC_MODES : list pystr := [u8 "chat"; u8 "roleplay"; u8 "quiz"; u8 "explain"].

Inductive basic_reply :=
| BLevelUnknown (level : pystr)              (** "Niveau inconnu: ..." *)
| BLevelSet (lvl : pystr)                    (** "Niveau réglé sur ... Allons-y !" *)
| BModeUnknown (mode : pystr)                (** "Mode inconnu: ..." *)
| BRoleplay (topic : pystr)                  (** "Mode roleplay activé, thème: ..." *)
| BModeSet (mode : pystr)                    (** "Mode réglé sur ..." *)
| BTopicUnknown (topic : pystr)              (** "Sujet inconnu: ..." *)
| BPhrasePack (tp : pystr) (items : list (pystr * pystr))
| BAdded (word translation : pystr)          (** "Ajouté: ... → ..." *)
| BVocabEmpty
| BVocabList (lines : list (pystr * pystr * option pystr)).

Definition basic_save_of (s : basic_tutor) : basic_save :=
  mk_basic_save (b_level s) (b_mode s) (b_topic s) (b_vocab s).

(** [_load_progress]: an unreadable or missing file changes nothing. *)
Definition basic_load (file : option basic_file) (s : basic_tutor) : basic_tutor :=
  match file with
  | None => s
  | Some d =>
      mk_basic (default (b_level s) (file_level d)) (default (b_mode s) (file_mode d))
        (default (b_topic s) (file_topic d)) (default [] (file_vocab d))
  end.

(** [FrenchTutor.__init__]. *)
Definition basic_init (file : option basic_file) : basic_tutor :=
  basic_load file (mk_basic (u8 "A1") (u8 "chat") (u8 "cafe") []).

Definition basic_phrases_of (tp : pystr) : option (list (pystr * pystr)) :=
  snd <$> find (fun kv => bool_decide (kv.1 = tp)) BASIC_PHRASES.

Section Tools.
Context `{UnicodeData}.

Definition basic_set_level (level : pystr) (s : basic_tutor) : basic_reply * basic_tutor * list basic_save :=
  let lvl := py_strip (ucd_upper level) in
  if bool_decide (lvl ∈ LEVELS) then
    let s' := mk_basic lvl (b_mode s) (b_topic s) (b_vocab s) in
    (BLevelSet lvl, s', [basic_save_of s'])
  else (BLevelUnknown level, s, []).

Definition basic_set_mode (mode : pystr) (topic : option pystr) (s : basic_tutor)
    : basic_reply * basic_tutor * list basic_save :=
  let md := py_strip (ucd_lower mode) in
  if bool_decide (md ∈ BASIC_MODES) then
    let s1 := mk_basic (b_level s) md (b_topic s) (b_vocab s) in
    let s2 :=
      if bool_decide (md = u8 "roleplay") then
        match topic with
        | Some (_ :: _ as t) =>
            let tp := py_strip (ucd_lower t) in
            if bool_decide (tp ∈ ROLEPLAY_TOPICS) then mk_basic (b_level s1) (b_mode s1) tp (b_vocab s1)
            else s1
        | _ => s1
        end
      else s1 in
    (if bool_decide (b_mode s2 = u8 "roleplay") then BRoleplay (b_topic s2) else BModeSet (b_mode s2),
     s2, [basic_save_of s2])
  else (BModeUnknown mode, s, []).

Definition basic_phrase_pack (topic : pystr) (s : basic_tutor) : basic_reply * basic_tutor * list basic_save :=
  let tp := py_strip (ucd_lower topic) in
  match basic_phrases_of tp with
  | None => (BTopicUnknown topic, s, [])
  | Some items => (BPhrasePack tp items, s, [])
  end.

End Tools.

(** [add_vocab]: the fields as given, [example or ""]. *)
Definition basic_add_vocab (word translation : pystr) (example : option pystr) (s : basic_tutor)
    : basic_reply * basic_tutor * list basic_save :=
  let s' := mk_basic (b_level s) (b_mode s) (b_topic s)
              (b_vocab s ++ [mk_basic_item word translation (default [] example)]) in
  (BAdded word translation, s', [basic_save_of s']).

(** [list_vocab]: the [" | ex: ..."] part only for a non-empty example. *)
Definition basic_list_vocab (s : basic_tutor) : basic_reply * basic_tutor * list basic_save :=
  match b_vocab s with
  | [] => (BVocabEmpty, s, [])
  | v => (BVocabList ((fun it => (b_word it, b_translation it,
                                   match b_example it with [] => None | ex => Some ex end)) <$> v), s, [])
  end.

End BasicTutor.

(** ** The extended tutor refines the basic one *)
Module BasicRefinement.
Import BasicTutor.

Definition abs_item (it : vocab_item) : basic_item := mk_basic_item (word it) (translation it) (example it).

(** What the basic tutor sees of an extended tutor's state. *)
Definition abs (s : tutor) : basic_tutor := mk_basic (level s) (mode s) (topic s) (abs_item <$> vocab s).

(** A save of the extended tutor is a save of the basic one; exports
    have no counterpart. *)
Definition abs_effect (e : effect) : option basic_save :=
  match e with
  | ESave l m t v => Some (mk_basic_save l m t (abs_item <$> v))
  | EExport _ _ _ _ _ => None
  end.

(** Replies that say the same thing. *)
Inductive reply_rel : tool_reply -> basic_reply -> Prop :=
| rel_level_unknown l : reply_rel (RLevelUnknown l) (BLevelUnknown l)
| rel_level_set l : reply_rel (RLevelSet l) (BLevelSet l)
| rel_mode_unknown m : reply_rel (RModeUnknown m) (BModeUnknown m)
| rel_roleplay t : reply_rel (RRoleplay t) (BRoleplay t)
| rel_quiz_mode : reply_rel RQuizMode (BModeSet (u8 "quiz"))
| rel_mode_set m : reply_rel (RModeSet m) (BModeSet m)
| rel_topic_unknown t : reply_rel (RTopicUnknown t) (BTopicUnknown t)
| rel_phrase_pack tp items : reply_rel (RPhrasePack tp items) (BPhrasePack tp items)
| rel_added w t : reply_rel (RAdded w t) (BAdded w t)
| rel_vocab_empty : reply_rel RVocabEmpty BVocabEmpty
| rel_vocab_list ls bs :
    (fun l => (l_word l, l_translation l)) <$> ls = (fun b => (b.1.1, b.1.2)) <$> bs ->
    reply_rel (RVocabList ls) (BVocabList bs).

Inductive basic_call :=
| BCallSetLevel (level : pystr)
| BCallSetMode (mode : pystr) (topic : option pystr)
| BCallPhrasePack (topic : pystr)
| BCallAddVocab (word translation : pystr) (example : option pystr)
| BCallListVocab.

Definition plus_call (c : basic_call) : tool_call :=
  match c with
  | BCallSetLevel l => CallSetLevel l
  | BCallSetMode m t => CallSetMode m t
  | BCallPhrasePack t => CallPhrasePack t
  | BCallAddVocab w t ex => CallAddVocab w t ex
  | BCallListVocab => CallListVocab
  end.

Definition basic_run `{UnicodeData} (c : basic_call) (s : basic_tutor) : basic_reply * basic_tutor * list basic_save :=
  match c with
  | BCallSetLevel l => basic_set_level l s
  | BCallSetMode m t => basic_set_mode m t s
  | BCallPhrasePack t => basic_phrase_pack t s
  | BCallAddVocab w t ex => basic_add_vocab w t ex s
  | BCallListVocab => basic_list_vocab s
  end.

(** The calls on which the two tutors agree. *)
Definition call_ok `{UnicodeData} `{PyDateTime} (now : datetime) (c : basic_call) : Prop :=
  match c with
  | BCallSetMode m _ => py_strip (ucd_lower m) <> u8 "pronounce"
  | BCallAddVocab w t ex =>
      py_strip w = w /\ py_strip t = t /\ py_strip (default [] ex) = default [] ex /\ is_Some (_next_due 1 now)
  | _ => True
  end.

(** One call of the extended tutor simulates one call of the basic one. *)
Definition simulates {A} (rel : A -> basic_reply -> Prop) (r : result A)
    (b : basic_reply * basic_tutor * list basic_save) : Prop :=
  match r with
  | Ok a s' effs => rel a b.1.1 /\ abs s' = b.1.2 /\ omap abs_effect effs = b.2
  | Err _ _ _ => False
  end.

Lemma modes_agree md :
  md <> u8 "pronounce" -> bool_decide (md ∈ MODES) = bool_decide (md ∈ BASIC_MODES).
Proof.
  intros Hp. apply bool_decide_ext. unfold MODES, BASIC_MODES. rewrite !elem_of_cons.
  split; [intros [? | [? | [? | [? | [? | ?%elem_of_nil]]]]]; tauto | tauto].
Qed.

Lemma mode_reply_rel s b :
  mode s <> u8 "pronounce" -> b_mode b = mode s -> b_topic b = topic s ->
  reply_rel (if bool_decide (mode s = u8 "roleplay") then RRoleplay (topic s)
             else if bool_decide (mode s = u8 "pronounce") then RPronounceMode
             else if bool_decide (mode s = u8 "quiz") then RQuizMode
             else RModeSet (mode s))
            (if bool_decide (b_mode b = u8 "roleplay") then BRoleplay (b_topic b) else BModeSet (b_mode b)).
Proof.
  intros Hp -> ->. repeat case_bool_decide; try congruence; try constructor.
  match goal with H : _ = u8 "quiz" |- _ => rewrite H end. constructor.
Qed.

Section Sim.
Context `{UnicodeData} `{PyDateTime}.
Variable auto_export : bool.

Lemma omap_export reason now s : omap abs_effect (export_effects auto_export reason now s) = [].
Proof. unfold export_effects. by destruct auto_export. Qed.

Ltac sim_finish :=
  unfold simulates; rewrite ?app_nil_l, ?app_nil_r, ?omap_app, ?omap_export; cbn [omap list_omap abs_effect app fst snd];
  split_and!; try reflexivity; try constructor.

Lemma set_level_sim now l s :
  simulates reply_rel (set_level auto_export now l s) (basic_set_level l (abs s)).
Proof.
  unfold set_level, basic_set_level. case_bool_decide; [| repeat constructor].
  mrun. rewrite maybe_auto_export_run. sim_finish.
Qed.

Lemma set_mode_sim now m t s :
  py_strip (ucd_lower m) <> u8 "pronounce" ->
  simulates reply_rel (set_mode auto_export now m t s) (basic_set_mode m t (abs s)).
Proof.
  intros Hp. unfold set_mode, basic_set_mode. rewrite modes_agree by done.
  case_bool_decide; [| repeat constructor].
  destruct (bool_decide (py_strip (ucd_lower m) = u8 "roleplay")), t as [[|c t]|];
    try match goal with |- context [bool_decide (?x ∈ ROLEPLAY_TOPICS)] =>
          destruct (bool_decide (x ∈ ROLEPLAY_TOPICS)) end;
    mrun; rewrite maybe_auto_export_run; mrun; sim_finish; by eapply mode_reply_rel.
Qed.

Lemma phrase_pack_sim t s : simulates reply_rel (phrase_pack t s) (basic_phrase_pack t (abs s)).
Proof.
  unfold phrase_pack, basic_phrase_pack. change basic_phrases_of with phrases_of.
  destruct (phrases_of _); mrun; sim_finish.
Qed.

Lemma add_vocab_sim now w t ex s :
  py_strip w = w -> py_strip t = t -> py_strip (default [] ex) = default [] ex -> is_Some (_next_due 1 now) ->
  simulates reply_rel (add_vocab auto_export now w t ex s) (basic_add_vocab w t ex (abs s)).
Proof.
  intros Hw Ht Hex [nd Hnd]. unfold add_vocab, basic_add_vocab. rewrite Hnd.
  assert (py_strip (from_option (fun x => x) [] ex) = from_option (fun x => x) [] ex) as Hex' by exact Hex.
  mrun. rewrite maybe_auto_export_run. mrun. rewrite Hw, Ht, Hex'.
  sim_finish; unfold abs; simpl; by rewrite ?fmap_app.
Qed.

Lemma list_vocab_sim s : simulates reply_rel (list_vocab s) (basic_list_vocab (abs s)).
Proof.
  unfold list_vocab, basic_list_vocab. mrun. simpl. destruct (vocab s) as [|it v]; simpl; sim_finish.
  simpl. f_equal. induction v as [|x v IH]; simpl; [done | by rewrite IH].
Qed.

End Sim.
(** C33: Refinement of the basic tutor by the extended tutor: on
    [set_level], [set_mode] (other than ["pronounce"]), [phrase_pack],
    [add_vocab] (with stripped fields and no overflow of [_next_due]) and
    [list_vocab], the extended tutor never raises, its new state seen
    through [abs] is the basic tutor's new state, its saves are the basic
    tutor's saves (its exports have no counterpart), and the two replies
    say the same thing. *)
Theorem plus_refines_basic `{UnicodeData} `{PyDateTime} auto_export e c s :
  call_ok (env_now e) c ->
  simulates reply_rel (run_tool auto_export e (plus_call c) s) (basic_run c (abs s)).
Proof.
  destruct c; simpl; intros Hc.
  - apply set_level_sim.
  - by apply set_mode_sim.
  - apply phrase_pack_sim.
  - destruct Hc as (? & ? & ? & ?). by apply add_vocab_sim.
  - apply list_vocab_sim.
Qed.

Lemma plus_refines_basic_witness :
  @call_ok latin1_ucd cpython_datetime (env_now env0) (BCallSetMode (u8 "Roleplay ") (Some (u8 "Hotel"))) /\
  simulates reply_rel
    (@run_tool latin1_ucd cpython_datetime true env0 (plus_call (BCallSetMode (u8 "Roleplay ") (Some (u8 "Hotel"))))
       initial_tutor)
    (@basic_run latin1_ucd (BCallSetMode (u8 "Roleplay ") (Some (u8 "Hotel"))) (abs initial_tutor)).
Proof.
  assert (@call_ok latin1_ucd cpython_datetime (env_now env0) (BCallSetMode (u8 "Roleplay ") (Some (u8 "Hotel"))))
    as Hc by (vm_compute; congruence).
  split; [exact Hc | exact (plus_refines_basic true env0 _ initial_tutor Hc)].
Defined.

End BasicRefinement.
