(* ===== verification/SrsDaily.v ===== *)
(** * The daily spaced-repetition script [scripts/srs_daily.py]

    The script reads the extended tutor's progress file, lists the words
    that are due, writes a CSV snapshot and posts a macOS notification
    through [osascript].  [compute_due], [write_csv]'s rows, the report
    [main] prints and the notification script [notify] builds are
    modelled; the file system and the [osascript] process are not.  The
    vocabulary items are the tutor's [vocab_item]s; a missing
    [next_due] reads as the empty string, which the script skips.

    To state what [notify] is for, the file also holds the part of the
    AppleScript grammar the generated script uses: a string literal with
    its backslash escapes ([as_literal]), and the command
    [display notification "..." with title "..."] ([parse_notification]).
    These two model AppleScript, not the repository. *)

From S2P Require Import Prelude DateTime IsoTime TutorState.

Module SrsDaily.

(** [load_state()]: the default when the file does not exist. *)
Record state_doc := mk_state_doc {
  doc_vocab : option (list vocab_item);     (** [state.get("vocab", [])] *)
  doc_level : pystr; doc_mode : pystr; doc_topic : pystr
}.

Definition load_state (file : option state_doc) : state_doc :=
  match file with
  | Some d => d
  | None => mk_state_doc (Some []) (u8 "A1") (u8 "chat") (u8 "cafe")
  end.

Section WithDateTime.
Context `{PyDateTime}.

(** [compute_due(vocab)]: an item without a date or with an unreadable
    one is skipped ([continue]); an aware date makes [due_dt <= now]
    raise [TypeError], which nothing catches. *)
Fixpoint compute_due (vocab : list vocab_item) (now : datetime) : exn + list vocab_item :=
  match vocab with
  | [] => inr []
  | item :: rest =>
      match next_due item with
      | [] => compute_due rest now
      | nd =>
          match fromisoformat nd with
          | ParseError => compute_due rest now
          | ParsedAware _ _ => inl TypeError
          | ParsedNaive due_dt =>
              match compute_due rest now with
              | inl x => inl x
              | inr due => inr (if (due_dt <=? now)%Z then item :: due else due)
              end
          end
      end
  end.

End WithDateTime.

(** A row of [write_csv]: [word, translation, example, box, next_due]. *)
Definition csv_row (item : vocab_item) : pystr * pystr * pystr * Z * pystr :=
  (word item, translation item, example item, box item, next_due item).

Definition write_csv_rows (vocab : list vocab_item) : list (pystr * pystr * pystr * Z * pystr) :=
  csv_row <$> vocab.

(** [s.replace] of every double quote by a backslash and a double quote. *)
Definition escape_quotes (s : pystr) : pystr :=
  mjoin ((fun c => if (c =? 34)%N then [92%N; 34%N] else [c]) <$> s).

Definition quote : pystr := [34%N].

(** The [-e] argument [notify] passes to [osascript]. *)
Definition notify_script (title message : pystr) : pystr :=
  u8 "display notification " ++ quote ++ escape_quotes message ++ quote
  ++ u8 " with title " ++ quote ++ escape_quotes title ++ quote.

(** A line of the report: [" - {word} → {translation} (box {box}, due {next_due})"]. *)
Definition report_line (item : vocab_item) : pystr :=
  u8 " - " ++ word item ++ u8 " → " ++ translation item ++ u8 " (box " ++ py_str_int (box item)
  ++ u8 ", due " ++ next_due item ++ u8 ")".

(** What [main] prints and the notification it posts, or the exception
    of [compute_due]. *)
Definition main `{PyDateTime} (file : option state_doc) (now : datetime) (csv_name : pystr)
    : exn + (list pystr * pystr) :=
  let vocab := default [] (doc_vocab (load_state file)) in
  match compute_due vocab now with
  | inl x => inl x
  | inr due =>
      let n := Z.of_nat (length due) in
      let lines :=
        (u8 "[French Tutor] " ++ py_str_int n ++ u8 " word(s) are due.")
        :: (report_line <$> take 10 due)
        ++ (if (10 <? n)%Z then [u8 " ... and " ++ py_str_int (n - 10) ++ u8 " more."] else []) in
      let script :=
        match due with
        | [] => notify_script (u8 "French Vocab") (u8 "All clear today — CSV: " ++ csv_name)
        | _ => notify_script (u8 "French Vocab Due") (py_str_int n ++ u8 " to review today — CSV: " ++ csv_name)
        end in
      inr (lines, script)
  end.

(** ** AppleScript, as far as the script uses it *)

(** A string literal after its opening quote: a backslash followed by
    a double quote, a backslash, n, t or r is an escape; the literal ends
    at an unescaped double quote. *)
Fixpoint as_literal (s : pystr) : option (pystr * pystr) :=
  match s with
  | [] => None
  | c :: r =>
      if (c =? 34)%N then Some ([], r)
      else if (c =? 92)%N then
        match r with
        | [] => None
        | e :: r' =>
            let decoded :=
              if (e =? 34)%N || (e =? 92)%N then Some e
              else if (e =? 110)%N then Some 10%N
              else if (e =? 116)%N then Some 9%N
              else if (e =? 114)%N then Some 13%N
              else None in
            match decoded, as_literal r' with
            | Some d, Some (lit, rest) => Some (d :: lit, rest)
            | _, _ => None
            end
        end
      else
        match as_literal r with
        | Some (lit, rest) => Some (c :: lit, rest)
        | None => None
        end
  end.

Fixpoint strip_prefix (p s : pystr) : option pystr :=
  match p, s with
  | [], _ => Some s
  | c :: p', d :: s' => if (c =? d)%N then strip_prefix p' s' else None
  | _ :: _, [] => None
  end.

(** The message and the title of a [display notification] command. *)
Definition parse_notification (s : pystr) : option (pystr * pystr) :=
  r1 ← strip_prefix (u8 "display notification " ++ quote) s;
  '(message, r2) ← as_literal r1;
  r3 ← strip_prefix (u8 " with title " ++ quote) r2;
  '(title, r4) ← as_literal r3;
  match r4 with [] => Some (message, title) | _ => None end.

End SrsDaily.

(** ** Theorems *)
Module SrsDailyFacts.
Import SrsDaily.

(** [r.map(f)] on an exception-or-value. *)
Definition sum_map {E A B} (f : A -> B) (r : E + A) : E + B :=
  match r with inl x => inl x | inr a => inr (f a) end.

(** An item whose [next_due] is present and readable. *)
Definition well_dated `{PyDateTime} (it : vocab_item) : Prop :=
  next_due it <> [] /\ fromisoformat (next_due it) <> ParseError.

Section Agree.
Context `{PyDateTime}.

Lemma due_loop_ge i items now idxs : due_loop i items now = inr idxs -> Forall (fun j => i <= j) idxs.
Proof.
  intros E. destruct (due_loop_inr i items now idxs E) as [_ Hm].
  apply Forall_forall. intros j Hj. by apply Hm in Hj as [? _].
Qed.

Lemma omap_shift (it : vocab_item) rest i idxs :
  Forall (fun j => S i <= j) idxs ->
  omap (fun j => (it :: rest) !! (j - i)) idxs = omap (fun j => rest !! (j - S i)) idxs.
Proof.
  intros Hge. apply list_omap_ext, Forall_Forall2_diag.
  eapply Forall_impl; [exact Hge |]. intros j Hj. cbv beta in Hj |- *.
  by replace (j - i) with (S (j - S i)) by lia.
Qed.

Lemma compute_due_loop i items now :
  Forall well_dated items ->
  compute_due items now = sum_map (omap (fun j => items !! (j - i))) (due_loop i items now).
Proof.
  revert i. induction items as [|it rest IH]; intros i Hw; [done |].
  apply Forall_cons in Hw as [[Hne Hparse] Hw]. simpl.
  destruct (next_due it) as [|c nd] eqn:E; [done |].
  destruct (fromisoformat (c :: nd)) as [t|t o|]; [| done | done].
  rewrite (IH (S i) Hw). destruct (due_loop (S i) rest now) as [x|idxs] eqn:D; [done |].
  simpl. f_equal. pose proof (due_loop_ge _ _ _ _ D) as Hge.
  destruct (t <=? now)%Z; [| by rewrite omap_shift]. simpl. rewrite Nat.sub_diag. simpl.
  f_equal. by rewrite omap_shift.
Qed.

Lemma omap_lookup_sub0 (l : list vocab_item) (idxs : list nat) :
  omap (fun j => l !! (j - 0)) idxs = omap (fun j => l !! j) idxs.
Proof.
  apply list_omap_ext, Forall_Forall2_diag, Forall_forall. intros j _. simpl. by rewrite Nat.sub_0_r.
Qed.

End Agree.

Lemma escape_quotes_cons c m :
  escape_quotes (c :: m) = (if (c =? 34)%N then [92%N; 34%N] else [c]) ++ escape_quotes m.
Proof. reflexivity. Qed.

Lemma as_literal_escape m rest :
  92%N ∉ m -> as_literal (escape_quotes m ++ 34%N :: rest) = Some (m, rest).
Proof.
  induction m as [|c m IH]; intros Hm; [done |].
  apply not_elem_of_cons in Hm as [Hc Hm]. rewrite escape_quotes_cons.
  destruct (N.eqb_spec c 34) as [-> | Hq]; cbn -[escape_quotes]; [by rewrite IH |].
  apply N.eqb_neq in Hq. apply not_eq_sym, N.eqb_neq in Hc. rewrite Hq, Hc. by rewrite IH.
Qed.

Lemma strip_prefix_app p s : strip_prefix p (p ++ s) = Some s.
Proof. induction p as [|c p IH]; simpl; [done |]. by rewrite N.eqb_refl. Qed.

Lemma strip_prefix_snoc p c s : strip_prefix (p ++ [c]) (p ++ c :: s) = Some s.
Proof. change (c :: s) with ([c] ++ s). rewrite app_assoc. apply strip_prefix_app. Qed.

(** C34: On items whose [next_due] is present and readable, the script's
    [compute_due] and the tutor's [_due_indices] agree: the script lists
    exactly the items at the tutor's due indices, in order, and both
    raise [TypeError] on the same inputs. *)
Theorem compute_due_agrees `{PyDateTime} vocab now :
  Forall well_dated vocab ->
  compute_due vocab now = sum_map (omap (fun j => vocab !! j)) (_due_indices vocab now).
Proof.
  intros Hw. unfold _due_indices. rewrite (compute_due_loop 0 _ _ Hw).
  destruct (due_loop 0 vocab now); simpl; [done |]. by rewrite omap_lookup_sub0.
Qed.

(** C35: The script [notify] hands to [osascript] is read back by
    AppleScript as the same message and title, provided neither holds a
    backslash: [notify] escapes double quotes but not backslashes. *)
Theorem notify_script_roundtrip title message :
  92%N ∉ title -> 92%N ∉ message ->
  parse_notification (notify_script title message) = Some (message, title).
Proof.
  intros Ht Hm. unfold parse_notification, notify_script, quote. cbn [app].
  rewrite strip_prefix_snoc. cbn [mbind option_bind].
  rewrite as_literal_escape by done. cbn [mbind option_bind].
  rewrite strip_prefix_snoc. cbn [mbind option_bind].
  rewrite as_literal_escape by done. reflexivity.
Qed.

(** A message ending with a backslash swallows the closing quote: the
    command no longer reads as a notification. *)
Example notify_backslash_breaks :
  parse_notification (notify_script (u8 "French Vocab") [97%N; 92%N]) = None.
Proof. vm_compute. reflexivity. Qed.

Lemma notify_script_roundtrip_witness :
  (92%N ∉ u8 "French Vocab Due") /\ (92%N ∉ u8 "3 to review today — CSV: srs_2025-06-01.csv") /\
  parse_notification (notify_script (u8 "French Vocab Due") (u8 "3 to review today — CSV: srs_2025-06-01.csv"))
  = Some (u8 "3 to review today — CSV: srs_2025-06-01.csv", u8 "French Vocab Due").
Proof.
  assert (92%N ∉ u8 "French Vocab Due") as Ht by (apply (bool_decide_unpack _); vm_compute; exact I).
  assert (92%N ∉ u8 "3 to review today — CSV: srs_2025-06-01.csv") as Hm
    by (apply (bool_decide_unpack _); vm_compute; exact I).
  split_and!; [exact Ht | exact Hm | exact (notify_script_roundtrip _ _ Ht Hm)].
Defined.

(** A run of the script on day 20000 after the epoch (2024-10-04). *)
Definition script_now : datetime := (epoch + 20000 * us_per_day)%Z.

Definition dated_item : vocab_item :=
  mk_item (u8 "chat") (u8 "cat") [] 2 (u8 "2025-01-01T09:00:00") [].

Lemma compute_due_agrees_witness :
  Forall (@well_dated cpython_datetime) [dated_item] /\
  @compute_due cpython_datetime [dated_item] script_now
  = sum_map (omap (fun j => [dated_item] !! j)) (@_due_indices cpython_datetime [dated_item] script_now).
Proof.
  assert (Forall (@well_dated cpython_datetime) [dated_item]) as Hw.
  { constructor; [split; vm_compute; congruence | constructor]. }
  split; [exact Hw | exact (compute_due_agrees [dated_item] script_now Hw)].
Defined.

(** An unreadable date is due for the tutor (it reads as 1970) and
    skipped by the script. *)
Example malformed_date_diverges :
  let it := mk_item (u8 "chat") (u8 "cat") [] 2 (u8 "soon") [] in
  @_due_indices cpython_datetime [it] script_now = inr [0] /\ @compute_due cpython_datetime [it] script_now = inr [].
Proof. split; vm_compute; reflexivity. Qed.

End SrsDailyFacts.
