(* ===== verification/Config.v ===== *)
(** * Environment configuration and the agents' entrypoints

    Every agent reads its configuration from the environment (after
    [load_dotenv]) through the same three helpers, [_flag], [_env] and
    [_require_env], and its [entrypoint] then either runs the LLM smoke
    test or builds a voice session.  The environment is a [dict] of
    strings.  An entrypoint is modelled as the outcome it reaches: the
    smoke test, an exception, or the session it starts with its LLM,
    tools, speech-to-text and text-to-speech settings.

    Two facts of the world are parameters: whether Python's [float()]
    accepts a string ([float_ok]) and whether the LLM server answers
    ([llm_up]; [LlmCheck] models the checks themselves).  The tools of a
    session are recorded as the code leaves them: untouched, flagged off
    ([func.livekit_tool = False]) or disabled ([_disable_tool], which
    deletes LiveKit's [__livekit_tool_info] metadata); what the framework
    then offers the model is not modelled. *)

From S2P Require Import Prelude Text.

Local Set Warnings "-clear-no-such-hyp".

Module Env.

Abbreviation environ := (pydict pystr pystr).

(** [os.getenv(key)] *)
Definition getenv (env : environ) (key : pystr) : option pystr := pydict_get key env.

(** [_env(key, default)]: [os.getenv(key, default)]. *)
Definition _env (env : environ) (key : pystr) (dflt : option pystr) : option pystr :=
  match getenv env key with Some v => Some v | None => dflt end.

(** [a or b] on optional strings: [None] and [""] are false. *)
Definition py_or (a b : option pystr) : option pystr :=
  match a with Some (_ :: _) => a | _ => b end.

Definition truthy (v : option pystr) : bool := match v with Some (_ :: _) => true | _ => false end.

Definition TRUE_WORDS : list pystr := [u8 "1"; u8 "true"; u8 "yes"; u8 "on"].

(** [_require_env(keys)]: the keys that are unset or empty, in order;
    a non-empty list is the [RuntimeError]. *)
Definition missing_keys (env : environ) (keys : list pystr) : list pystr :=
  filter (fun k => truthy (getenv env k) = false) keys.

Section Flags.
Context `{UnicodeData}.

(** [_flag(name, default)]:
    [(os.getenv(name, default) or "").strip().lower() in {"1", "true", "yes", "on"}]. *)
Definition _flag (env : environ) (name dflt : pystr) : bool :=
  bool_decide (ucd_lower (py_strip (default [] (_env env name (Some dflt)))) ∈ TRUE_WORDS).

End Flags.
End Env.

Module Entrypoints.
Import Env.

Inductive failure :=
| RuntimeError (missing : list pystr)       (** [_require_env] *)
| ValueError                                (** [float()] of a setting *)
| LLMUnreachable.                           (** the smoke test or warm-up request *)

Inductive tools_state := ToolsExposed | ToolsFlaggedOff | ToolsRemoved.

Inductive tts_choice :=
| TTSDeepgram (model : option pystr)
| TTSOpenAI (voice base_url : option pystr)
| TTSNone.

Record llm_config := mk_llm {
  llm_model : option pystr;
  llm_base_url : option pystr;
  llm_api_key : option pystr;
  llm_temperature : pystr                   (** the string given to [float()] *)
}.

Record session_config := mk_session {
  warmed_up : bool;
  session_llm : llm_config;
  session_tools : tools_state;
  session_stt : option (option pystr);      (** [deepgram.STT(model=...)] or [None] *)
  session_tts : tts_choice
}.

Inductive outcome :=
| SmokeTest (model : option pystr)
| Fails (f : failure)
| Session (cfg : session_config).

Definition OLLAMA_URL : pystr := u8 "http://127.0.0.1:11434/v1".
Definition OPENAI_URL : pystr := u8 "https://api.openai.com/v1".
Definition DEEPGRAM_API_KEY : pystr := u8 "DEEPGRAM_API_KEY".
Definition OPENAI_TTS_API_KEY : pystr := u8 "OPENAI_TTS_API_KEY".

(** [_env("LLM_CHOICE") or _env("LLM_MODEL", "llama3.2:3b")] *)
Definition llm_choice (env : environ) : option pystr :=
  py_or (_env env (u8 "LLM_CHOICE") None) (_env env (u8 "LLM_MODEL") (Some (u8 "llama3.2:3b"))).

Definition llm_of (env : environ) (model : option pystr) (temp_default : pystr) : llm_config :=
  mk_llm model (_env env (u8 "OPENAI_BASE_URL") (Some OLLAMA_URL))
    (_env env (u8 "OPENAI_API_KEY") (Some (u8 "ollama")))
    (default [] (_env env (u8 "LLM_TEMPERATURE") (Some temp_default))).

Section Entry.
Context `{UnicodeData} (float_ok : pystr -> bool) (llm_up : bool).

(** [(_env("TTS_PROVIDER", d) or d).strip().lower()] *)
Definition tts_provider (env : environ) (d : pystr) : pystr :=
  ucd_lower (py_strip (default [] (py_or (_env env (u8 "TTS_PROVIDER") (Some d)) (Some d)))).

(** [_basic_llm_check()]: a failed request raises. *)
Definition smoke_test (env : environ) : outcome :=
  if llm_up then SmokeTest (llm_choice env) else Fails LLMUnreachable.

(** [_warmup_ollama()] of the tutors and of the Airbnb agent: the
    [float(WARMUP_TIMEOUT)] and the request may raise. *)
Definition warmup_failure (env : environ) : option failure :=
  if _flag env (u8 "WARMUP_LLM") (u8 "true") then
    if negb (float_ok (default [] (_env env (u8 "WARMUP_TIMEOUT") (Some (u8 "60"))))) then Some ValueError
    else if negb llm_up then Some LLMUnreachable else None
  else None.

(** [universal_agent.entrypoint]: the warm-up and every key check are
    caught; a missing key only disables STT or TTS. *)
Definition universal_entrypoint (env : environ) : outcome :=
  if _flag env (u8 "BASIC_TEST") (u8 "true") then smoke_test env else
  let llm := llm_of env (llm_choice env) (u8 "0.7") in
  if negb (float_ok (llm_temperature llm)) then Fails ValueError else
  let tools := if _flag env (u8 "USE_TOOLS") (u8 "true") then ToolsExposed else ToolsFlaggedOff in
  let stt := match missing_keys env [DEEPGRAM_API_KEY] with
             | [] => Some (_env env (u8 "DEEPGRAM_MODEL") (Some (u8 "nova-2")))
             | _ => None end in
  let provider := tts_provider env (u8 "openai") in
  let tts :=
    if bool_decide (provider = u8 "deepgram") then
      match missing_keys env [DEEPGRAM_API_KEY] with
      | [] => TTSDeepgram (_env env (u8 "DEEPGRAM_TTS_MODEL") (Some (u8 "aura-asteria-en")))
      | _ => TTSNone end
    else if bool_decide (provider ∈ [u8 "none"; u8 "off"; u8 "disabled"]) then TTSNone
    else
      match missing_keys env [OPENAI_TTS_API_KEY] with
      | [] => TTSOpenAI (_env env (u8 "TTS_VOICE") (Some (u8 "alloy")))
                        (_env env (u8 "OPENAI_TTS_BASE_URL") (Some OPENAI_URL))
      | _ => TTSNone end in
  Session (mk_session (_flag env (u8 "WARMUP_LLM") (u8 "true")) llm tools stt tts).

(** [livekit_basic_agent.entrypoint]: the key checks raise. *)
Definition airbnb_entrypoint (env : environ) : outcome :=
  if _flag env (u8 "BASIC_TEST") (u8 "true") then smoke_test env else
  match warmup_failure env with Some f => Fails f | None =>
  let llm := llm_of env (llm_choice env) (u8 "0.6") in
  if negb (float_ok (llm_temperature llm)) then Fails ValueError else
  let tools := if _flag env (u8 "USE_TOOLS") (u8 "false") then ToolsExposed else ToolsRemoved in
  match missing_keys env [DEEPGRAM_API_KEY] with
  | (_ :: _) as m => Fails (RuntimeError m)
  | [] =>
      let stt := Some (_env env (u8 "DEEPGRAM_MODEL") (Some (u8 "nova-2"))) in
      let provider := tts_provider env (u8 "openai") in
      if bool_decide (provider = u8 "deepgram") then
        Session (mk_session (_flag env (u8 "WARMUP_LLM") (u8 "true")) llm tools stt
                   (TTSDeepgram (_env env (u8 "DEEPGRAM_TTS_MODEL") (Some (u8 "aura-2-andromeda-en")))))
      else if bool_decide (provider ∈ [u8 "none"; u8 "off"; u8 "disabled"]) then
        Session (mk_session (_flag env (u8 "WARMUP_LLM") (u8 "true")) llm tools stt TTSNone)
      else
        match missing_keys env [OPENAI_TTS_API_KEY] with
        | (_ :: _) as m => Fails (RuntimeError m)
        | [] =>
            Session (mk_session (_flag env (u8 "WARMUP_LLM") (u8 "true")) llm tools stt
                       (TTSOpenAI (_env env (u8 "TTS_VOICE") (Some (u8 "alloy")))
                                  (py_or (_env env (u8 "OPENAI_TTS_BASE_URL") None) (Some OPENAI_URL))))
        end
  end end.

(** [simple_universal_agent.entrypoint]: no [LLM_CHOICE], a warm-up that
    swallows everything, and a provider lower-cased without [strip]. *)
Definition simple_entrypoint (env : environ) : outcome :=
  if _flag env (u8 "BASIC_TEST") (u8 "true") then
    if llm_up then SmokeTest (_env env (u8 "LLM_MODEL") (Some (u8 "llama3.2:3b"))) else Fails LLMUnreachable
  else
  let llm := llm_of env (_env env (u8 "LLM_MODEL") (Some (u8 "llama3.2:3b"))) (u8 "0.7") in
  if negb (float_ok (llm_temperature llm)) then Fails ValueError else
  let tools := if _flag env (u8 "USE_TOOLS") (u8 "true") then ToolsExposed else ToolsFlaggedOff in
  let stt := match missing_keys env [DEEPGRAM_API_KEY] with
             | [] => Some (_env env (u8 "DEEPGRAM_MODEL") (Some (u8 "nova-2")))
             | _ => None end in
  let provider := ucd_lower (default [] (py_or (_env env (u8 "TTS_PROVIDER") (Some (u8 "deepgram")))
                                              (Some (u8 "deepgram")))) in
  let tts :=
    if bool_decide (provider = u8 "deepgram") && truthy (_env env DEEPGRAM_API_KEY None) then
      TTSDeepgram (_env env (u8 "DEEPGRAM_TTS_MODEL") (Some (u8 "aura-asteria-en")))
    else if bool_decide (provider = u8 "openai") && truthy (_env env OPENAI_TTS_API_KEY None) then
      TTSOpenAI (_env env (u8 "TTS_VOICE") (Some (u8 "alloy"))) None
    else TTSNone in
  Session (mk_session (_flag env (u8 "WARMUP_LLM") (u8 "true")) llm tools stt tts).

(** The entrypoints of both French tutors: both keys are required. *)
Definition tutor_entrypoint (env : environ) : outcome :=
  if _flag env (u8 "BASIC_TEST") (u8 "true") then smoke_test env else
  match warmup_failure env with Some f => Fails f | None =>
  let llm := llm_of env (llm_choice env) (u8 "0.6") in
  if negb (float_ok (llm_temperature llm)) then Fails ValueError else
  let tools := if _flag env (u8 "USE_TOOLS") (u8 "false") then ToolsExposed else ToolsFlaggedOff in
  match missing_keys env [DEEPGRAM_API_KEY; OPENAI_TTS_API_KEY] with
  | (_ :: _) as m => Fails (RuntimeError m)
  | [] =>
      Session (mk_session (_flag env (u8 "WARMUP_LLM") (u8 "true")) llm tools (Some (_env env (u8 "DEEPGRAM_MODEL") (Some (u8 "nova-2"))))
                 (TTSOpenAI (_env env (u8 "TTS_VOICE") (Some (u8 "alloy"))) None))
  end end.

End Entry.

(** [livekit_mcp_agent.entrypoint]: fixed settings, no smoke test. *)
Definition mcp_entrypoint (env : environ) : outcome :=
  Session (mk_session false
             (mk_llm (Some (default (u8 "gpt-4.1-mini") (getenv env (u8 "LLM_CHOICE")))) None None (u8 "0.7"))
             ToolsExposed (Some (Some (u8 "nova-2"))) (TTSOpenAI (Some (u8 "echo")) None)).

End Entrypoints.

(** ** Theorems *)
Module ConfigFacts.
Import Env Entrypoints.

Section Facts.
Context `{UnicodeData} (float_ok : pystr -> bool) (llm_up : bool).

Lemma warmup_failure_not_runtime env m :
  warmup_failure float_ok llm_up env <> Some (RuntimeError m).
Proof. unfold warmup_failure. by repeat case_match. Qed.

(** C25: A missing API key never stops the two universal agents (it only
    leaves STT or TTS out), while the French tutors fail with
    [RuntimeError] exactly when the smoke test is off, the warm-up and
    the temperature pass, and one of [DEEPGRAM_API_KEY],
    [OPENAI_TTS_API_KEY] is unset or empty; the error lists those. *)
Theorem missing_keys_policy env m :
  universal_entrypoint float_ok llm_up env <> Fails (RuntimeError m) /\
  simple_entrypoint float_ok llm_up env <> Fails (RuntimeError m) /\
  (tutor_entrypoint float_ok llm_up env = Fails (RuntimeError m) <->
   _flag env (u8 "BASIC_TEST") (u8 "true") = false /\ warmup_failure float_ok llm_up env = None /\
   float_ok (llm_temperature (llm_of env (llm_choice env) (u8 "0.6"))) = true /\
   m = missing_keys env [DEEPGRAM_API_KEY; OPENAI_TTS_API_KEY] /\ m <> []).
Proof.
  split_and!.
  - unfold universal_entrypoint, smoke_test.
    destruct (_flag _ _ _); [by destruct llm_up |]. by destruct (float_ok _).
  - unfold simple_entrypoint. destruct (_flag _ _ _); [by destruct llm_up |]. by destruct (float_ok _).
  - unfold tutor_entrypoint, smoke_test. cbv zeta.
    destruct (_flag env (u8 "BASIC_TEST") _); [destruct llm_up; split; intros; naive_solver |].
    destruct (warmup_failure _ _ _) as [f|] eqn:W; [split; [|intros (_ & ? & _); done] |].
    { intros [= ->]. by edestruct warmup_failure_not_runtime. }
    destruct (float_ok (llm_temperature (llm_of env (llm_choice env) (u8 "0.6")))); simpl;
      [| split; [congruence | intros (_ & _ & ? & _); done]].
    destruct (missing_keys _ _) as [|k ks]; split; intros; naive_solver.
Qed.

End Facts.
(** The same without the text-to-speech key. *)
Definition env_no_tts_key : environ :=
  [(u8 "BASIC_TEST", u8 " False "); (u8 "WARMUP_LLM", u8 "0"); (DEEPGRAM_API_KEY, u8 "dg");
   (OPENAI_TTS_API_KEY, [])].

Lemma missing_keys_policy_witness :
  @tutor_entrypoint latin1_ucd (fun _ => true) true env_no_tts_key = Fails (RuntimeError [OPENAI_TTS_API_KEY]).
Proof.
  apply (proj2 (proj2 (@missing_keys_policy latin1_ucd (fun _ => true) true env_no_tts_key [OPENAI_TTS_API_KEY]))).
  vm_compute. split_and!; try reflexivity. discriminate.
Defined.

End ConfigFacts.
