(* ===== verification/Diagnostic.v ===== *)
(** * The setup diagnostic, [src/scripts/diagnostic.py]

    The script runs five checks, prints what each found and exits with 0
    when all of them pass.  Three checks only probe the outside world
    ([test_ollama], [test_llm], [test_imports], [run_quick_test]: an HTTP
    request, an import, a call of the simple agent's smoke test); their
    verdicts are the parameters of [main].  Two are computed from text
    and are modelled line by line: [check_env_file] reads [.env] (the
    file's content, or [None] when it does not exist) and compares the
    settings with the expected ones; [check_api_keys] prints a masked
    form of the two API keys of the environment.  What the script prints
    is the list of the strings it passes to [print], in order. *)

From S2P Require Import Prelude Text Config.

Local Set Warnings "-clear-no-such-hyp".

Module Diagnostic.
Import Env Entrypoints.

(** ** Python string helpers *)

(** [s.split(c)] with a one-character separator. *)
Fixpoint py_split_char (c : N) (s : pystr) : list pystr :=
  match s with
  | [] => [[]]
  | x :: s' =>
      let rest := py_split_char c s' in
      if (x =? c)%N then [] :: rest
      else match rest with r :: rs => (x :: r) :: rs | [] => [[x]] end
  end.

(** [s.split(c, 1)]: the text before the first [c] and, if there is one,
    the text after it. *)
Fixpoint py_split_once (c : N) (s : pystr) : list pystr :=
  match s with
  | [] => [[]]
  | x :: s' =>
      if (x =? c)%N then [[]; s']
      else match py_split_once c s' with r :: rs => (x :: r) :: rs | [] => [[x]] end
  end.

(** ** Output helpers *)

Definition EQ60 : pystr := repeat 61%N 60.

(** [print_header(text)]: three calls of [print]. *)
Definition print_header (text : pystr) : list pystr :=
  [nl ++ EQ60; u8 "  " ++ text; EQ60].

(** [check_mark(success)] *)
Definition check_mark (success : bool) : pystr := if success then u8 "✓" else u8 "✗".

(** ** [check_env_file] *)

Definition required : pydict pystr pystr :=
  [(u8 "OPENAI_BASE_URL", u8 "http://127.0.0.1:11434/v1");
   (u8 "OPENAI_API_KEY", u8 "ollama");
   (u8 "LLM_MODEL", u8 "llama3.2:3b")].

Definition optional_checks : pydict pystr pystr :=
  [(u8 "USE_TOOLS", u8 "true"); (u8 "TTS_PROVIDER", u8 "deepgram"); (u8 "BASIC_TEST", u8 "false")].

(** The inner loop over [content.split('\n')]: the value of the first
    line that starts with [key=], [line.split('=', 1)[1].strip()]. *)
Fixpoint first_setting (key : pystr) (lines : list pystr) : option pystr :=
  match lines with
  | [] => None
  | line :: lines' =>
      if is_prefix (key ++ u8 "=") line
      then Some (py_strip (default [] (py_split_once 61 line !! 1)))
      else first_setting key lines'
  end.

Definition required_line (key expected value : pystr) : pystr :=
  let match_ := bool_decide (value = expected) in
  u8 "   " ++ check_mark match_ ++ u8 " " ++ key ++ u8 "=" ++
  (if match_ then u8 "✓" else u8 "(got: " ++ value ++ u8 ")").

(** [for key, expected in required.items(): ...], threading [all_good].
    The [else] belongs to [if key in content]: a key that occurs in the
    text but starts no line prints nothing and keeps [all_good]. *)
Fixpoint check_required (content : pystr) (req : pydict pystr pystr) (all_good : bool)
    : list pystr * bool :=
  match req with
  | [] => ([], all_good)
  | (key, expected) :: req' =>
      let '(out, good) :=
        if is_substring key content then
          match first_setting key (py_split_char 10 content) with
          | Some value => ([required_line key expected value], all_good && bool_decide (value = expected))
          | None => ([], all_good)
          end
        else ([u8 "   " ++ check_mark false ++ u8 " " ++ key ++ u8 " missing"], false) in
      let '(out', good') := check_required content req' good in
      (out ++ out', good')
  end.

(** [for key, recommended in optional_checks.items(): ...] *)
Fixpoint optional_lines (content : pystr) (opt : pydict pystr pystr) : list pystr :=
  match opt with
  | [] => []
  | (key, recommended) :: opt' =>
      (if is_substring key content then
         match first_setting key (py_split_char 10 content) with
         | Some value => [u8 "   • " ++ key ++ u8 "=" ++ value]
         | None => []
         end
       else [u8 "   • " ++ key ++ u8 " not set (recommended: " ++ recommended ++ u8 ")"])
      ++ optional_lines content opt'
  end.

(** [check_env_file()]: what it prints and what it returns. *)
Definition check_env_file (env_file : option pystr) : list pystr * bool :=
  let header := print_header (u8 "Checking .env Configuration") in
  match env_file with
  | None =>
      (header ++ [check_mark false ++ u8 " .env file not found"; u8 "   Fix: Copy .env.example to .env"], false)
  | Some content =>
      let '(req_out, all_good) := check_required content required true in
      (header ++ [check_mark true ++ u8 " .env file exists"] ++ req_out ++
       [nl ++ u8 "   Optional settings:"] ++ optional_lines content optional_checks, all_good)
  end.

(** ** [check_api_keys] *)

(** [key[:10] + "..." if len(key) > 10 else "***"] *)
Definition mask (key : pystr) : pystr :=
  if (10 <? length key)%nat then key .[: 10] ++ u8 "..." else u8 "***".

Section Keys.
Context `{UnicodeData}.

(** [check_api_keys()], on the environment after [load_dotenv()]. *)
Definition check_api_keys (env : environ) : list pystr :=
  let deepgram_key := getenv env DEEPGRAM_API_KEY in
  let openai_tts_key := getenv env OPENAI_TTS_API_KEY in
  let tts_provider := default [] (_env env (u8 "TTS_PROVIDER") (Some (u8 "openai"))) in
  print_header (u8 "Checking API Keys") ++
  match deepgram_key with
  | Some ((_ :: _) as k) => [check_mark true ++ u8 " DEEPGRAM_API_KEY set (" ++ mask k ++ u8 ")"]
  | _ => [check_mark false ++ u8 " DEEPGRAM_API_KEY not set"; u8 "   Voice STT will not work"]
  end ++
  if bool_decide (ucd_lower tts_provider = u8 "deepgram") then
    [check_mark true ++ u8 " TTS Provider: Deepgram (uses same key as STT)"]
  else match openai_tts_key with
  | Some ((_ :: _) as k) => [check_mark true ++ u8 " OPENAI_TTS_API_KEY set (" ++ mask k ++ u8 ")"]
  | _ => [check_mark false ++ u8 " OPENAI_TTS_API_KEY not set"; u8 "   Voice TTS will not work"]
  end.

(** ** [main] *)

(** A probe of the outside world ([test_ollama], [test_llm],
    [test_imports], [run_quick_test]): what it printed and its verdict. *)
Record probe := mk_probe { probe_out : list pystr; probe_ok : bool }.

Record probes := mk_probes { ollama : probe; llm : probe; imports : probe; quick_test : probe }.

(** The [results] dict, in insertion order. *)
Definition results (p : probes) (env_file : option pystr) : pydict pystr bool :=
  [(u8 "Ollama", probe_ok (ollama p)); (u8 "LLM", probe_ok (llm p));
   (u8 "Environment", snd (check_env_file env_file));
   (u8 "Imports", probe_ok (imports p)); (u8 "Quick Test", probe_ok (quick_test p))].

Definition summary_line (r : pystr * bool) : pystr := check_mark r.2 ++ u8 " " ++ r.1.

(** [main()]: everything printed, in order, and the exit status. *)
Definition main (p : probes) (env_file : option pystr) (env : environ) : list pystr * Z :=
  let res := results p env_file in
  let passed := length (filter (fun r => r.2 = true) res) in
  let total := length res in
  let out :=
    [nl ++ u8 "🔍 Voice Agent System Diagnostic"; EQ60] ++
    probe_out (ollama p) ++ probe_out (llm p) ++ fst (check_env_file env_file) ++
    probe_out (imports p) ++ probe_out (quick_test p) ++
    check_api_keys env ++ print_header (u8 "Summary") ++ map summary_line res ++
    [nl ++ py_str_int (Z.of_nat passed) ++ u8 "/" ++ py_str_int (Z.of_nat total) ++ u8 " checks passed"] in
  if (passed =? total)%nat then
    (out ++ [nl ++ u8 "✓ All systems operational!"; nl ++ u8 "You can now run:";
             u8 "  uv run python -m voice_livekit_agent.simple_universal_agent console"], 0%Z)
  else (out ++ [nl ++ u8 "✗ Some issues detected. See above for fixes."], 1%Z).

End Keys.

End Diagnostic.

(** ** Theorems *)
Module DiagnosticFacts.
Import Env Entrypoints Diagnostic.

(** What [check_env_file] checks of one required setting: the key occurs
    somewhere in the text, and the first line [key=...], if any, holds
    the expected value. *)
Definition setting_ok (content : pystr) (kv : pystr * pystr) : bool :=
  is_substring kv.1 content &&
  match first_setting kv.1 (py_split_char 10 content) with
  | Some v => bool_decide (v = kv.2)
  | None => true
  end.

Lemma snd_let_pair {A B C} (p : A * B) (f : A -> C) : snd (let '(a, b) := p in (f a, b)) = snd p.
Proof. by destruct p. Qed.

Lemma check_required_verdict content req g :
  snd (check_required content req g) = g && forallb (setting_ok content) req.
Proof.
  revert g; induction req as [|[key expected] req IH]; intros g; simpl; [by rewrite andb_true_r |].
  unfold setting_ok; simpl.
  destruct (is_substring key content); simpl; [destruct (first_setting _ _); simpl |];
    rewrite snd_let_pair, IH; [by rewrite andb_assoc | done | by rewrite andb_false_r].
Qed.

Lemma py_split_once_prefix key line :
  61%N ∉ key -> is_prefix (key ++ u8 "=") line = true ->
  py_split_once 61 line !! 1 = Some (drop (length key + 1) line).
Proof.
  change (u8 "=") with [61%N].
  revert line; induction key as [|c key IH]; intros [|d line] Hk Hp; cbn [app is_prefix] in Hp; try done;
    apply andb_true_iff in Hp as [Hd Hp]; apply N.eqb_eq in Hd as ->; cbn [py_split_once].
  - by rewrite N.eqb_refl.
  - apply not_elem_of_cons in Hk as [Hc Hk].
    destruct (N.eqb_spec d 61); [done |].
    replace (length (d :: key) + 1) with (S (length key + 1)) by (simpl; lia). cbn [drop].
    rewrite <- (IH line Hk Hp). by destruct (py_split_once 61 line) as [|? [|]].
Qed.

Lemma filter_length_full {A} (P : A -> Prop) `{∀ x, Decision (P x)} (l : list A) :
  length (filter P l) = length l <-> Forall P l.
Proof.
  induction l as [|x l IH]; [by split |]. rewrite filter_cons, Forall_cons.
  pose proof (length_filter P l). destruct (decide (P x)); simpl; [rewrite <- IH; naive_solver lia |].
  split; [lia | naive_solver].
Qed.

(** Two values of an API key variable that [check_api_keys] must not
    tell apart: both unset, or both set, on the same side of the
    ten-character limit, and with the same first ten characters when
    longer. *)
Definition same_shown (a b : option pystr) : Prop :=
  match a, b with
  | None, None => True
  | Some ka, Some kb =>
      (ka = [] <-> kb = []) /\ (length ka <= 10 <-> length kb <= 10)%nat /\
      (10 < length ka -> take 10 ka = take 10 kb)%nat
  | _, _ => False
  end.

Lemma mask_same ka kb :
  (length ka <= 10 <-> length kb <= 10)%nat -> (10 < length ka -> take 10 ka = take 10 kb)%nat ->
  mask ka = mask kb.
Proof.
  intros Hl Ht. unfold mask. rewrite !py_take_nonneg by lia. change (Z.to_nat 10) with 10%nat.
  destruct (Nat.ltb_spec 10 (length ka)), (Nat.ltb_spec 10 (length kb)); [| lia | lia | done].
  by rewrite Ht.
Qed.

Lemma setting_ok_spec content key expected :
  setting_ok content (key, expected) = true <->
  is_substring key content = true /\
  (forall v, first_setting key (py_split_char 10 content) = Some v -> v = expected).
Proof.
  unfold setting_ok; simpl. rewrite andb_true_iff.
  destruct (first_setting _ _); [rewrite bool_decide_eq_true |]; naive_solver.
Qed.

(** C27: [check_env_file] returns [True] exactly when [.env] exists and,
    for every required key, the key occurs somewhere in the text and the
    first line that starts with [key=], if there is one, holds the
    expected value after [strip()].  A key written only in a comment, or
    as [key = value], therefore passes. *)
Theorem check_env_verdict env_file :
  snd (check_env_file env_file) = true <->
  exists content, env_file = Some content /\
    forall key expected, (key, expected) ∈ required ->
      is_substring key content = true /\
      forall v, first_setting key (py_split_char 10 content) = Some v -> v = expected.
Proof.
  destruct env_file as [content|]; [| simpl; naive_solver].
  unfold check_env_file. cbv beta zeta iota.
  rewrite snd_let_pair, check_required_verdict, andb_true_l, forallb_forall.
  setoid_rewrite <- list_elem_of_In. setoid_rewrite <- setting_ok_spec.
  split; [intros Hall; exists content; split; [done | intros k e; apply Hall] |].
  intros (c & [= <-] & Hall) [k e]. apply Hall.
Qed.

(** The required keys only commented out: the check passes. *)
Example check_env_commented_out :
  snd (check_env_file (Some (u8 "# OPENAI_BASE_URL=x" ++ nl ++ u8 "# OPENAI_API_KEY=y" ++ nl ++
                             u8 "LLM_MODEL = z"))) = true.
Proof. vm_compute. reflexivity. Qed.

Lemma shown_cases a b :
  same_shown a b ->
  (a = None /\ b = None) \/
  exists ka kb, a = Some ka /\ b = Some kb /\ (ka = [] <-> kb = []) /\ mask ka = mask kb.
Proof.
  destruct a as [ka|], b as [kb|]; simpl; try done; [| by left].
  intros (Hn & Hl & Ht). right. exists ka, kb. by rewrite (mask_same ka kb Hl Ht).
Qed.

Section Keys.
Context `{UnicodeData}.

(** C28: [check_api_keys] prints nothing of a key beyond its first ten
    characters, and nothing of a key of ten characters or fewer: two
    environments that differ only in the values of [DEEPGRAM_API_KEY]
    and [OPENAI_TTS_API_KEY], where each pair of values is unset on both
    sides or set on the same side of the limit with the same first ten
    characters, give the same output. *)
Theorem check_api_keys_hides_keys env1 env2 :
  (forall k, k <> DEEPGRAM_API_KEY -> k <> OPENAI_TTS_API_KEY -> getenv env1 k = getenv env2 k) ->
  same_shown (getenv env1 DEEPGRAM_API_KEY) (getenv env2 DEEPGRAM_API_KEY) ->
  same_shown (getenv env1 OPENAI_TTS_API_KEY) (getenv env2 OPENAI_TTS_API_KEY) ->
  check_api_keys env1 = check_api_keys env2.
Proof.
  intros Hother Hdg Htts. unfold check_api_keys, _env.
  rewrite (Hother (u8 "TTS_PROVIDER")) by (vm_compute; congruence).
  destruct (shown_cases _ _ Hdg) as [[-> ->]|(a & b & -> & -> & Hab & Hm)];
  destruct (shown_cases _ _ Htts) as [[-> ->]|(c & d & -> & -> & Hcd & Hm')];
  repeat match goal with
  | H : (?x = [] <-> ?y = []) |- _ => destruct x, y; [| naive_solver | naive_solver |]; clear H
  end; by rewrite ?Hm, ?Hm'.
Qed.

(** [main] exits with status 0 exactly when the five checks of
    [results] pass ([check_api_keys] is only printed), and with 1
    otherwise. *)
Theorem main_exit_status p env_file env :
  (snd (main p env_file env) = 0%Z <->
   probe_ok (ollama p) = true /\ probe_ok (llm p) = true /\ snd (check_env_file env_file) = true /\
   probe_ok (imports p) = true /\ probe_ok (quick_test p) = true) /\
  (snd (main p env_file env) = 0%Z \/ snd (main p env_file env) = 1%Z).
Proof.
  unfold main. cbv zeta. destruct (Nat.eqb _ _) eqn:E; simpl; [apply Nat.eqb_eq in E | apply Nat.eqb_neq in E].
  - apply filter_length_full in E. unfold results in E. rewrite !Forall_cons in E. naive_solver.
  - split; [| by right]. split; [done |]. intros Hall. destruct E. apply filter_length_full.
    unfold results. repeat constructor; naive_solver.
Qed.

End Keys.

Definition long_key (tail : pystr) : pystr := u8 "dg-1234567" ++ tail.

Lemma check_api_keys_hides_keys_witness :
  @check_api_keys latin1_ucd [(DEEPGRAM_API_KEY, long_key (u8 "-secret"))] =
  @check_api_keys latin1_ucd [(DEEPGRAM_API_KEY, long_key (u8 "-other-value"))].
Proof.
  apply (@check_api_keys_hides_keys latin1_ucd [(DEEPGRAM_API_KEY, long_key (u8 "-secret"))]
                                              [(DEEPGRAM_API_KEY, long_key (u8 "-other-value"))]).
  - intros k Hk _. unfold getenv; simpl. by case_decide.
  - vm_compute. split_and!; try done; lia.
  - vm_compute. done.
Defined.

End DiagnosticFacts.
