(* ===== verification/QuizProgress.v ===== *)
(** * Progress of a quiz: a session of tool calls, and why every quiz ends

    A voice session calls the tutor's tools one after the other; a tool
    that raises is reported to the model and the session goes on with
    the state the tool left ([run_calls], the sequential composition of
    [run_tool] that the step relation of [Tutor] takes one call at a
    time).  The quiz of [start_quiz] is the current question and the
    queue ([quiz_indices]); [quiz_pending] counts them.  The theorems
    show that this count is a variant of every call but [start_quiz], so
    a quiz grades at most that many answers, and that answering exactly
    that many times (at clock readings where [_next_due] cannot
    overflow) always ends the quiz with "Quiz terminé". *)

From S2P Require Import Prelude PyFloat Text Levenshtein Scoring DateTime IsoTime Leitner TutorState Quiz Tutor.
From Stdlib Require Import Lia.

Local Set Warnings "-clear-no-such-hyp".

Module QuizProgress.

(** The questions the current quiz still has to ask. *)
Definition quiz_pending (s : tutor) : nat := length (quiz_indices s).

(** The tools that leave the quiz alone. *)
Definition same_quiz : relation tutor := fun s s' =>
  quiz_queue s' = quiz_queue s /\ quiz_current s' = quiz_current s.

#[export] Instance same_quiz_preorder : PreOrder same_quiz.
Proof. split; [done | intros s1 s2 s3 [??] [??]; split; congruence]. Qed.

(** A call of [answer_quiz] that graded an answer. *)
Definition graded (c : tool_call) (r : result tool_reply) : bool :=
  match c, r with CallAnswerQuiz _, Ok (RQuiz (RVerdict _ _ _)) _ _ => true | _, _ => false end.

Definition is_start (c : tool_call) : bool :=
  match c with CallStartQuiz _ _ => true | _ => false end.

(** A clock reading at which [_next_due] of any box is representable:
    the longest delay is 15 days. *)
Definition clock_ok (e : env) : Prop :=
  (0 <= env_now e /\ env_now e + 15 * us_per_day <= datetime_max)%Z.

Section Session.
Context `{UnicodeData} `{PyDateTime}.
Variable auto_export : bool.

(** A session: the calls in order, each in its environment, with every
    result (an exception included) and the final state. *)
Fixpoint run_calls (calls : list (env * tool_call)) (s : tutor) : list (result tool_reply) * tutor :=
  match calls with
  | [] => ([], s)
  | (e, c) :: calls' =>
      let r := run_tool auto_export e c s in
      let '(rs, s') := run_calls calls' (res_state r) in
      (r :: rs, s')
  end.

(** ** Lemmas *)

Lemma run_calls_length calls s : length (run_calls calls s).1 = length calls.
Proof.
  revert s; induction calls as [|[e c] calls IH]; intros s; [done |]. simpl.
  specialize (IH (res_state (run_tool auto_export e c s))).
  destruct (run_calls _ _); simpl in *; lia.
Qed.

Lemma quiz_pending_same s s' : same_quiz s s' -> quiz_pending s' = quiz_pending s.
Proof. intros [Hq Hc]. unfold quiz_pending, quiz_indices. by rewrite Hq, Hc. Qed.

Lemma next_question_state s :
  res_state (next_question s) =
  match quiz_queue s with
  | [] => set_current None s
  | i :: q => set_current (Some i) (set_queue q s)
  end.
Proof.
  unfold next_question. mrun. destruct (quiz_queue s) as [|i q]; [done |]. simpl.
  destruct (vocab s !! i); reflexivity.
Qed.

Lemma next_question_pending s :
  quiz_pending (res_state (next_question s)) =
  match quiz_queue s with [] => 0 | _ :: q => S (length q) end.
Proof. rewrite next_question_state. unfold quiz_pending, quiz_indices. by destruct (quiz_queue s) eqn:E; simpl; rewrite ?E. Qed.

(** Every tool but the three quiz tools leaves the quiz alone. *)
Lemma other_tools_same_quiz e c :
  match c with
  | CallStartQuiz _ _ | CallNextQuestion | CallAnswerQuiz _ => True
  | _ => preserves same_quiz (run_tool auto_export e c)
  end.
Proof.
  destruct c; try exact I; unfold run_tool;
    unfold set_level, set_mode, phrase_pack, add_vocab, list_vocab, due_words,
      give_sentence, check_pronunciation;
    preserve; done.
Qed.

Lemma answer_quiz_index_error now a s i :
  quiz_current s = Some i -> vocab s !! i = None -> answer_quiz auto_export now a s = Err IndexError s [].
Proof. intros Hc Hi. unfold answer_quiz. mrun. rewrite Hc. simpl. rewrite Hi. reflexivity. Qed.

Lemma quiz_pending_current s i : quiz_current s = Some i -> quiz_pending s = S (length (quiz_queue s)).
Proof. intros Hc. unfold quiz_pending, quiz_indices. by rewrite Hc. Qed.

(** [answer_quiz] never adds a question, and a graded answer consumes one. *)
Lemma answer_quiz_pending now a s :
  quiz_pending (res_state (answer_quiz auto_export now a s)) <= quiz_pending s /\
  (forall ok gold r s' es, answer_quiz auto_export now a s = Ok (RVerdict ok gold r) s' es ->
   S (quiz_pending s') = quiz_pending s).
Proof.
  destruct (quiz_current s) as [i|] eqn:Hc; [| rewrite answer_quiz_none by done; split; [done | discriminate]].
  destruct (vocab s !! i) as [it|] eqn:Hit;
    [| rewrite (answer_quiz_index_error _ _ _ i) by done; split; [done | discriminate]].
  set (gold := if bool_decide (quiz_direction s = u8 "en2fr") then word it else translation it).
  set (b := if grade gold a then promote_box (box it) else 1%Z).
  rewrite (quiz_pending_current s i Hc).
  destruct (_next_due b now) as [nd|] eqn:Hnd.
  - rewrite (answer_quiz_run auto_export now a s i it Hc Hit nd Hnd). cbv zeta.
    match goal with |- context [next_question ?s1] =>
      pose proof (next_question_pending s1) as P; destruct (next_question s1) eqn:E end;
      simpl in P |- *; destruct (quiz_queue s); simpl in *; (split; [lia | intros ????? Heq; simplify_eq; lia]).
  - rewrite (answer_quiz_overflow auto_export now a s i it Hc Hit Hnd). simpl.
    split; [| discriminate]. unfold quiz_pending, quiz_indices. simpl. rewrite Hc. simpl. lia.
Qed.

Lemma run_answer s e a :
  run_tool auto_export e (CallAnswerQuiz a) s =
  match answer_quiz auto_export (env_now e) a s with
  | Ok r s' es => Ok (RQuiz r) s' (es ++ [])
  | Err x s' es => Err x s' es
  end.
Proof. reflexivity. Qed.

Lemma run_next s e :
  run_tool auto_export e CallNextQuestion s =
  match next_question s with
  | Ok r s' es => Ok (RQuiz r) s' (es ++ [])
  | Err x s' es => Err x s' es
  end.
Proof. reflexivity. Qed.

(** One call other than [start_quiz]: the pending count does not grow,
    and drops by one when an answer is graded. *)
Lemma call_pending e c s :
  is_start c = false ->
  quiz_pending (res_state (run_tool auto_export e c s)) + (if graded c (run_tool auto_export e c s) then 1 else 0)
  <= quiz_pending s.
Proof.
  intros Hs. pose proof (other_tools_same_quiz e c) as Hother.
  destruct c; try discriminate Hs;
    try (rewrite (quiz_pending_same _ _ (Hother s)); destruct (run_tool _ _ _ _); simpl; lia).
  - pose proof (next_question_pending s) as P. rewrite run_next.
    destruct (next_question s); simpl in *; rewrite P;
    unfold quiz_pending, quiz_indices; destruct (quiz_queue s), (quiz_current s); simpl; lia.
  - destruct (answer_quiz_pending (env_now e) user_answer s) as [Hle Hok].
    rewrite run_answer. destruct (answer_quiz _ _ _ _) as [r s' es|] eqn:E; simpl in *; [| lia].
    destruct r; simpl; try lia. specialize (Hok _ _ _ _ _ eq_refl). lia.
Qed.

(** C10: a quiz cannot grade more answers than it has questions: along any
    session of tool calls none of which is [start_quiz], in any
    environments and whatever the tools raise, the number of
    [answer_quiz] calls that grade an answer is at most the number of
    questions pending at the start (the current one and the queue). *)
Theorem graded_answers_bounded calls s :
  Forall (fun ec => is_start ec.2 = false) calls ->
  length (filter (fun cr => graded cr.1 cr.2 = true) (zip calls.*2 (run_calls calls s).1)) <= quiz_pending s.
Proof.
  revert s; induction calls as [|[e c] calls IH]; intros s Hall; [simpl; lia |].
  apply Forall_cons in Hall as [Hc Hall]. simpl in Hc.
  pose proof (call_pending e c s Hc) as Hstep. specialize (IH (res_state (run_tool auto_export e c s)) Hall).
  simpl. destruct (run_calls _ _) as [rs s']. simpl in *.
  rewrite filter_cons. simpl. case_decide as Hg; simpl;
    [rewrite Hg in Hstep | apply not_true_is_false in Hg; rewrite Hg in Hstep];
    change (list_fmap _ _ snd calls) with (calls.*2); lia.
Qed.

Lemma quiz_wf_index s j : quiz_wf s -> j ∈ quiz_indices s -> is_Some (vocab s !! j).
Proof.
  intros [_ Hb] Hj. apply lookup_lt_is_Some_2. rewrite Forall_forall in Hb. by apply Hb.
Qed.

Lemma clock_ok_next_due e b : clock_ok e -> is_Some (_next_due b (env_now e)).
Proof.
  intros Hclk. destruct (next_due_some b (env_now e)) as [nd ->]; [| done].
  pose proof (box_delay_pos b). unfold clock_ok, dt_valid, us_per_day, us_per_second in *. lia.
Qed.

(** One answer to the current question, at a clock reading where
    [_next_due] cannot overflow: it is graded, and either it was the
    last question and the quiz is over, or the head of the queue becomes
    the current question. *)
Lemma answer_progress e a s i :
  quiz_wf s -> quiz_current s = Some i -> clock_ok e ->
  exists ok gold r s' es,
    run_tool auto_export e (CallAnswerQuiz a) s = Ok (RQuiz (RVerdict ok gold r)) s' es /\ quiz_wf s' /\
    ((quiz_queue s = [] /\ r = RQuizDone /\ quiz_current s' = None /\ quiz_queue s' = []) \/
     (exists j q, quiz_queue s = j :: q /\ quiz_current s' = Some j /\ quiz_queue s' = q)).
Proof.
  intros Hwf Hc Hclk.
  destruct (quiz_wf_index s i Hwf) as [it Hit]; [unfold quiz_indices; rewrite Hc; set_solver |].
  set (gold := if bool_decide (quiz_direction s = u8 "en2fr") then word it else translation it).
  set (b := if grade gold a then promote_box (box it) else 1%Z).
  destruct (clock_ok_next_due e b Hclk) as [nd Hnd].
  pose proof (answer_quiz_wf auto_export (env_now e) a s Hwf) as Hwf'.
  rewrite run_answer. rewrite (answer_quiz_run auto_export (env_now e) a s i it Hc Hit nd Hnd) in Hwf' |- *.
  cbv zeta in *.
  match goal with |- context [next_question ?s1] => set (s1' := s1) in * end.
  destruct (quiz_queue s) as [|j q] eqn:Hq.
  - rewrite next_question_nil in Hwf' |- * by exact Hq.
    do 5 eexists. split; [reflexivity |]. split; [exact Hwf' |]. left. by split_and!.
  - destruct (quiz_wf_index s1' j) as [itj Hitj].
    { apply (quiz_wf_mono s); [unfold s1'; by rewrite vocab_set_vocab, length_insert | | done].
      unfold quiz_indices, s1'. simpl. rewrite Hc, Hq. done. }
    { unfold quiz_indices, s1'. simpl. rewrite Hc, Hq. set_solver. }
    rewrite (next_question_cons s1' j q itj) in Hwf' |- * by done.
    do 5 eexists. split; [reflexivity |]. split; [exact Hwf' |]. right. eauto.
Qed.

(** The calls of a learner who answers [a] at the clock reading of [e]. *)
Definition answer_calls (answers : list (env * pystr)) : list (env * tool_call) :=
  (fun ea => (ea.1, CallAnswerQuiz ea.2)) <$> answers.

(** C9: every quiz ends: from a state whose quiz indices are valid and
    distinct (true of every reachable state) with a current question,
    answering exactly as many times as questions are pending, with any
    answers and at clock readings where [_next_due] cannot overflow,
    grades every answer, the last reply chains "Quiz terminé", and no
    question is left. *)
Theorem quiz_completes s answers :
  quiz_wf s -> quiz_current s <> None -> length answers = quiz_pending s ->
  Forall (fun ea => clock_ok ea.1) answers ->
  Forall (fun cr => graded cr.1 cr.2 = true) (zip (answer_calls answers).*2 (run_calls (answer_calls answers) s).1) /\
  quiz_current (run_calls (answer_calls answers) s).2 = None /\
  quiz_queue (run_calls (answer_calls answers) s).2 = [] /\
  exists ok gold s' es,
    last (run_calls (answer_calls answers) s).1 = Some (Ok (RQuiz (RVerdict ok gold RQuizDone)) s' es).
Proof.
  revert s; induction answers as [|[e a] answers IH]; intros s Hwf Hc Hlen Hclk;
    destruct (quiz_current s) as [i|] eqn:Hci; try done; rewrite (quiz_pending_current s i Hci) in Hlen;
    [done |].
  apply Forall_cons in Hclk as [Hce Hclk]. simpl in Hlen.
  destruct (answer_progress e a s i Hwf Hci Hce) as (ok & gold & r & s' & es & Hrun & Hwf' & Hcases).
  unfold answer_calls. cbn [fmap list_fmap run_calls fst snd]. fold (answer_calls answers).
  rewrite Hrun. cbn [res_state].
  destruct Hcases as [(Hq & -> & Hc' & Hq') | (j & q & Hq & Hc' & Hq')]; rewrite Hq in Hlen; simpl in Hlen.
  - destruct answers; [| done]. simpl. split_and!; [by repeat constructor | done | done | eauto].
  - assert (Hc2 : quiz_current s' <> None) by (by rewrite Hc').
    assert (Hl2 : length answers = quiz_pending s') by (rewrite (quiz_pending_current s' j Hc'), Hq'; lia).
    destruct (IH s' Hwf' Hc2 Hl2 Hclk) as (Hg & Hn & Hnq & Hlast).
    pose proof (run_calls_length (answer_calls answers) s') as Hl.
    destruct (run_calls (answer_calls answers) s') as [rs s''] eqn:E. simpl in *.
    split_and!; [by constructor | done | done |].
    destruct rs; [unfold answer_calls in Hl; rewrite length_fmap in Hl; simpl in Hl; lia | done].
Qed.

End Session.
End QuizProgress.

Module QuizProgressWitness.
Import QuizProgress.

Lemma s_quiz_wf : quiz_wf s_quiz.
Proof. split; [repeat constructor; set_solver | repeat constructor; simpl; lia]. Qed.

Lemma env0_clock_ok : clock_ok env0.
Proof. unfold clock_ok, env0, now0, epoch, datetime_max, MAX_ORDINAL, us_per_day, us_per_second; simpl; lia. Qed.

Lemma graded_answers_bounded_witness :
  length (filter (fun cr => graded cr.1 cr.2 = true)
            (zip [CallAnswerQuiz (u8 "cat"); CallAnswerQuiz (u8 "cat")]
                 (@run_calls latin1_ucd cpython_datetime false
                    [(env0, CallAnswerQuiz (u8 "cat")); (env0, CallAnswerQuiz (u8 "cat"))] s_quiz).1))
  <= quiz_pending s_quiz.
Proof.
  apply (@graded_answers_bounded latin1_ucd cpython_datetime false
           [(env0, CallAnswerQuiz (u8 "cat")); (env0, CallAnswerQuiz (u8 "cat"))] s_quiz).
  repeat constructor.
Defined.

Lemma quiz_completes_witness :
  quiz_current (@run_calls latin1_ucd cpython_datetime false (answer_calls [(env0, u8 "cat")]) s_quiz).2 = None.
Proof.
  assert (Hc : quiz_current s_quiz <> None) by discriminate.
  assert (Hl : length [(env0, u8 "cat")] = quiz_pending s_quiz) by reflexivity.
  assert (Hk : Forall (fun ea => clock_ok ea.1) [(env0, u8 "cat")]) by (constructor; [exact env0_clock_ok | constructor]).
  exact (proj1 (proj2 (@quiz_completes latin1_ucd cpython_datetime false s_quiz [(env0, u8 "cat")]
                         s_quiz_wf Hc Hl Hk))).
Defined.

End QuizProgressWitness.
