(* ===== verification/HttpTools.v ===== *)
(** * The universal agent's web tools and the MCP agent's dictionary tool

    [universal_agent.py] reads its feature flags and API keys in
    [UniversalAgent.__init__] and offers tools that call web APIs through
    [safe_request]: [get_weather] (OpenWeatherMap), [search_news]
    (NewsAPI), [web_search] (SerpAPI) and [get_definition] (the free
    dictionary API), plus [execute_python_code]; [livekit_mcp_agent.py]
    has its own [get_definition].  Each tool is modelled as written, from
    the environment and the answer of the web to the string it returns:
    - the web is the parameter [fetch]: for a URL and its query
      parameters, [None] when [safe_request] returns [None] (timeout,
      connection error, an HTTP error status), or the result of
      [response.json()], which raises on a body that is not JSON;
    - the response is then read with the operations of [Json], any of
      which may raise; the tool's [try] turns the exception into its
      error reply, with [exn_str] for [str(e)];
    - [json_repr] is [str()] of a JSON value that is not a string, and
      [capitalize] is [str.capitalize]. *)

From S2P Require Import Prelude PyFloat Text Config Json.

Local Set Warnings "-clear-no-such-hyp".

Module HttpTools.
Import Env Json.

(** ** [UniversalAgent.__init__]: flags and API availability *)

Record agent_flags := mk_flags {
  memory_enabled : bool;
  web_search_enabled : bool;
  code_exec_enabled : bool;
  has_weather_api : bool;
  has_news_api : bool;
  has_search_api : bool
}.

Definition agent_flags_of `{UnicodeData} (env : environ) : agent_flags :=
  mk_flags (_flag env (u8 "ENABLE_MEMORY") (u8 "true"))
           (_flag env (u8 "ENABLE_WEB_SEARCH") (u8 "false"))
           (_flag env (u8 "ENABLE_CODE_EXEC") (u8 "false"))
           (Env.truthy (_env env (u8 "OPENWEATHER_API_KEY") None))
           (Env.truthy (_env env (u8 "NEWS_API_KEY") None))
           (Env.truthy (_env env (u8 "SERPAPI_KEY") None)).

Definition WEATHER_URL : pystr := u8 "http://api.openweathermap.org/data/2.5/weather".
Definition NEWS_URL : pystr := u8 "https://newsapi.org/v2/everything".
Definition SEARCH_URL : pystr := u8 "https://serpapi.com/search".
Definition DICTIONARY_URL : pystr := u8 "https://api.dictionaryapi.dev/api/v2/entries/en/".

Definition WEATHER_UNAVAILABLE : pystr :=
  u8 "Weather service unavailable. To enable, set OPENWEATHER_API_KEY in your .env file. Get a free API key at https://openweathermap.org/api".
Definition NEWS_UNAVAILABLE : pystr :=
  u8 "News service unavailable. To enable, set NEWS_API_KEY in your .env file. Get a free API key at https://newsapi.org/".
Definition SEARCH_UNAVAILABLE : pystr :=
  u8 "Web search unavailable. To enable, set SERPAPI_KEY in your .env file. Get a free API key at https://serpapi.com/".
Definition CODE_EXEC_DISABLED : pystr :=
  u8 "Code execution is disabled. To enable, set ENABLE_CODE_EXEC=true in your .env file.".

Section Tools.
Context (json_repr : json -> pystr) (exn_str : pyexn -> pystr) (capitalize : pystr -> pystr).
Context (fetch : pystr -> list (pystr * pystr) -> option (py json)).

Let str := py_str json_repr.

(** The try block's value, or its [except Exception as e] reply. *)
Definition catch (prefix : pystr) (r : py pystr) : pystr :=
  match r with inl e => prefix ++ exn_str e | inr s => s end.

(** ** [get_weather] *)

(** The report built from the response [data]. *)
Definition weather_report (location units : pystr) (data : json) : py pystr :=
  let metric := bool_decide (units = u8 "metric") in
  let temp_unit := if metric then u8 "°C" else u8 "°F" in
  w ← getitem data (JStr (u8 "weather")); w0 ← getitem w (JInt 0);
  weather ← getitem w0 (JStr (u8 "description"));
  main ← getitem data (JStr (u8 "main"));
  temp ← getitem main (JStr (u8 "temp"));
  feels_like ← getitem main (JStr (u8 "feels_like"));
  humidity ← getitem main (JStr (u8 "humidity"));
  wind ← getitem data (JStr (u8 "wind")); wind_speed ← getitem wind (JStr (u8 "speed"));
  conditions ← (match weather with JStr s => inr (capitalize s) | _ => inl AttributeError end);
  mret (u8 "Weather in " ++ location ++ u8 ":" ++ nl ++
        u8 "• Conditions: " ++ conditions ++ nl ++
        u8 "• Temperature: " ++ str temp ++ temp_unit ++ u8 " (feels like " ++ str feels_like ++ temp_unit ++ u8 ")" ++ nl ++
        u8 "• Humidity: " ++ str humidity ++ u8 "%" ++ nl ++
        u8 "• Wind speed: " ++ str wind_speed ++ u8 " " ++ (if metric then u8 "m/s" else u8 "mph")).

Definition get_weather (env : environ) (location units : pystr) : pystr :=
  match _env env (u8 "OPENWEATHER_API_KEY") None with
  | Some ((_ :: _) as api_key) =>
      match fetch WEATHER_URL [(u8 "q", location); (u8 "appid", api_key); (u8 "units", units)] with
      | None => u8 "Could not fetch weather data for " ++ location
      | Some body => catch (u8 "Weather lookup error: ") (data ← body; weather_report location units data)
      end
  | _ => WEATHER_UNAVAILABLE
  end.

(** ** [search_news] *)

(** The loop [for i, article in enumerate(articles, 1)]. *)
Fixpoint news_lines (i : Z) (articles : list json) : py (list pystr) :=
  match articles with
  | [] => mret []
  | article :: rest =>
      title ← dict_get article (u8 "title") (JStr (u8 "No title"));
      src ← dict_get article (u8 "source") (JObj []);
      source ← dict_get src (u8 "name") (JStr (u8 "Unknown"));
      pub ← dict_get article (u8 "publishedAt") (JStr []);
      published ← slice_upto pub 10;
      _ ← dict_get article (u8 "url") (JStr []);
      lines ← news_lines (i + 1) rest;
      mret ((py_str_int i ++ u8 ". " ++ str title) ::
            (u8 "   Source: " ++ str source ++ u8 " (" ++ str published ++ u8 ")") :: lines)
  end.

Definition search_news (env : environ) (query : pystr) (limit : Z) : pystr :=
  match _env env (u8 "NEWS_API_KEY") None with
  | Some ((_ :: _) as api_key) =>
      match fetch NEWS_URL [(u8 "q", query); (u8 "apiKey", api_key); (u8 "sortBy", u8 "publishedAt");
                            (u8 "language", u8 "en"); (u8 "pageSize", py_str_int limit)] with
      | None => u8 "Could not fetch news for: " ++ query
      | Some body =>
          catch (u8 "News search error: ")
            (data ← body; articles ← dict_get data (u8 "articles") (JList []);
             if negb (truthy articles) then mret (u8 "No recent news found for: " ++ query) else
             items ← py_iter articles; lines ← news_lines 1 items;
             mret (str_join nl ((u8 "Latest news about '" ++ query ++ u8 "':" ++ nl) :: lines)))
      end
  | _ => NEWS_UNAVAILABLE
  end.

(** ** [web_search] *)

Fixpoint search_lines (i : Z) (results : list json) : py (list pystr) :=
  match results with
  | [] => mret []
  | result :: rest =>
      title ← dict_get result (u8 "title") (JStr (u8 "No title"));
      snippet ← dict_get result (u8 "snippet") (JStr (u8 "No description"));
      lines ← search_lines (i + 1) rest;
      mret ((py_str_int i ++ u8 ". " ++ str title) :: (u8 "   " ++ str snippet ++ nl) :: lines)
  end.

(** Gated by [has_search_api] alone; [web_search_enabled] is not read. *)
Definition web_search (flags : agent_flags) (env : environ) (query : pystr) (num_results : Z) : pystr :=
  if negb (has_search_api flags) then SEARCH_UNAVAILABLE else
  let api_key := default [] (_env env (u8 "SERPAPI_KEY") None) in
  match fetch SEARCH_URL [(u8 "q", query); (u8 "api_key", api_key); (u8 "num", py_str_int num_results)] with
  | None => u8 "Web search failed for: " ++ query
  | Some body =>
      catch (u8 "Web search error: ")
        (data ← body; results ← dict_get data (u8 "organic_results") (JList []);
         if negb (truthy results) then mret (u8 "No web results found for: " ++ query) else
         first ← slice_upto results num_results; items ← py_iter first;
         lines ← search_lines 1 items;
         mret (str_join nl ((u8 "Web search results for '" ++ query ++ u8 "':" ++ nl) :: lines)))
  end.

(** ** [get_definition] of the universal agent *)

(** [for i, defn in enumerate(definitions[:2], 1)] *)
Fixpoint definition_lines (i : Z) (defns : list json) : py (list pystr) :=
  match defns with
  | [] => mret []
  | defn :: rest =>
      definition ← dict_get defn (u8 "definition") (JStr []);
      example ← dict_get defn (u8 "example") (JStr []);
      lines ← definition_lines (i + 1) rest;
      mret ((u8 "  " ++ py_str_int i ++ u8 ". " ++ str definition) ::
            (if truthy example then [u8 "     Example: " ++ [34%N] ++ str example ++ [34%N]] else []) ++ lines)
  end.

(** [for meaning in meanings[:2]] *)
Fixpoint meaning_lines (meanings : list json) : py (list pystr) :=
  match meanings with
  | [] => mret []
  | meaning :: rest =>
      part_of_speech ← dict_get meaning (u8 "partOfSpeech") (JStr []);
      definitions ← dict_get meaning (u8 "definitions") (JList []);
      here ← (if truthy definitions then
                first ← slice_upto definitions 2; items ← py_iter first;
                lines ← definition_lines 1 items;
                mret ((u8 "As a " ++ str part_of_speech ++ u8 ":") :: lines)
              else mret []);
      lines ← meaning_lines rest;
      mret (here ++ lines)
  end.

(** The lines of the reply for a response that is a non-empty list. *)
Definition entry_lines (word : pystr) (entry : json) : py (list pystr) :=
  word_text ← dict_get entry (u8 "word") (JStr word);
  phonetic ← dict_get entry (u8 "phonetic") (JStr []);
  meanings ← dict_get entry (u8 "meanings") (JList []);
  first ← slice_upto meanings 2; items ← py_iter first;
  lines ← meaning_lines items;
  mret ((u8 "Definition of '" ++ str word_text ++ u8 "' " ++ str phonetic ++ u8 ":" ++ nl) :: lines).

Definition get_definition (word : pystr) : pystr :=
  match fetch (DICTIONARY_URL ++ word) [] with
  | None => u8 "Could not find definition for: " ++ word
  | Some body =>
      catch (u8 "Definition lookup error: ")
        (data ← body;
         match data with
         | JList (entry :: _) => lines ← entry_lines word entry; mret (str_join nl lines)
         | _ => mret (u8 "No definition found for: " ++ word)
         end)
  end.

(** ** [execute_python_code] *)

(** [py_exec] runs [exec(code, safe_globals)]: [None], or the exception. *)
Definition execute_python_code (py_exec : pystr -> option pyexn) (flags : agent_flags)
    (code : pystr) (description : option pystr) : pystr :=
  if negb (code_exec_enabled flags) then CODE_EXEC_DISABLED else
  match py_exec code with
  | Some e => u8 "Code execution error: " ++ exn_str e
  | None =>
      u8 "Code executed successfully" ++
      match description with Some ((_ :: _) as d) => u8 " (" ++ d ++ u8 ")" | _ => [] end
  end.

End Tools.

(** ** [get_definition] of the MCP agent

    It calls [requests.get] itself: [mcp_fetch] gives the exception of
    the request, or the status code and what [response.json()] gives. *)
Section Mcp.
Context (json_repr : json -> pystr) (exn_str : pyexn -> pystr).
Context (mcp_fetch : pystr -> py (Z * py json)).

Let str := py_str json_repr.

Fixpoint mcp_meaning_lines (meanings : list json) : py (list pystr) :=
  match meanings with
  | [] => mret []
  | meaning :: rest =>
      pos ← dict_get meaning (u8 "partOfSpeech") (JStr []);
      defs ← dict_get meaning (u8 "definitions") (JList []);
      here ← (if truthy defs then
                d0 ← getitem defs (JInt 0); d ← dict_get d0 (u8 "definition") (JStr []);
                mret [nl ++ str pos ++ u8 ": " ++ str d]
              else mret []);
      lines ← mcp_meaning_lines rest;
      mret (here ++ lines)
  end.

Definition mcp_get_definition (word : pystr) : pystr :=
  catch exn_str (u8 "Dictionary lookup error: ")
    (resp ← mcp_fetch (DICTIONARY_URL ++ word);
     let '(status, body) := resp in
     if negb (status =? 200)%Z then mret (u8 "Could not find definition for: " ++ word) else
     data ← body;
     match data with
     | JList (entry :: _) =>
         word_text ← dict_get entry (u8 "word") (JStr word);
         phonetic ← dict_get entry (u8 "phonetic") (JStr []);
         meanings ← dict_get entry (u8 "meanings") (JList []);
         first ← slice_upto meanings 2; items ← py_iter first;
         lines ← mcp_meaning_lines items;
         mret (str_join nl ((u8 "'" ++ str word_text ++ u8 "' " ++ str phonetic ++ u8 ":") :: lines))
     | _ => mret (u8 "No definition found for: " ++ word)
     end).

End Mcp.
End HttpTools.

(** ** Theorems *)
Module HttpToolsFacts.
Import Env Json HttpTools.

(** The shape of an OpenWeatherMap answer that [get_weather] can read:
    a dict whose ["weather"] is a list starting with a dict that has a
    string ["description"], whose ["main"] is a dict with ["temp"],
    ["feels_like"] and ["humidity"], and whose ["wind"] is a dict with
    ["speed"]. *)
Definition has_keys (kvs : list (pystr * json)) (ks : list pystr) : bool :=
  forallb (fun k => bool_decide (is_Some (pydict_get k kvs))) ks.

Definition weather_typed (data : json) : bool :=
  match data with
  | JObj kvs =>
      match pydict_get (u8 "weather") kvs, pydict_get (u8 "main") kvs, pydict_get (u8 "wind") kvs with
      | Some (JList (JObj w0 :: _)), Some (JObj m), Some (JObj wd) =>
          match pydict_get (u8 "description") w0 with
          | Some (JStr _) => has_keys m [u8 "temp"; u8 "feels_like"; u8 "humidity"] && has_keys wd [u8 "speed"]
          | _ => false
          end
      | _, _, _ => false
      end
  | _ => false
  end.

Lemma getitem_obj kvs k : getitem (JObj kvs) (JStr k) = match pydict_get k kvs with Some x => inr x | None => inl (KeyError (JStr k)) end.
Proof. reflexivity. Qed.

Lemma has_keys_cons kvs k ks : has_keys kvs (k :: ks) = true <-> is_Some (pydict_get k kvs) /\ has_keys kvs ks = true.
Proof. unfold has_keys. simpl. by rewrite andb_true_iff, bool_decide_eq_true. Qed.

Lemma bind_inr {A B} (m : py A) (k : A -> py B) r :
  m ≫= k = inr r <-> exists a, m = inr a /\ k a = inr r.
Proof. destruct m; simpl; [split; [discriminate | by intros (? & ? & ?)] | naive_solver]. Qed.

Lemma getitem_str_inr v k a :
  getitem v (JStr k) = inr a <-> exists kvs, v = JObj kvs /\ pydict_get k kvs = Some a.
Proof.
  split; [| intros (kvs & -> & Hk); simpl; by rewrite Hk].
  destruct v; simpl; try discriminate. destruct (pydict_get k kvs) eqn:E; intros; simplify_eq; eauto.
Qed.

Lemma getitem_zero_inr v a :
  getitem v (JInt 0) = inr a <->
  (exists l, v = JList (a :: l)) \/ (exists c s, v = JStr (c :: s) /\ a = JStr [c]).
Proof.
  split; [destruct v as [| | | |[|c s]|[|x l]|]; simpl; intros; simplify_eq; eauto |].
  intros [(l & ->) | (c & s & -> & ->)]; reflexivity.
Qed.

Lemma has_keys_spec kvs ks : has_keys kvs ks = true <-> Forall (fun k => is_Some (pydict_get k kvs)) ks.
Proof. unfold has_keys. rewrite forallb_forall, Forall_forall. setoid_rewrite <- list_elem_of_In. setoid_rewrite bool_decide_eq_true. done. Qed.

Section Weather.
Context (json_repr : json -> pystr) (exn_str : pyexn -> pystr) (capitalize : pystr -> pystr).

Local Opaque u8.

(** Invert one [x ← getitem v k; ...] step of a computation that returned. *)
Ltac bind_step H :=
  let x := fresh "x" in let Hx := fresh "Hx" in
  apply bind_inr in H as (x & Hx & H);
  first [apply getitem_str_inr in Hx as (? & ? & Hx); simplify_eq | idtac].

Lemma weather_report_typed location units data :
  (exists r, weather_report json_repr capitalize location units data = inr r) <-> weather_typed data = true.
Proof.
  unfold weather_report, weather_typed. cbv zeta. split.
  - intros [r Hr]. do 2 bind_step Hr.
    apply getitem_zero_inr in Hx0 as [(ws & ->) | (c & s & -> & ->)];
      [| bind_step Hr; apply getitem_str_inr in Hx1 as (? & ? & _); discriminate].
    do 7 bind_step Hr.
    match type of Hr with context [match ?d with JStr _ => _ | _ => _ end] => destruct d; try discriminate Hr end.
    repeat match goal with H : pydict_get ?k ?d = _ |- context [pydict_get ?k ?d] => rewrite H end.
    rewrite andb_true_iff, !has_keys_spec. repeat constructor; eauto.
  - destruct data as [| | | | | |kvs]; try discriminate.
    destruct (pydict_get (u8 "weather") kvs) as [[| | | | |[|[| | | | | |w0] ws]|]|] eqn:Hw; try discriminate.
    destruct (pydict_get (u8 "main") kvs) as [[| | | | | |m]|] eqn:Hm; try discriminate.
    destruct (pydict_get (u8 "wind") kvs) as [[| | | | | |wd]|] eqn:Hwd; try discriminate.
    destruct (pydict_get (u8 "description") w0) as [[| | | |desc| |]|] eqn:Hd; try discriminate.
    rewrite andb_true_iff, !has_keys_spec, !Forall_cons.
    intros [([t Ht] & [f Hf] & [h Hh] & _) ([sp Hsp] & _)].
    eexists. simpl. rewrite Hw. simpl. rewrite Hd, Hm. simpl. rewrite Ht, Hf, Hh, Hwd. simpl. rewrite Hsp.
    reflexivity.
Qed.


Lemma weather_report_prefix location units data r :
  weather_report json_repr capitalize location units data = inr r -> exists rest, r = u8 "Weather in " ++ rest.
Proof.
  unfold weather_report. cbv zeta. intros Hr. do 10 (apply bind_inr in Hr as (? & _ & Hr)).
  unfold mret, py_ret in Hr. injection Hr as <-. eauto.
Qed.

Local Transparent u8.

Lemma lookup_error_not_report x y : u8 "Weather lookup error: " ++ x <> u8 "Weather in " ++ y.
Proof.
  intros H. apply (f_equal (take 9)) in H. rewrite !take_app_le in H by (vm_compute; lia).
  vm_compute in H. discriminate.
Qed.

(** C31: [get_weather], with its API key set and a JSON answer [data],
    returns a weather report (a reply that starts with "Weather in ")
    exactly when [data] has the shape [weather_typed]: a dict with a
    non-empty ["weather"] list whose head has a string ["description"],
    a ["main"] dict with ["temp"], ["feels_like"], ["humidity"] and a
    ["wind"] dict with ["speed"]; any other answer, however close, gives
    "Weather lookup error: ...". *)
Theorem get_weather_schema fetch env location units api_key data :
  _env env (u8 "OPENWEATHER_API_KEY") None = Some api_key -> api_key <> [] ->
  fetch WEATHER_URL [(u8 "q", location); (u8 "appid", api_key); (u8 "units", units)] = Some (inr data) ->
  (exists rest, get_weather json_repr exn_str capitalize fetch env location units = u8 "Weather in " ++ rest)
  <-> weather_typed data = true.
Proof.
  intros Hkey Hne Hf. unfold get_weather. rewrite Hkey. destruct api_key as [|c k]; [done |]. rewrite Hf.
  cbn [mbind py_bind catch]. rewrite <- (weather_report_typed location units data).
  destruct (weather_report _ _ _ _ _) as [e|r] eqn:E; cbn [catch].
  - split; [intros [rest H]; by apply lookup_error_not_report in H | intros [r Hr]; congruence].
  - split; [eauto | intros _; by apply (weather_report_prefix location units data)].
Qed.

End Weather.
Section Search.
Context `{UnicodeData} (json_repr : json -> pystr) (exn_str : pyexn -> pystr).
Context (fetch : pystr -> list (pystr * pystr) -> option (py json)).

(** [ENABLE_WEB_SEARCH] has no effect: whatever its value, the
    agent built from the environment answers [web_search] the same way,
    because the tool is gated by [SERPAPI_KEY] alone. *)
Theorem web_search_ignores_flag env v query n :
  web_search json_repr exn_str fetch (agent_flags_of (pydict_set (u8 "ENABLE_WEB_SEARCH") v env))
    (pydict_set (u8 "ENABLE_WEB_SEARCH") v env) query n =
  web_search json_repr exn_str fetch (agent_flags_of env) env query n.
Proof.
  unfold web_search, agent_flags_of, _env, getenv. cbn [has_search_api].
  rewrite pydict_get_set_ne by (vm_compute; discriminate). done.
Qed.

End Search.

Section Dictionary.
Context (json_repr : json -> pystr).

Lemma slice_iter_length v n first items :
  (0 <= n)%Z -> slice_upto v n = inr first -> py_iter first = inr items -> length items <= Z.to_nat n.
Proof.
  intros Hn Hs Hi. destruct v; simpl in Hs; simplify_eq; simpl in Hi; simplify_eq;
    rewrite ?length_fmap, py_take_nonneg, length_take by done; lia.
Qed.

Lemma definition_lines_length i ds ls : definition_lines json_repr i ds = inr ls -> length ls <= 2 * length ds.
Proof.
  revert i ls; induction ds as [|d ds IH]; intros i ls H; cbn [definition_lines] in H; [unfold mret, py_ret in H; simplify_eq; simpl; lia |].
  apply bind_inr in H as (definition & _ & H). apply bind_inr in H as (example & _ & H).
  apply bind_inr in H as (lines & Hl & H). unfold mret, py_ret in H. simplify_eq.
  specialize (IH _ _ Hl). simpl. rewrite length_app. case_match; simpl; lia.
Qed.

Lemma meaning_lines_length ms ls : meaning_lines json_repr ms = inr ls -> length ls <= 5 * length ms.
Proof.
  revert ls; induction ms as [|m ms IH]; intros ls H; cbn [meaning_lines] in H; [unfold mret, py_ret in H; simplify_eq; simpl; lia |].
  apply bind_inr in H as (pos & _ & H). apply bind_inr in H as (defs & _ & H).
  apply bind_inr in H as (here & Hhere & H). apply bind_inr in H as (rest & Hrest & H).
  unfold mret, py_ret in H. simplify_eq. specialize (IH _ Hrest). rewrite length_app. simpl.
  destruct (truthy defs); [| unfold mret, py_ret in Hhere; simplify_eq; simpl; lia].
  apply bind_inr in Hhere as (first & Hf & Hhere). apply bind_inr in Hhere as (items & Hi & Hhere).
  apply bind_inr in Hhere as (dl & Hdl & Hhere). unfold mret, py_ret in Hhere. simplify_eq.
  pose proof (slice_iter_length _ 2 _ _ ltac:(lia) Hf Hi). apply definition_lines_length in Hdl.
  simpl. lia.
Qed.

(** C32: the universal agent's [get_definition] shows at most two meanings
    of the first entry and at most two definitions of each: the lines it
    joins are at most 11 (the heading, and per meaning one line plus
    two definitions with their examples), however long the answer. *)
Theorem definition_reply_bounded word entry lines :
  entry_lines json_repr word entry = inr lines -> length lines <= 11.
Proof.
  unfold entry_lines. intros H. do 3 (apply bind_inr in H as (? & _ & H)).
  apply bind_inr in H as (first & Hf & H). apply bind_inr in H as (items & Hi & H).
  apply bind_inr in H as (ml & Hml & H). unfold mret, py_ret in H. simplify_eq.
  pose proof (slice_iter_length _ 2 _ _ ltac:(lia) Hf Hi). apply meaning_lines_length in Hml.
  simpl. lia.
Qed.

End Dictionary.

(** ** Concrete answers *)

Definition sample_weather : json :=
  JObj [(u8 "weather", JList [JObj [(u8 "description", JStr (u8 "clear sky"))]]);
        (u8 "main", JObj [(u8 "temp", JInt 21); (u8 "feels_like", JInt 20); (u8 "humidity", JInt 40)]);
        (u8 "wind", JObj [(u8 "speed", JInt 3)])].

Definition weather_fetch (url : pystr) (params : list (pystr * pystr)) : option (py json) :=
  Some (inr sample_weather).

Definition weather_env : environ := [(u8 "OPENWEATHER_API_KEY", u8 "k")].

Lemma get_weather_schema_witness :
  exists rest, get_weather (fun _ => []) (fun _ => []) id weather_fetch weather_env (u8 "Paris") (u8 "metric")
               = u8 "Weather in " ++ rest.
Proof.
  apply (proj2 (get_weather_schema (fun _ => []) (fun _ => []) id weather_fetch weather_env (u8 "Paris") (u8 "metric")
                  (u8 "k") sample_weather eq_refl ltac:(discriminate) eq_refl)).
  vm_compute. reflexivity.
Defined.

(** An entry with three meanings of three definitions each. *)
Definition sample_meaning : json :=
  JObj [(u8 "partOfSpeech", JStr (u8 "noun"));
        (u8 "definitions", JList (repeat (JObj [(u8 "definition", JStr (u8 "d")); (u8 "example", JStr (u8 "e"))]) 3))].

Definition sample_entry : json :=
  JObj [(u8 "word", JStr (u8 "cat")); (u8 "meanings", JList (repeat sample_meaning 3))].

Lemma definition_reply_bounded_witness :
  exists lines, entry_lines (fun _ => []) (u8 "cat") sample_entry = inr lines /\ length lines <= 11.
Proof.
  eexists. split; [vm_compute; reflexivity |].
  apply (definition_reply_bounded (fun _ => []) (u8 "cat") sample_entry). vm_compute. reflexivity.
Defined.

End HttpToolsFacts.
