(* ===== verification/ConsoleSink.v ===== *)
(** * The console transcript sink of the universal and Airbnb agents

    [ConsoleTextSink] (universal_agent.py, lines 758-776; the same class
    is in livekit_basic_agent.py, lines 228-251) is put in front of the
    session's transcription output: every chunk of an agent reply is
    printed after ["[Agent] "], a [flush] ends the line when something
    was printed since the last one, and both calls are passed on to the
    output that was there before ([next_in_chain]).

    The framework's [io.TextOutput] is the class [TextOutput]: a state
    with [capture_text] and [flush].  The console sink is an instance
    over any downstream instance, so sinks can be chained.  What the
    framework sends is a list of [text_event]s; [run_events] plays them. *)

From S2P Require Import Prelude.

Module ConsoleSink.

(** ** The interface [io.TextOutput] *)

Class TextOutput (S : Type) := {
  capture_text : pystr -> S -> S;
  flush : S -> S
}.

Inductive text_event := Captured (text : pystr) | Flushed.

(** The framework's calls, in order. *)
Fixpoint run_events {S} `{TextOutput S} (es : list text_event) (s : S) : S :=
  match es with
  | [] => s
  | Captured t :: es => run_events es (capture_text t s)
  | Flushed :: es => run_events es (flush s)
  end.

(** One agent reply: its chunks, then a [flush]. *)
Definition turn_events (ts : list pystr) : list text_event := (Captured <$> ts) ++ [Flushed].

(** ** [ConsoleTextSink] *)

(** The sink's [_buffer], what it has printed to the terminal, and the
    output it passes the calls on to. *)
Record ConsoleTextSink (N : Type) := mk_sink {
  _buffer : list pystr;
  console : pystr;
  next_in_chain : option N
}.
Arguments mk_sink {N}. Arguments _buffer {N}. Arguments console {N}. Arguments next_in_chain {N}.

(** [__init__]: an empty buffer in front of [next_in_chain]. *)
Definition new_sink {N} (next : option N) : ConsoleTextSink N := mk_sink [] [] next.

Section Sink.
Context {N : Type} `{TextOutput N}.

(** [capture_text(text)] *)
Definition ConsoleTextSink_capture_text (text : pystr) (s : ConsoleTextSink N) : ConsoleTextSink N :=
  mk_sink (_buffer s ++ [text]) (console s ++ u8 "[Agent] " ++ text)
          (capture_text text <$> next_in_chain s).

(** [flush()] *)
Definition ConsoleTextSink_flush (s : ConsoleTextSink N) : ConsoleTextSink N :=
  let s := match _buffer s with
           | [] => s
           | _ :: _ => mk_sink [] (console s ++ nl) (next_in_chain s)
           end in
  mk_sink (_buffer s) (console s) (flush <$> next_in_chain s).

End Sink.

#[export] Instance console_output {N} `{TextOutput N} : TextOutput (ConsoleTextSink N) := {
  capture_text := ConsoleTextSink_capture_text;
  flush := ConsoleTextSink_flush
}.

(** What the terminal shows for a list of replies: each chunk after
    ["[Agent] "], and a line end after every reply that had a chunk. *)
Definition transcript (turns : list (list pystr)) : pystr :=
  mjoin ((fun ts => match ts with
                    | [] => []
                    | _ :: _ => mjoin ((fun t => u8 "[Agent] " ++ t) <$> ts) ++ nl
                    end) <$> turns).

(** ** Lemmas *)

Lemma run_events_app {S} `{TextOutput S} es1 es2 (s : S) :
  run_events (es1 ++ es2) s = run_events es2 (run_events es1 s).
Proof. revert s. induction es1 as [|[] es1 IH]; intros s; simpl; auto. Qed.

Section SinkLemmas.
Local Opaque u8.
Context {N : Type} `{TextOutput N}.
Implicit Types s : ConsoleTextSink N.

Lemma next_flush s : next_in_chain (ConsoleTextSink_flush s) = flush <$> next_in_chain s.
Proof. unfold ConsoleTextSink_flush. by destruct (_buffer s). Qed.

Lemma run_captures ts s :
  run_events (Captured <$> ts) s =
  mk_sink (_buffer s ++ ts) (console s ++ mjoin ((fun t => u8 "[Agent] " ++ t) <$> ts))
          (run_events (Captured <$> ts) <$> next_in_chain s).
Proof.
  revert s. induction ts as [|t ts IH]; intros [b c n]; simpl.
  - rewrite !app_nil_r. destruct n; reflexivity.
  - rewrite IH. simpl. rewrite <- !app_assoc. f_equal. destruct n; reflexivity.
Qed.

Lemma run_turn ts s :
  _buffer s = [] ->
  run_events (turn_events ts) s =
  mk_sink [] (console s ++ transcript [ts]) (run_events (turn_events ts) <$> next_in_chain s).
Proof.
  destruct s as [b c n]; simpl; intros ->. unfold turn_events, transcript.
  rewrite run_events_app, run_captures. simpl. unfold ConsoleTextSink_flush. simpl.
  destruct ts as [|t ts]; simpl; rewrite ?app_nil_r.
  - destruct n; reflexivity.
  - rewrite <- !app_assoc. f_equal. destruct n as [n|]; [| done]. simpl.
    by rewrite run_events_app.
Qed.

Lemma sink_transparent_aux es s :
  next_in_chain (run_events es s) = run_events es <$> next_in_chain s.
Proof.
  revert s. induction es as [|[t|] es IH]; intros s; simpl.
  - destruct (next_in_chain s); reflexivity.
  - rewrite IH. simpl. destruct (next_in_chain s); reflexivity.
  - rewrite IH, next_flush. destruct (next_in_chain s); reflexivity.
Qed.

Lemma run_turns turns s :
  _buffer s = [] ->
  run_events (mjoin (turn_events <$> turns)) s =
  mk_sink [] (console s ++ transcript turns) (run_events (mjoin (turn_events <$> turns)) <$> next_in_chain s).
Proof.
  revert s. induction turns as [|ts turns IH]; intros s Hb; simpl.
  - destruct s as [b c n]; simpl in *; subst. rewrite app_nil_r. destruct n; reflexivity.
  - rewrite run_events_app, run_turn by done. rewrite IH by done. simpl. f_equal.
    + unfold transcript. simpl. by rewrite app_nil_r, <- app_assoc.
    + destruct (next_in_chain s); [| done]. simpl. by rewrite run_events_app.
Qed.

End SinkLemmas.

(** ** Properties *)

Section SinkProperties.
Context {N : Type} `{TextOutput N}.

(** C29: a console sink put in front of [next_in_chain] passes every call
    on, unchanged and in order: whatever the calls, the output behind it
    ends in the state it would reach without the sink. *)
Theorem sink_transparent (es : list text_event) (s : ConsoleTextSink N) :
  next_in_chain (run_events es s) = run_events es <$> next_in_chain s.
Proof. apply sink_transparent_aux. Qed.

(** C30: from a new sink, after any number of agent replies (chunks then
    a [flush]), the terminal shows each chunk after ["[Agent] "], one line
    end after each reply that printed a chunk and none after an empty
    one; the buffer is empty, and the output behind the sink has
    received the same replies. *)
Theorem console_transcript (turns : list (list pystr)) (next : option N) :
  run_events (mjoin (turn_events <$> turns)) (new_sink next)
  = mk_sink [] (transcript turns) (run_events (mjoin (turn_events <$> turns)) <$> next).
Proof. exact (run_turns turns (new_sink next) eq_refl). Qed.

End SinkProperties.

(** Two sinks chained: both terminals show the same lines. *)
#[local] Instance null_output : TextOutput unit := { capture_text _ _ := tt; flush _ := tt }.

Example chained_sinks :
  let turns := [[u8 "Bonjour"; u8 " !"]; []; [u8 "Salut"]] in
  run_events (mjoin (turn_events <$> turns)) (new_sink (Some (new_sink (Some tt))))
  = mk_sink [] (u8 "[Agent] Bonjour[Agent]  !" ++ nl ++ u8 "[Agent] Salut" ++ nl)
            (Some (mk_sink [] (u8 "[Agent] Bonjour[Agent]  !" ++ nl ++ u8 "[Agent] Salut" ++ nl) (Some tt))).
Proof. reflexivity. Qed.

End ConsoleSink.
