(* ===== verification/LlmCheck.v ===== *)
(** * The LLM smoke tests and warm-ups of the agents

    Every entrypoint starts with [_basic_llm_check()] when [BASIC_TEST]
    is on, and otherwise with [_warmup_ollama()] when [WARMUP_LLM] is on
    (the simple agent calls them [_basic_test] and [_warmup]), and
    scripts/smoke_test.py does the same request on its own.  Each
    sends one chat-completion request to [OPENAI_BASE_URL] with
    [requests.post]; the check then reads
    [r.json()["choices"][0]["message"]["content"]] and prints it.

    The HTTP exchange is the parameter [post]: [None] when [requests]
    raises (no connection, timeout), or the status code and the body as
    [r.json()] parses it.  [Config] abstracts all of this into one
    boolean, [llm_up]. *)

From S2P Require Import Prelude PyFloat Text Config Json.

Module LlmCheck.
Import Env Entrypoints Json.

(** ** The request *)

Inductive timeout := TimeoutSecs (n : Z) | TimeoutFloat (text : pystr) | NoTimeout.

(** The payload is sent as [json=payload] or as [data=json.dumps(payload)]. *)
Inductive body_form := JsonBody | DataBody.

Record chat_request := mk_request {
  req_url : pystr;
  req_headers : list (pystr * pystr);
  req_payload : json;
  req_body : body_form;
  req_timeout : timeout
}.

(** [f"{x}"] of an optional string. *)
Definition py_str_opt (x : option pystr) : pystr := default (u8 "None") x.

Definition message_json (role content : pystr) : json :=
  JObj [(u8 "role", JStr role); (u8 "content", JStr content)].

(** [{"model": model, "messages": [...]}] *)
Definition chat_payload (model : option pystr) (msgs : list (pystr * pystr)) : json :=
  JObj [(u8 "model", default JNull (JStr <$> model));
        (u8 "messages", JList ((fun rc => message_json rc.1 rc.2) <$> msgs))].

Definition json_headers (api : option pystr) : list (pystr * pystr) :=
  [(u8 "Content-Type", u8 "application/json"); (u8 "Authorization", u8 "Bearer " ++ py_str_opt api)].

Definition base_url (env : environ) : option pystr := _env env (u8 "OPENAI_BASE_URL") (Some OLLAMA_URL).
Definition api_key (env : environ) : option pystr := _env env (u8 "OPENAI_API_KEY") (Some (u8 "ollama")).
Definition completions_url (env : environ) : pystr := py_str_opt (base_url env) ++ u8 "/chat/completions".

(** The request of [_basic_llm_check] and [_warmup_ollama] of the
    tutors, the Airbnb agent and the universal agent, with the system
    and user prompts of each. *)
Definition chat_request_of (env : environ) (form : body_form) (system user : pystr) (t : timeout) : chat_request :=
  mk_request (completions_url env) (json_headers (api_key env))
    (chat_payload (llm_choice env) [(u8 "system", system); (u8 "user", user)]) form t.

Definition WARMUP_TIMEOUT (env : environ) : pystr :=
  default [] (_env env (u8 "WARMUP_TIMEOUT") (Some (u8 "60"))).

(** ** What can go wrong *)

Inductive check_error :=
| RequestException            (** [requests.post] raised *)
| HTTPError (status : Z)      (** [r.raise_for_status()] *)
| ReplyError (e : pyexn)      (** [r.json()] or a subscript *)
| TimeoutValueError.          (** [float(WARMUP_TIMEOUT)] *)

(** A run of a check: the lines it prints and the exception it raises. *)
Record check_run := mk_run { printed : list pystr; raised : option check_error }.

(** [r.raise_for_status()]: a 4xx or 5xx status raises. *)
Definition raise_for_status (status : Z) : option check_error :=
  if ((400 <=? status) && (status <? 600))%Z then Some (HTTPError status) else None.

(** [r.json()["choices"][0]["message"]["content"]] *)
Definition reply_content (body : py json) : py json :=
  v ← body; c ← getitem v (JStr (u8 "choices")); c0 ← getitem c (JInt 0);
  m ← getitem c0 (JStr (u8 "message")); getitem m (JStr (u8 "content")).

Definition reply_error (r : py json) : check_error + json :=
  match r with inl e => inl (ReplyError e) | inr v => inr v end.

Section Checks.
Context (float_ok : pystr -> bool) (post : chat_request -> option (Z * py json))
        (json_repr : json -> pystr) (exn_str : check_error -> pystr).

(** [requests.post(...)] then [r.raise_for_status()]. *)
Definition send (req : chat_request) : check_error + py json :=
  match post req with
  | None => inl RequestException
  | Some (status, body) => match raise_for_status status with Some e => inl e | None => inr body end
  end.

(** The request, then the reply's content. *)
Definition send_read (req : chat_request) : check_error + json :=
  match send req with inl e => inl e | inr body => reply_error (reply_content body) end.

(** [_basic_llm_check()] of the tutors and the Airbnb agent: nothing
    is caught. *)
Definition openai_check (form : body_form) (system user : pystr) (env : environ) : check_run :=
  match send_read (chat_request_of env form system user (TimeoutSecs 60)) with
  | inl e => mk_run [] (Some e)
  | inr msg =>
      mk_run [u8 "LLM CHECK OK (model=" ++ py_str_opt (llm_choice env) ++ u8 ", base="
              ++ py_str_opt (base_url env) ++ u8 ") -> " ++ py_str json_repr msg] None
  end.

Definition plus_llm_check : environ -> check_run :=
  openai_check JsonBody (u8 "You are a concise, friendly French tutor.") (u8 "Say bonjour in one short French sentence.").
Definition tutor_llm_check : environ -> check_run :=
  openai_check DataBody (u8 "You are a concise, friendly French tutor.") (u8 "Say bonjour in one short French sentence.").
Definition airbnb_llm_check : environ -> check_run :=
  openai_check DataBody (u8 "You are a concise, friendly assistant.") (u8 "Say hello in one short sentence.").

(** [_basic_llm_check()] of the universal agent: the failure is printed,
    then raised again. *)
Definition universal_llm_check (env : environ) : check_run :=
  let req := chat_request_of env JsonBody (u8 "You are a helpful AI assistant.")
               (u8 "Say 'System operational' in one sentence.") (TimeoutSecs 60) in
  match send_read req with
  | inl e => mk_run [u8 "✗ LLM CHECK FAILED: " ++ exn_str e] (Some e)
  | inr msg =>
      mk_run [u8 "✓ LLM CHECK OK (model=" ++ py_str_opt (llm_choice env) ++ u8 ", base="
              ++ py_str_opt (base_url env) ++ u8 ")";
              u8 "  Response: " ++ py_str json_repr msg] None
  end.

(** [_basic_test()] of the simple agent: only the status is checked. *)
Definition simple_test_request (env : environ) : chat_request :=
  mk_request (completions_url env)
    [(u8 "Authorization", u8 "Bearer " ++ py_str_opt (api_key env))]
    (chat_payload (_env env (u8 "LLM_MODEL") (Some (u8 "llama3.2:3b"))) [(u8 "user", u8 "Say OK")])
    JsonBody (TimeoutSecs 30).

Definition simple_basic_test (env : environ) : check_run :=
  match send (simple_test_request env) with
  | inl e => mk_run [u8 "✗ LLM Error: " ++ exn_str e] (Some e)
  | inr _ => mk_run [u8 "✓ LLM OK (model=" ++ py_str_opt (_env env (u8 "LLM_MODEL") (Some (u8 "llama3.2:3b"))) ++ u8 ")"] None
  end.

(** [_warmup_ollama()] of the tutors and the Airbnb agent: the timeout
    is converted before the request is sent, and nothing is caught. *)
Definition openai_warmup (form : body_form) (system user : pystr) (env : environ) : option check_error :=
  if float_ok (WARMUP_TIMEOUT env) then
    match send (chat_request_of env form system user (TimeoutFloat (WARMUP_TIMEOUT env))) with
    | inl e => Some e
    | inr _ => None
    end
  else Some TimeoutValueError.

Definition plus_warmup : environ -> option check_error :=
  openai_warmup JsonBody (u8 "You are a concise assistant.") (u8 "Reply with just: prêt.").
Definition tutor_warmup : environ -> option check_error :=
  openai_warmup DataBody (u8 "You are a concise assistant.") (u8 "Reply with just: prêt.").
Definition airbnb_warmup : environ -> option check_error :=
  openai_warmup DataBody (u8 "You are a concise assistant.") (u8 "Reply with just: ready.").

(** [_warmup_ollama()] of the universal agent: everything is caught,
    and the status is never checked. *)
Definition universal_warmup (env : environ) : list pystr :=
  let req := chat_request_of env JsonBody (u8 "You are ready.") (u8 "Confirm ready.")
               (TimeoutFloat (WARMUP_TIMEOUT env)) in
  if float_ok (WARMUP_TIMEOUT env) then
    match post req with
    | None => [u8 "⚠ Warmup warning: " ++ exn_str RequestException]
    | Some _ => [u8 "✓ Model warmed up"]
    end
  else [u8 "⚠ Warmup warning: " ++ exn_str TimeoutValueError].

(** [_warmup()] of the simple agent: a bare [except: pass]. *)
Definition simple_warmup (env : environ) : list pystr :=
  let req := mk_request (completions_url env)
               [(u8 "Authorization", u8 "Bearer " ++ py_str_opt (api_key env))]
               (chat_payload (_env env (u8 "LLM_MODEL") (Some (u8 "llama3.2:3b"))) [(u8 "user", u8 "Hi")])
               JsonBody (TimeoutSecs 60) in
  match post req with None => [] | Some _ => [u8 "✓ Model warmed up"] end.

(** scripts/smoke_test.py: no timeout, no [raise_for_status]; the
    status is printed before the reply is read. *)
Definition smoke_test_request (env : environ) : chat_request :=
  mk_request (py_str_opt (base_url env) ++ u8 "/chat/completions") (json_headers (api_key env))
    (chat_payload (_env env (u8 "LLM_MODEL") (Some (u8 "llama3.2:3b")))
       [(u8 "system", u8 "You are a concise, friendly assistant.");
        (u8 "user", u8 "Say hello in one short sentence.")])
    DataBody NoTimeout.

Definition smoke_test_script (env : environ) : check_run :=
  match post (smoke_test_request env) with
  | None => mk_run [] (Some RequestException)
  | Some (status, body) =>
      match reply_error (reply_content body) with
      | inl e => mk_run [u8 "HTTP " ++ py_str_int status] (Some e)
      | inr msg => mk_run [u8 "HTTP " ++ py_str_int status; py_str json_repr msg] None
      end
  end.

End Checks.

(** ** Properties *)

Section CheckProperties.
Context (post : chat_request -> option (Z * py json)) (json_repr : json -> pystr).

(** C26: the smoke test of both tutors and the Airbnb agent passes exactly
    when the server answers the request with a status outside [400, 600)
    and a JSON body with [choices[0].message.content]; a connection
    failure, an error status, a body that is not JSON or one of another
    shape makes it raise. *)
Theorem llm_check_reply_shape form sys usr env :
  raised (openai_check post json_repr form sys usr env) = None <->
  exists status body msg,
    post (chat_request_of env form sys usr (TimeoutSecs 60)) = Some (status, inr body)
    /\ (status < 400 \/ 600 <= status)%Z
    /\ reply_content (inr body) = inr msg.
Proof.
  unfold openai_check, send_read, send.
  destruct (post _) as [[status [x | body]] |].
  - split; [| intros (? & ? & ? & [=] & _)]. by destruct (raise_for_status status).
  - destruct (raise_for_status status) eqn:Hs.
    + split; [discriminate |]. intros (? & ? & ? & [= <- <-] & Hr & _).
      unfold raise_for_status in Hs. case_match; [bool_to_prop; lia | discriminate].
    + destruct (reply_content (inr body)) as [e | msg] eqn:Hc.
      * split; [discriminate |]. intros (? & ? & ? & [= <- <-] & _ & Hc'). congruence.
      * split; [intros _ | reflexivity]. exists status, body, msg. split; [done |]. split; [| done].
        unfold raise_for_status in Hs. case_match; [discriminate |]. bool_to_prop. lia.
  - split; [discriminate | intros (? & ? & ? & [=] & _)].
Qed.

End CheckProperties.

(** The universal agent's warm-up reports success whatever the status of
    the answer: a 404 for a model that is not pulled prints
    ["✓ Model warmed up"]. *)
Lemma universal_warmup_ignores_status (float_ok : pystr -> bool) post exn_str env status body :
  float_ok (WARMUP_TIMEOUT env) = true ->
  post (chat_request_of env JsonBody (u8 "You are ready.") (u8 "Confirm ready.") (TimeoutFloat (WARMUP_TIMEOUT env)))
    = Some (status, body) ->
  universal_warmup float_ok post exn_str env = [u8 "✓ Model warmed up"].
Proof. intros Hf Hp. unfold universal_warmup. cbv zeta. by rewrite Hf, Hp. Qed.

(** The smoke-test script reads the reply whatever the status: an error
    answer in the shape of a completion passes. *)
Lemma smoke_test_script_any_status post json_repr env status body msg :
  post (smoke_test_request env) = Some (status, inr body) -> reply_content (inr body) = inr msg ->
  smoke_test_script post json_repr env = mk_run [u8 "HTTP " ++ py_str_int status; py_str json_repr msg] None.
Proof. intros Hp Hc. unfold smoke_test_script. by rewrite Hp, Hc. Qed.

(** ** Examples *)

Definition sample_reply : json :=
  JObj [(u8 "choices", JList [JObj [(u8 "message", JObj [(u8 "role", JStr (u8 "assistant"));
                                                        (u8 "content", JStr (u8 "Bonjour !"))])]])].

Definition post_ok (status : Z) (body : py json) : chat_request -> option (Z * py json) :=
  fun _ => Some (status, body).

Example tutor_check_prints :
  tutor_llm_check (post_ok 200 (inr sample_reply)) (fun _ => []) []
  = mk_run [u8 "LLM CHECK OK (model=llama3.2:3b, base=http://127.0.0.1:11434/v1) -> Bonjour !"] None.
Proof. reflexivity. Qed.

Example smoke_test_prints :
  smoke_test_script (post_ok 200 (inr sample_reply)) (fun _ => []) []
  = mk_run [u8 "HTTP 200"; u8 "Bonjour !"] None.
Proof. reflexivity. Qed.

Example tutor_check_wrong_shape :
  raised (tutor_llm_check (post_ok 200 (inr (JObj [(u8 "error", JStr (u8 "model not found"))]))) (fun _ => []) [])
  = Some (ReplyError (KeyError (JStr (u8 "choices")))).
Proof. reflexivity. Qed.

End LlmCheck.
